(** * dga2025: panel construction, group assignment and decompositions

    A shallow embedding of the panel-construction and analysis code of the
    repository (scraping/*.py and analisis/*/run_*.py), followed by the
    properties of section 8 of the specification.

    Conventions of the embedding:
    - a Python [str] is the list of its Unicode code points;
    - a pandas DataFrame is the list of its rows, a row is a record of the
      columns the code reads or writes;
    - a missing value (NaN, None, <NA>) is [None];
    - a float is an exact rational ([Q], compared with [==]) or NaN where
      a property is stated for exact arithmetic, and an IEEE 754 binary64
      number ([Binary64], on the [spec_float] of the standard library)
      where the rounding of the code decides the property;
    - a function that can raise returns a sum of its result and the
      exception. *)

From Stdlib Require Import ZArith QArith Qround Qabs Decimal Ascii String Lia Lqa Field.
From Stdlib Require DecimalPos DecimalZ.
From Stdlib Require SpecFloat.
From stdpp Require Import base decidable option list sorting gmap strings.

Set Default Proof Using "Type".
Local Open Scope Z_scope.

(** ** Python strings *)

Module PyStr.

Definition str := list N.

(** A literal of the source; the literals used below are ASCII, where the
    bytes are the code points. *)
Definition py (s : string) : str :=
  (fun a => N_of_ascii a) <$> list_ascii_of_string s.

Definition in_range (lo hi c : N) : bool := ((lo <=? c) && (c <=? hi))%N.

(** [c in "0123456789"], the class [[0-9]] of [re]. *)
Definition is_ascii_digit (c : N) : bool := in_range 48 57 c.

(** Start of every run of ten code points of Unicode category Nd
    (decimal digits; Unicode 15). [\d] of Python's [re] on a [str] pattern
    is this category, [\D] its complement. *)
Definition Nd_starts : list N :=
  [ 0x0030; 0x0660; 0x06F0; 0x07C0; 0x0966; 0x09E6; 0x0A66; 0x0AE6; 0x0B66;
    0x0BE6; 0x0C66; 0x0CE6; 0x0D66; 0x0DE6; 0x0E50; 0x0ED0; 0x0F20; 0x1040;
    0x1090; 0x17E0; 0x1810; 0x1946; 0x19D0; 0x1A80; 0x1A90; 0x1B50; 0x1BB0;
    0x1C40; 0x1C50; 0xA620; 0xA8D0; 0xA900; 0xA9D0; 0xA9F0; 0xAA50; 0xABF0;
    0xFF10; 0x104A0; 0x10D30; 0x11066; 0x110F0; 0x11136; 0x111D0; 0x112F0;
    0x11450; 0x114D0; 0x11650; 0x116C0; 0x11730; 0x118E0; 0x11950; 0x11C50;
    0x11D50; 0x11DA0; 0x11F50; 0x16A60; 0x16AC0; 0x16B50; 0x1D7CE; 0x1D7D8;
    0x1D7E2; 0x1D7EC; 0x1D7F6; 0x1E140; 0x1E2F0; 0x1E4F0; 0x1E950; 0x1FBF0 ]%N.

Definition is_unicode_digit (c : N) : bool :=
  existsb (fun s => in_range s (s + 9) c) Nd_starts.

(** [str.isspace] for one code point; also the class [\s] of [re]. *)
Definition is_space (c : N) : bool :=
  in_range 0x09 0x0D c || in_range 0x1C 0x20 c || (c =? 0x85)%N
  || (c =? 0xA0)%N || (c =? 0x1680)%N || in_range 0x2000 0x200A c
  || in_range 0x2028 0x2029 c || (c =? 0x202F)%N || (c =? 0x205F)%N
  || (c =? 0x3000)%N.

Fixpoint lstrip (s : str) : str :=
  match s with
  | c :: s' => if is_space c then lstrip s' else s
  | [] => []
  end.

Definition rstrip (s : str) : str := reverse (lstrip (reverse s)).

(** [s.strip()] *)
Definition strip (s : str) : str := rstrip (lstrip s).

(** [re.sub(pat, "", s)] for a pattern that is one character class,
    possibly under [+]: every character of the class is deleted. *)
Definition re_delete (cls : N -> bool) (s : str) : str :=
  List.filter (fun c => negb (cls c)) s.

Fixpoint uint_str (u : Decimal.uint) : str :=
  match u with
  | Nil => []
  | D0 u => 48%N :: uint_str u
  | D1 u => 49%N :: uint_str u
  | D2 u => 50%N :: uint_str u
  | D3 u => 51%N :: uint_str u
  | D4 u => 52%N :: uint_str u
  | D5 u => 53%N :: uint_str u
  | D6 u => 54%N :: uint_str u
  | D7 u => 55%N :: uint_str u
  | D8 u => 56%N :: uint_str u
  | D9 u => 57%N :: uint_str u
  end.

(** The decimal string of [n]: what [str(n)] returns for an [int] when it
    returns, which it does up to the interpreter's limit on the digits
    (see [Builtins.too_long]). *)
Definition str_of_int (n : Z) : str :=
  match Z.to_int n with
  | Decimal.Pos u => uint_str u
  | Decimal.Neg u => 45%N :: uint_str u
  end.

(** [a <= b] on strings: lexicographic on code points. *)
Fixpoint str_leb (a b : str) : bool :=
  match a, b with
  | [], _ => true
  | _ :: _, [] => false
  | x :: a', y :: b' =>
      if (x <? y)%N then true
      else if (x =? y)%N then str_leb a' b' else false
  end.

(** [sub in s] *)
Fixpoint is_prefix (p s : str) : bool :=
  match p, s with
  | [], _ => true
  | _ :: _, [] => false
  | x :: p', y :: s' => (x =? y)%N && is_prefix p' s'
  end.

Fixpoint contains (sub s : str) : bool :=
  is_prefix sub s ||
  match s with
  | [] => false
  | _ :: s' => contains sub s'
  end.

End PyStr.

(** ** The pandas operations the scripts use *)

Module Pandas.

Section Frames.
Context {A B C K : Type} `{EqDecision K}.

(** [df.drop_duplicates(subset=key)], which keeps the first row of every
    key and the order of the rows. *)
Fixpoint drop_duplicates_from (key : A -> K) (seen : list K) (df : list A)
  : list A :=
  match df with
  | [] => []
  | r :: df' =>
      if decide (key r ∈ seen) then drop_duplicates_from key seen df'
      else r :: drop_duplicates_from key (key r :: seen) df'
  end.

Definition drop_duplicates (key : A -> K) (df : list A) : list A :=
  drop_duplicates_from key [] df.

(** [left.merge(right, how="left")]: the rows of [left] in order, each one
    joined with every matching row of [right] (in the order of [right]), or
    with missing values when none matches. *)
Definition merge_left (matches : A -> B -> bool) (join : A -> option B -> C)
  (left : list A) (right : list B) : list C :=
  left ≫= fun a =>
    match List.filter (matches a) right with
    | [] => [join a None]
    | bs => (fun b => join a (Some b)) <$> bs
    end.

End Frames.

(** [Series.mean()]: NaN on an empty series. *)
Definition qsum (l : list Q) : Q := foldr Qplus 0%Q l.

Definition mean (l : list Q) : option Q :=
  match l with
  | [] => None
  | _ => Some (qsum l / inject_Z (Z.of_nat (length l)))%Q
  end.

End Pandas.

(** ** Built-in conversions of Python *)

Module Builtins.
Import PyStr.

Inductive exn := ValueError | TypeError.

(** The white space [int] accepts around a number: the characters of
    [str.isspace] except the four ASCII separators 0x1C to 0x1F. *)
Definition int_space (c : N) : bool := is_space c && negb (in_range 0x1C 0x1F c).

Fixpoint lskip (s : str) : str :=
  match s with
  | c :: s' => if int_space c then lskip s' else s
  | [] => []
  end.

Definition skip_space (s : str) : str := reverse (lskip (reverse (lskip s))).

(** The value of a decimal digit of any script (category Nd). *)
Definition digit_value (c : N) : option Z :=
  (fun s => Z.of_N (c - s)) <$> List.find (fun s => in_range s (s + 9) c) Nd_starts.

(** The rest of a number after a digit: digits, each of them possibly
    after one underscore. The result is the value and the number of
    digits read. *)
Fixpoint digits_from (acc : Z) (n : nat) (s : str) : option (Z * nat) :=
  match s with
  | [] => Some (acc, n)
  | c :: s' =>
      if (c =? 95)%N then
        match s' with
        | d :: s'' =>
            match digit_value d with
            | Some v => digits_from (10 * acc + v) (S n) s''
            | None => None
            end
        | [] => None
        end
      else
        match digit_value c with
        | Some v => digits_from (10 * acc + v) (S n) s'
        | None => None
        end
  end.

Definition digits (s : str) : option (Z * nat) :=
  match s with
  | c :: s' =>
      match digit_value c with
      | Some v => digits_from v 1 s'
      | None => None
      end
  | [] => None
  end.

Section Int.
(** [sys.get_int_max_str_digits()]: the longest decimal string the
    interpreter converts, 0 when it has no such limit (a limit is 640 or
    more; it is 4300 by default from Python 3.11 on). *)
Variable max_str_digits : nat.

Definition too_long (n : nat) : bool :=
  (0 <? max_str_digits)%nat && (max_str_digits <? n)%nat.

(** [int(s)] for a [str]: white space, a sign, digits. *)
Definition py_int (s : str) : Z + exn :=
  let s := skip_space s in
  let '(negative, body) :=
    match s with
    | c :: r =>
        if (c =? 43)%N then (false, r)        (* "+" *)
        else if (c =? 45)%N then (true, r)    (* "-" *)
        else (false, s)
    | [] => (false, s)
    end in
  match digits body with
  | Some (v, n) =>
      if too_long n then inr ValueError else inl (if negative : bool then - v else v)
  | None => inr ValueError
  end.

End Int.

End Builtins.

(** ** scraping/utils.py *)

Module Utils.
Import PyStr.

(** [str | int | None] *)
Inductive value :=
| VNone
| VInt (n : Z)
| VStr (s : str).

(** What [normalize_sec_ejec] returns when it returns: [str(value)] is the
    decimal string of an [int]. *)
Definition normalized (v : value) : str :=
  match v with
  | VNone => []
  | _ =>
      let text := strip (match v with VInt n => str_of_int n | VStr s => s | VNone => [] end) in
      let text := re_delete is_space text in
      let text := re_delete (fun c => negb (is_ascii_digit c)) text in
      text
  end.

(** [str(value)] raises ValueError for an [int] with more decimal digits
    (the sign apart) than the interpreter converts. *)
Definition str_raises (max_str_digits : nat) (v : value) : bool :=
  match v with
  | VInt n => Builtins.too_long max_str_digits (length (str_of_int (Z.abs n)))
  | _ => false
  end.

(** [normalize_sec_ejec(value)] under an interpreter whose limit on the
    digits of an integer string is [max_str_digits] (0: no limit). *)
Definition normalize_sec_ejec (max_str_digits : nat) (v : value) : str + Builtins.exn :=
  if str_raises max_str_digits v then inr Builtins.ValueError else inl (normalized v).

(** The normalisation of the panel builders ([read_padron] of
    build_panel_t1.py and build_panel_t2.py, [build_panel] of the analysis
    scripts): [Series.str.replace(r"\D", "", regex=True)], per element. *)
Definition str_replace_nondigit (s : str) : str :=
  re_delete (fun c => negb (is_unicode_digit c)) s.

End Utils.

(** ** scraping/padron.py *)

Module Padron.
Import PyStr.

(** A row of [csv.DictReader]: the key column, and the other columns as an
    association list. [row.get("sec_ejec", "")] is [""] when the column is
    absent. *)
Record csv_row := {
  csv_sec_ejec : option str;
  csv_rest : list (str * str)
}.

Definition load_row (row : csv_row) : csv_row :=
  let sec := Utils.normalized (Utils.VStr (default [] (csv_sec_ejec row))) in
  {| csv_sec_ejec := Some sec; csv_rest := csv_rest row |}.

(** [load_padron_csv], after the file is open. *)
Definition load_padron_csv (reader : list csv_row) : list csv_row :=
  load_row <$> reader.

End Padron.

(** ** scraping/build_panel_cmn.py *)

Module BuildPanelCmn.
Import PyStr.

(** A row of dwh_ind1.fact_cmn_fase. *)
Record fact_cmn_fase := {
  f_anio : Z;
  f_sec_ejec : str;
  fase_codigo : option Z;
  fuente : option str
}.

(** The columns of the query of [fetch_cmn_base]. *)
Record cmn_base := {
  anio : Z;
  sec_ejec : str;
  has_f1 : Z;
  has_f2 : Z;
  has_f3 : Z;
  has_mef : Z;
  has_minedu : Z;
  has_f1_mef : Z;
  has_f2_mef : Z;
  has_f3_mef : Z;
  has_f1_minedu : Z;
  has_f2_minedu : Z;
  has_f3_minedu : Z
}.

(** [MAX(CASE WHEN cond THEN 1 ELSE 0 END)] over the rows of a group. *)
Definition max_case (cond : fact_cmn_fase -> bool) (g : list fact_cmn_fase) : Z :=
  foldr Z.max 0 ((fun f => if cond f then 1 else 0) <$> g).

Definition is_fase (k : Z) (f : fact_cmn_fase) : bool :=
  bool_decide (fase_codigo f = Some k).

Definition is_fuente (s : string) (f : fact_cmn_fase) : bool :=
  bool_decide (fuente f = Some (py s)).

Definition fetch_group (k : Z * str) (g : list fact_cmn_fase) : cmn_base :=
  {| anio := k.1; sec_ejec := k.2;
     has_f1 := max_case (is_fase 1) g;
     has_f2 := max_case (is_fase 2) g;
     has_f3 := max_case (is_fase 3) g;
     has_mef := max_case (is_fuente "MEF") g;
     has_minedu := max_case (is_fuente "MINEDU") g;
     has_f1_mef := max_case (fun f => is_fuente "MEF" f && is_fase 1 f) g;
     has_f2_mef := max_case (fun f => is_fuente "MEF" f && is_fase 2 f) g;
     has_f3_mef := max_case (fun f => is_fuente "MEF" f && is_fase 3 f) g;
     has_f1_minedu := max_case (fun f => is_fuente "MINEDU" f && is_fase 1 f) g;
     has_f2_minedu := max_case (fun f => is_fuente "MINEDU" f && is_fase 2 f) g;
     has_f3_minedu := max_case (fun f => is_fuente "MINEDU" f && is_fase 3 f) g |}.

Definition fact_key (f : fact_cmn_fase) : Z * str := (f_anio f, f_sec_ejec f).

(** [fetch_cmn_base]: one row per (anio, sec_ejec) of the fact table. The
    rows are listed by first appearance of their key; the ORDER BY of the
    query only permutes them. *)
Definition fetch_cmn_base (facts : list fact_cmn_fase) : list cmn_base :=
  (fun k => fetch_group k (List.filter (fun f => bool_decide (fact_key f = k)) facts))
    <$> (fact_key <$> Pandas.drop_duplicates fact_key facts).

(** The frame returned by [build_flags]: the columns it received and the
    four it adds. *)
Record cmn_flags := {
  base : cmn_base;
  cumple_v4 : Z;
  cumple_mef : Z;
  cumple_minedu : Z;
  cumple_cross : Z
}.

(** [(a & b & c).astype(int)] *)
Definition astype_int (b : bool) : Z := if b then 1 else 0.

Definition flag_row (r : cmn_base) : cmn_flags :=
  let v4 := astype_int ((has_f1 r =? 1) && (has_f2 r =? 1) && (has_f3 r =? 1)) in
  let mef := astype_int ((has_f1_mef r =? 1) && (has_f2_mef r =? 1) && (has_f3_mef r =? 1)) in
  let minedu :=
    astype_int ((has_f1_minedu r =? 1) && (has_f2_minedu r =? 1) && (has_f3_minedu r =? 1)) in
  {| base := r;
     cumple_v4 := v4;
     cumple_mef := mef;
     cumple_minedu := minedu;
     cumple_cross := astype_int ((v4 =? 1) && (mef =? 0) && (minedu =? 0)) |}.

Definition build_flags (df : list cmn_base) : list cmn_flags := flag_row <$> df.

End BuildPanelCmn.

(** ** scraping/build_panel_budget_muni.py *)

Module BuildPanelBudgetMuni.
Import PyStr.

(** A row of presupuesto_muni_panel.parquet as [load_file] writes it: the
    key, which of the two yearly files the row comes from, and the amounts.
    [sec_ejec] is NaN where the raw code had no digit. *)
Record presupuesto_row := {
  sec_ejec : option str;
  anio : Z;
  siga : str;
  departamento_code : option str;
  pia : option Q;
  pim : option Q;
  devengado : option Q
}.

Definition key (r : presupuesto_row) : option str * Z := (sec_ejec r, anio r).

(** [grp = non_null.groupby(["anio", "sec_ejec"]).size()] and
    [dup_keys = int((grp > 1).sum())] of [qc_group]. *)
Definition group_size (df : list presupuesto_row) (k : option str * Z) : nat :=
  length (List.filter (fun r => bool_decide (key r = k)) df).

Definition dup_keys (df : list presupuesto_row) : nat :=
  let non_null := List.filter (fun r => bool_decide (is_Some (sec_ejec r))) df in
  length (List.filter (fun k => bool_decide (1 < group_size non_null k)%nat)
            (key <$> Pandas.drop_duplicates key non_null)).

End BuildPanelBudgetMuni.

(** ** scraping/build_panel_t1.py *)

Module BuildPanelT1.
Import PyStr.
Export BuildPanelBudgetMuni.

(** A row of the roster (padron_largo.csv) after [read_padron]; the
    descriptive columns, which no function below reads, are left out. *)
Record padron_row := {
  p_sec_ejec : str;
  p_anio : option Z;
  siga_implementado : option str;
  categoria : option str
}.

(** [padron["categoria"].str.contains("MUNICIPALIDADES", na=False)] *)
Definition is_muni (r : padron_row) : bool :=
  match categoria r with
  | Some c => contains (py "MUNICIPALIDADES") c
  | None => false
  end.

(** [df["anio"].isin(years)] *)
Definition anio_isin (years : list Z) (r : padron_row) : bool :=
  match p_anio r with
  | Some a => bool_decide (a ∈ years)
  | None => false
  end.

(** [s == "SI"] on a possibly missing value *)
Definition eq_lit (s : string) (v : option str) : bool :=
  bool_decide (v = Some (py s)).

Definition pre_status_of (s : list (option str)) : str :=
  if existsb (eq_lit "SI") s then py "SI"
  else if existsb (eq_lit "NO") s then py "NO"
  else py "ABSENT".

Definition sort_keys (ks : list str) : list str :=
  merge_sort (fun a b => Is_true (str_leb a b)) ks.

(** [pre.groupby("sec_ejec")["siga_implementado"].apply(...).reset_index()]:
    one row per key, keys sorted. *)
Definition pre_status_frame (pre : list padron_row) : list (str * str) :=
  (fun k =>
     (k, pre_status_of
           (siga_implementado <$> List.filter (fun r => bool_decide (p_sec_ejec r = k)) pre)))
    <$> sort_keys (p_sec_ejec <$> Pandas.drop_duplicates p_sec_ejec pre).

(** [pre_status.merge(post, on="sec_ejec", how="outer")]: the union of the
    keys, sorted; for each key the rows of the two sides that carry it,
    paired, a side without the key being missing. *)
Definition merge_keys (pre_status : list (str * str)) (post : list (str * option str))
  : list str :=
  sort_keys (Pandas.drop_duplicates id (pre_status.*1 ++ post.*1)).

Definition merge_block (pre_status : list (str * str)) (post : list (str * option str))
  (k : str) : list (str * (option str * option str)) :=
  let ls := List.filter (fun l => bool_decide (l.1 = k)) pre_status in
  let rs := List.filter (fun r => bool_decide (r.1 = k)) post in
  match ls, rs with
  | [], _ => (fun r => (k, (None, r.2))) <$> rs
  | _, [] => (fun l => (k, (Some l.2, None))) <$> ls
  | _, _ => ls ≫= fun l => (fun r => (k, (Some l.2, r.2))) <$> rs
  end.

Definition merge_outer (pre_status : list (str * str)) (post : list (str * option str))
  : list (str * (option str * option str)) :=
  merge_keys pre_status post ≫= merge_block pre_status post.

Record group_row := {
  g_sec_ejec : str;
  pre_siga : str;
  post_siga : str;
  group_t1 : str;
  t1_switcher : Z
}.

Definition label (pre post : str) : str :=
  if bool_decide (post = py "SI") && bool_decide (pre = py "SI") then py "ALWAYS_IN"
  else if bool_decide (post = py "SI") && bool_decide (pre = py "NO") then py "SWITCHER"
  else if bool_decide (post = py "SI") && bool_decide (pre = py "ABSENT") then py "ENTRY_ABSENT"
  else if bool_decide (post = py "ABSENT") && bool_decide (pre = py "SI") then py "EXIT"
  else py "OTHER".

(** One row of [groups]: [fillna("ABSENT")] on both statuses, then [label]
    and the switcher dummy. *)
Definition group_of (m : str * (option str * option str)) : group_row :=
  let pre := default (py "ABSENT") m.2.1 in
  let post := default (py "ABSENT") m.2.2 in
  let g := label pre post in
  {| g_sec_ejec := m.1; pre_siga := pre; post_siga := post; group_t1 := g;
     t1_switcher := if bool_decide (g = py "SWITCHER") then 1 else 0 |}.

Definition muni_of (padron : list padron_row) : list padron_row :=
  List.filter (anio_isin [2022; 2023; 2024; 2025]) (List.filter is_muni padron).

Definition post_of (muni : list padron_row) : list (str * option str) :=
  Pandas.drop_duplicates id
    ((fun r => (p_sec_ejec r, siga_implementado r))
       <$> List.filter (fun r => bool_decide (p_anio r = Some 2025)) muni).

Definition build_groups (padron : list padron_row)
  : list padron_row * list group_row :=
  let muni := muni_of padron in
  let pre := List.filter (anio_isin [2022; 2023; 2024]) muni in
  let post := post_of muni in
  let pre_status := pre_status_frame pre in
  let groups := merge_outer pre_status post in
  (muni, group_of <$> groups).

(** A row of the panel: the budget row, the roster status of its year and
    the columns merged from [groups] (all missing when the entity has no
    row there). *)
Record panel_row := {
  budget : presupuesto_row;
  siga_padron : option str;
  grp : option group_row;
  post_2025 : Z;
  t1_post : Z
}.

Definition panel_sec_ejec (r : panel_row) : option str := sec_ejec (budget r).
Definition panel_anio (r : panel_row) : Z := anio (budget r).
Definition panel_key (r : panel_row) : option str * Z := key (budget r).
Definition panel_group_t1 (r : panel_row) : option str := group_t1 <$> grp r.

Definition padron_year_of (muni : list padron_row) : list (str * option Z * option str) :=
  Pandas.drop_duplicates id
    ((fun r => (p_sec_ejec r, p_anio r, siga_implementado r)) <$> muni).

Definition finish_row (m : presupuesto_row * option str) (g : option group_row) : panel_row :=
  let post := if anio m.1 =? 2025 then 1 else 0 in
  {| budget := m.1; siga_padron := m.2; grp := g; post_2025 := post;
     t1_post :=
       if bool_decide (t1_switcher <$> g = Some 1) && (post =? 1) then 1 else 0 |}.

(** [presupuesto.merge(padron_year, on=["sec_ejec", "anio"], how="left")] *)
Definition merge_padron_year (presupuesto : list presupuesto_row)
  (padron_year : list (str * option Z * option str))
  : list (presupuesto_row * option str) :=
  Pandas.merge_left
    (fun (b : presupuesto_row) (y : str * option Z * option str) =>
       bool_decide (sec_ejec b = Some y.1.1 ∧ Some (anio b) = y.1.2))
    (fun b y => (b, y ≫= snd))
    presupuesto padron_year.

(** [panel.merge(groups[[...]], on="sec_ejec", how="left")] and the two
    dummies computed on the result. *)
Definition merge_groups (panel : list (presupuesto_row * option str))
  (groups : list group_row) : list panel_row :=
  Pandas.merge_left
    (fun (m : presupuesto_row * option str) (g : group_row) =>
       bool_decide (sec_ejec m.1 = Some (g_sec_ejec g)))
    finish_row panel groups.

Definition build_panel (presupuesto : list presupuesto_row) (muni : list padron_row)
  (groups : list group_row) : list panel_row :=
  let padron_year := padron_year_of muni in
  let panel := merge_padron_year presupuesto padron_year in
  merge_groups panel groups.

(** [main], from the two input tables to the panel. *)
Definition run (presupuesto : list presupuesto_row) (padron : list padron_row)
  : list panel_row :=
  let '(muni, groups) := build_groups padron in
  build_panel presupuesto muni groups.

(** The values [label] can return, and the five names of the
    specification. *)
Definition labels_t1 : list str :=
  [py "ALWAYS_IN"; py "SWITCHER"; py "ENTRY_ABSENT"; py "EXIT"; py "OTHER"].

Definition labels_spec : list str :=
  [py "ALWAYS_IN"; py "SWITCHER"; py "ENTRY"; py "EXIT"; py "OTHER"].

(** The roster gives a municipality one 2025 status. *)
Definition one_status_2025 (padron : list padron_row) : Prop :=
  forall r1 r2, r1 ∈ muni_of padron -> r2 ∈ muni_of padron ->
    p_anio r1 = Some 2025 -> p_anio r2 = Some 2025 ->
    p_sec_ejec r1 = p_sec_ejec r2 ->
    siga_implementado r1 = siga_implementado r2.

(** The roster gives a municipality one status per year. *)
Definition one_status_per_year (padron : list padron_row) : Prop :=
  forall r1 r2, r1 ∈ muni_of padron -> r2 ∈ muni_of padron ->
    p_anio r1 = p_anio r2 -> p_sec_ejec r1 = p_sec_ejec r2 ->
    siga_implementado r1 = siga_implementado r2.

(** *** Sample tables *)

Definition muni_row (se : string) (y : Z) (status : string) : padron_row :=
  {| p_sec_ejec := py se; p_anio := Some y; siga_implementado := Some (py status);
     categoria := Some (py "MUNICIPALIDADES") |}.

Definition budget_row (se : string) (y : Z) (file : string) : presupuesto_row :=
  {| sec_ejec := Some (py se); anio := y; siga := py file;
     departamento_code := Some (py "15"); pia := Some 100%Q; pim := Some 120%Q;
     devengado := Some 90%Q |}.

(** A municipality that is in the roster in 2025 only. *)
Definition roster_entry : list padron_row := [muni_row "300686" 2025 "SI"].

(** A consistent roster: an early adopter, a switcher and an entrant. *)
Definition roster_ok : list padron_row :=
  [muni_row "300686" 2024 "SI"; muni_row "300686" 2025 "SI";
   muni_row "300687" 2024 "NO"; muni_row "300687" 2025 "SI";
   muni_row "300688" 2025 "SI"].

Definition budget_ok : list presupuesto_row :=
  [budget_row "300686" 2024 "SI"; budget_row "300686" 2025 "SI";
   budget_row "300687" 2024 "NO"; budget_row "300687" 2025 "SI"].

(** A budget table where a municipality of 2024 is in both yearly files,
    MUNI_2024.csv and MUNICIPALIDADES_2024.csv. *)
Definition budget_two_files : list presupuesto_row :=
  [budget_row "300686" 2024 "SI"; budget_row "300686" 2024 "NO"].

End BuildPanelT1.

(** ** Floats with NaN *)

Module Float.

(** A float of the analysis scripts: a rational, or NaN. The scripts never
    divide a float by zero (the one division by a float is guarded, the
    others divide Python ints and raise), so no infinity arises. *)
Definition float := option Q.

Definition nan : float := None.

Definition lift2 (f : Q -> Q -> Q) (a b : float) : float :=
  match a, b with
  | Some x, Some y => Some (f x y)
  | _, _ => None
  end.

Definition fadd := lift2 Qplus.
Definition fsub := lift2 Qminus.
Definition fmul := lift2 Qmult.
Definition fdiv := lift2 Qdiv.

(** [a != 0]; true on NaN. *)
Definition nonzero (a : float) : bool :=
  match a with
  | Some x => negb (Qeq_bool x 0)
  | None => true
  end.

(** Equality of two floats that are numbers. *)
Definition feq (a b : float) : Prop :=
  match a, b with
  | Some x, Some y => (x == y)%Q
  | _, _ => False
  end.

Definition of_nat (n : nat) : Q := inject_Z (Z.of_nat n).

End Float.

(** ** The floats of numpy *)

Module Binary64.
Import SpecFloat.

(** An IEEE 754 binary64 number, the float of Python and numpy, is a
    [spec_float] that [valid] accepts. The operations are those of the
    standard library at 53 bits of precision; they round to nearest, ties
    to even. *)
Definition prec : Z := 53.
Definition emax : Z := 1024.

Definition valid (x : spec_float) : bool := valid_binary prec emax x.

Definition add : spec_float -> spec_float -> spec_float := SFadd prec emax.
Definition sub : spec_float -> spec_float -> spec_float := SFsub prec emax.
Definition mul : spec_float -> spec_float -> spec_float := SFmul prec emax.
Definition div : spec_float -> spec_float -> spec_float := SFdiv prec emax.
Definition sqrt : spec_float -> spec_float := SFsqrt prec emax.
Definition abs : spec_float -> spec_float := SFabs.

(** [a <= b] and [a < b]; both are false when one side is NaN. *)
Definition leb : spec_float -> spec_float -> bool := SFleb.
Definition ltb : spec_float -> spec_float -> bool := SFltb.

Definition is_nan (x : spec_float) : bool :=
  match x with
  | S754_nan => true
  | _ => false
  end.

(** [float(n)] for an [int]. *)
Definition of_Z (n : Z) : spec_float := binary_normalize prec emax n 0 false.

(** [n / d] for two [int]s below 2 ^ 53: the float nearest to the
    quotient. *)
Definition ratio (n : Z) (d : positive) : spec_float := div (of_Z n) (of_Z (Zpos d)).

(** [2.0 ** e] *)
Definition pow2 (e : Z) : spec_float := binary_normalize prec emax 1 e false.

(** The number a float is, when it is one. *)
Definition to_Q (x : spec_float) : option Q :=
  match x with
  | S754_zero _ => Some 0%Q
  | S754_finite s m e => Some (inject_Z (cond_Zopp s (Zpos m)) * Qpower 2 e)%Q
  | _ => None
  end.

(** The order in which numpy sorts floats (LT of npysort): [a < b], or [b]
    is NaN and [a] is not, so that NaN comes last. *)
Definition sort_lt (a b : spec_float) : bool :=
  ltb a b || (is_nan b && negb (is_nan a)).

(** The place of a float in that order: the sign and class, then the
    exponent, then the mantissa, compared one after the other. *)
Definition rank (x : spec_float) : Z * Z * Z :=
  match x with
  | S754_nan => (3, 0, 0)
  | S754_infinity false => (2, 0, 0)
  | S754_infinity true => (-2, 0, 0)
  | S754_zero _ => (0, 0, 0)
  | S754_finite false m e => (1, e, Zpos m)
  | S754_finite true m e => (-1, - e, - Zpos m)
  end.

Definition lex_lt (a b : Z * Z * Z) : Prop :=
  a.1.1 < b.1.1
  \/ (a.1.1 = b.1.1 /\ (a.1.2 < b.1.2 \/ (a.1.2 = b.1.2 /\ a.2 < b.2))).

End Binary64.

(** ** The part of [build_panel] the analysis scripts share *)

Module Analisis.
Import PyStr.

(** [series.astype(str).str.replace(r"\D", "", regex=True)] on a key that
    may be missing: [str(nan)] is ["nan"]. *)
Definition norm_key (k : option str) : str :=
  Utils.str_replace_nondigit (default (py "nan") k).

(** [cmn[["sec_ejec", "anio", "cumple_v4"]].drop_duplicates(subset=["sec_ejec", "anio"])]
    after the key of cmn is normalised. *)
Definition cmn_cols_of (cmn : list BuildPanelCmn.cmn_flags) : list (str * Z * Z) :=
  Pandas.drop_duplicates (fun c => (c.1.1, c.1.2))
    ((fun c => (Utils.str_replace_nondigit (BuildPanelCmn.sec_ejec (BuildPanelCmn.base c)),
                BuildPanelCmn.anio (BuildPanelCmn.base c),
                BuildPanelCmn.cumple_v4 c)) <$> cmn).

(** [np.log1p(series.clip(lower=0))]; [log1p] is [numpy.log1p], which the
    embedding leaves abstract. *)
Definition log_col (log1p : Q -> Q) (x : option Q) : Float.float :=
  (fun v => log1p (if Qle_bool 0 v then v else 0%Q)) <$> x.

(** [t1.merge(cmn_cols, on=["sec_ejec", "anio"], how="left")] followed by
    [panel["cumple_v4"].fillna(0).astype(float)]: every row of the T1
    panel with its compliance flag. *)
Definition merge_cmn (t1 : list BuildPanelT1.panel_row)
  (cmn : list BuildPanelCmn.cmn_flags) : list (BuildPanelT1.panel_row * Q) :=
  Pandas.merge_left
    (fun (t : BuildPanelT1.panel_row) (c : str * Z * Z) =>
       bool_decide (BuildPanelT1.panel_sec_ejec t = Some c.1.1
                    ∧ BuildPanelT1.panel_anio t = c.1.2))
    (fun t c => (t, match c with Some c => inject_Z c.2 | None => 0%Q end))
    t1 (cmn_cols_of cmn).

End Analisis.

(** ** analisis/oaxaca_blinder/run_oaxaca_blinder.py *)

Module OaxacaBlinder.
Import PyStr Float Analisis.

Record panel_row := {
  sec_ejec : str;
  anio : Z;
  pia : option Q;
  pim : option Q;
  devengado : option Q;
  cumple_v4 : Q;
  group : option str;
  log_pia : float;
  log_pim : float
}.

Section BuildPanel.
Variable log1p : Q -> Q.

Definition pre_ues (muni_padron : list BuildPanelT1.padron_row) : gset str :=
  list_to_set
    (BuildPanelT1.p_sec_ejec
       <$> List.filter
             (fun r => match BuildPanelT1.p_anio r with
                       | Some a => a <=? 2024
                       | None => false
                       end
                       && BuildPanelT1.eq_lit "SI" (BuildPanelT1.siga_implementado r))
             muni_padron).

Definition post_ues (muni_padron : list BuildPanelT1.padron_row) : gset str :=
  list_to_set
    (BuildPanelT1.p_sec_ejec
       <$> List.filter (fun r => bool_decide (BuildPanelT1.p_anio r = Some 2025)) muni_padron).

Definition assign_group (pre post : gset str) (se : str) : str :=
  if bool_decide (se ∈ pre) && bool_decide (se ∈ post) then py "ALWAYS_IN"
  else if negb (bool_decide (se ∈ pre)) && bool_decide (se ∈ post) then py "ENTRY"
  else if bool_decide (se ∈ pre) && negb (bool_decide (se ∈ post)) then py "EXIT"
  else py "OTHER".

(** [{se: assign_group(se) for se in all_ues}] *)
Definition group_map (padron : list BuildPanelT1.padron_row) : gmap str str :=
  let muni_padron := BuildPanelT1.muni_of padron in
  let pre := pre_ues muni_padron in
  let post := post_ues muni_padron in
  let all_ues := pre ∪ post in
  set_to_map (fun se => (se, assign_group pre post se)) all_ues.

Definition build_panel (budget : list BuildPanelBudgetMuni.presupuesto_row)
  (cmn : list BuildPanelCmn.cmn_flags) (padron : list BuildPanelT1.padron_row)
  : list panel_row :=
  let gm := group_map padron in
  let merged :=
    Pandas.merge_left
      (fun (b : BuildPanelBudgetMuni.presupuesto_row) (c : str * Z * Z) =>
         bool_decide (norm_key (BuildPanelBudgetMuni.sec_ejec b) = c.1.1
                      ∧ BuildPanelBudgetMuni.anio b = c.1.2))
      (fun b c =>
         let se := norm_key (BuildPanelBudgetMuni.sec_ejec b) in
         {| sec_ejec := se;
            anio := BuildPanelBudgetMuni.anio b;
            pia := BuildPanelBudgetMuni.pia b;
            pim := BuildPanelBudgetMuni.pim b;
            devengado := BuildPanelBudgetMuni.devengado b;
            cumple_v4 := match c with Some c => inject_Z c.2 | None => 0%Q end;
            group := gm !! se;
            log_pia := log_col log1p (BuildPanelBudgetMuni.pia b);
            log_pim := log_col log1p (BuildPanelBudgetMuni.pim b) |})
      budget (cmn_cols_of cmn) in
  List.filter
    (fun r => bool_decide (group r = Some (py "ALWAYS_IN") ∨ group r = Some (py "ENTRY")))
    merged.

End BuildPanel.

Inductive exn := ZeroDivisionError | ValueError | IndexError.

(** The dictionary [aggregate_decomposition] returns. *)
Record aggregate := {
  r_A_24 : float;
  r_A_25 : float;
  r_E_25 : float;
  n_A_24 : nat;
  n_A_25 : nat;
  n_E_25 : nat;
  n_25 : nat;
  w_A : Q;
  w_E : Q;
  ind_24 : float;
  ind_25 : float;
  delta_total_pp : float;
  delta_behavior_pp : float;
  delta_composition_pp : float;
  share_behavior : float;
  share_composition : float
}.

(** [panel[(panel["anio"] == y) & (panel["group"] == g)]] *)
Definition select (y : Z) (g : string) (panel : list panel_row) : list panel_row :=
  List.filter (fun r => (anio r =? y) && bool_decide (group r = Some (py g))) panel.

(** The local variables [delta_total], [delta_behavior] and
    [delta_composition] of [aggregate_decomposition], for the weights and
    rates it computed. *)
Definition delta_behavior (wA : Q) (rA25 rA24 : float) : float :=
  fmul (Some wA) (fsub rA25 rA24).

Definition delta_composition (wE : Q) (rE25 rA24 : float) : float :=
  fmul (Some wE) (fsub rE25 rA24).

Definition ind_25_of (wA wE : Q) (rA25 rE25 : float) : float :=
  fadd (fmul (Some wA) rA25) (fmul (Some wE) rE25).

Definition aggregate_decomposition (panel : list panel_row) : aggregate + exn :=
  let a24 := select 2024 "ALWAYS_IN" panel in
  let rA24 := Pandas.mean (cumple_v4 <$> a24) in
  let a25 := select 2025 "ALWAYS_IN" panel in
  let e25 := select 2025 "ENTRY" panel in
  let rA25 := Pandas.mean (cumple_v4 <$> a25) in
  let rE25 := if (0 <? length e25)%nat then Pandas.mean (cumple_v4 <$> e25) else nan in
  let nA25 := length a25 in
  let nE25 := length e25 in
  let n25 := (nA25 + nE25)%nat in
  if (n25 =? 0)%nat then inr ZeroDivisionError
  else
    let wA := (of_nat nA25 / of_nat n25)%Q in
    let wE := (of_nat nE25 / of_nat n25)%Q in
    let i24 := rA24 in
    let i25 := ind_25_of wA wE rA25 rE25 in
    let delta_total := fsub i25 i24 in
    let d_behavior := delta_behavior wA rA25 rA24 in
    let d_composition := delta_composition wE rE25 rA24 in
    inl {| r_A_24 := rA24; r_A_25 := rA25; r_E_25 := rE25;
           n_A_24 := length a24; n_A_25 := nA25; n_E_25 := nE25; n_25 := n25;
           w_A := wA; w_E := wE; ind_24 := i24; ind_25 := i25;
           delta_total_pp := fmul delta_total (Some 100%Q);
           delta_behavior_pp := fmul d_behavior (Some 100%Q);
           delta_composition_pp := fmul d_composition (Some 100%Q);
           share_behavior := if nonzero delta_total then fdiv d_behavior delta_total else nan;
           share_composition :=
             if nonzero delta_total then fdiv d_composition delta_total else nan |}.

(** *** [individual_decomposition] *)

(** A vector over [["const", "log_pia", "log_pim"]]. *)
Record vec3 := { v_const : Q; v_pia : Q; v_pim : Q }.

Definition vsub (a b : vec3) : vec3 :=
  {| v_const := v_const a - v_const b; v_pia := v_pia a - v_pia b;
     v_pim := v_pim a - v_pim b |}%Q.

(** [a @ b] *)
Definition dot (a b : vec3) : Q :=
  (v_const a * v_const b + v_pia a * v_pia b + v_pim a * v_pim b)%Q.

(** A row of [d24] or [d25]: [cumple_v4], [log_pia], [log_pim], none
    missing. *)
Definition obs := (Q * (Q * Q))%type.

(** [always[always["anio"] == y][["cumple_v4", "log_pia", "log_pim"]].dropna()] *)
Definition obs_of (y : Z) (always : list panel_row) : list obs :=
  omap (fun r => match log_pia r, log_pim r with
                 | Some a, Some b => Some (cumple_v4 r, (a, b))
                 | _, _ => None
                 end)
       (List.filter (fun r => anio r =? y) always).

(** [d24] and [d25]: the observations of the ALWAYS_IN entities in year
    [y]. *)
Definition sample (y : Z) (panel : list panel_row) : list obs :=
  obs_of y (List.filter (fun r => bool_decide (group r = Some (py "ALWAYS_IN"))) panel).

(** A column that is constant and not zero: [np.ptp(s) == 0.0 and
    np.any(s != 0.0)]. *)
Definition is_const_col (col : list Q) : bool :=
  match col with
  | [] => false
  | c :: _ => forallb (Qeq_bool c) col && negb (Qeq_bool c 0)
  end.

(** [sm.add_constant(d[X_vars])], whose default [has_constant="skip"]
    returns the frame unchanged, without a "const" column, when one of its
    columns is already a non-zero constant: [None] here. *)
Definition add_constant (d : list obs) : option (list vec3) :=
  if is_const_col ((fun o => o.2.1) <$> d) || is_const_col ((fun o => o.2.2) <$> d)
  then None
  else Some ((fun o => {| v_const := 1; v_pia := o.2.1; v_pim := o.2.2 |}) <$> d).

(** [X.mean().values] of a non-empty design *)
Definition col_means (X : list vec3) : vec3 :=
  let n := of_nat (length X) in
  {| v_const := Pandas.qsum (v_const <$> X) / n;
     v_pia := Pandas.qsum (v_pia <$> X) / n;
     v_pim := Pandas.qsum (v_pim <$> X) / n |}%Q.

Definition ymean (d : list obs) : Q :=
  (Pandas.qsum (fst <$> d) / of_nat (length d))%Q.

Record detail_row := {
  variable : str;
  endowment : Q;
  coefficient : Q;
  interaction : Q
}.

(** The dictionary of a successful [individual_decomposition]; the
    standard errors and the R2 of the two fits, which come from
    statsmodels unchanged, are left out. *)
Record individual := {
  y_bar_24 : Q;
  y_bar_25 : Q;
  delta_y : Q;
  n_24 : nat;
  n_25i : nat;
  endowments_total : Q;
  coefficients_total : Q;
  interaction_total : Q;
  total_decomposed : Q;
  check_residual : Q;
  beta_24 : vec3;
  beta_25 : vec3;
  X_bar_24 : vec3;
  X_bar_25 : vec3;
  detail : list detail_row
}.

Inductive individual_result :=
| Insufficient                 (* {"error": "Insufficient data ..."} *)
| Raises (e : exn)
| Decomposed (r : individual).

Section Individual.
(** [sm.OLS(y, X).fit(...).params] for a design with the three columns. *)
Variable ols : list vec3 -> list Q -> vec3.

Definition individual_decomposition (panel : list panel_row) : individual_result :=
  let d24 := sample 2024 panel in
  let d25 := sample 2025 panel in
  match d24, d25 with
  | [], _ | _, [] => Insufficient
  | _, _ =>
      match add_constant d24, add_constant d25 with
      | Some X24, Some X25 =>
          let b24 := ols X24 (fst <$> d24) in
          let b25 := ols X25 (fst <$> d25) in
          let xb24 := col_means X24 in
          let xb25 := col_means X25 in
          let yb24 := ymean d24 in
          let yb25 := ymean d25 in
          let delta_X := vsub xb25 xb24 in
          let delta_beta := vsub b25 b24 in
          let endowments := dot delta_X b24 in
          let coefficients := dot xb24 delta_beta in
          let interaction := dot delta_X delta_beta in
          let total := (endowments + coefficients + interaction)%Q in
          Decomposed
            {| y_bar_24 := yb24; y_bar_25 := yb25; delta_y := yb25 - yb24;
               n_24 := length d24; n_25i := length d25;
               endowments_total := endowments;
               coefficients_total := coefficients;
               interaction_total := interaction;
               total_decomposed := total;
               check_residual := (yb25 - yb24) - total;
               beta_24 := b24; beta_25 := b25;
               X_bar_24 := xb24; X_bar_25 := xb25;
               detail :=
                 (fun '(name, p) =>
                    {| variable := py name;
                       endowment := p delta_X * p b24;
                       coefficient := p xb24 * p delta_beta;
                       interaction := p delta_X * p delta_beta |})
                   <$> [("const", v_const); ("log_pia", v_pia); ("log_pim", v_pim)] |}%Q
      | None, None => Raises IndexError   (* delta_X[2] in the detail loop *)
      | _, _ => Raises ValueError         (* X_bar_25 - X_bar_24, shapes (3,) and (2,) *)
      end
  end.

End Individual.

(** *** Least squares

    [sm.OLS(y, X).fit().params] minimises the sum of squared residuals, so
    it solves the normal equations [X'(y - X b) = 0]: the residuals are
    orthogonal to every column of the design. *)
Definition residual (b : vec3) (o : vec3 * Q) : Q := (o.2 - dot o.1 b)%Q.

(** [sum(col * w)] over the rows of the design and the response *)
Definition csum (w : vec3 * Q -> Q) (X : list vec3) (y : list Q) : Q :=
  Pandas.qsum (w <$> zip X y).

Definition normal_equations (X : list vec3) (y : list Q) (b : vec3) : Prop :=
  (csum (fun o => v_const o.1 * residual b o) X y == 0
   /\ csum (fun o => v_pia o.1 * residual b o) X y == 0
   /\ csum (fun o => v_pim o.1 * residual b o) X y == 0)%Q.

Definition det3 (a11 a12 a13 a21 a22 a23 a31 a32 a33 : Q) : Q :=
  (a11 * (a22 * a33 - a23 * a32) - a12 * (a21 * a33 - a23 * a31)
   + a13 * (a21 * a32 - a22 * a31))%Q.

(** The entries of the symmetric matrix [X'X] and of [X'y]. *)
Definition gram (a b : vec3 -> Q) (X : list vec3) (y : list Q) : Q :=
  csum (fun o => a o.1 * b o.1)%Q X y.

Definition moment (a : vec3 -> Q) (X : list vec3) (y : list Q) : Q :=
  csum (fun o => a o.1 * o.2)%Q X y.

(** The determinant of [X'X]. *)
Definition gram_det (X : list vec3) (y : list Q) : Q :=
  let s := fun a b => gram a b X y in
  det3 (s v_const v_const) (s v_const v_pia) (s v_const v_pim)
       (s v_const v_pia) (s v_pia v_pia) (s v_pia v_pim)
       (s v_const v_pim) (s v_pia v_pim) (s v_pim v_pim).

(** The least-squares coefficients of a design of full rank, by Cramer's
    rule on [X'X b = X'y]. *)
Definition ols_full_rank (X : list vec3) (y : list Q) : vec3 :=
  let s := fun a b => gram a b X y in
  let t := fun a => moment a X y in
  let d := gram_det X y in
  {| v_const :=
       det3 (t v_const) (s v_const v_pia) (s v_const v_pim)
            (t v_pia) (s v_pia v_pia) (s v_pia v_pim)
            (t v_pim) (s v_pia v_pim) (s v_pim v_pim) / d;
     v_pia :=
       det3 (s v_const v_const) (t v_const) (s v_const v_pim)
            (s v_const v_pia) (t v_pia) (s v_pia v_pim)
            (s v_const v_pim) (t v_pim) (s v_pim v_pim) / d;
     v_pim :=
       det3 (s v_const v_const) (s v_const v_pia) (t v_const)
            (s v_const v_pia) (s v_pia v_pia) (t v_pia)
            (s v_const v_pim) (s v_pia v_pim) (t v_pim) / d |}%Q.

(** *** A sample panel: three ALWAYS_IN entities in 2024 and 2025, two
    entrants in 2025. *)
Definition sample_row (se : string) (y : Z) (g : string) (c : Q) (lp lm : Q) : panel_row :=
  {| sec_ejec := py se; anio := y; pia := None; pim := None; devengado := None;
     cumple_v4 := c; group := Some (py g); log_pia := Some lp; log_pim := Some lm |}.

Definition sample_panel : list panel_row :=
  [sample_row "300686" 2024 "ALWAYS_IN" 0 10 11;
   sample_row "300687" 2024 "ALWAYS_IN" 1 12 12;
   sample_row "300688" 2024 "ALWAYS_IN" 0 11 13;
   sample_row "300689" 2024 "ALWAYS_IN" 1 14 15;
   sample_row "300686" 2025 "ALWAYS_IN" 1 10 12;
   sample_row "300687" 2025 "ALWAYS_IN" 1 13 12;
   sample_row "300688" 2025 "ALWAYS_IN" 0 11 14;
   sample_row "300689" 2025 "ALWAYS_IN" 1 15 15;
   sample_row "300690" 2025 "ENTRY" 1 9 10;
   sample_row "300691" 2025 "ENTRY" 0 8 9].

End OaxacaBlinder.

(** ** analisis/oaxaca_blinder/run_oaxaca_blinder.py in binary64 *)

Module OaxacaBinary64.
Import PyStr SpecFloat Binary64.

(** The dictionary [aggregate_decomposition] returns, together with its
    three local variables [delta_total], [delta_behavior] and
    [delta_composition]. *)
Record aggregate := {
  r_A_24 : spec_float;
  r_A_25 : spec_float;
  r_E_25 : spec_float;
  n_A_24 : nat;
  n_A_25 : nat;
  n_E_25 : nat;
  n_25 : nat;
  w_A : spec_float;
  w_E : spec_float;
  ind_24 : spec_float;
  ind_25 : spec_float;
  delta_total : spec_float;
  delta_behavior : spec_float;
  delta_composition : spec_float;
  delta_total_pp : spec_float;
  delta_behavior_pp : spec_float;
  delta_composition_pp : spec_float;
  share_behavior : spec_float;
  share_composition : spec_float
}.

(** The column [cumple_v4] of a panel whose values are integers, as the 0
    and 1 of the compliance flags are. *)
Definition cumple (rows : list OaxacaBlinder.panel_row) : list Z :=
  (fun r => Qfloor (OaxacaBlinder.cumple_v4 r)) <$> rows.

(** [Series.mean()] of a float column of integers: the sum, which is exact
    in whatever order it is taken while it stays below 2 ^ 53, divided by
    the count; NaN on an empty column. *)
Definition mean (col : list Z) : spec_float :=
  match col with
  | [] => S754_nan
  | _ => div (of_Z (foldr Z.add 0 col)) (of_Z (Z.of_nat (length col)))
  end.

(** [x != 0]; true on NaN. *)
Definition nonzero (x : spec_float) : bool := negb (SFeqb x (S754_zero false)).

Definition aggregate_decomposition (panel : list OaxacaBlinder.panel_row)
  : aggregate + OaxacaBlinder.exn :=
  let a24 := OaxacaBlinder.select 2024 "ALWAYS_IN" panel in
  let rA24 := mean (cumple a24) in
  let a25 := OaxacaBlinder.select 2025 "ALWAYS_IN" panel in
  let e25 := OaxacaBlinder.select 2025 "ENTRY" panel in
  let rA25 := mean (cumple a25) in
  let rE25 := if (0 <? length e25)%nat then mean (cumple e25) else S754_nan in
  let nA25 := length a25 in
  let nE25 := length e25 in
  let n25 := (nA25 + nE25)%nat in
  if (n25 =? 0)%nat then inr OaxacaBlinder.ZeroDivisionError
  else
    let wA := div (of_Z (Z.of_nat nA25)) (of_Z (Z.of_nat n25)) in
    let wE := div (of_Z (Z.of_nat nE25)) (of_Z (Z.of_nat n25)) in
    let i24 := rA24 in
    let i25 := add (mul wA rA25) (mul wE rE25) in
    let d_total := sub i25 i24 in
    let d_behavior := mul wA (sub rA25 rA24) in
    let d_composition := mul wE (sub rE25 rA24) in
    inl {| r_A_24 := rA24; r_A_25 := rA25; r_E_25 := rE25;
           n_A_24 := length a24; n_A_25 := nA25; n_E_25 := nE25; n_25 := n25;
           w_A := wA; w_E := wE; ind_24 := i24; ind_25 := i25;
           delta_total := d_total;
           delta_behavior := d_behavior;
           delta_composition := d_composition;
           delta_total_pp := mul d_total (of_Z 100);
           delta_behavior_pp := mul d_behavior (of_Z 100);
           delta_composition_pp := mul d_composition (of_Z 100);
           share_behavior := if nonzero d_total then div d_behavior d_total else S754_nan;
           share_composition :=
             if nonzero d_total then div d_composition d_total else S754_nan |}.

(** *** A panel with one ALWAYS_IN entity and two entrants. *)
Definition rounding_panel : list OaxacaBlinder.panel_row :=
  [OaxacaBlinder.sample_row "300686" 2024 "ALWAYS_IN" 1 10 11;
   OaxacaBlinder.sample_row "300686" 2025 "ALWAYS_IN" 1 10 12;
   OaxacaBlinder.sample_row "300690" 2025 "ENTRY" 1 9 10;
   OaxacaBlinder.sample_row "300691" 2025 "ENTRY" 0 8 9].

End OaxacaBinary64.

(** ** analisis/did_clasico_2x2/run_did_clasico.py *)

Module DidClasico.
Import PyStr Float Analisis.

Record panel_row := {
  t1 : BuildPanelT1.panel_row;
  cumple_v4 : Q;
  switcher : Z;
  post : Z;
  switcher_x_post : Z;
  log_pia : float;
  log_pim : float
}.

Definition panel_key (r : panel_row) : option str * Z := BuildPanelT1.panel_key (t1 r).

Definition add_columns (log1p : Q -> Q) (m : BuildPanelT1.panel_row * Q) : panel_row :=
  let sw :=
    if bool_decide (BuildPanelT1.panel_group_t1 m.1 = Some (py "SWITCHER")) then 1 else 0 in
  let po := if BuildPanelT1.panel_anio m.1 =? 2025 then 1 else 0 in
  {| t1 := m.1; cumple_v4 := m.2; switcher := sw; post := po;
     switcher_x_post := sw * po;
     log_pia := log_col log1p (BuildPanelBudgetMuni.pia (BuildPanelT1.budget m.1));
     log_pim := log_col log1p (BuildPanelBudgetMuni.pim (BuildPanelT1.budget m.1)) |}.

(** [panel["group_t1"].isin(["ALWAYS_IN", "SWITCHER"])] *)
Definition in_sample (t : BuildPanelT1.panel_row) : bool :=
  bool_decide (BuildPanelT1.panel_group_t1 t = Some (py "ALWAYS_IN")
               ∨ BuildPanelT1.panel_group_t1 t = Some (py "SWITCHER")).

Definition build_panel (log1p : Q -> Q) (t1 : list BuildPanelT1.panel_row)
  (cmn : list BuildPanelCmn.cmn_flags) : list panel_row :=
  add_columns log1p <$> List.filter (fun m => in_sample m.1) (merge_cmn t1 cmn).

End DidClasico.

(** ** analisis/diagnostics_extras/run_diagnostics_extras.py *)

Module Diagnostics.
Import PyStr Float Analisis.

Record panel_row := {
  t1 : BuildPanelT1.panel_row;
  cumple_v4 : Q
}.

Definition sec_ejec (r : panel_row) : option str := BuildPanelT1.panel_sec_ejec (t1 r).
Definition anio (r : panel_row) : Z := BuildPanelT1.panel_anio (t1 r).
Definition group_t1 (r : panel_row) : option str := BuildPanelT1.panel_group_t1 (t1 r).

Definition build_panel (t1 : list BuildPanelT1.panel_row)
  (cmn : list BuildPanelCmn.cmn_flags) : list panel_row :=
  (fun m => {| t1 := m.1; cumple_v4 := m.2 |}) <$> merge_cmn t1 cmn.

(** [s.mean() if len(s) > 0 else 0] *)
Definition mean0 (l : list Q) : Q :=
  match l with
  | [] => 0%Q
  | _ => (Pandas.qsum l / of_nat (length l))%Q
  end.

Definition oaxaca_aggregate_single (df_24 df_25 : list panel_row) : Q * Q * Q :=
  let is_ai := fun r => bool_decide (group_t1 r = Some (py "ALWAYS_IN")) in
  let ai_24 := List.filter is_ai df_24 in
  let ai_25 := List.filter is_ai df_25 in
  let r_ai_24 := mean0 (cumple_v4 <$> ai_24) in
  let r_ai_25 := mean0 (cumple_v4 <$> ai_25) in
  let non_ai_25 := List.filter (fun r => negb (is_ai r)) df_25 in
  let r_entry_25 := mean0 (cumple_v4 <$> non_ai_25) in
  let n_ai_25 := length ai_25 in
  let n_entry_25 := length non_ai_25 in
  let n_total_25 := (n_ai_25 + n_entry_25)%nat in
  if (n_total_25 =? 0)%nat then (0, 0, 0)%Q
  else
    let w_ai := (of_nat n_ai_25 / of_nat n_total_25)%Q in
    let w_entry := (of_nat n_entry_25 / of_nat n_total_25)%Q in
    let delta_behavior := (w_ai * (r_ai_25 - r_ai_24))%Q in
    let delta_composition := (w_entry * (r_entry_25 - r_ai_24))%Q in
    let delta_total := (delta_behavior + delta_composition)%Q in
    (delta_total, delta_behavior, delta_composition).

(** *** The random draws

    [np.random.seed(seed)] fixes the stream of raw integers the global
    generator will produce; the embedding takes that stream in place of the
    seed. [np.random.choice(a, size=n, replace=True)] draws [n] indices
    below [len(a)] from it. *)
Record rng := { raw : nat -> nat; position : nat }.

Definition seeded (stream : nat -> nat) : rng := {| raw := stream; position := 0 |}.

Definition choice {A} (g : rng) (a : list A) (size : nat) : list A * rng :=
  (omap (fun i => a !! (raw g (position g + i) mod length a)%nat) (seq 0 size),
   {| raw := raw g; position := position g + size |}).

(** [df["sec_ejec"].unique()]: the values in order of first appearance. *)
Definition unique (df : list panel_row) : list (option str) :=
  sec_ejec <$> Pandas.drop_duplicates sec_ejec df.

(** [df[df["sec_ejec"].isin(sample)]] *)
Definition isin (sample : list (option str)) (df : list panel_row) : list panel_row :=
  List.filter (fun r => bool_decide (sec_ejec r ∈ sample)) df.

(** The body of the bootstrap loop, [n_boot] times: the replicates in the
    order they are appended. *)
Fixpoint replicates (df_24 df_25 : list panel_row) (n_boot : nat) (g : rng)
  : list (Q * Q * Q) :=
  match n_boot with
  | O => []
  | S n =>
      let entities_24 := unique df_24 in
      let entities_25 := unique df_25 in
      let '(sample_ents_24, g) := choice g entities_24 (length entities_24) in
      let '(sample_ents_25, g) := choice g entities_25 (length entities_25) in
      let boot_24 := isin sample_ents_24 df_24 in
      let boot_25 := isin sample_ents_25 df_25 in
      oaxaca_aggregate_single boot_24 boot_25 :: replicates df_24 df_25 n g
  end.

(** [np.sort] *)
Definition leq (a b : Q) : Prop := Is_true (Qle_bool a b).

Definition sort (arr : list Q) : list Q := merge_sort leq arr.

(** [np.percentile(arr, q)], linear interpolation between the two order
    statistics around position [(n - 1) * q / 100]; NaN on an empty array. *)
Definition percentile (arr : list Q) (q : Q) : float :=
  let s := sort arr in
  let n := length s in
  match n with
  | O => nan
  | S m =>
      let h := (of_nat m * q / 100)%Q in
      let lo := Z.to_nat (Qfloor h) in
      let hi := Nat.min (S lo) m in
      let a := nth lo s 0%Q in
      let b := nth hi s 0%Q in
      Some (a + (h - of_nat lo) * (b - a))%Q
  end.

(** Rounding to the nearest integer, ties to even. *)
Definition round_half_even (x : Q) : Z :=
  let f := Qfloor x in
  let r := (x - inject_Z f)%Q in
  match (r ?= 1 # 2)%Q with
  | Lt => f
  | Gt => f + 1
  | Eq => if Z.even f then f else f + 1
  end.

(** [round(x, 2)] *)
Definition round2 (x : Q) : Q := (inject_Z (round_half_even (x * 100)) / 100)%Q.

Definition ci (arr : list Q) : float * float := (percentile arr (25 # 10), percentile arr (975 # 10)).

(** [round(v * 100, 2)] on a float *)
Definition pp (v : float) : float := (fun x => round2 (x * 100)) <$> v.

(** The dictionary of [run_bootstrap_oaxaca]; its three standard errors
    ([np.std], a square root) are left out. *)
Record bootstrap := {
  delta_total_pp : float;
  delta_total_ci95_low : float;
  delta_total_ci95_high : float;
  delta_behavior_pp : float;
  delta_behavior_ci95_low : float;
  delta_behavior_ci95_high : float;
  delta_composition_pp : float;
  delta_composition_ci95_low : float;
  delta_composition_ci95_high : float;
  n_boot_used : nat
}.

Definition run_bootstrap_oaxaca (panel : list panel_row) (n_boot : nat)
  (stream : nat -> nat) : bootstrap :=
  let g := seeded stream in
  let df_24 := List.filter (fun r => anio r =? 2024) panel in
  let df_25 := List.filter (fun r => anio r =? 2025) panel in
  let '(delta_total, delta_behavior, delta_composition) :=
    oaxaca_aggregate_single df_24 df_25 in
  let boot := replicates df_24 df_25 n_boot g in
  let boot_total := (fun b => b.1.1) <$> boot in
  let boot_behavior := (fun b => b.1.2) <$> boot in
  let boot_composition := snd <$> boot in
  let ci_total := ci boot_total in
  let ci_behavior := ci boot_behavior in
  let ci_composition := ci boot_composition in
  {| delta_total_pp := pp (Some delta_total);
     delta_total_ci95_low := pp ci_total.1;
     delta_total_ci95_high := pp ci_total.2;
     delta_behavior_pp := pp (Some delta_behavior);
     delta_behavior_ci95_low := pp ci_behavior.1;
     delta_behavior_ci95_high := pp ci_behavior.2;
     delta_composition_pp := pp (Some delta_composition);
     delta_composition_ci95_low := pp ci_composition.1;
     delta_composition_ci95_high := pp ci_composition.2;
     n_boot_used := n_boot |}.

(** [low <= value <= high] on floats; false when one of them is NaN. *)
Definition contains (low value high : float) : Prop :=
  match low, value, high with
  | Some l, Some v, Some h => (l <= v /\ v <= h)%Q
  | _, _, _ => False
  end.

(** [low <= high] on floats *)
Definition ordered (low high : float) : Prop :=
  match low, high with
  | Some l, Some h => (l <= h)%Q
  | _, _ => False
  end.

(** All rows of the frame are rows of one entity. *)
Definition one_entity (df : list panel_row) : Prop :=
  exists e, Forall (fun r => sec_ejec r = e) df.

(** *** A sample panel, built by the scripts from a roster of two early
    adopters, their budget rows of 2024 and 2025 and their recorded
    phases: the second entity recorded one phase only in 2024. *)
Definition sample_roster : list BuildPanelT1.padron_row :=
  [BuildPanelT1.muni_row "300686" 2024 "SI"; BuildPanelT1.muni_row "300686" 2025 "SI";
   BuildPanelT1.muni_row "300689" 2024 "SI"; BuildPanelT1.muni_row "300689" 2025 "SI"].

Definition sample_budget : list BuildPanelBudgetMuni.presupuesto_row :=
  [BuildPanelT1.budget_row "300686" 2024 "SI"; BuildPanelT1.budget_row "300689" 2024 "SI";
   BuildPanelT1.budget_row "300686" 2025 "SI"; BuildPanelT1.budget_row "300689" 2025 "SI"].

Definition phases (se : string) (y : Z) (f1 f2 f3 : Z) : BuildPanelCmn.cmn_base :=
  {| BuildPanelCmn.anio := y; BuildPanelCmn.sec_ejec := py se;
     BuildPanelCmn.has_f1 := f1; BuildPanelCmn.has_f2 := f2; BuildPanelCmn.has_f3 := f3;
     BuildPanelCmn.has_mef := 1; BuildPanelCmn.has_minedu := 0;
     BuildPanelCmn.has_f1_mef := f1; BuildPanelCmn.has_f2_mef := f2;
     BuildPanelCmn.has_f3_mef := f3; BuildPanelCmn.has_f1_minedu := 0;
     BuildPanelCmn.has_f2_minedu := 0; BuildPanelCmn.has_f3_minedu := 0 |}.

Definition sample_cmn : list BuildPanelCmn.cmn_flags :=
  BuildPanelCmn.build_flags
    [phases "300686" 2024 1 1 1; phases "300689" 2024 1 0 0;
     phases "300686" 2025 1 1 1; phases "300689" 2025 1 1 1].

Definition sample_panel : list panel_row :=
  build_panel (BuildPanelT1.run sample_budget sample_roster) sample_cmn.

(** A panel with one entity. *)
Definition single_panel : list panel_row :=
  build_panel
    (BuildPanelT1.run
       [BuildPanelT1.budget_row "300686" 2024 "SI"; BuildPanelT1.budget_row "300686" 2025 "SI"]
       sample_roster)
    sample_cmn.

End Diagnostics.

(** ** scraping/config.py and scraping/scraper.py *)

Module Scraper.
Import PyStr.

Definition MAX_RETRIES : Z := 3.
Definition RETRY_DELAY_BASE : Z := 2.

(** The exceptions a call can raise: the three classes of the [except]
    clause, and any other. *)
Inductive exn_class :=
| TimeoutException
| WebDriverException
| StaleElementReferenceException
| OtherException.

Record exn := { class : exn_class; message : str }.

Definition retryable (e : exn) : bool :=
  match class e with
  | OtherException => false
  | _ => true
  end.

(** What the wrapper does besides returning: calls of [func], log records
    and [time.sleep]. *)
Inductive event :=
| Call
| Warning (attempt_number max_retries delay : Z)
| Sleep (delay : Z)
| Error.

(** [raise last_exception] with [last_exception = None] is a TypeError. *)
Inductive outcome (V : Type) :=
| Returned (v : V)
| Raised (e : exn)
| RaisedTypeError.
Arguments Returned {V} v.
Arguments Raised {V} e.
Arguments RaisedTypeError {V}.

Section Retry.
Context {W V : Type}.
(** [func] applied to its arguments: a call acts on the world (the
    browser) and returns or raises. *)
Variable func : W -> (V + exn) * W.

(** The [for attempt in range(max_retries)] loop from [attempt] on, with
    [remaining] iterations left, and the two statements after it. *)
Fixpoint retry_from (max_retries : Z) (remaining : nat) (attempt : Z)
  (last_exception : option exn) (w : W) : outcome V * W * list event :=
  match remaining with
  | O =>
      (match last_exception with
       | Some e => Raised e
       | None => RaisedTypeError
       end, w, [Error])
  | S remaining' =>
      match func w with
      | (inl v, w') => (Returned v, w', [Call])
      | (inr e, w') =>
          if retryable e then
            let delay := RETRY_DELAY_BASE * 2 ^ attempt in
            let '(r, w'', evs) :=
              retry_from max_retries remaining' (attempt + 1) (Some e) w' in
            (r, w'', Call :: Warning (attempt + 1) max_retries delay :: Sleep delay :: evs)
          else (Raised e, w', [Call])
      end
  end.

Definition _retry_on_failure (max_retries : Z) (w : W) : outcome V * W * list event :=
  retry_from max_retries (Z.to_nat max_retries) 0 None w.

(** The world after [k] calls of [func], and what the next call does. *)
Fixpoint after_calls (k : nat) (w : W) : W :=
  match k with
  | O => w
  | S k' => after_calls k' (func w).2
  end.

Definition call_result (k : nat) (w : W) : V + exn := (func (after_calls k w)).1.

(** The first [k] calls from [w] all raise an exception of the [except]
    clause. *)
Definition fail_before (k : nat) (w : W) : Prop :=
  forall i, (i < k)%nat -> exists e, call_result i w = inr e /\ retryable e = true.

(** The exception in hand when the loop ends after [remaining] failures. *)
Definition last_raised (remaining : nat) (last : option exn) (w : W) : option exn :=
  match remaining with
  | O => last
  | S m => match call_result m w with
           | inr e => Some e
           | inl _ => None
           end
  end.

End Retry.

(** The delays slept after the failed attempts [attempt], [attempt + 1],
    ... ([k] of them). *)
Definition backoff (attempt : Z) (k : nat) : list Z :=
  (fun i => RETRY_DELAY_BASE * 2 ^ (attempt + Z.of_nat i)) <$> seq 0 k.

Definition calls (evs : list event) : nat :=
  length (List.filter (fun e => match e with Call => true | _ => false end) evs).

Definition sleeps (evs : list event) : list Z :=
  omap (fun e => match e with Sleep d => Some d | _ => None end) evs.

(** A scripted browser: the world is the list of the results the next
    calls will have. *)
Definition scripted (w : list (nat + exn)) : (nat + exn) * list (nat + exn) :=
  match w with
  | [] => (inl 0%nat, [])
  | r :: w' => (r, w')
  end.

Definition timeout := {| class := TimeoutException; message := PyStr.py "timeout" |}.
Definition stale := {| class := StaleElementReferenceException; message := PyStr.py "stale" |}.

End Scraper.

(** ** analisis/did_psm/run_did_psm.py *)

Module DidPsm.
Import PyStr Float Binary64.

(** The columns of [baseline]. *)
Record baseline_row := {
  b_sec_ejec : option str;
  b_group_t1 : option str;
  b_switcher : Z;
  b_log_pia : float;
  b_log_pim : float;
  b_departamento_code : option str
}.

(** [get_baseline_characteristics] on the panel of [build_panel], which is
    the one of the classic DiD script with [departamento_code] filled. *)
Definition get_baseline_characteristics (panel : list DidClasico.panel_row)
  : list baseline_row :=
  let rows_2024 :=
    List.filter (fun r => BuildPanelT1.panel_anio (DidClasico.t1 r) =? 2024) panel in
  let dept_of := fun r : DidClasico.panel_row =>
    Some (default (py "UNK")
            (BuildPanelBudgetMuni.departamento_code (BuildPanelT1.budget (DidClasico.t1 r)))) in
  let dept :=
    Pandas.drop_duplicates id
      ((fun r => (BuildPanelT1.panel_sec_ejec (DidClasico.t1 r), dept_of r)) <$> rows_2024) in
  let baseline :=
    Pandas.merge_left
      (fun (r : DidClasico.panel_row) (d : option str * option str) =>
         bool_decide (BuildPanelT1.panel_sec_ejec (DidClasico.t1 r) = d.1))
      (fun r d =>
         {| b_sec_ejec := BuildPanelT1.panel_sec_ejec (DidClasico.t1 r);
            b_group_t1 := BuildPanelT1.panel_group_t1 (DidClasico.t1 r);
            b_switcher := DidClasico.switcher r;
            b_log_pia := DidClasico.log_pia r;
            b_log_pim := DidClasico.log_pim r;
            b_departamento_code := d ≫= snd |})
      rows_2024 dept in
  Pandas.drop_duplicates b_sec_ejec baseline.

(** A row of the frame [estimate_propensity_score] returns. *)
Record pscore_row := {
  sec_ejec : str;
  switcher : Z;
  pscore : SpecFloat.spec_float;
  log_pia : Q;
  log_pim : Q
}.

(** [estimate_propensity_score]: the rows without a missing value, each
    with the probability the fitted model predicts for it; [predict]
    stands for the logit of statsmodels (or its OLS fallback) fitted on
    those rows. The two covariates are carried along; the matching reads
    the score alone. *)
Definition estimate_propensity_score
  (predict : list baseline_row -> baseline_row -> SpecFloat.spec_float) (baseline : list baseline_row)
  : list pscore_row :=
  let model_data :=
    List.filter
      (fun r => bool_decide (is_Some (b_sec_ejec r) ∧ is_Some (b_log_pia r)
                             ∧ is_Some (b_log_pim r)))
      baseline in
  omap (fun r =>
          match b_sec_ejec r, b_log_pia r, b_log_pim r with
          | Some s, Some a, Some b =>
              Some {| sec_ejec := s; switcher := b_switcher r;
                      pscore := predict model_data r; log_pia := a; log_pim := b |}
          | _, _, _ => None
          end)
       model_data.

Record pair := {
  treated_sec_ejec : str;
  control_sec_ejec : str;
  treated_pscore : SpecFloat.spec_float;
  control_pscore : SpecFloat.spec_float;
  distance : SpecFloat.spec_float
}.

(** One entry of [cdist(treated_ps, control_ps, metric="euclidean")] on
    vectors of one coordinate: the square root of the squared difference,
    each of the three operations rounded. *)
Definition euclidean (u v : SpecFloat.spec_float) : SpecFloat.spec_float :=
  let d := sub u v in
  sqrt (mul d d).

(** One row of the matrix of distances. *)
Definition dists_of (t : pscore_row) (control : list pscore_row) : list SpecFloat.spec_float :=
  (fun c => euclidean (pscore t) (pscore c)) <$> control.

(** [np.argsort(dists)]: the positions of [dists] by increasing value, NaN
    last. numpy does not fix the order of equal values; here they keep
    the order of their positions, as they do under numpy's insertion sort
    of a short array. *)
Definition closer (a b : nat * SpecFloat.spec_float) : Prop := Is_true (negb (sort_lt b.2 a.2)).

Definition argsort (dists : list SpecFloat.spec_float) : list nat :=
  (merge_sort closer (zip (seq 0 (length dists)) dists)).*1.

(** The inner loop: the first position of [sorted_indices] that is not in
    [control_used] and within the caliper. A row is identified by its
    position in [control], the frames here having one label per row. *)
Definition first_free (sorted_indices : list nat) (dists : list SpecFloat.spec_float)
  (control_used : gset nat) (caliper : SpecFloat.spec_float) : option nat :=
  List.find
    (fun j => bool_decide (j ∉ control_used) && leb (nth j dists SpecFloat.S754_nan) caliper)
    sorted_indices.

(** The outer loop from the [i]-th treated row on: the positions of the
    matched treated and control rows, with their distance. *)
Fixpoint match_from (treated control : list pscore_row) (caliper : SpecFloat.spec_float) (i : nat)
  (control_used : gset nat) : list (nat * nat * SpecFloat.spec_float) :=
  match treated with
  | [] => []
  | t :: treated' =>
      let dists := dists_of t control in
      match first_free (argsort dists) dists control_used caliper with
      | Some j =>
          (i, j, nth j dists SpecFloat.S754_nan)
            :: match_from treated' control caliper (S i) ({[ j ]} ∪ control_used)
      | None => match_from treated' control caliper (S i) control_used
      end
  end.

(** What the loop from the [i]-th treated row on, with [control_used] taken,
    may append: a later treated row, a free control row, their computed
    distance, within the caliper. *)
Definition valid_match (treated control : list pscore_row) (caliper : SpecFloat.spec_float) (i : nat)
  (control_used : gset nat) (m : nat * nat * SpecFloat.spec_float) : Prop :=
  (i <= m.1.1)%nat /\ (m.1.2 ∉ control_used)
  /\ exists t c, treated !! (m.1.1 - i)%nat = Some t /\ control !! m.1.2 = Some c
                 /\ m.2 = euclidean (pscore t) (pscore c) /\ leb m.2 caliper = true.

Definition treated_of (pscore_df : list pscore_row) : list pscore_row :=
  List.filter (fun r => switcher r =? 1) pscore_df.

Definition control_of (pscore_df : list pscore_row) : list pscore_row :=
  List.filter (fun r => switcher r =? 0) pscore_df.

Definition matched_positions (pscore_df : list pscore_row) (caliper : SpecFloat.spec_float)
  : list (nat * nat * SpecFloat.spec_float) :=
  match treated_of pscore_df, control_of pscore_df with
  | [], _ | _, [] => []
  | treated, control => match_from treated control caliper 0 ∅
  end.

(** The dictionary appended for a match of the [i]-th treated row with the
    [j]-th control row. *)
Definition pair_of (treated control : list pscore_row) (m : nat * nat * SpecFloat.spec_float)
  : option pair :=
  match treated !! m.1.1, control !! m.1.2 with
  | Some t, Some c =>
      Some {| treated_sec_ejec := sec_ejec t; control_sec_ejec := sec_ejec c;
              treated_pscore := pscore t; control_pscore := pscore c;
              distance := m.2 |}
  | _, _ => None
  end.

Definition nearest_neighbor_matching (pscore_df : list pscore_row) (caliper : SpecFloat.spec_float)
  : list pair :=
  omap (pair_of (treated_of pscore_df) (control_of pscore_df))
       (matched_positions pscore_df caliper).

(** A row of the table of pairs is the match at positions [m]: it carries
    the keys and scores of the two rows and their computed distance, which
    is within the caliper. *)
Definition matched_as (treated control : list pscore_row) (caliper : SpecFloat.spec_float)
  (m : nat * nat * SpecFloat.spec_float) (p : pair) : Prop :=
  exists t c, treated !! m.1.1 = Some t /\ control !! m.1.2 = Some c
    /\ m.2 = euclidean (pscore t) (pscore c) /\ leb m.2 caliper = true
    /\ p = {| treated_sec_ejec := sec_ejec t; control_sec_ejec := sec_ejec c;
              treated_pscore := pscore t; control_pscore := pscore c;
              distance := m.2 |}.

(** *** A sample frame: two treated and three control entities. *)
Definition pscore_of (se : string) (sw : Z) (p : SpecFloat.spec_float) : pscore_row :=
  {| sec_ejec := py se; switcher := sw; pscore := p; log_pia := 10; log_pim := 11 |}.

Definition sample_scores : list pscore_row :=
  [pscore_of "300687" 1 (ratio 30 100); pscore_of "300686" 0 (ratio 34 100);
   pscore_of "300690" 1 (ratio 32 100); pscore_of "300688" 0 (ratio 29 100);
   pscore_of "300689" 0 (ratio 70 100)].

(** *** Scores so small that the square of their difference underflows:
    a treated entity and two control entities, the farther one first. *)
Definition tiny_scores : list pscore_row :=
  [pscore_of "300687" 1 (pow2 (-600)); pscore_of "300686" 0 (pow2 (-598));
   pscore_of "300688" 0 (pow2 (-599))].

End DidPsm.

(** ** scraping/utils.py: [parse_years] *)

Module ParseYears.
Import PyStr Builtins.

Section ParseYears.
Variable max_str_digits : nat.

Fixpoint parse_years (values : list str) : list Z + exn :=
  match values with
  | [] => inl []
  | item :: values' =>
      let item := strip item in
      if bool_decide (item = []) then parse_years values'
      else
        match py_int max_str_digits item with
        | inl year =>
            match parse_years values' with
            | inl years => inl (year :: years)
            | inr e => inr e
            end
        | inr e => inr e
        end
  end.

End ParseYears.

End ParseYears.

(** ** scraping/padron.py: [build_index] *)

Module PadronIndex.
Import PyStr Builtins.

(** A row of [csv.DictReader]: a dict from the names of the header to the
    text of the cells; a column the line is too short to reach holds
    [None]. *)
Abbreviation dict_row := (gmap str (option str)).

(** [row.get(key, "")] *)
Definition get (row : dict_row) (key : string) : option str :=
  default (Some []) (row !! py key).

(** [Dict[int, Dict[str, set[str]]]] *)
Abbreviation year_map := (gmap str (gset str)).
Abbreviation index := (gmap Z (gmap str (gset str))).

(** [year_map.setdefault(key, set()).add(sec)] *)
Definition add (key sec : str) (ym : year_map) : year_map :=
  <[key := default ∅ (ym !! key) ∪ {[sec]}]> ym.

(** What one row does to the loop: nothing ([continue]), an exception, or
    an entry for the index. *)
Inductive visit_result :=
| Continue
| Raise (e : exn)
| Entry (year : Z) (sec category : str).

Section BuildIndex.
(** [str.upper], which the embedding leaves abstract. *)
Variable upper : str -> str.
Variable max_str_digits : nat.
Variable only_siga_si : bool.
Variable siga_filter : option str.

(** The body of the loop up to [category]. *)
Definition visit (row : dict_row) : visit_result :=
  let sec :=
    Utils.normalized
      (match get row "sec_ejec" with Some s => Utils.VStr s | None => Utils.VNone end) in
  if bool_decide (sec = []) then Continue
  else
    match get row "anio" with
    | None => Raise TypeError                       (* int(None) *)
    | Some a =>
        match py_int max_str_digits a with
        | inr ValueError => Continue
        | inr e => Raise e
        | inl year =>
            let siga := upper (strip (default [] (get row "siga_implementado"))) in
            let skip :=
              match siga_filter with
              | Some f => bool_decide (siga <> upper f)
              | None => only_siga_si && bool_decide (siga <> py "SI")
              end in
            if skip then Continue
            else Entry year sec (strip (default [] (get row "categoria")))
        end
    end.

(** The three statements that end the body. *)
Definition record (idx : index) (year : Z) (sec category : str) : index :=
  let ym := default ∅ (idx !! year) in
  let ym := add (py "_all") sec ym in
  let ym := if bool_decide (category = []) then ym else add category sec ym in
  <[year := ym]> idx.

Fixpoint build_index_from (rows : list dict_row) (idx : index) : index + exn :=
  match rows with
  | [] => inl idx
  | row :: rows' =>
      match visit row with
      | Continue => build_index_from rows' idx
      | Raise e => inr e
      | Entry year sec category => build_index_from rows' (record idx year sec category)
      end
  end.

Definition build_index (rows : list dict_row) : index + exn :=
  build_index_from rows ∅.

(** The row puts [sec] into the set [k] of the year [y]. *)
Definition hits (row : dict_row) (y : Z) (k sec : str) : Prop :=
  exists cat, visit row = Entry y sec cat /\ (k = py "_all" \/ (k = cat /\ cat <> [])).

End BuildIndex.

(** [padron_index.get(year, {}).get(category)], an absent set read as the
    empty one. *)
Definition codes (idx : index) (year : Z) (category : str) : gset str :=
  default ∅ (default ∅ (idx !! year) !! category).

(** A code the index may hold: ASCII digits, at least one. *)
Definition is_code (sec : str) : Prop :=
  sec <> [] /\ Forall (fun c => is_ascii_digit c = true) sec.

(** The sets of a year: none is empty, all hold codes, and "_all" holds
    every code of the others. *)
Definition year_ok (ym : year_map) : Prop :=
  forall k s, ym !! k = Some s ->
    s <> ∅ /\ set_Forall is_code s /\ s ⊆ default ∅ (ym !! py "_all").

Definition index_ok (idx : index) : Prop :=
  forall year ym, idx !! year = Some ym -> year_ok ym /\ is_Some (ym !! py "_all").

(** The row has a code and its cell for "anio" holds [None]. *)
Definition short_row (row : dict_row) : Prop :=
  Utils.normalized
    (match get row "sec_ejec" with Some s => Utils.VStr s | None => Utils.VNone end) <> []
  /\ get row "anio" = None.

(** [str.upper] on a string of ASCII characters. *)
Definition ascii_upper (s : str) : str :=
  (fun c => if in_range 97 122 c then (c - 32)%N else c) <$> s.

(** A row of the roster file. *)
Definition roster_line (se y status cat : string) : dict_row :=
  {[ py "sec_ejec" := Some (py se); py "anio" := Some (py y);
     py "siga_implementado" := Some (py status); py "categoria" := Some (py cat) ]}.

Definition sample_rows : list dict_row :=
  [roster_line "300686" "2024" "SI" "M. MUNICIPALIDADES";
   roster_line "300687" "2024" "NO" "M. MUNICIPALIDADES";
   roster_line " 000123" "2024" "si " "";
   roster_line "300686" "2025" "SI" "M. MUNICIPALIDADES";
   roster_line "n/a" "2025" "SI" "M. MUNICIPALIDADES";
   roster_line "300690" "" "SI" "M. MUNICIPALIDADES"].

End PadronIndex.

(** ** scraping/padron_export.py *)

Module PadronExport.
Import PyStr.

(** A row of raw.padron_historico, as the query of
    [fetch_padron_historico] lists its columns. *)
Record hist_row := {
  h_sec_ejec : Utils.value;
  h_nombre_ejecutora : option str;
  h_region : option str;
  h_provincia : option str;
  h_distrito : option str;
  h_categoria : option str;
  ano_2022 : Utils.value;
  ano_2023 : Utils.value;
  ano_2024 : Utils.value
}.

(** A row of raw.padron_nov2025. *)
Record nov2025_row := {
  n_sec_ejec : Utils.value;
  n_nombre_ejecutora : option str;
  n_region : option str;
  n_provincia : option str;
  n_distrito : option str;
  n_categoria : option str
}.

(** A row handed to [writer.writerow]. *)
Record out_row := {
  sec_ejec : str;
  anio : Z;
  siga_implementado : str;
  categoria : str;
  nombre_ejecutora : str;
  region : str;
  provincia : str;
  distrito : str;
  fuente_padron : str
}.

(** [(text or "").strip()] *)
Definition clean (text : option str) : str := strip (default [] text).

Section Main.
Variable upper : str -> str.

(** [str(status).strip().upper() if status is not None else ""] *)
Definition status_norm (status : Utils.value) : str :=
  match status with
  | Utils.VNone => []
  | Utils.VInt n => upper (strip (str_of_int n))
  | Utils.VStr s => upper (strip s)
  end.

(** The rows written for one row of the historical roster. *)
Definition write_hist (row : hist_row) : list out_row :=
  let sec_norm := Utils.normalized (h_sec_ejec row) in
  if bool_decide (sec_norm = []) then []
  else
    [(2022, ano_2022 row); (2023, ano_2023 row); (2024, ano_2024 row)] ≫= fun ys =>
      let status := status_norm ys.2 in
      if bool_decide (status = []) then []
      else
        [{| sec_ejec := sec_norm; anio := ys.1; siga_implementado := status;
            categoria := clean (h_categoria row);
            nombre_ejecutora := clean (h_nombre_ejecutora row);
            region := clean (h_region row);
            provincia := clean (h_provincia row);
            distrito := clean (h_distrito row);
            fuente_padron := py "padron_historico" |}].

(** The rows written for one row of the roster of 2025. *)
Definition write_2025 (row : nov2025_row) : list out_row :=
  let sec_norm := Utils.normalized (n_sec_ejec row) in
  if bool_decide (sec_norm = []) then []
  else
    [{| sec_ejec := sec_norm; anio := 2025; siga_implementado := py "SI";
        categoria := clean (n_categoria row);
        nombre_ejecutora := clean (n_nombre_ejecutora row);
        region := clean (n_region row);
        provincia := clean (n_provincia row);
        distrito := clean (n_distrito row);
        fuente_padron := py "padron_nov2025" |}].

(** The rows [main] writes to padron_largo.csv after the header. *)
Definition main (hist_rows : list hist_row) (rows_2025 : list nov2025_row) : list out_row :=
  (hist_rows ≫= write_hist) ++ (rows_2025 ≫= write_2025).

End Main.

End PadronExport.

(** ** scraping/build_panel_cmn.py: [build_qc] *)

Module CmnQc.
Import PyStr BuildPanelCmn.

(** A row of the frame [build_qc] returns: a year and its aggregates. *)
Record qc_row := {
  q_anio : Z;
  ues_total : nat;
  q_cumple_v4 : Z;
  q_cumple_mef : Z;
  q_cumple_minedu : Z;
  q_cumple_cross : Z;
  q_has_mef : Z;
  q_has_minedu : Z;
  cumple_v4_pct : Q;
  cumple_mef_pct : Q;
  cumple_minedu_pct : Q;
  cumple_cross_pct : Q
}.

(** The aggregation "nunique" on a column without missing value. *)
Definition nunique (col : list str) : nat := length (Pandas.drop_duplicates id col).

(** The aggregation "sum" on a column of integers. *)
Definition zsum (col : list Z) : Z := foldr Z.add 0 col.

(** [(count / ues_total * 100).round(2)]; a group has a row, and so a
    code: [ues_total] is not zero. *)
Definition pct (count : Z) (total : nat) : Q :=
  Diagnostics.round2 (inject_Z count / Float.of_nat total * 100)%Q.

Definition row_anio (r : cmn_flags) : Z := anio (base r).
Definition row_sec_ejec (r : cmn_flags) : str := sec_ejec (base r).

(** The years of the frame, each once, in increasing order: the groups of
    [df.groupby("anio")]. *)
Definition years (df : list cmn_flags) : list Z :=
  merge_sort Z.le (Pandas.drop_duplicates id (row_anio <$> df)).

Definition aggregate (y : Z) (g : list cmn_flags) : qc_row :=
  let total := nunique (row_sec_ejec <$> g) in
  let v4 := zsum (cumple_v4 <$> g) in
  let mef := zsum (cumple_mef <$> g) in
  let minedu := zsum (cumple_minedu <$> g) in
  let cross := zsum (cumple_cross <$> g) in
  {| q_anio := y; ues_total := total;
     q_cumple_v4 := v4; q_cumple_mef := mef; q_cumple_minedu := minedu;
     q_cumple_cross := cross;
     q_has_mef := zsum ((fun r => has_mef (base r)) <$> g);
     q_has_minedu := zsum ((fun r => has_minedu (base r)) <$> g);
     cumple_v4_pct := pct v4 total; cumple_mef_pct := pct mef total;
     cumple_minedu_pct := pct minedu total; cumple_cross_pct := pct cross total |}.

Definition build_qc (df : list cmn_flags) : list qc_row :=
  (fun y => aggregate y (List.filter (fun r => row_anio r =? y) df)) <$> years df.

End CmnQc.

(** ** scraping/build_panel_budget_muni.py: reading a yearly file *)

Module BudgetFile.
Import PyStr.

Section Columns.
(** [str.upper], which the embedding leaves abstract. *)
Variable upper : str -> str.

(** The class [[A-Z0-9]] *)
Definition is_upper_alnum (c : N) : bool := in_range 65 90 c || in_range 48 57 c.

Definition normalize_col (name : str) : str :=
  re_delete (fun c => negb (is_upper_alnum c)) (upper name).

(** [{normalize_col(c): c for c in columns}]: a later column replaces an
    earlier one with the same normalised name. *)
Definition norm_map (columns : list str) : gmap str str :=
  foldl (fun m c => <[normalize_col c := c]> m) ∅ columns.

Definition find_col (columns targets : list str) (contains : bool) : option str :=
  let norm_map := norm_map columns in
  match omap (fun t => norm_map !! t) targets with
  | c :: _ => Some c
  | [] =>
      if contains then
        List.find
          (fun c => existsb (fun t => PyStr.contains t (normalize_col c)) targets)
          columns
      else None
  end.

End Columns.

(** [value.split(":", 1)] when [":" in value]: the text before the first
    colon and the text after it. *)
Fixpoint split_colon (value : str) : option (str * str) :=
  match value with
  | [] => None
  | c :: value' =>
      if (c =? 58)%N then Some ([], value')
      else (fun p => (c :: p.1, p.2)) <$> split_colon value'
  end.

Definition split_code_name (value : str) : option str * option str :=
  if bool_decide (value = []) then (None, None)
  else
    match split_colon value with
    | Some (code, name) => (Some (strip code), Some (strip name))
    | None => (None, Some (strip value))
    end.

(** [series.astype(str)] on a column read with [dtype=str]: a missing cell
    becomes the text "nan". *)
Definition astype_str (cell : option str) : str := default (py "nan") cell.

(** The class [[\d\.-]] *)
Definition is_num_char (c : N) : bool :=
  is_unicode_digit c || (c =? 46)%N || (c =? 45)%N.

Section ParseNum.
(** [pd.to_numeric(text, errors="coerce")] on one non-empty text: the
    number it denotes, or NaN. *)
Variable to_numeric : str -> option Q.

(** [parse_num], per cell of the series. *)
Definition parse_num (cell : option str) : option Q :=
  let cleaned := re_delete (fun c => negb (is_num_char c)) (astype_str cell) in
  if bool_decide (cleaned = []) then None else to_numeric cleaned.

End ParseNum.

(** [out["sec_ejec"]]: the digits of the raw code, NaN when it has none. *)
Definition sec_ejec_of (cell : option str) : option str :=
  let digits := Utils.str_replace_nondigit (astype_str cell) in
  if bool_decide (digits = []) then None else Some digits.

(** [a > b] on numbers *)
Definition gt (a b : Q) : bool := negb (Qle_bool a b).

(** [np.where(den > 0, num / den, np.nan)] *)
Definition ratio_where (num den : option Q) : option Q :=
  match den with
  | Some d => if gt d 0 then Float.fdiv num (Some d) else None
  | None => None
  end.

(** [out["y_exec_pct"]] and [out["y_reprog"]] of a row. *)
Definition y_exec_pct (r : BuildPanelBudgetMuni.presupuesto_row) : option Q :=
  ratio_where (BuildPanelBudgetMuni.devengado r) (BuildPanelBudgetMuni.pim r).

Definition y_reprog (r : BuildPanelBudgetMuni.presupuesto_row) : option Q :=
  ratio_where
    (Float.fsub (BuildPanelBudgetMuni.pim r) (BuildPanelBudgetMuni.pia r))
    (BuildPanelBudgetMuni.pia r).

(** [(v < lo) | (v > hi)]; a comparison with NaN is false. *)
Definition outside (lo hi : Q) (v : option Q) : bool :=
  match v with
  | Some x => gt lo x || gt x hi
  | None => false
  end.

Definition y_exec_outside_0_1 (df : list BuildPanelBudgetMuni.presupuesto_row) : nat :=
  length (List.filter (fun r => outside 0 1 (y_exec_pct r)) df).

Definition y_reprog_extreme (df : list BuildPanelBudgetMuni.presupuesto_row) : nat :=
  length (List.filter (fun r => outside (-1) 10 (y_reprog r)) df).

End BudgetFile.

(** ** scraping/build_panel_budget_muni.py: the counts of [qc_group] *)

Module BudgetQc.
Import PyStr BuildPanelBudgetMuni.

(** [df.dropna(subset=["sec_ejec"])] *)
Definition non_null (df : list presupuesto_row) : list presupuesto_row :=
  List.filter (fun r => bool_decide (is_Some (sec_ejec r))) df.

(** The keys of the groups of [non_null.groupby(["anio", "sec_ejec"])]. *)
Definition groups (df : list presupuesto_row) : list (option str * Z) :=
  key <$> Pandas.drop_duplicates key (non_null df).

Definition rows (df : list presupuesto_row) : nat := length df.

(** [non_null["sec_ejec"].nunique()] *)
Definition sec_ejec_unique (df : list presupuesto_row) : nat :=
  length (Pandas.drop_duplicates id (sec_ejec <$> non_null df)).

(** [df["sec_ejec"].isna().sum()] *)
Definition missing_sec_ejec (df : list presupuesto_row) : nat :=
  length (List.filter (fun r => bool_decide (sec_ejec r = None)) df).

(** [(grp[grp > 1] - 1).sum()] *)
Definition dup_rows (df : list presupuesto_row) : nat :=
  sum_list
    ((fun k => (group_size (non_null df) k - 1)%nat)
       <$> List.filter (fun k => bool_decide (1 < group_size (non_null df) k)%nat) (groups df)).

End BudgetQc.

(** ** analisis/did_clasico_2x2/run_did_clasico.py: [compute_did_manual] *)

Module DidManual.
Import PyStr Float.

(** The dictionary [compute_did_manual] returns. *)
Record result := {
  always_in_pre : float;
  always_in_post : float;
  always_in_diff : float;
  switcher_pre : float;
  switcher_post : float;
  switcher_diff : float;
  did_manual : float;
  n_always_in : nat;
  n_switcher : nat
}.

Definition group_t1 (r : DidClasico.panel_row) : option str :=
  BuildPanelT1.panel_group_t1 (DidClasico.t1 r).

Definition anio (r : DidClasico.panel_row) : Z :=
  BuildPanelT1.panel_anio (DidClasico.t1 r).

Definition sec_ejec (r : DidClasico.panel_row) : option str :=
  BuildPanelT1.panel_sec_ejec (DidClasico.t1 r).

(** [panel[(panel["group_t1"] == g) & period]["cumple_v4"]] *)
Definition cell (g : string) (period : Z -> bool) (panel : list DidClasico.panel_row)
  : list Q :=
  DidClasico.cumple_v4
    <$> List.filter (fun r => bool_decide (group_t1 r = Some (py g)) && period (anio r)) panel.

Definition pre (a : Z) : bool := a <=? 2024.
Definition post (a : Z) : bool := a =? 2025.

(** [panel[panel["group_t1"] == g]["sec_ejec"].nunique()]: the distinct
    codes, a missing one not counted. *)
Definition nunique (g : string) (panel : list DidClasico.panel_row) : nat :=
  length
    (Pandas.drop_duplicates id
       (omap sec_ejec (List.filter (fun r => bool_decide (group_t1 r = Some (py g))) panel))).

Definition compute_did_manual (panel : list DidClasico.panel_row) : result :=
  let always_pre := Pandas.mean (cell "ALWAYS_IN" pre panel) in
  let always_post := Pandas.mean (cell "ALWAYS_IN" post panel) in
  let switch_pre := Pandas.mean (cell "SWITCHER" pre panel) in
  let switch_post := Pandas.mean (cell "SWITCHER" post panel) in
  let diff_always := fsub always_post always_pre in
  let diff_switch := fsub switch_post switch_pre in
  let did := fsub diff_switch diff_always in
  {| always_in_pre := always_pre; always_in_post := always_post;
     always_in_diff := diff_always;
     switcher_pre := switch_pre; switcher_post := switch_post;
     switcher_diff := diff_switch;
     did_manual := did;
     n_always_in := nunique "ALWAYS_IN" panel;
     n_switcher := nunique "SWITCHER" panel |}.

(** A sample panel: the panel the script builds from a roster with an
    early adopter and a switcher, with the identity in place of [log1p]. *)
Definition sample_panel : list DidClasico.panel_row :=
  DidClasico.build_panel (fun x => x)
    (BuildPanelT1.run BuildPanelT1.budget_ok BuildPanelT1.roster_ok) Diagnostics.sample_cmn.

End DidManual.

(** ** padron_largo.csv: from [main] of padron_export.py to [read_padron] *)

Module PadronFile.
Import PyStr.

Section ReadPadron.
Variable upper : str -> str.

(** [pd.read_csv(path, dtype=str, encoding="utf-8-sig")] on one cell that
    [csv.DictWriter] wrote from a text: the text, or NaN for the empty
    cell and for the texts pandas reads as missing. *)
Variable read_cell : str -> option str.

(** [pd.to_numeric(cell, errors="coerce")] followed by
    [.astype("Int64")], on one cell. *)
Variable to_numeric : option str -> option Z.

(** [.str.upper().str.strip()], which leaves NaN as it is. *)
Definition upper_strip (cell : option str) : option str :=
  (fun s => strip (upper s)) <$> cell.

(** The row of [read_padron(path)] for a row that [writer.writerow] wrote;
    the year was written by [str]. *)
Definition read_row (o : PadronExport.out_row) : BuildPanelT1.padron_row :=
  {| BuildPanelT1.p_sec_ejec :=
       Utils.str_replace_nondigit
         (BudgetFile.astype_str (read_cell (PadronExport.sec_ejec o)));
     BuildPanelT1.p_anio := to_numeric (read_cell (str_of_int (PadronExport.anio o)));
     BuildPanelT1.siga_implementado :=
       upper_strip (read_cell (PadronExport.siga_implementado o));
     BuildPanelT1.categoria := upper_strip (read_cell (PadronExport.categoria o)) |}.

Definition read_padron (file : list PadronExport.out_row)
  : list BuildPanelT1.padron_row :=
  read_row <$> file.

(** The roster the panel builder reads when the file is the one that
    padron_export.py wrote from the two tables of the data base. *)
Definition exported (hist_rows : list PadronExport.hist_row)
  (rows_2025 : list PadronExport.nov2025_row) : list BuildPanelT1.padron_row :=
  read_padron (PadronExport.main upper hist_rows rows_2025).

(** The four year cells of the file are read back as the years. *)
Definition years_read_back : Prop :=
  forall y, y ∈ [2022; 2023; 2024; 2025] ->
    to_numeric (read_cell (str_of_int y)) = Some y.

End ReadPadron.

(** *** Sample tables *)

(** A cell is missing when it is empty. *)
Definition sample_read_cell (s : str) : option str :=
  if bool_decide (s = []) then None else Some s.

Definition sample_to_numeric (cell : option str) : option Z :=
  match cell with
  | Some s => match Builtins.py_int 4300 s with inl n => Some n | inr _ => None end
  | None => None
  end.

Definition hist (se : string) (s22 s23 s24 : Utils.value) : PadronExport.hist_row :=
  {| PadronExport.h_sec_ejec := Utils.VStr (py se);
     PadronExport.h_nombre_ejecutora := None;
     PadronExport.h_region := None;
     PadronExport.h_provincia := None;
     PadronExport.h_distrito := None;
     PadronExport.h_categoria := Some (py "MUNICIPALIDADES");
     PadronExport.ano_2022 := s22;
     PadronExport.ano_2023 := s23;
     PadronExport.ano_2024 := s24 |}.

Definition nov2025 (se : string) : PadronExport.nov2025_row :=
  {| PadronExport.n_sec_ejec := Utils.VStr (py se);
     PadronExport.n_nombre_ejecutora := None;
     PadronExport.n_region := None;
     PadronExport.n_provincia := None;
     PadronExport.n_distrito := None;
     PadronExport.n_categoria := Some (py "MUNICIPALIDADES") |}.

(** An early adopter, a switcher and an entrant; the first is twice in
    the roster of 2025. *)
Definition sample_hist : list PadronExport.hist_row :=
  [hist "300686" Utils.VNone (Utils.VStr (py "SI")) (Utils.VStr (py "SI"));
   hist "300687" (Utils.VStr (py "NO")) (Utils.VStr (py "NO")) (Utils.VStr (py "NO"))].

Definition sample_2025 : list PadronExport.nov2025_row :=
  [nov2025 "300686"; nov2025 "300687"; nov2025 "300688"; nov2025 "300686"].

Definition sample_exported : list BuildPanelT1.padron_row :=
  exported PadronIndex.ascii_upper sample_read_cell sample_to_numeric
    sample_hist sample_2025.

End PadronFile.

(** ** scraping/build_panel_t1.py: what the roster says of an entity *)

Module RosterFacts.
Import PyStr BuildPanelT1.

(** The roster has a municipality row of the entity [k], in one of the
    [years], with the given status. *)
Definition has_status (padron : list padron_row) (k : str) (years : list Z)
  (status : string) : Prop :=
  exists r, r ∈ muni_of padron /\ p_sec_ejec r = k /\ anio_isin years r = true
    /\ siga_implementado r = Some (py status).

(** The table of groups has a row of the entity [k] with the label. *)
Definition labelled (padron : list padron_row) (k : str) (lbl : string) : Prop :=
  exists g, g ∈ (build_groups padron).2 /\ g_sec_ejec g = k /\ group_t1 g = py lbl.

End RosterFacts.

(** ** scraping/build_panel_t2.py *)

Module BuildPanelT2.
Import PyStr BuildPanelT1.

(** [(muni["siga_implementado"] == "SI").astype(int)] *)
Definition s_it_of (r : padron_row) : Z :=
  if eq_lit "SI" (siga_implementado r) then 1 else 0.

(** The key of a roster row for [groupby(["sec_ejec", "anio"])]; a row
    without year belongs to no group. *)
Definition year_key (r : padron_row) : option (str * Z) :=
  (fun a => (p_sec_ejec r, a)) <$> p_anio r.

(** The order of the group keys: by code, then by year. *)
Definition key_leb (a b : str * Z) : bool :=
  if bool_decide (a.1 = b.1) then a.2 <=? b.2 else str_leb a.1 b.1.

Definition sort_year_keys (ks : list (str * Z)) : list (str * Z) :=
  merge_sort (fun a b => Is_true (key_leb a b)) ks.

Record padron_year_row := {
  y_sec_ejec : str;
  y_anio : Z;
  s_it : Z
}.

(** The aggregation "max" on a column of indicators (0 or 1) of a group,
    which has at least one row. *)
Definition zmax (col : list Z) : Z := foldr Z.max 0 col.

Definition build_padron_year (padron : list padron_row) : list padron_year_row :=
  let muni := muni_of padron in
  (fun k =>
     {| y_sec_ejec := k.1; y_anio := k.2;
        s_it := zmax (s_it_of <$> List.filter (fun r => bool_decide (year_key r = Some k)) muni) |})
    <$> sort_year_keys (Pandas.drop_duplicates id (omap year_key muni)).

(** A cell of the pivot table: the maximum of [s_it] over the rows of the
    entity and year, [fill_value] (or the column added afterwards) when
    there is none. *)
Definition pivot (padron_year : list padron_year_row) (sec : str) (year : Z) : Z :=
  match List.filter (fun y => bool_decide (y_sec_ejec y = sec /\ y_anio y = year)) padron_year with
  | [] => 0
  | rows => zmax (s_it <$> rows)
  end.

Record always_in_row := {
  a_sec_ejec : str;
  siga_always_in : Z
}.

Definition build_always_in (padron_year : list padron_year_row) : list always_in_row :=
  (fun sec =>
     {| a_sec_ejec := sec;
        siga_always_in :=
          BuildPanelCmn.astype_int
            ((pivot padron_year sec 2022 =? 1) && (pivot padron_year sec 2023 =? 1)
             && (pivot padron_year sec 2024 =? 1) && (pivot padron_year sec 2025 =? 1)) |})
    <$> sort_keys (Pandas.drop_duplicates id (y_sec_ejec <$> padron_year)).

(** [cmn_cols] of [build_panel]: the columns of the CMN table other than
    the two keys, in the order of the table. *)
Definition cmn_cols : list (BuildPanelCmn.cmn_flags -> Z) :=
  [(fun c => BuildPanelCmn.has_f1 (BuildPanelCmn.base c));
   (fun c => BuildPanelCmn.has_f2 (BuildPanelCmn.base c));
   (fun c => BuildPanelCmn.has_f3 (BuildPanelCmn.base c));
   (fun c => BuildPanelCmn.has_mef (BuildPanelCmn.base c));
   (fun c => BuildPanelCmn.has_minedu (BuildPanelCmn.base c));
   (fun c => BuildPanelCmn.has_f1_mef (BuildPanelCmn.base c));
   (fun c => BuildPanelCmn.has_f2_mef (BuildPanelCmn.base c));
   (fun c => BuildPanelCmn.has_f3_mef (BuildPanelCmn.base c));
   (fun c => BuildPanelCmn.has_f1_minedu (BuildPanelCmn.base c));
   (fun c => BuildPanelCmn.has_f2_minedu (BuildPanelCmn.base c));
   (fun c => BuildPanelCmn.has_f3_minedu (BuildPanelCmn.base c));
   BuildPanelCmn.cumple_v4; BuildPanelCmn.cumple_mef; BuildPanelCmn.cumple_minedu;
   BuildPanelCmn.cumple_cross].

(** A row of the T2 panel: the budget row, the two roster columns, the
    values of the columns [cmn_cols] and the three columns computed. *)
Record panel_t2_row := {
  t2_budget : presupuesto_row;
  t2_s_it : option Z;
  t2_siga_always_in : option Z;
  cmn_values : list (option Z);
  cmn_present : Z;
  t_it : option Z;
  t_it_applicable : Z
}.

(** [panel.merge(padron_year, on=["sec_ejec", "anio"], how="left")] *)
Definition merge_padron_year (presupuesto : list presupuesto_row)
  (padron_year : list padron_year_row) : list (presupuesto_row * option Z) :=
  Pandas.merge_left
    (fun (b : presupuesto_row) (y : padron_year_row) =>
       bool_decide (BuildPanelBudgetMuni.sec_ejec b = Some (y_sec_ejec y)
                    /\ BuildPanelBudgetMuni.anio b = y_anio y))
    (fun b y => (b, s_it <$> y))
    presupuesto padron_year.

(** [panel.merge(always_in, on="sec_ejec", how="left")] *)
Definition merge_always_in (panel : list (presupuesto_row * option Z))
  (always_in : list always_in_row) : list (presupuesto_row * option Z * option Z) :=
  Pandas.merge_left
    (fun (m : presupuesto_row * option Z) (a : always_in_row) =>
       bool_decide (BuildPanelBudgetMuni.sec_ejec m.1 = Some (a_sec_ejec a)))
    (fun m a => (m, siga_always_in <$> a))
    panel always_in.

(** [panel.merge(cmn, on=["sec_ejec", "anio"], how="left")] *)
Definition merge_cmn (panel : list (presupuesto_row * option Z * option Z))
  (cmn : list BuildPanelCmn.cmn_flags)
  : list (presupuesto_row * option Z * option Z * option BuildPanelCmn.cmn_flags) :=
  Pandas.merge_left
    (fun (m : presupuesto_row * option Z * option Z) (c : BuildPanelCmn.cmn_flags) =>
       bool_decide
         (BuildPanelBudgetMuni.sec_ejec m.1.1
          = Some (BuildPanelCmn.sec_ejec (BuildPanelCmn.base c))
          /\ BuildPanelBudgetMuni.anio m.1.1 = BuildPanelCmn.anio (BuildPanelCmn.base c)))
    (fun m c => (m, c))
    panel cmn.

(** The columns computed on the merged frame: [cmn_present] before the
    missing values are filled, [t_it] after, and the rows whose [s_it] is
    not 1 blanked on [t_it] and the CMN columns. *)
Definition finish_t2
  (m : presupuesto_row * option Z * option Z * option BuildPanelCmn.cmn_flags)
  : panel_t2_row :=
  let merged := (fun col => col <$> m.2) <$> cmn_cols in
  let present := BuildPanelCmn.astype_int (bool_decide (is_Some (BuildPanelCmn.cumple_v4 <$> m.2))) in
  let filled := default 0 <$> merged in
  let cumple_v4 := default 0 (BuildPanelCmn.cumple_v4 <$> m.2) in
  let applicable := bool_decide (m.1.1.2 = Some 1) in
  {| t2_budget := m.1.1.1;
     t2_s_it := m.1.1.2;
     t2_siga_always_in := m.1.2;
     cmn_values := (fun v => if applicable then Some v else None) <$> filled;
     cmn_present := present;
     t_it := if applicable then Some cumple_v4 else None;
     t_it_applicable := BuildPanelCmn.astype_int applicable |}.

Definition build_panel (presupuesto : list presupuesto_row)
  (cmn : list BuildPanelCmn.cmn_flags) (padron_year : list padron_year_row)
  (always_in : list always_in_row) : list panel_t2_row :=
  finish_t2
    <$> merge_cmn (merge_always_in (merge_padron_year presupuesto padron_year) always_in) cmn.

(** [main], from the budget table, the roster and the CMN fact table to
    the panel. *)
Definition run (presupuesto : list presupuesto_row) (padron : list padron_row)
  (facts : list BuildPanelCmn.fact_cmn_fase) : list panel_t2_row :=
  let padron_year := build_padron_year padron in
  let always_in := build_always_in padron_year in
  build_panel presupuesto (BuildPanelCmn.build_flags (BuildPanelCmn.fetch_cmn_base facts))
    padron_year always_in.

End BuildPanelT2.

(** ** analisis/oaxaca_blinder/run_oaxaca_blinder.py: [multi_year_aggregate] *)

Module MultiYear.
Import PyStr Float Analisis OaxacaBlinder.

(** A row of the frame [multi_year_aggregate] returns. *)
Record period_row := {
  period : str;
  r_base : float;
  r_target_AI : float;
  r_target_ENTRY : float;
  n_AI : nat;
  n_ENTRY : nat;
  delta_total_pp : float;
  delta_behavior_pp : float;
  delta_composition_pp : float
}.

(** [np.isnan] *)
Definition isnan (x : float) : bool :=
  match x with
  | Some _ => false
  | None => true
  end.

(** [f"{base_year}->{target_year}"] *)
Definition period_name (base_year target_year : Z) : str :=
  str_of_int base_year ++ py "->" ++ str_of_int target_year.

(** The body of the loop for one base year: the row appended, if any. *)
Definition year_pair (panel : list panel_row) (base_year : Z) : option period_row :=
  let target_year := base_year + 1 in
  if 2025 <? target_year then None
  else
    let a_base := select base_year "ALWAYS_IN" panel in
    let a_target := select target_year "ALWAYS_IN" panel in
    let e_target := select target_year "ENTRY" panel in
    if (length a_base =? 0)%nat || (length a_target =? 0)%nat then None
    else
      let r_base := Pandas.mean (cumple_v4 <$> a_base) in
      let r_target := Pandas.mean (cumple_v4 <$> a_target) in
      let r_entry :=
        if (0 <? length e_target)%nat then Pandas.mean (cumple_v4 <$> e_target) else nan in
      let n_a := length a_target in
      let n_e := if (0 <? length e_target)%nat then length e_target else 0%nat in
      let n_total := (n_a + n_e)%nat in
      let w_a := if (0 <? n_total)%nat then (of_nat n_a / of_nat n_total)%Q else 1%Q in
      let w_e := if (0 <? n_total)%nat then (of_nat n_e / of_nat n_total)%Q else 0%Q in
      let delta_behavior := fmul (Some w_a) (fsub r_target r_base) in
      let delta_composition :=
        if negb (isnan r_entry) then fmul (Some w_e) (fsub r_entry r_base) else Some 0%Q in
      let delta_total := fadd delta_behavior delta_composition in
      Some {| period := period_name base_year target_year;
              r_base := r_base;
              r_target_AI := r_target;
              r_target_ENTRY := r_entry;
              n_AI := n_a;
              n_ENTRY := n_e;
              delta_total_pp := fmul delta_total (Some 100%Q);
              delta_behavior_pp := fmul delta_behavior (Some 100%Q);
              delta_composition_pp := fmul delta_composition (Some 100%Q) |}.

Definition multi_year_aggregate (panel : list panel_row) : list period_row :=
  omap (year_pair panel) [2022; 2023; 2024].

End MultiYear.

(** ** scraping/scraper.py: the entity code of a scraped row *)

Module ScraperRows.
Import PyStr.

Section Regex.
(** The class [\w] of [re] on a [str] pattern. *)
Variable is_word : N -> bool.

Definition word_at (c : option N) : bool := from_option is_word false c.

(** [\b] between two neighbouring positions ([None]: start or end of the
    text). *)
Definition boundary (before after : option N) : bool :=
  xorb (word_at before) (word_at after).

(** [\d{k}] followed by [\b], at the head of [text]. *)
Definition match_len (text : str) (k : nat) : bool :=
  (length (take k text) =? k)%nat
  && forallb is_unicode_digit (take k text)
  && boundary (last (take k text)) (head (drop k text)).

(** The pattern [\b(\d{3,6})\b] at the head of [text], [before] being the
    character in front of it: the repetition is greedy, so the longest
    count is tried first. *)
Definition match_at (before : option N) (text : str) : option str :=
  if boundary before (head text)
  then (fun k => take k text) <$> List.find (match_len text) [6; 5; 4; 3]%nat
  else None.

(** [re.findall]: the matches from left to right, the search going on
    after the end of a match; [skip] characters belong to the last match. *)
Fixpoint findall_from (before : option N) (skip : nat) (text : str) : list str :=
  match text with
  | [] => []
  | c :: rest =>
      match skip with
      | S n => findall_from (Some c) n rest
      | O =>
          match match_at before text with
          | Some tok => tok :: findall_from (Some c) (length tok - 1) rest
          | None => findall_from (Some c) 0 rest
          end
      end
  end.

Definition findall (text : str) : list str := findall_from None 0 text.

(** [max(tokens, key=len)]: the first of the longest. *)
Definition max_by_len (tokens : list str) : str :=
  match tokens with
  | [] => []
  | t :: ts => foldl (fun best tok => if (length best <? length tok)%nat then tok else best) t ts
  end.

(** [if padron_set:] *)
Definition truthy_set (padron_set : option (gset str)) : bool :=
  match padron_set with
  | Some s => negb (bool_decide (s = ∅))
  | None => false
  end.

Definition in_set (padron_set : option (gset str)) (tok : str) : bool :=
  match padron_set with
  | Some s => bool_decide (tok ∈ s)
  | None => false
  end.

Definition extract_sec_ejec_from_text (text : str) (padron_set : option (gset str)) : str :=
  if bool_decide (text = []) then []
  else
    let tokens := findall text in
    match (if truthy_set padron_set then List.find (in_set padron_set) tokens else None) with
    | Some tok => tok
    | None =>
        match tokens with
        | [] => []
        | _ => max_by_len tokens
        end
    end.

Variable upper : str -> str.

(** [_find_header_index]: the headers from position [idx] on. *)
Fixpoint find_header_from (patterns : list str) (idx : nat) (headers : list str)
  : option nat :=
  match headers with
  | [] => None
  | header :: rest =>
      let text := upper (strip header) in
      if existsb (fun pat => contains pat text) patterns then Some idx
      else find_header_from patterns (S idx) rest
  end.

Definition _find_header_index (headers patterns : list str) : option nat :=
  find_header_from patterns 0 headers.

(** A cell of a scraped row: [extract_data_by_year] puts the year, a
    number, in front of the texts of the table. *)
Inductive cell :=
| CInt (n : Z)
| CStr (s : str).

Definition is_text (c : cell) : Prop := exists s, c = CStr s.

(** [[year] + row] *)
Definition scraped_row (r : Z * list str) : list cell := CInt r.1 :: (CStr <$> r.2).

Inductive exn := KeyError | TypeError.

(** [extract_sec_ejec]; on a cell that is a number other than 0,
    [re.findall] raises TypeError. *)
Definition extract_sec_ejec (route_name : str) (headers : list str) (row : list cell)
  (padron_set : option (gset str)) : str + exn :=
  let idx :=
    if bool_decide (route_name = py "MUNICIPALIDADES")
    then _find_header_index headers [py "MUNICIPALIDAD"]
    else _find_header_index headers [py "UNIDAD EJECUTORA"] in
  match idx with
  | None => inl []
  | Some i =>
      match row !! i with
      | None => inl []
      | Some (CStr text) => inl (extract_sec_ejec_from_text text padron_set)
      | Some (CInt n) => if n =? 0 then inl [] else inr TypeError
      end
  end.

(** [FILE_CONFIGS[route_name]["ENCABEZADOS_BASE"]] of routes.py; [None]
    stands for the KeyError of another route name. *)
Definition ENCABEZADOS_BASE (route_name : str) : option (list str) :=
  let anio := py "A" ++ [241%N] ++ py "o" in
  if bool_decide (route_name = py "MUNICIPALIDADES")
  then Some [anio; py "Departamento"; py "Provincia"]
  else if bool_decide (route_name = py "SECTORES")
  then Some [anio; py "Sector"; py "Pliego"]
  else if bool_decide (route_name = py "GOBIERNOS_REGIONALES")
  then Some [anio; py "Departamento"]
  else None.

(** [padron_index.get(year, {}).get(category)] under
    [if padron_index and category:]. *)
Definition sec_set_of (padron_index : option PadronIndex.index) (category : option str)
  (year : Z) : option (gset str) :=
  match padron_index, category with
  | Some idx, Some cat =>
      if negb (bool_decide (idx = ∅)) && negb (bool_decide (cat = []))
      then (idx !! year) ≫= (fun ym => ym !! cat)
      else None
  | _, _ => None
  end.

(** The loop over [rows] of [run_scrape]. *)
Fixpoint filtered (route_name : str) (table_headers : list str) (n_base : nat)
  (sec_set : gset str) (rows : list (list cell)) : list (list cell) + exn :=
  match rows with
  | [] => inl []
  | row :: rest =>
      match extract_sec_ejec route_name table_headers (drop n_base row) (Some sec_set) with
      | inr e => inr e
      | inl sec =>
          match filtered route_name table_headers n_base sec_set rest with
          | inr e => inr e
          | inl out =>
              inl (if negb (bool_decide (sec = [])) && bool_decide (sec ∈ sec_set)
                   then (row ++ [CStr sec]) :: out
                   else out)
          end
      end
  end.

(** What [run_scrape] saves for a year, from the rows and the table headers
    the browser gave: the headers and the rows of the CSV. *)
Definition rows_to_save (route_name : str) (year : Z)
  (padron_index : option PadronIndex.index) (category : option str)
  (table_headers : list str) (rows : list (list cell))
  : (list str * list (list cell)) + exn :=
  match ENCABEZADOS_BASE route_name with
  | None => inr KeyError
  | Some base_headers =>
      let full_headers := base_headers ++ table_headers in
      match sec_set_of padron_index category year with
      | Some sec_set =>
          if bool_decide (sec_set = ∅) then inl (full_headers, rows)
          else
            match filtered route_name table_headers (length base_headers) sec_set rows with
            | inr e => inr e
            | inl out => inl (full_headers ++ [py "SEC_EJEC_EXTRACTED"], out)
            end
      | None => inl (full_headers, rows)
      end
  end.

End Regex.

(** The ASCII part of [\w], for examples. *)
Definition ascii_word (c : N) : bool :=
  is_unicode_digit c || in_range 65 90 c || in_range 97 122 c || (c =? 95)%N.

End ScraperRows.

(** ** scraping/scraper.py: the loop of [run_scrape] over the years *)

Module RunScrape.
Import PyStr ScraperRows.

(** The JSON object of a checkpoint file. *)
Record checkpoint := {
  ck_headers : list str;
  ck_rows : list (list cell);
  completed : bool
}.

(** [f"checkpoint_{route_name}_{year}.json"], in CHECKPOINT_DIR. *)
Definition checkpoint_name (route_name : str) (year : Z) : str :=
  py "checkpoint_" ++ route_name ++ py "_" ++ str_of_int year ++ py ".json".

(** [f"{route_name}_{year}.csv"], in the output directory. *)
Definition csv_name (route_name : str) (year : Z) : str :=
  route_name ++ py "_" ++ str_of_int year ++ py ".csv".

(** The files of the two directories, by name. *)
Record files := {
  checkpoints : gmap str checkpoint;
  csvs : gmap str (list str * list (list cell))
}.

Definition load_checkpoint (route_name : str) (year : Z) (fs : files) : option checkpoint :=
  checkpoints fs !! checkpoint_name route_name year.

Definition save_checkpoint (route_name : str) (year : Z) (headers : list str)
  (rows : list (list cell)) (flag : bool) (fs : files) : files :=
  {| checkpoints :=
       <[checkpoint_name route_name year :=
           {| ck_headers := headers; ck_rows := rows; completed := flag |}]> (checkpoints fs);
     csvs := csvs fs |}.

Definition save_csv (route_name : str) (year : Z) (headers : list str)
  (rows : list (list cell)) (fs : files) : files :=
  {| checkpoints := checkpoints fs;
     csvs := <[csv_name route_name year := (headers, rows)]> (csvs fs) |}.

(** What ends the loop early: an exception of the browser, or one of the
    filter. *)
Inductive failure :=
| BrowserError (e : Scraper.exn)
| FilterError (e : ScraperRows.exn).

Section Loop.
Context {W : Type}.
Variable is_word : N -> bool.
Variable upper : str -> str.
(** [scraper.extract_data_by_year(year, route_name, table_headers)] acts on
    the browser; it fills [table_headers] and returns the rows, or raises. *)
Variable extract_data_by_year :
  Z -> str -> W -> (list str * list (Z * list str) + Scraper.exn) * W.

(** The result of the loop: the exception that ended it, if any, the
    browser, the files, and the years scraped, in order. *)
Record outcome := {
  raised : option failure;
  browser : W;
  disk : files;
  scraped : list Z
}.

Fixpoint run_years (route_name : str) (padron_index : option PadronIndex.index)
  (category : option str) (resume : bool) (years : list Z) (w : W) (fs : files)
  : outcome :=
  match years with
  | [] => {| raised := None; browser := w; disk := fs; scraped := [] |}
  | year :: rest =>
      let ck := if resume then load_checkpoint route_name year fs else None in
      if from_option completed false ck
      then run_years route_name padron_index category resume rest w fs
      else
        match extract_data_by_year year route_name w with
        | (inr e, w') =>
            {| raised := Some (BrowserError e); browser := w'; disk := fs;
               scraped := [year] |}
        | (inl (table_headers, data), w') =>
            match rows_to_save is_word upper route_name year padron_index category
                    table_headers (scraped_row <$> data) with
            | inr e =>
                {| raised := Some (FilterError e); browser := w'; disk := fs;
                   scraped := [year] |}
            | inl (full_headers, rows) =>
                let fs' :=
                  save_checkpoint route_name year full_headers rows true
                    (save_csv route_name year full_headers rows fs) in
                let r := run_years route_name padron_index category resume rest w' fs' in
                {| raised := raised r; browser := browser r; disk := disk r;
                   scraped := year :: scraped r |}
            end
        end
  end.

(** The year has a checkpoint marked completed. *)
Definition is_completed (route_name : str) (year : Z) (fs : files) : Prop :=
  exists ck, load_checkpoint route_name year fs = Some ck /\ completed ck = true.

End Loop.

End RunScrape.

(** ** scraping/run_parallel.py *)

Module RunParallel.
Import PyStr.

(** What happens to the subprocess of a year: [subprocess.run] returns,
    [subprocess.run] raises an exception (its text is kept), or the worker
    breaks and [future.result()] raises. *)
Inductive job :=
| Exited (returncode : Z) (stderr : str)
| RunRaised (message : str)
| FutureRaised (message : str).

(** [s[-500:]] *)
Definition last_500 (s : str) : str := drop (length s - 500) s.

(** [run_single_year], seen from [future.result()]: the tuple returned, or
    the text of the exception. *)
Definition run_single_year (year : Z) (j : job) : (Z * Z * str) + str :=
  match j with
  | Exited returncode stderr =>
      if returncode =? 0 then inl (year, 0, py "OK")
      else
        inl (year, returncode,
             if bool_decide (stderr = []) then py "Error desconocido" else last_500 stderr)
  | RunRaised message => inl (year, 1, message)
  | FutureRaised message => inr message
  end.

(** The body of the loop [for future in as_completed(futures)]. *)
Definition collect (results : gmap Z (Z * str)) (f : Z * job) : gmap Z (Z * str) :=
  match run_single_year f.1 f.2 with
  | inl (yr, code, msg) => <[yr := (code, msg)]> results
  | inr message => <[f.1 := (1, message)]> results
  end.

(** The value [main] returns, for the futures in the order they complete. *)
Definition main (completed : list (Z * job)) : Z :=
  let results := foldl collect ∅ completed in
  let failed :=
    length (List.filter (fun v : Z * str => negb (v.1 =? 0)) (map_to_list results).*2) in
  if (failed =? 0)%nat then 0 else 1.

End RunParallel.

(** ** scraping/scraper.py: the retry loops of the click methods *)

Module ScraperClicks.
Import Scraper.

(** What a method does besides returning or raising: a pass through the
    [try] body, [_sleep_random(base)], and the record [logger.error]
    writes. *)
Inductive step :=
| Try
| SleepRandom (base : Q)
| LogError.

(** The method returns [None], or raises. *)
Inductive result :=
| Done
| Failed (e : exn).

Section Loop.
Context {W : Type}.
(** The body of the [try]: wait for the element and act on it. *)
Variable body : W -> (unit + exn) * W.

(** The loop [for attempt in range(retries)] from [attempt] on, with
    [remaining] iterations left. [handler] gives, for the class of an
    exception, the [except] clause that catches it: the base of its sleep
    and whether it logs before raising; [None] when no clause does. *)
Fixpoint attempts (handler : exn_class -> option (Q * bool)) (retries : Z)
  (remaining : nat) (attempt : Z) (w : W) : result * W * list step :=
  match remaining with
  | O => (Done, w, [])
  | S remaining' =>
      match body w with
      | (inl _, w') => (Done, w', [Try])
      | (inr e, w') =>
          match handler (class e) with
          | None => (Failed e, w', [Try])
          | Some (base, log) =>
              if attempt =? retries - 1
              then (Failed e, w', Try :: (if log then [LogError] else []))
              else
                let '(r, w'', evs) :=
                  attempts handler retries remaining' (attempt + 1) w' in
                (r, w'', Try :: SleepRandom base :: evs)
          end
      end
  end.

Definition stale_only (c : exn_class) : option (Q * bool) :=
  match c with
  | StaleElementReferenceException => Some (1 # 2, false)
  | _ => None
  end.

Definition stale_or_timeout (c : exn_class) : option (Q * bool) :=
  match c with
  | StaleElementReferenceException => Some (1 # 2, false)
  | TimeoutException => Some (1%Q, true)
  | _ => None
  end.

(** [click_on_element] and [select_dropdown_option] have the same loop,
    around different bodies. *)
Definition click_on_element (retries : Z) (w : W) : result * W * list step :=
  attempts stale_only retries (Z.to_nat retries) 0 w.

Definition click_by_text (retries : Z) (w : W) : result * W * list step :=
  attempts stale_or_timeout retries (Z.to_nat retries) 0 w.

End Loop.

Definition tries (evs : list step) : nat :=
  length (List.filter (fun s => match s with Try => true | _ => false end) evs).

Definition sleeps (evs : list step) : list Q :=
  omap (fun s => match s with SleepRandom b => Some b | _ => None end) evs.

End ScraperClicks.

(** * Properties *)

(** ** Frames *)

Module PandasFacts.
Import Pandas.

Section Frames.
Context {A B C K : Type} `{EqDecision K}.
Implicit Types (key : A -> K) (df : list A) (seen : list K).

Lemma elem_of_drop_duplicates_from key seen df x :
  x ∈ drop_duplicates_from key seen df -> x ∈ df /\ key x ∉ seen.
Proof.
  revert seen. induction df as [|r df IH]; intros seen; simpl.
  - intros Hx. inversion Hx.
  - destruct (decide (key r ∈ seen)) as [Hin|Hin].
    + intros Hx. destruct (IH _ Hx). split; [by right | done].
    + intros Hx. apply elem_of_cons in Hx as [->|Hx].
      * split; [by left | done].
      * destruct (IH _ Hx) as [? Hns]. split; [by right |].
        intros ?. apply Hns. by right.
Qed.

Lemma NoDup_drop_duplicates_from key seen df :
  NoDup (key <$> drop_duplicates_from key seen df).
Proof.
  revert seen. induction df as [|r df IH]; intros seen; simpl.
  - constructor.
  - destruct (decide (key r ∈ seen)); [apply IH |].
    rewrite fmap_cons. constructor; [| apply IH].
    intros Hin. apply list_elem_of_fmap in Hin as (y & Hy & Hin).
    apply elem_of_drop_duplicates_from in Hin as [_ Hns].
    apply Hns. rewrite Hy. by left.
Qed.

Lemma drop_duplicates_from_keeps key seen df x :
  x ∈ df -> key x ∉ seen ->
  key x ∈ key <$> drop_duplicates_from key seen df.
Proof.
  revert seen. induction df as [|r df IH]; intros seen Hx Hns; simpl.
  - inversion Hx.
  - destruct (decide (key r ∈ seen)) as [Hin|Hin].
    + apply elem_of_cons in Hx as [->|Hx]; [done | by apply IH].
    + rewrite fmap_cons.
      destruct (decide (key x = key r)) as [->|Hne]; [by left |].
      right. apply elem_of_cons in Hx as [->|Hx]; [done |].
      apply IH; [done |]. intros Hc. apply elem_of_cons in Hc as [?|?]; done.
Qed.

Lemma NoDup_drop_duplicates key df : NoDup (key <$> drop_duplicates key df).
Proof. apply NoDup_drop_duplicates_from. Qed.

Lemma elem_of_drop_duplicates key df x : x ∈ drop_duplicates key df -> x ∈ df.
Proof. intros Hx. by apply elem_of_drop_duplicates_from in Hx as [? _]. Qed.

Lemma drop_duplicates_keys key df k :
  k ∈ key <$> drop_duplicates key df <-> k ∈ key <$> df.
Proof.
  split; intros Hk; apply list_elem_of_fmap in Hk as (x & -> & Hx).
  - apply list_elem_of_fmap. exists x. split; [done |].
    by apply elem_of_drop_duplicates in Hx.
  - apply drop_duplicates_from_keeps; [done |]. intros Hn. inversion Hn.
Qed.

Implicit Types (matches : A -> B -> bool) (join : A -> option B -> C).

(** Where a row of a left merge comes from. *)
Lemma elem_of_merge_left matches join (left : list A) (right : list B) c :
  c ∈ merge_left matches join left right <->
  exists a, a ∈ left /\
    ((List.filter (matches a) right = [] /\ c = join a None)
     \/ exists b, b ∈ right /\ matches a b = true /\ c = join a (Some b)).
Proof.
  unfold merge_left. rewrite list_elem_of_bind. split.
  - intros (a & Hc & Ha). exists a. split; [done |].
    destruct (List.filter (matches a) right) as [|b0 bs] eqn:Hf.
    + left. apply list_elem_of_singleton in Hc. done.
    + right. apply list_elem_of_fmap in Hc as (b & -> & Hb).
      exists b. rewrite <- Hf in Hb. apply list_elem_of_In, filter_In in Hb as [Hb Hm].
      by apply list_elem_of_In in Hb.
  - intros (a & Ha & [[Hf ->]|(b & Hb & Hm & ->)]); exists a; (split; [| done]).
    + rewrite Hf. by left.
    + assert (Hin : b ∈ List.filter (matches a) right).
      { apply list_elem_of_In, filter_In. by rewrite <- list_elem_of_In. }
      destruct (List.filter (matches a) right); [inversion Hin |].
      apply list_elem_of_fmap. by exists b.
Qed.

(** When every row of the left frame matches at most one row of the right
    frame, a left merge keeps the rows of the left frame as they are: none
    is lost and none is repeated. *)
Lemma merge_left_rows matches join (proj : C -> A) (left : list A) (right : list B) :
  (forall a b, proj (join a b) = a) ->
  (forall a, a ∈ left -> (length (List.filter (matches a) right) <= 1)%nat) ->
  proj <$> merge_left matches join left right = left.
Proof.
  intros Hproj. unfold merge_left.
  induction left as [|a left IH]; intros Hone; [done |].
  rewrite bind_cons, fmap_app, IH.
  2: { intros a' Ha'. apply Hone. by right. }
  assert (H1 := Hone a ltac:(by left)).
  destruct (List.filter (matches a) right) as [|b [|b' bs]]; simpl in *.
  - by rewrite Hproj.
  - by rewrite Hproj.
  - lia.
Qed.

End Frames.

(** A selection that fixes the key, on a frame whose keys are distinct,
    keeps at most one row. *)
Lemma filter_key_NoDup {A K} (key : A -> K) (p : A -> bool) (df : list A) :
  NoDup (key <$> df) ->
  (forall x y, p x = true -> p y = true -> key x = key y) ->
  (length (List.filter p df) <= 1)%nat.
Proof.
  intros Hnd Hp. induction df as [|r df IH]; simpl; [lia |].
  rewrite fmap_cons in Hnd. apply NoDup_cons in Hnd as [Hr Hnd].
  destruct (p r) eqn:Hpr; [| by apply IH].
  simpl. assert (List.filter p df = []) as ->; [| simpl; lia].
  destruct (List.filter p df) as [|x l] eqn:Hf; [done |].
  exfalso. assert (Hx : In x (List.filter p df)) by (rewrite Hf; by left).
  apply filter_In in Hx as [Hx Hpx]. apply Hr.
  rewrite (Hp _ _ Hpr Hpx). apply list_elem_of_fmap. exists x.
  by rewrite list_elem_of_In.
Qed.

End PandasFacts.

(** ** The compliance flag (build_panel_cmn.py) *)

Module BuildPanelCmnFacts.
Import BuildPanelCmn.

Lemma max_case_cons cond f g :
  max_case cond (f :: g) = Z.max (if cond f then 1 else 0) (max_case cond g).
Proof. reflexivity. Qed.

(** The aggregated phase indicators of the query are 0 or 1. *)
Lemma max_case_01 cond g : max_case cond g = 0 \/ max_case cond g = 1.
Proof.
  induction g as [|f g IH]; [by left |].
  rewrite max_case_cons. destruct (cond f), IH as [-> | ->]; simpl; auto.
Qed.

Lemma max_case_1 cond g : max_case cond g = 1 <-> exists f, f ∈ g /\ cond f = true.
Proof.
  induction g as [|f g IH].
  - split; [done |]. intros (f & Hf & _). inversion Hf.
  - rewrite max_case_cons. destruct (cond f) eqn:Hc.
    + split; [intros _ | intros _].
      * exists f. split; [by left | done].
      * destruct (max_case_01 cond g) as [-> | ->]; done.
    + rewrite Z.max_r by (destruct (max_case_01 cond g) as [-> | ->]; lia).
      rewrite IH. split; intros (f' & Hf' & Hc').
      * exists f'. split; [by right | done].
      * apply elem_of_cons in Hf' as [->|Hf']; [congruence |]. eauto.
Qed.

(** An aggregated phase indicator of the query is 1 exactly when the fact
    table has a row of that phase for the entity and year. *)
Lemma fetch_group_phase k facts phase :
  max_case (is_fase phase) (List.filter (fun f => bool_decide (fact_key f = k)) facts) = 1
  <-> exists f, f ∈ facts /\ fact_key f = k /\ fase_codigo f = Some phase.
Proof.
  rewrite max_case_1. split.
  - intros (f & Hf & Hp). exists f.
    apply list_elem_of_In, filter_In in Hf as [Hf Hk]. apply list_elem_of_In in Hf.
    apply bool_decide_eq_true_1 in Hk. unfold is_fase in Hp.
    by apply bool_decide_eq_true_1 in Hp.
  - intros (f & Hf & Hk & Hp). exists f. split.
    + apply list_elem_of_In, filter_In. rewrite <- list_elem_of_In.
      split; [done |]. by apply bool_decide_eq_true_2.
    + unfold is_fase. by apply bool_decide_eq_true_2.
Qed.

Lemma fetch_cmn_base_rows facts b :
  b ∈ fetch_cmn_base facts ->
  b = fetch_group (anio b, sec_ejec b)
        (List.filter (fun f => bool_decide (fact_key f = (anio b, sec_ejec b))) facts).
Proof.
  unfold fetch_cmn_base. intros Hb. apply list_elem_of_fmap in Hb as ([a s] & -> & _). done.
Qed.

End BuildPanelCmnFacts.

(** C1. Every row [build_flags] returns is the row it received with the
    flags added, and its [cumple_v4] is 1 exactly when [has_f1], [has_f2]
    and [has_f3] are all 1, and 0 otherwise: one function of the three
    indicators gives the flag of every row of every frame. On the frame of
    [fetch_cmn_base] the flag is 1 exactly for the entity-years with a
    recorded row of each of the three phases. *)
Theorem cumple_v4_all_three_phases :
  (exists flag : Z -> Z -> Z -> Z,
   forall df : list BuildPanelCmn.cmn_base,
     BuildPanelCmn.base <$> BuildPanelCmn.build_flags df = df
     /\ Forall
          (fun r =>
             let b := BuildPanelCmn.base r in
             let f1 := BuildPanelCmn.has_f1 b in
             let f2 := BuildPanelCmn.has_f2 b in
             let f3 := BuildPanelCmn.has_f3 b in
             BuildPanelCmn.cumple_v4 r = flag f1 f2 f3
             /\ (BuildPanelCmn.cumple_v4 r = 1 <-> f1 = 1 /\ f2 = 1 /\ f3 = 1)
             /\ (BuildPanelCmn.cumple_v4 r = 0 <-> ~ (f1 = 1 /\ f2 = 1 /\ f3 = 1)))
          (BuildPanelCmn.build_flags df))
  /\ (forall facts : list BuildPanelCmn.fact_cmn_fase,
        Forall
          (fun r =>
             BuildPanelCmn.cumple_v4 r = 1 <->
             forall phase, phase ∈ [1; 2; 3] ->
               exists f, f ∈ facts
                 /\ BuildPanelCmn.fact_key f
                    = (BuildPanelCmn.anio (BuildPanelCmn.base r),
                       BuildPanelCmn.sec_ejec (BuildPanelCmn.base r))
                 /\ BuildPanelCmn.fase_codigo f = Some phase)
          (BuildPanelCmn.build_flags (BuildPanelCmn.fetch_cmn_base facts))).
Proof.
  assert (Hflag : forall r : BuildPanelCmn.cmn_base,
            BuildPanelCmn.cumple_v4 (BuildPanelCmn.flag_row r) = 1
            <-> BuildPanelCmn.has_f1 r = 1 /\ BuildPanelCmn.has_f2 r = 1
                /\ BuildPanelCmn.has_f3 r = 1).
  { intros r. simpl.
    destruct (Z.eqb_spec (BuildPanelCmn.has_f1 r) 1) as [-> | H1];
      destruct (Z.eqb_spec (BuildPanelCmn.has_f2 r) 1) as [-> | H2];
      destruct (Z.eqb_spec (BuildPanelCmn.has_f3 r) 1) as [-> | H3];
      simpl; split; try done; tauto. }
  split.
  - exists (fun f1 f2 f3 => BuildPanelCmn.astype_int ((f1 =? 1) && (f2 =? 1) && (f3 =? 1))).
    intros df. unfold BuildPanelCmn.build_flags. split.
    + rewrite <- list_fmap_compose. induction df as [|r df IH]; [done |].
      rewrite fmap_cons. f_equal. exact IH.
    + apply Forall_fmap, Forall_forall. intros r _. simpl.
      destruct (Z.eqb_spec (BuildPanelCmn.has_f1 r) 1) as [-> | H1];
        destruct (Z.eqb_spec (BuildPanelCmn.has_f2 r) 1) as [-> | H2];
        destruct (Z.eqb_spec (BuildPanelCmn.has_f3 r) 1) as [-> | H3];
        simpl; repeat split; try done; try tauto; intros; exfalso; tauto.
  - intros facts. unfold BuildPanelCmn.build_flags. apply Forall_fmap, Forall_forall.
    intros b Hb. unfold compose. rewrite Hflag. simpl.
    apply BuildPanelCmnFacts.fetch_cmn_base_rows in Hb.
    set (k := (BuildPanelCmn.anio b, BuildPanelCmn.sec_ejec b)) in *.
    rewrite Hb. simpl. rewrite !BuildPanelCmnFacts.fetch_group_phase.
    fold k. split.
    + intros (H1 & H2 & H3) phase Hp.
      repeat (apply elem_of_cons in Hp as [-> | Hp]; [done |]). inversion Hp.
    + intros H. repeat split; apply H; repeat ((by left) || right).
Qed.

(** ** Key normalisation (utils.py, padron.py) *)

Module UtilsFacts.
Import PyStr Utils.

Lemma filter_lstrip (p : N -> bool) s :
  (forall c, p c = true -> is_space c = false) ->
  List.filter p (lstrip s) = List.filter p s.
Proof.
  intros Hp. induction s as [|c s IH]; simpl; [done |].
  destruct (is_space c) eqn:Hc; [| done].
  rewrite IH. destruct (p c) eqn:Hpc; [| done].
  apply Hp in Hpc. congruence.
Qed.

Lemma filter_reverse (p : N -> bool) (s : str) :
  List.filter p (reverse s) = reverse (List.filter p s).
Proof.
  induction s as [|c s IH]; simpl; [done |].
  rewrite reverse_cons, List.filter_app, IH. simpl.
  destruct (p c); [by rewrite reverse_cons | by rewrite app_nil_r].
Qed.

Lemma filter_strip (p : N -> bool) s :
  (forall c, p c = true -> is_space c = false) ->
  List.filter p (strip s) = List.filter p s.
Proof.
  intros Hp. unfold strip, rstrip.
  rewrite filter_reverse, (filter_lstrip p _ Hp), filter_reverse, reverse_involutive.
  by apply filter_lstrip.
Qed.

Lemma digit_not_space c : is_ascii_digit c = true -> is_space c = false.
Proof.
  unfold is_ascii_digit, is_space, in_range. intros H.
  apply andb_true_iff in H as [H1 H2].
  apply N.leb_le in H1. apply N.leb_le in H2.
  repeat (apply orb_false_iff; split);
    try (apply andb_false_iff; (left; apply N.leb_gt; lia) || (right; apply N.leb_gt; lia));
    apply N.eqb_neq; lia.
Qed.

Lemma filter_filter_imp (p q : N -> bool) (s : str) :
  (forall c, p c = true -> q c = true) ->
  List.filter p (List.filter q s) = List.filter p s.
Proof.
  intros Hpq. induction s as [|c s IH]; simpl; [done |].
  destruct (q c) eqn:Hq; simpl; rewrite IH; [done |].
  destruct (p c) eqn:Hp; [| done]. apply Hpq in Hp. congruence.
Qed.

(** On a string the normalisation keeps the ASCII digits, in order. *)
Lemma normalize_str s :
  normalized (VStr s) = List.filter is_ascii_digit s.
Proof.
  unfold normalized, re_delete. 
  rewrite (List.filter_ext (fun c => negb (negb (is_ascii_digit c))) is_ascii_digit)
    by (intros ?; apply negb_involutive).
  rewrite filter_filter_imp.
  - apply filter_strip, digit_not_space.
  - intros c Hc. by rewrite (digit_not_space c Hc).
Qed.

Lemma normalize_int n :
  normalized (VInt n) = List.filter is_ascii_digit (str_of_int n).
Proof.
  unfold normalized, re_delete.
  rewrite (List.filter_ext (fun c => negb (negb (is_ascii_digit c))) is_ascii_digit)
    by (intros ?; apply negb_involutive).
  rewrite filter_filter_imp.
  - apply filter_strip, digit_not_space.
  - intros c Hc. by rewrite (digit_not_space c Hc).
Qed.

Lemma normalize_digits v : Forall (fun c => is_ascii_digit c = true) (normalized v).
Proof.
  destruct v as [|n|s]; [constructor | rewrite normalize_int | rewrite normalize_str];
    apply Forall_forall; intros c Hc; apply list_elem_of_In, filter_In in Hc; tauto.
Qed.

Lemma filter_all (p : N -> bool) (s : str) :
  Forall (fun c => p c = true) s -> List.filter p s = s.
Proof.
  induction 1 as [|c s Hc _ IH]; simpl; [done |]. by rewrite Hc, IH.
Qed.

Lemma filter_none (p : N -> bool) (s : str) :
  Forall (fun c => p c = false) s -> List.filter p s = [].
Proof.
  induction 1 as [|c s Hc _ IH]; simpl; [done |]. by rewrite Hc, IH.
Qed.

Lemma Forall_forallb (p : N -> Prop) (b : N -> bool) (s : str) :
  (forall c, b c = true -> p c) -> forallb b s = true -> Forall p s.
Proof.
  intros Hb. induction s as [|c s IH]; simpl; [constructor |].
  intros H. apply andb_true_iff in H as [Hc Hs]. constructor; auto.
Qed.

Lemma ascii_digit_unicode c : is_ascii_digit c = true -> is_unicode_digit c = true.
Proof.
  intros H. apply existsb_exists. exists 48%N. split; [by left | exact H].
Qed.

End UtilsFacts.

(** C10 (as amended). [normalize_sec_ejec] returns for [None], for every
    string and for every integer that [str] converts, and raises
    ValueError for an integer with more decimal digits than the
    interpreter's limit (4300 by default). What it returns holds ASCII
    digits only and is a fixed point of the function; it is the empty
    string on [None] and on a string without ASCII digit, and on a string
    it is the ASCII digits of the string, in order. [load_padron_csv]
    applies it to the key of every row. The panel builders use another
    normalisation, the deletion of [\D], which gives the same key for
    every string whose decimal digits are all ASCII. *)
Theorem normalize_sec_ejec_idempotent_digits (max_str_digits : nat)
  (v : Utils.value) (s : PyStr.str) (reader : list Padron.csv_row) :
  (Utils.normalize_sec_ejec max_str_digits v = inr Builtins.ValueError
   <-> exists n, v = Utils.VInt n /\ (0 < max_str_digits)%nat
                 /\ (max_str_digits < length (PyStr.str_of_int (Z.abs n)))%nat)
  /\ ((forall n, v = Utils.VInt n ->
         max_str_digits = 0%nat
         \/ (length (PyStr.str_of_int (Z.abs n)) <= max_str_digits)%nat) ->
      exists t, Utils.normalize_sec_ejec max_str_digits v = inl t
                /\ Forall (fun c => PyStr.is_ascii_digit c = true) t
                /\ Utils.normalize_sec_ejec max_str_digits (Utils.VStr t) = inl t)
  /\ Utils.normalize_sec_ejec max_str_digits Utils.VNone = inl []
  /\ Utils.normalize_sec_ejec max_str_digits (Utils.VStr s)
     = inl (List.filter PyStr.is_ascii_digit s)
  /\ (Forall (fun c => PyStr.is_ascii_digit c = false) s ->
      Utils.normalize_sec_ejec max_str_digits (Utils.VStr s) = inl [])
  /\ Forall2 (fun r r' =>
                Utils.normalize_sec_ejec max_str_digits
                  (Utils.VStr (default [] (Padron.csv_sec_ejec r)))
                = inl (default [] (Padron.csv_sec_ejec r'))
                /\ is_Some (Padron.csv_sec_ejec r'))
       reader (Padron.load_padron_csv reader)
  /\ (Forall (fun c => PyStr.is_unicode_digit c = true -> PyStr.is_ascii_digit c = true) s ->
      Utils.normalize_sec_ejec max_str_digits (Utils.VStr s)
      = inl (Utils.str_replace_nondigit s)).
Proof.
  split; [| split; [| split; [| split; [| split; [| split]]]]].
  - unfold Utils.normalize_sec_ejec, Utils.str_raises, Builtins.too_long. split.
    + destruct v as [|n|t]; try done.
      destruct (_ && _) eqn:E; [| done]. intros _. exists n.
      apply andb_true_iff in E as [E1 E2].
      apply Nat.ltb_lt in E1, E2. done.
    + intros (n & -> & H1 & H2).
      apply Nat.ltb_lt in H1, H2. by rewrite H1, H2.
  - intros Hv. exists (Utils.normalized v). split; [| split].
    + unfold Utils.normalize_sec_ejec, Utils.str_raises, Builtins.too_long.
      destruct v as [|n|t]; try done.
      destruct (Hv n eq_refl) as [-> | H]; [done |].
      apply Nat.nlt_ge, Nat.ltb_nlt in H. rewrite H. by rewrite andb_false_r.
    + apply UtilsFacts.normalize_digits.
    + unfold Utils.normalize_sec_ejec. cbn [Utils.str_raises].
      rewrite UtilsFacts.normalize_str. f_equal.
      apply UtilsFacts.filter_all, UtilsFacts.normalize_digits.
  - reflexivity.
  - unfold Utils.normalize_sec_ejec. cbn [Utils.str_raises].
    by rewrite UtilsFacts.normalize_str.
  - intros Hs. unfold Utils.normalize_sec_ejec. cbn [Utils.str_raises].
    rewrite UtilsFacts.normalize_str. f_equal. by apply UtilsFacts.filter_none.
  - unfold Padron.load_padron_csv. induction reader as [|r reader IH]; [constructor |].
    rewrite fmap_cons. constructor; [| exact IH]. by split.
  - intros Hs. unfold Utils.normalize_sec_ejec. cbn [Utils.str_raises].
    rewrite UtilsFacts.normalize_str. f_equal.
    unfold Utils.str_replace_nondigit, PyStr.re_delete.
    induction Hs as [|c s Hc _ IH]; simpl; [done |]. rewrite <- IH.
    destruct (PyStr.is_ascii_digit c) eqn:Ha.
    + by rewrite (UtilsFacts.ascii_digit_unicode c Ha).
    + destruct (PyStr.is_unicode_digit c); [| done]. by specialize (Hc eq_refl).
Qed.

Lemma normalize_sec_ejec_witness :
  Utils.normalize_sec_ejec 4300 (Utils.VStr (PyStr.py "MUNI 0301-17"))
  = inl (Utils.str_replace_nondigit (PyStr.py "MUNI 0301-17"))
  /\ Utils.normalize_sec_ejec 4300 (Utils.VStr (PyStr.py "sin codigo")) = inl []
  /\ exists t, Utils.normalize_sec_ejec 4300 (Utils.VInt 30117) = inl t
               /\ Forall (fun c => PyStr.is_ascii_digit c = true) t
               /\ Utils.normalize_sec_ejec 4300 (Utils.VStr t) = inl t.
Proof.
  destruct (normalize_sec_ejec_idempotent_digits 4300 Utils.VNone (PyStr.py "MUNI 0301-17") [])
    as (_ & _ & _ & _ & _ & _ & H).
  destruct (normalize_sec_ejec_idempotent_digits 4300 Utils.VNone (PyStr.py "sin codigo") [])
    as (_ & _ & _ & _ & H' & _).
  destruct (normalize_sec_ejec_idempotent_digits 4300 (Utils.VInt 30117) [] [])
    as (_ & H'' & _).
  split; [| split].
  - apply H.
    apply (UtilsFacts.Forall_forallb _
             (fun c => implb (PyStr.is_unicode_digit c) (PyStr.is_ascii_digit c))).
    + intros c Hc Hu. by rewrite Hu in Hc.
    + vm_compute. reflexivity.
  - apply H'.
    apply (UtilsFacts.Forall_forallb _ (fun c => negb (PyStr.is_ascii_digit c))).
    + intros c Hc. by apply negb_true_iff.
    + vm_compute. reflexivity.
  - apply H''. intros n [= <-]. right. vm_compute. lia.
Defined.

(** The function is not total: under the default limit of 4300 digits
    [str] raises ValueError for the integer 10 ^ 4300, which has 4301
    digits, and so does [normalize_sec_ejec]. And it is not the one
    normalisation of the keys: on a decimal digit outside ASCII the two
    differ, the key "١٢" (ARABIC-INDIC DIGITS ONE and TWO) is kept by the
    deletion of [\D] and emptied by [normalize_sec_ejec]. *)
Lemma normalize_not_single_normalization :
  Utils.normalize_sec_ejec 4300 (Utils.VInt (10 ^ 4300)) = inr Builtins.ValueError
  /\ Utils.str_replace_nondigit [0x661; 0x662]%N = [0x661; 0x662]%N
  /\ Utils.normalize_sec_ejec 4300 (Utils.VStr [0x661; 0x662]%N) = inl []
  /\ ~ (forall s, Utils.normalize_sec_ejec 4300 (Utils.VStr s)
                  = inl (Utils.str_replace_nondigit s)).
Proof.
  split; [vm_compute; reflexivity |].
  split; [reflexivity |]. split; [reflexivity |].
  intros H. specialize (H [0x661; 0x662]%N). vm_compute in H. discriminate.
Qed.

(** ** The retry wrapper (scraper.py) *)

Module ScraperFacts.
Import Scraper.

Section Retry.
Context {W V : Type}.
Variable func : W -> (V + exn) * W.

Lemma call_result_S k w : call_result func (S k) w = call_result func k (func w).2.
Proof. reflexivity. Qed.

Lemma fail_before_S k w :
  fail_before func (S k) w ->
  (exists e, (func w).1 = inr e /\ retryable e = true) /\ fail_before func k (func w).2.
Proof.
  intros H. split.
  - apply (H 0%nat). lia.
  - intros i Hi. rewrite <- call_result_S. apply H. lia.
Qed.

Lemma backoff_S attempt k :
  backoff attempt (S k) = RETRY_DELAY_BASE * 2 ^ attempt :: backoff (attempt + 1) k.
Proof.
  unfold backoff. rewrite <- cons_seq, fmap_cons, <- fmap_S_seq, <- list_fmap_compose.
  f_equal; [by rewrite Z.add_0_r |].
  apply list_fmap_ext. intros _ i _. simpl. do 2 f_equal. lia.
Qed.

Lemma call_result_0 w : call_result func 0 w = (func w).1.
Proof. reflexivity. Qed.

Lemma retry_from_spec max_retries remaining :
  forall attempt last w,
    let res := retry_from func max_retries remaining attempt last w in
    (calls res.2 <= remaining)%nat
    /\ (forall k v, (k < remaining)%nat -> fail_before func k w ->
          call_result func k w = inl v ->
          res.1.1 = Returned v /\ res.1.2 = after_calls func (S k) w
          /\ calls res.2 = S k /\ sleeps res.2 = backoff attempt k)
    /\ (fail_before func remaining w ->
          calls res.2 = remaining /\ sleeps res.2 = backoff attempt remaining
          /\ res.1.1 = match last_raised func remaining last w with
                       | Some e => Raised e
                       | None => RaisedTypeError
                       end).
Proof.
  induction remaining as [|m IH]; intros attempt last w; simpl.
  - split; [done |]. split; [intros; lia |]. intros _. by destruct last.
  - destruct (func w) as [[v0|e0] w0] eqn:Hf.
    + simpl. split; [unfold calls; simpl; lia |]. split.
      * intros k v Hk Hfail Hres. destruct k as [|k].
        -- rewrite call_result_0, Hf in Hres. simpl in Hres. injection Hres as ->.
           done.
        -- destruct (Hfail 0%nat ltac:(lia)) as (e & He & _).
           rewrite call_result_0, Hf in He. done.
      * intros Hfail. destruct (Hfail 0%nat ltac:(lia)) as (e & He & _).
        rewrite call_result_0, Hf in He. done.
    + destruct (retryable e0) eqn:Hr.
      * specialize (IH (attempt + 1) (Some e0) w0).
        destruct (retry_from func max_retries m (attempt + 1) (Some e0) w0)
          as [[r w'] evs]. simpl in *.
        destruct IH as (IHc & IHok & IHfail).
        split; [unfold calls in *; simpl; lia |]. split.
        -- intros k v Hk Hfail Hres. destruct k as [|k].
           { rewrite call_result_0, Hf in Hres. done. }
           rewrite call_result_S, Hf in Hres. simpl in Hres.
           apply fail_before_S in Hfail as [_ Hfail]. rewrite Hf in Hfail.
           destruct (IHok k v ltac:(lia) Hfail Hres) as (-> & -> & Hc & Hs).
           try rewrite Hf. simpl. repeat split.
           ++ unfold calls in *. simpl. lia.
           ++ rewrite backoff_S. unfold sleeps in *. simpl. by rewrite Hs.
        -- intros Hfail. apply fail_before_S in Hfail as [_ Hfail]. rewrite Hf in Hfail.
           destruct (IHfail Hfail) as (Hc & Hs & ->). repeat split.
           ++ unfold calls in *. simpl. lia.
           ++ rewrite backoff_S. unfold sleeps in *. simpl. by rewrite Hs.
           ++ destruct m as [|m']; unfold last_raised.
              ** by rewrite call_result_0, Hf.
              ** by rewrite call_result_S, Hf.
      * simpl. split; [unfold calls; simpl; lia |]. split.
        -- intros k v Hk Hfail Hres. destruct k as [|k].
           { rewrite call_result_0, Hf in Hres. done. }
           destruct (Hfail 0%nat ltac:(lia)) as (e & He & Hre).
           rewrite call_result_0, Hf in He. simpl in He.
           injection He as <-. congruence.
        -- intros Hfail. destruct (Hfail 0%nat ltac:(lia)) as (e & He & Hre).
           rewrite call_result_0, Hf in He. simpl in He.
           injection He as <-. congruence.
Qed.

End Retry.

End ScraperFacts.

(** C8. With the default [max_retries = MAX_RETRIES = 3], the wrapper calls
    [func] at most three times; when the first attempt that does not raise
    is attempt [k] (counted from 0, the earlier ones having raised
    exceptions of the [except] clause), it returns the value of that call
    after exactly [k + 1] calls, having slept 2 * 2^i seconds after failed
    attempt [i]; and when all three attempts raise such exceptions it has
    slept 2, 4 and 8 seconds and raises the exception of the third
    attempt. *)
Theorem retry_on_failure_backoff {W V : Type} (func : W -> (V + Scraper.exn) * W) (w : W) :
  let res := Scraper._retry_on_failure func Scraper.MAX_RETRIES w in
  (Scraper.calls res.2 <= 3)%nat
  /\ (forall k v, (k < 3)%nat -> Scraper.fail_before func k w ->
        Scraper.call_result func k w = inl v ->
        res.1.1 = Scraper.Returned v
        /\ res.1.2 = Scraper.after_calls func (S k) w
        /\ Scraper.calls res.2 = S k
        /\ Scraper.sleeps res.2
           = (fun i => Scraper.RETRY_DELAY_BASE * 2 ^ Z.of_nat i) <$> seq 0 k)
  /\ (forall e, Scraper.fail_before func 3 w ->
        Scraper.call_result func 2 w = inr e ->
        res.1.1 = Scraper.Raised e
        /\ Scraper.calls res.2 = 3%nat
        /\ Scraper.sleeps res.2 = [2; 4; 8]).
Proof.
  intros res.
  destruct (ScraperFacts.retry_from_spec func Scraper.MAX_RETRIES 3 0 None w)
    as (Hc & Hok & Hfail).
  fold res in Hc, Hok, Hfail.
  split; [exact Hc |]. split.
  - intros k v Hk Hb Hr. exact (Hok k v Hk Hb Hr).
  - intros e Hb He. destruct (Hfail Hb) as (Hn & Hs & Hr).
    simpl in Hr. rewrite He in Hr. done.
Qed.

Lemma retry_on_failure_backoff_witness :
  (Scraper._retry_on_failure Scraper.scripted Scraper.MAX_RETRIES
     [inr Scraper.timeout; inr Scraper.stale; inl 7%nat]).1.1
  = Scraper.Returned 7%nat
  /\ (Scraper._retry_on_failure Scraper.scripted Scraper.MAX_RETRIES
        [inr Scraper.timeout; inr Scraper.timeout; inr Scraper.stale]).1.1
     = Scraper.Raised Scraper.stale.
Proof.
  split.
  - apply (retry_on_failure_backoff Scraper.scripted
             [inr Scraper.timeout; inr Scraper.stale; inl 7%nat]) with (k := 2%nat);
      [lia | | reflexivity].
    intros i Hi. destruct i as [|[|i]]; [eexists; split; reflexivity .. | lia].
  - apply (retry_on_failure_backoff Scraper.scripted
             [inr Scraper.timeout; inr Scraper.timeout; inr Scraper.stale]);
      [| reflexivity].
    intros i Hi. destruct i as [|[|[|i]]]; [eexists; split; reflexivity .. | lia].
Defined.

(** ** Groups and the T1 panel (build_panel_t1.py) *)

Module BuildPanelT1Facts.
Import PyStr BuildPanelT1 PandasFacts.

Lemma sort_keys_perm ks : sort_keys ks ≡ₚ ks.
Proof. apply merge_sort_Permutation. Qed.

Lemma elem_of_filter_bool {A} (p : A -> bool) (l : list A) x :
  x ∈ List.filter p l <-> x ∈ l /\ p x = true.
Proof. rewrite !list_elem_of_In. apply filter_In. Qed.

(** Keys listed without repetition, each with at most one row of its key:
    the keys of the rows are distinct. *)
Lemma NoDup_bind_key {B K} (key : B -> K) (ks : list K) (f : K -> list B) :
  NoDup ks ->
  (forall k x, x ∈ f k -> key x = k) ->
  (forall k, k ∈ ks -> (length (f k) <= 1)%nat) ->
  NoDup (key <$> (ks ≫= f)).
Proof.
  intros Hnd Hkey Hlen. induction Hnd as [|k ks Hk Hnd IH]; [constructor |].
  rewrite bind_cons, fmap_app. apply NoDup_app. split; [| split].
  - specialize (Hlen k ltac:(by left)).
    destruct (f k) as [|x [|y l]]; simpl in *; [constructor | | lia].
    apply NoDup_singleton.
  - intros y Hy Hy'.
    apply list_elem_of_fmap in Hy as (x & -> & Hx).
    apply list_elem_of_fmap in Hy' as (x' & Heq & Hx').
    apply list_elem_of_bind in Hx' as (k' & Hx' & Hk').
    rewrite (Hkey _ _ Hx) in Heq. rewrite (Hkey _ _ Hx') in Heq. by subst.
  - apply IH. intros k' Hk'. apply Hlen. by right.
Qed.

(** *** The labels *)

Lemma label_in pre post : label pre post ∈ labels_t1.
Proof.
  unfold label, labels_t1.
  repeat (match goal with |- context [if ?b then _ else _] => destruct b end);
    repeat ((by left) || right).
Qed.

Lemma label_spec pre post :
  (label pre post = py "ALWAYS_IN" <-> post = py "SI" /\ pre = py "SI")
  /\ (label pre post = py "SWITCHER" <-> post = py "SI" /\ pre = py "NO")
  /\ (label pre post = py "ENTRY_ABSENT" <-> post = py "SI" /\ pre = py "ABSENT")
  /\ (label pre post = py "EXIT" <-> post = py "ABSENT" /\ pre = py "SI")
  /\ (label pre post = py "OTHER" <->
      ~ (post = py "SI" /\ (pre = py "SI" \/ pre = py "NO" \/ pre = py "ABSENT"))
      /\ ~ (post = py "ABSENT" /\ pre = py "SI")).
Proof.
  unfold label.
  assert (Hd1 : py "SI" <> py "NO") by discriminate.
  assert (Hd2 : py "SI" <> py "ABSENT") by discriminate.
  assert (Hd3 : py "NO" <> py "ABSENT") by discriminate.
  destruct (decide (post = py "SI")) as [HpS | HpS];
    destruct (decide (pre = py "SI")) as [HrS | HrS];
    destruct (decide (pre = py "NO")) as [HrN | HrN];
    destruct (decide (pre = py "ABSENT")) as [HrA | HrA];
    destruct (decide (post = py "ABSENT")) as [HpA | HpA];
    try congruence;
    repeat match goal with
      | H : ?x = ?y |- context [bool_decide (?x = ?y)] =>
          rewrite (bool_decide_eq_true_2 (x = y) H)
      | H : ?x <> ?y |- context [bool_decide (?x = ?y)] =>
          rewrite (bool_decide_eq_false_2 (x = y) H)
      end;
    simpl; repeat split; try done; try tauto; try discriminate;
    try (intros ?; exfalso; intuition congruence); intuition congruence.
Qed.


(** *** The table of groups *)

Lemma pre_status_frame_keys pre :
  (pre_status_frame pre).*1 = sort_keys (p_sec_ejec <$> Pandas.drop_duplicates p_sec_ejec pre).
Proof.
  unfold pre_status_frame. rewrite <- list_fmap_compose.
  apply list_fmap_id.
Qed.

Lemma NoDup_pre_status_frame pre : NoDup (pre_status_frame pre).*1.
Proof.
  rewrite pre_status_frame_keys, sort_keys_perm. apply NoDup_drop_duplicates.
Qed.

Lemma NoDup_drop_duplicates_id {A} `{EqDecision A} (l : list A) :
  NoDup (Pandas.drop_duplicates id l).
Proof.
  rewrite <- (list_fmap_id (Pandas.drop_duplicates id l)).
  apply (NoDup_drop_duplicates id).
Qed.

Lemma elem_of_drop_duplicates_id {A} `{EqDecision A} (l : list A) x :
  x ∈ Pandas.drop_duplicates id l <-> x ∈ l.
Proof.
  rewrite <- (list_fmap_id (Pandas.drop_duplicates id l)).
  rewrite (drop_duplicates_keys id), list_fmap_id. done.
Qed.

Lemma NoDup_merge_keys pre_status post : NoDup (merge_keys pre_status post).
Proof. unfold merge_keys. rewrite sort_keys_perm. apply NoDup_drop_duplicates_id. Qed.

Lemma elem_of_merge_keys pre_status post k :
  k ∈ merge_keys pre_status post <-> k ∈ pre_status.*1 \/ k ∈ post.*1.
Proof.
  unfold merge_keys. rewrite sort_keys_perm, elem_of_drop_duplicates_id, elem_of_app. done.
Qed.

Lemma merge_outer_blocks pre_status post :
  merge_outer pre_status post = merge_keys pre_status post ≫= merge_block pre_status post.
Proof. reflexivity. Qed.

Lemma merge_block_key pre_status post k m : m ∈ merge_block pre_status post k -> m.1 = k.
Proof.
  unfold merge_block.
  destruct (List.filter _ pre_status) as [|l ls], (List.filter _ post) as [|r rs]; intros Hm.
  - inversion Hm.
  - apply list_elem_of_fmap in Hm as (? & -> & _). done.
  - apply list_elem_of_fmap in Hm as (? & -> & _). done.
  - apply list_elem_of_bind in Hm as (? & Hm & _).
    apply list_elem_of_fmap in Hm as (? & -> & _). done.
Qed.

Lemma filter_fst_nonempty {V} (l : list (str * V)) k :
  k ∈ l.*1 -> List.filter (fun x => bool_decide (x.1 = k)) l <> [].
Proof.
  intros Hk Hf. apply list_elem_of_fmap in Hk as (x & -> & Hx).
  assert (Hin : x ∈ List.filter (fun y => bool_decide (y.1 = x.1)) l).
  { apply elem_of_filter_bool. split; [done |]. by apply bool_decide_eq_true_2. }
  rewrite Hf in Hin. inversion Hin.
Qed.

Lemma merge_block_nonempty pre_status post k :
  k ∈ pre_status.*1 \/ k ∈ post.*1 -> merge_block pre_status post k <> [].
Proof.
  intros Hk. unfold merge_block.
  destruct (List.filter _ pre_status) as [|l ls] eqn:Hl,
           (List.filter _ post) as [|r rs] eqn:Hr; try done.
  destruct Hk as [Hk|Hk]; apply filter_fst_nonempty in Hk; congruence.
Qed.

Lemma merge_block_length pre_status post k :
  NoDup pre_status.*1 -> NoDup post.*1 ->
  (length (merge_block pre_status post k) <= 1)%nat.
Proof.
  intros Hpre Hpost. unfold merge_block.
  assert (Hl := filter_key_NoDup fst (fun l => bool_decide (l.1 = k)) pre_status Hpre).
  assert (Hr := filter_key_NoDup fst (fun r => bool_decide (r.1 = k)) post Hpost).
  specialize (Hl ltac:(intros ?? H1 H2; apply bool_decide_eq_true_1 in H1, H2; congruence)).
  specialize (Hr ltac:(intros ?? H1 H2; apply bool_decide_eq_true_1 in H1, H2; congruence)).
  destruct (List.filter _ pre_status) as [|l [|l' ls]], (List.filter _ post) as [|r [|r' rs]];
    simpl in *; lia.
Qed.

Lemma NoDup_merge_outer pre_status post :
  NoDup pre_status.*1 -> NoDup post.*1 -> NoDup (merge_outer pre_status post).*1.
Proof.
  intros Hpre Hpost. rewrite merge_outer_blocks. apply NoDup_bind_key.
  - apply NoDup_merge_keys.
  - intros k x. apply merge_block_key.
  - intros k _. by apply merge_block_length.
Qed.

Lemma merge_outer_covers pre_status post k :
  k ∈ pre_status.*1 \/ k ∈ post.*1 -> exists m, m ∈ merge_outer pre_status post /\ m.1 = k.
Proof.
  intros Hk. assert (Hne := merge_block_nonempty _ _ _ Hk).
  destruct (merge_block pre_status post k) as [|m ms] eqn:Hb; [done |].
  exists m. split.
  - rewrite merge_outer_blocks. apply list_elem_of_bind. exists k. split.
    + rewrite Hb. by left.
    + by apply elem_of_merge_keys.
  - apply (merge_block_key pre_status post). rewrite Hb. by left.
Qed.

Lemma post_of_NoDup padron :
  one_status_2025 padron -> NoDup (post_of (muni_of padron)).*1.
Proof.
  intros H. unfold post_of. apply NoDup_fmap_2_strong; [| apply NoDup_drop_duplicates_id].
  intros [s1 v1] [s2 v2] H1 H2 Heq. simpl in Heq. subst s2.
  apply elem_of_drop_duplicates_id, list_elem_of_fmap in H1 as (r1 & E1 & Hr1).
  apply elem_of_drop_duplicates_id, list_elem_of_fmap in H2 as (r2 & E2 & Hr2).
  apply elem_of_filter_bool in Hr1 as [Hr1 Ha1]. apply elem_of_filter_bool in Hr2 as [Hr2 Ha2].
  apply bool_decide_eq_true_1 in Ha1, Ha2.
  injection E1 as -> ->. injection E2 as E2 ->.
  f_equal. by apply H.
Qed.

Lemma groups_keys padron :
  g_sec_ejec <$> (build_groups padron).2
  = (merge_outer
       (pre_status_frame (List.filter (anio_isin [2022; 2023; 2024]) (muni_of padron)))
       (post_of (muni_of padron))).*1.
Proof.
  unfold build_groups. simpl. rewrite <- list_fmap_compose. done.
Qed.

Lemma NoDup_groups padron :
  one_status_2025 padron -> NoDup (g_sec_ejec <$> (build_groups padron).2).
Proof.
  intros H. rewrite groups_keys. apply NoDup_merge_outer.
  - apply NoDup_pre_status_frame.
  - by apply post_of_NoDup.
Qed.

Lemma groups_labels padron :
  Forall (fun g => group_t1 g ∈ labels_t1) (build_groups padron).2.
Proof.
  unfold build_groups. simpl. apply Forall_fmap, Forall_forall. intros m _.
  apply label_in.
Qed.

(** Every municipality of the roster with a row in 2022-2025 has a row in
    the table of groups. *)
Lemma groups_cover padron r :
  r ∈ (build_groups padron).1 ->
  exists g, g ∈ (build_groups padron).2 /\ g_sec_ejec g = p_sec_ejec r.
Proof.
  unfold build_groups. simpl. intros Hr.
  set (pre := List.filter (anio_isin [2022; 2023; 2024]) (muni_of padron)).
  assert (Hk : p_sec_ejec r ∈ (pre_status_frame pre).*1
               \/ p_sec_ejec r ∈ (post_of (muni_of padron)).*1).
  { assert (Hy := Hr). unfold muni_of in Hy. apply elem_of_filter_bool in Hy as [_ Hy].
    unfold anio_isin in Hy. destruct (p_anio r) as [a|] eqn:Ha; [| done].
    apply bool_decide_eq_true_1 in Hy.
    destruct (decide (a = 2025)) as [-> | Hne].
    - right. unfold post_of. apply list_elem_of_fmap.
      exists (p_sec_ejec r, siga_implementado r). split; [done |].
      apply elem_of_drop_duplicates_id, list_elem_of_fmap. exists r. split; [done |].
      apply elem_of_filter_bool. split; [done |]. by apply bool_decide_eq_true_2.
    - left. rewrite pre_status_frame_keys, sort_keys_perm.
      apply drop_duplicates_keys, list_elem_of_fmap. exists r. split; [done |].
      apply elem_of_filter_bool. split; [done |].
      unfold anio_isin. rewrite Ha. apply bool_decide_eq_true_2.
      repeat (apply elem_of_cons in Hy as [-> | Hy]; [repeat ((by left) || right) |]);
        [ | inversion Hy]. done. }
  destruct (merge_outer_covers _ _ _ Hk) as (m & Hm & Hkey).
  exists (group_of m). split; [| done].
  apply list_elem_of_fmap. by exists m.
Qed.


(** *** The panel *)

Lemma merge_padron_year_origin presupuesto padron_year m :
  m ∈ merge_padron_year presupuesto padron_year -> m.1 ∈ presupuesto.
Proof.
  intros Hm. apply elem_of_merge_left in Hm as (b & Hb & [[_ ->]|(y & _ & _ & ->)]); done.
Qed.

Lemma merge_padron_year_complete presupuesto padron_year b :
  b ∈ presupuesto -> exists m, m ∈ merge_padron_year presupuesto padron_year /\ m.1 = b.
Proof.
  intros Hb. unfold merge_padron_year.
  set (mt := fun (b : presupuesto_row) (y : str * option Z * option str) =>
               bool_decide (sec_ejec b = Some y.1.1 ∧ Some (anio b) = y.1.2)).
  destruct (List.filter (mt b) padron_year) as [|y ys] eqn:Hf.
  - exists (b, None). split; [| done]. apply elem_of_merge_left. exists b. split; [done |].
    left. done.
  - assert (Hy : y ∈ List.filter (mt b) padron_year) by (rewrite Hf; by left).
    apply elem_of_filter_bool in Hy as [Hy Hm].
    exists (b, Some y ≫= snd). split; [| done]. apply elem_of_merge_left.
    exists b. split; [done |]. right. by exists y.
Qed.

(** The group columns of a row of the panel are those of the row of
    [groups] with the key of the row, found by that key alone. *)
Lemma build_panel_origin presupuesto muni groups r :
  r ∈ build_panel presupuesto muni groups ->
  budget r ∈ presupuesto
  /\ match grp r with
     | Some g => g ∈ groups /\ panel_sec_ejec r = Some (g_sec_ejec g)
     | None => forall g, g ∈ groups -> panel_sec_ejec r <> Some (g_sec_ejec g)
     end.
Proof.
  unfold build_panel, merge_groups. intros Hr.
  apply elem_of_merge_left in Hr as (m & Hm & [[Hf ->]|(g & Hg & Hmt & ->)]); simpl.
  - split; [by apply merge_padron_year_origin in Hm |].
    intros g Hg Heq.
    assert (Hin : g ∈ List.filter
              (fun g => bool_decide (sec_ejec m.1 = Some (g_sec_ejec g))) groups).
    { apply elem_of_filter_bool. split; [done |]. by apply bool_decide_eq_true_2. }
    rewrite Hf in Hin. inversion Hin.
  - split; [by apply merge_padron_year_origin in Hm |].
    split; [done |]. by apply bool_decide_eq_true_1 in Hmt.
Qed.

Lemma build_panel_complete presupuesto muni groups b :
  b ∈ presupuesto ->
  (forall g, g ∈ groups -> sec_ejec b = Some (g_sec_ejec g) ->
     exists r, r ∈ build_panel presupuesto muni groups /\ budget r = b /\ grp r = Some g)
  /\ ((forall g, g ∈ groups -> sec_ejec b <> Some (g_sec_ejec g)) ->
      exists r, r ∈ build_panel presupuesto muni groups /\ budget r = b /\ grp r = None).
Proof.
  intros Hb.
  destruct (merge_padron_year_complete presupuesto (padron_year_of muni) b Hb)
    as (m & Hm & <-).
  split.
  - intros g Hg Hkey. exists (finish_row m (Some g)). split; [| done].
    apply elem_of_merge_left. exists m. split; [done |]. right. exists g.
    split; [done |]. split; [| done]. by apply bool_decide_eq_true_2.
  - intros Hno. exists (finish_row m None). split; [| done].
    apply elem_of_merge_left. exists m. split; [done |]. left. split; [| done].
    destruct (List.filter _ groups) as [|g gs] eqn:Hf; [done |]. exfalso.
    assert (Hin : g ∈ List.filter
              (fun g => bool_decide (sec_ejec m.1 = Some (g_sec_ejec g))) groups)
      by (rewrite Hf; by left).
    apply elem_of_filter_bool in Hin as [Hg Hk]. apply bool_decide_eq_true_1 in Hk.
    by apply (Hno g).
Qed.

Lemma NoDup_key_eq (groups : list group_row) g1 g2 :
  NoDup (g_sec_ejec <$> groups) -> g1 ∈ groups -> g2 ∈ groups ->
  g_sec_ejec g1 = g_sec_ejec g2 -> g1 = g2.
Proof.
  intros Hnd H1 H2 Heq.
  induction groups as [|g gs IH]; [inversion H1 |].
  rewrite fmap_cons in Hnd. apply NoDup_cons in Hnd as [Hg Hnd].
  apply elem_of_cons in H1 as [-> | H1]; apply elem_of_cons in H2 as [-> | H2].
  - done.
  - exfalso. apply Hg. rewrite Heq. apply list_elem_of_fmap. by exists g2.
  - exfalso. apply Hg. rewrite <- Heq. apply list_elem_of_fmap. by exists g1.
  - by apply IH.
Qed.

(** With one row per entity in [groups], the rows of an entity in the
    panel carry the same group columns. *)
Lemma build_panel_same_group presupuesto muni groups r1 r2 :
  NoDup (g_sec_ejec <$> groups) ->
  r1 ∈ build_panel presupuesto muni groups ->
  r2 ∈ build_panel presupuesto muni groups ->
  panel_sec_ejec r1 = panel_sec_ejec r2 -> grp r1 = grp r2.
Proof.
  intros Hnd H1 H2 Heq.
  apply build_panel_origin in H1 as [_ H1]. apply build_panel_origin in H2 as [_ H2].
  destruct (grp r1) as [g1|], (grp r2) as [g2|]; [| | | done].
  - destruct H1 as [Hg1 K1], H2 as [Hg2 K2]. f_equal.
    apply (NoDup_key_eq groups); [done .. |]. congruence.
  - destruct H1 as [Hg1 K1]. exfalso. apply (H2 g1 Hg1). congruence.
  - destruct H2 as [Hg2 K2]. exfalso. apply (H1 g2 Hg2). congruence.
Qed.

Lemma padron_year_NoDup padron :
  one_status_per_year padron ->
  NoDup ((fun y : str * option Z * option str => y.1) <$> padron_year_of (muni_of padron)).
Proof.
  intros H. unfold padron_year_of.
  apply NoDup_fmap_2_strong; [| apply NoDup_drop_duplicates_id].
  intros [[s1 a1] v1] [[s2 a2] v2] H1 H2 Heq. simpl in Heq. injection Heq as -> ->.
  apply elem_of_drop_duplicates_id, list_elem_of_fmap in H1 as (r1 & E1 & Hr1).
  apply elem_of_drop_duplicates_id, list_elem_of_fmap in H2 as (r2 & E2 & Hr2).
  injection E1 as E1s E1a ->. injection E2 as E2s E2a ->.
  f_equal. apply H; congruence.
Qed.

Lemma one_status_per_year_2025 padron :
  one_status_per_year padron -> one_status_2025 padron.
Proof. intros H r1 r2 H1 H2 A1 A2 Hs. apply H; congruence. Qed.

(** When the roster has one status per municipality and year, the panel
    has the rows of the budget table, in order, none repeated. *)
Lemma build_panel_rows presupuesto padron :
  one_status_per_year padron ->
  budget <$> run presupuesto padron = presupuesto.
Proof.
  intros H. unfold run, build_groups, build_panel.
  set (groups := group_of <$> _).
  assert (Hg : NoDup (g_sec_ejec <$> groups)).
  { apply (NoDup_groups padron). by apply one_status_per_year_2025. }
  transitivity (fst <$> merge_padron_year presupuesto (padron_year_of (muni_of padron))).
  - rewrite <- (merge_left_rows
                  (fun (m : presupuesto_row * option str) (g : group_row) =>
                     bool_decide (sec_ejec m.1 = Some (g_sec_ejec g)))
                  finish_row (fun r => (budget r, siga_padron r))
                  (merge_padron_year presupuesto (padron_year_of (muni_of padron))) groups)
      at 2.
    + unfold merge_groups. rewrite <- list_fmap_compose. done.
    + by intros [b y] g.
    + intros m _.
      apply (filter_key_NoDup g_sec_ejec); [done |].
      intros g g' H1 H2. apply bool_decide_eq_true_1 in H1, H2. congruence.
  - apply (merge_left_rows _ _ fst); [done |]. intros b _.
    apply (filter_key_NoDup (fun y : str * option Z * option str => y.1));
      [by apply padron_year_NoDup |].
    intros [[s1 a1] v1] [[s2 a2] v2] H1 H2. apply bool_decide_eq_true_1 in H1, H2.
    simpl in *. destruct H1, H2. congruence.
Qed.

End BuildPanelT1Facts.

(** ** The duplicate count of the budget QC (build_panel_budget_muni.py) *)

Module BuildPanelBudgetMuniFacts.
Import PyStr BuildPanelBudgetMuni PandasFacts.

Lemma group_size_cons r df k :
  group_size (r :: df) k
  = ((if bool_decide (key r = k) then 1 else 0) + group_size df k)%nat.
Proof. unfold group_size. simpl. by destruct (bool_decide (key r = k)). Qed.

Lemma group_size_zero df k : group_size df k = 0%nat <-> k ∉ key <$> df.
Proof.
  induction df as [|r df IH]; [split; [intros _ H; inversion H | done] |].
  rewrite group_size_cons, fmap_cons, not_elem_of_cons, <- IH.
  destruct (decide (key r = k)) as [E|E].
  - rewrite (bool_decide_eq_true_2 _ E). split; [lia | intros [? _]; congruence].
  - rewrite (bool_decide_eq_false_2 _ E). split; [intros H; split; [congruence | lia] | lia].
Qed.

(** The keys of a frame are distinct exactly when no key has two rows. *)
Lemma NoDup_group_size df :
  NoDup (key <$> df) <-> forall r, r ∈ df -> (group_size df (key r) <= 1)%nat.
Proof.
  induction df as [|r df IH].
  - split; [intros _ r Hr; inversion Hr | constructor].
  - rewrite fmap_cons, NoDup_cons, IH. split.
    + intros [Hr Hdf] r' Hr'. rewrite group_size_cons.
      apply elem_of_cons in Hr' as [-> | Hr'].
      * rewrite bool_decide_eq_true_2 by done.
        apply group_size_zero in Hr. lia.
      * rewrite bool_decide_eq_false_2; [by apply Hdf |].
        intros E. apply Hr. rewrite E. apply list_elem_of_fmap. by exists r'.
    + intros H. split.
      * apply group_size_zero. specialize (H r ltac:(by left)).
        rewrite group_size_cons, bool_decide_eq_true_2 in H by done. lia.
      * intros r' Hr'. specialize (H r' ltac:(by right)).
        rewrite group_size_cons in H. lia.
Qed.

(** [dup_keys] of the QC is 0 exactly when the rows with a key have
    distinct keys. *)
Lemma dup_keys_zero df :
  dup_keys df = 0%nat
  <-> NoDup (key <$> List.filter (fun r => bool_decide (is_Some (sec_ejec r))) df).
Proof.
  unfold dup_keys. set (nn := List.filter _ df). rewrite NoDup_group_size.
  rewrite length_zero_iff_nil. split.
  - intros Hnil r Hr.
    destruct (le_lt_dec (group_size nn (key r)) 1) as [Hle|Hgt]; [done |]. exfalso.
    assert (Hin : key r ∈ List.filter (fun k => bool_decide (1 < group_size nn k)%nat)
                            (key <$> Pandas.drop_duplicates key nn)).
    { apply list_elem_of_In, filter_In. rewrite <- list_elem_of_In. split.
      - apply drop_duplicates_keys, list_elem_of_fmap. by exists r.
      - by apply bool_decide_eq_true_2. }
    rewrite Hnil in Hin. inversion Hin.
  - intros H.
    destruct (List.filter _ (key <$> Pandas.drop_duplicates key nn)) as [|k ks] eqn:Hf; [done |].
    exfalso.
    assert (Hin : k ∈ List.filter (fun k => bool_decide (1 < group_size nn k)%nat)
                        (key <$> Pandas.drop_duplicates key nn)) by (rewrite Hf; by left).
    apply list_elem_of_In, filter_In in Hin as [Hk Hgt]. apply list_elem_of_In in Hk.
    apply bool_decide_eq_true_1 in Hgt.
    apply list_elem_of_fmap in Hk as (r & -> & Hr). apply elem_of_drop_duplicates in Hr.
    specialize (H r Hr). lia.
Qed.

End BuildPanelBudgetMuniFacts.

(** ** The analysis panels *)

Module AnalisisFacts.
Import PyStr Analisis PandasFacts.

Lemma NoDup_cmn_cols cmn :
  NoDup ((fun c : str * Z * Z => (c.1.1, c.1.2)) <$> cmn_cols_of cmn).
Proof. apply NoDup_drop_duplicates. Qed.

(** Merging the deduplicated compliance table keeps the rows of the T1
    panel as they are. *)
Lemma merge_cmn_rows t1 cmn : fst <$> merge_cmn t1 cmn = t1.
Proof.
  apply (merge_left_rows _ _ fst); [done |]. intros t _.
  apply (filter_key_NoDup (fun c : str * Z * Z => (c.1.1, c.1.2))); [apply NoDup_cmn_cols |].
  intros [[s1 a1] v1] [[s2 a2] v2] H1 H2. apply bool_decide_eq_true_1 in H1, H2.
  simpl in *. destruct H1, H2. congruence.
Qed.

Lemma fmap_filter_comm {A B} (f : A -> B) (p : B -> bool) (l : list A) :
  f <$> List.filter (fun x => p (f x)) l = List.filter p (f <$> l).
Proof.
  induction l as [|x l IH]; [done |].
  cbn [List.filter]. rewrite fmap_cons. cbn [List.filter].
  destruct (p (f x)); [rewrite fmap_cons; f_equal |]; exact IH.
Qed.

Lemma NoDup_fmap_filter {A K} (key : A -> K) (p : A -> bool) (l : list A) :
  NoDup (key <$> l) -> NoDup (key <$> List.filter p l).
Proof.
  induction l as [|x l IH]; [done |].
  rewrite fmap_cons. intros Hnd. apply NoDup_cons in Hnd as [Hx Hnd].
  cbn [List.filter]. destruct (p x); [| by apply IH].
  rewrite fmap_cons. constructor; [| by apply IH].
  intros Hin. apply Hx. apply list_elem_of_fmap in Hin as (y & -> & Hy).
  apply list_elem_of_fmap. exists y. split; [done |].
  apply list_elem_of_In, filter_In in Hy as [Hy _]. by apply list_elem_of_In.
Qed.

Lemma did_clasico_rows log1p t1 cmn :
  DidClasico.t1 <$> DidClasico.build_panel log1p t1 cmn
  = List.filter DidClasico.in_sample t1.
Proof.
  unfold DidClasico.build_panel. rewrite <- list_fmap_compose.
  rewrite <- (merge_cmn_rows t1 cmn) at 2.
  rewrite <- (fmap_filter_comm fst DidClasico.in_sample). done.
Qed.

Lemma diagnostics_rows t1 cmn :
  Diagnostics.t1 <$> Diagnostics.build_panel t1 cmn = t1.
Proof.
  unfold Diagnostics.build_panel. rewrite <- list_fmap_compose.
  rewrite <- (merge_cmn_rows t1 cmn) at 2. done.
Qed.

End AnalisisFacts.

(** ** Groups of the Oaxaca-Blinder script *)

Module OaxacaGroupFacts.
Import PyStr OaxacaBlinder PandasFacts.

Lemma group_map_lookup padron se g :
  group_map padron !! se = Some g <->
  (se ∈ pre_ues (BuildPanelT1.muni_of padron) ∪ post_ues (BuildPanelT1.muni_of padron))
  /\ g = assign_group (pre_ues (BuildPanelT1.muni_of padron))
                      (post_ues (BuildPanelT1.muni_of padron)) se.
Proof.
  unfold group_map. rewrite lookup_set_to_map by (intros ?? _ _ Heq; exact Heq).
  split.
  - intros (y & Hy & Heq). injection Heq as -> <-. done.
  - intros [Hse ->]. exists se. done.
Qed.

Lemma assign_group_values (pre post : gset str) se :
  se ∈ pre ∪ post ->
  assign_group pre post se ∈ [py "ALWAYS_IN"; py "ENTRY"; py "EXIT"].
Proof.
  intros Hse. unfold assign_group.
  destruct (decide (se ∈ pre)) as [Hp|Hp], (decide (se ∈ post)) as [Hq|Hq];
    rewrite ?(bool_decide_eq_true_2 _ Hp), ?(bool_decide_eq_false_2 _ Hp),
            ?(bool_decide_eq_true_2 _ Hq), ?(bool_decide_eq_false_2 _ Hq); simpl.
  - by left.
  - right. right. by left.
  - right. by left.
  - exfalso. apply elem_of_union in Hse as [?|?]; done.
Qed.

(** The group of a row of the panel is the entry of [group_map] for the
    key of the row. *)
Lemma build_panel_group log1p budget cmn padron r :
  r ∈ build_panel log1p budget cmn padron ->
  group r = group_map padron !! sec_ejec r.
Proof.
  unfold build_panel. intros Hr.
  apply list_elem_of_In, filter_In in Hr as [Hr _]. apply list_elem_of_In in Hr.
  apply elem_of_merge_left in Hr as (b & _ & [[_ ->]|(c & _ & _ & ->)]); done.
Qed.

End OaxacaGroupFacts.

(** C3 (as amended). The group label [build_groups] derives for a
    municipality is one of ALWAYS_IN, SWITCHER, ENTRY_ABSENT, EXIT and OTHER,
    and every municipality with a roster row in 2022-2025 has a row with
    such a label; the label [assign_group] gives an entity of [all_ues] in
    the Oaxaca-Blinder script is one of ALWAYS_IN, ENTRY and EXIT. *)
Theorem group_label_values (padron : list BuildPanelT1.padron_row) :
  Forall (fun g => BuildPanelT1.group_t1 g ∈ BuildPanelT1.labels_t1)
         (BuildPanelT1.build_groups padron).2
  /\ Forall (fun r => exists g, g ∈ (BuildPanelT1.build_groups padron).2
                                /\ BuildPanelT1.g_sec_ejec g = BuildPanelT1.p_sec_ejec r)
            (BuildPanelT1.build_groups padron).1
  /\ map_Forall
       (fun _ g => g ∈ [PyStr.py "ALWAYS_IN"; PyStr.py "ENTRY"; PyStr.py "EXIT"])
       (OaxacaBlinder.group_map padron).
Proof.
  split; [apply BuildPanelT1Facts.groups_labels |]. split.
  - apply Forall_forall. intros r Hr. by apply BuildPanelT1Facts.groups_cover.
  - intros se g Hg. apply OaxacaGroupFacts.group_map_lookup in Hg as [Hse ->].
    by apply OaxacaGroupFacts.assign_group_values.
Qed.

(** A municipality that enters the roster in 2025 is labelled ENTRY_ABSENT,
    which is none of the five names of the specification. *)
Lemma group_label_entry_absent :
  BuildPanelT1.group_t1 <$> (BuildPanelT1.build_groups BuildPanelT1.roster_entry).2
  = [PyStr.py "ENTRY_ABSENT"]
  /\ ~ Forall (fun g => BuildPanelT1.group_t1 g ∈ BuildPanelT1.labels_spec)
         (BuildPanelT1.build_groups BuildPanelT1.roster_entry).2.
Proof.
  split; [by vm_compute |].
  intros H.
  assert (H' : Forall (fun l => l ∈ BuildPanelT1.labels_spec)
                 (BuildPanelT1.group_t1
                    <$> (BuildPanelT1.build_groups BuildPanelT1.roster_entry).2))
    by (apply Forall_fmap; exact H).
  assert (E : BuildPanelT1.group_t1 <$> (BuildPanelT1.build_groups BuildPanelT1.roster_entry).2
              = [PyStr.py "ENTRY_ABSENT"]) by (by vm_compute).
  rewrite E in H'. apply Forall_cons in H' as [H' _].
  unfold BuildPanelT1.labels_spec in H'.
  repeat (apply elem_of_cons in H' as [H'|H']; [vm_compute in H'; discriminate |]).
  inversion H'.
Qed.

(** ** The rows of padron_largo.csv (padron_export.py) *)

Module PadronExportFacts.
Import PyStr PadronExport.

Lemma write_hist_rows upper row o :
  o ∈ write_hist upper row ->
  sec_ejec o = Utils.normalized (h_sec_ejec row) /\ sec_ejec o <> []
  /\ anio o ∈ [2022; 2023; 2024] /\ siga_implementado o <> []
  /\ fuente_padron o = py "padron_historico".
Proof.
  unfold write_hist. case_bool_decide as Hsec; [by intros ?%elem_of_nil |].
  intros H. apply list_elem_of_bind in H as (ys & Ho & Hys).
  case_bool_decide as Hst; [by apply elem_of_nil in Ho |].
  apply list_elem_of_singleton in Ho as ->. simpl.
  repeat split; try done.
  repeat (apply elem_of_cons in Hys as [-> | Hys]; [simpl; set_solver |]).
  by apply elem_of_nil in Hys.
Qed.

Lemma write_2025_rows row o :
  o ∈ write_2025 row ->
  sec_ejec o = Utils.normalized (n_sec_ejec row) /\ sec_ejec o <> []
  /\ anio o = 2025 /\ siga_implementado o = py "SI"
  /\ fuente_padron o = py "padron_nov2025".
Proof.
  unfold write_2025. case_bool_decide as Hsec; [by intros ?%elem_of_nil |].
  intros ->%list_elem_of_singleton. done.
Qed.

Lemma write_hist_length upper row : (length (write_hist upper row) <= 3)%nat.
Proof.
  unfold write_hist. case_bool_decide; simpl; [lia |].
  repeat case_bool_decide; simpl; lia.
Qed.

Lemma write_2025_length row : (length (write_2025 row) <= 1)%nat.
Proof. unfold write_2025. case_bool_decide; simpl; lia. Qed.

Lemma bind_length_le {A B} (f : A -> list B) (n : nat) (l : list A) :
  (forall a, length (f a) <= n)%nat -> (length (l ≫= f) <= n * length l)%nat.
Proof.
  intros Hf. induction l as [|a l IH]; [simpl; lia |].
  rewrite bind_cons, length_app. cbn [length]. specialize (Hf a).
  rewrite Nat.mul_succ_r. lia.
Qed.

End PadronExportFacts.

(** The roster that padron_export.py writes and [read_padron] reads back
    gives a municipality one status in 2025: every row of 2025 was written
    with the status SI. *)
Lemma exported_one_status_2025 (upper : PyStr.str -> PyStr.str)
  (read_cell : PyStr.str -> option PyStr.str)
  (to_numeric : option PyStr.str -> option Z)
  (hist_rows : list PadronExport.hist_row) (rows_2025 : list PadronExport.nov2025_row) :
  PadronFile.years_read_back read_cell to_numeric ->
  BuildPanelT1.one_status_2025
    (PadronFile.exported upper read_cell to_numeric hist_rows rows_2025).
Proof.
  intros Hy.
  assert (Hrow : forall r,
            r ∈ BuildPanelT1.muni_of
                  (PadronFile.exported upper read_cell to_numeric hist_rows rows_2025) ->
            BuildPanelT1.p_anio r = Some 2025 ->
            BuildPanelT1.siga_implementado r
            = PadronFile.upper_strip upper (read_cell (PyStr.py "SI"))).
  { intros r Hr Ha. unfold BuildPanelT1.muni_of in Hr.
    apply BuildPanelT1Facts.elem_of_filter_bool in Hr as [Hr _].
    apply BuildPanelT1Facts.elem_of_filter_bool in Hr as [Hr _].
    unfold PadronFile.exported, PadronFile.read_padron in Hr.
    apply list_elem_of_fmap in Hr as (o & -> & Ho). simpl in Ha |- *.
    unfold PadronExport.main in Ho.
    apply elem_of_app in Ho as [Ho | Ho]; apply list_elem_of_bind in Ho as (row & Ho & _).
    - apply PadronExportFacts.write_hist_rows in Ho as (_ & _ & Hin & _).
      rewrite Hy in Ha by set_solver. injection Ha as Ha. rewrite Ha in Hin. set_solver.
    - apply PadronExportFacts.write_2025_rows in Ho as (_ & _ & _ & -> & _). done. }
  intros r1 r2 H1 H2 A1 A2 _. by rewrite (Hrow r1), (Hrow r2).
Qed.

(** C4. The cases of [label] are exhaustive and do not overlap: each label
    is returned for exactly one combination of the two statuses. On the
    roster that padron_export.py writes to padron_largo.csv and
    [read_padron] reads back, whatever the two tables of the data base,
    [groups] has one row, hence one label, per entity, and all the rows of
    an entity in the panel of [build_panel], whatever their year, carry
    the same [group_t1]. The same holds on any roster that gives every
    municipality a single 2025 status. *)
Theorem group_label_stable (upper : PyStr.str -> PyStr.str)
  (read_cell : PyStr.str -> option PyStr.str)
  (to_numeric : option PyStr.str -> option Z)
  (hist_rows : list PadronExport.hist_row) (rows_2025 : list PadronExport.nov2025_row)
  (padron : list BuildPanelT1.padron_row)
  (presupuesto : list BuildPanelBudgetMuni.presupuesto_row) :
  (forall pre post,
     (BuildPanelT1.label pre post = PyStr.py "ALWAYS_IN"
        <-> post = PyStr.py "SI" /\ pre = PyStr.py "SI")
     /\ (BuildPanelT1.label pre post = PyStr.py "SWITCHER"
        <-> post = PyStr.py "SI" /\ pre = PyStr.py "NO")
     /\ (BuildPanelT1.label pre post = PyStr.py "ENTRY_ABSENT"
        <-> post = PyStr.py "SI" /\ pre = PyStr.py "ABSENT")
     /\ (BuildPanelT1.label pre post = PyStr.py "EXIT"
        <-> post = PyStr.py "ABSENT" /\ pre = PyStr.py "SI")
     /\ (BuildPanelT1.label pre post = PyStr.py "OTHER"
        <-> ~ (post = PyStr.py "SI"
               /\ (pre = PyStr.py "SI" \/ pre = PyStr.py "NO" \/ pre = PyStr.py "ABSENT"))
            /\ ~ (post = PyStr.py "ABSENT" /\ pre = PyStr.py "SI")))
  /\ (PadronFile.years_read_back read_cell to_numeric ->
      let roster := PadronFile.exported upper read_cell to_numeric hist_rows rows_2025 in
      NoDup (BuildPanelT1.g_sec_ejec <$> (BuildPanelT1.build_groups roster).2)
      /\ forall r1 r2,
           r1 ∈ BuildPanelT1.run presupuesto roster ->
           r2 ∈ BuildPanelT1.run presupuesto roster ->
           BuildPanelT1.panel_sec_ejec r1 = BuildPanelT1.panel_sec_ejec r2 ->
           BuildPanelT1.panel_group_t1 r1 = BuildPanelT1.panel_group_t1 r2)
  /\ (BuildPanelT1.one_status_2025 padron ->
      NoDup (BuildPanelT1.g_sec_ejec <$> (BuildPanelT1.build_groups padron).2)
      /\ forall r1 r2,
           r1 ∈ BuildPanelT1.run presupuesto padron ->
           r2 ∈ BuildPanelT1.run presupuesto padron ->
           BuildPanelT1.panel_sec_ejec r1 = BuildPanelT1.panel_sec_ejec r2 ->
           BuildPanelT1.panel_group_t1 r1 = BuildPanelT1.panel_group_t1 r2).
Proof.
  assert (Hgen : forall roster, BuildPanelT1.one_status_2025 roster ->
            NoDup (BuildPanelT1.g_sec_ejec <$> (BuildPanelT1.build_groups roster).2)
            /\ forall r1 r2,
                 r1 ∈ BuildPanelT1.run presupuesto roster ->
                 r2 ∈ BuildPanelT1.run presupuesto roster ->
                 BuildPanelT1.panel_sec_ejec r1 = BuildPanelT1.panel_sec_ejec r2 ->
                 BuildPanelT1.panel_group_t1 r1 = BuildPanelT1.panel_group_t1 r2).
  { intros roster H. assert (Hnd := BuildPanelT1Facts.NoDup_groups roster H).
    split; [exact Hnd |].
    intros r1 r2 H1 H2 Heq. unfold BuildPanelT1.panel_group_t1. f_equal.
    unfold BuildPanelT1.run in H1, H2.
    destruct (BuildPanelT1.build_groups roster) as [muni groups].
    by apply (BuildPanelT1Facts.build_panel_same_group presupuesto muni groups). }
  split; [apply BuildPanelT1Facts.label_spec |]. split.
  - intros Hy roster. apply Hgen. by apply exported_one_status_2025.
  - apply Hgen.
Qed.

Lemma sample_years_read_back :
  PadronFile.years_read_back PadronFile.sample_read_cell PadronFile.sample_to_numeric.
Proof.
  intros y Hy.
  repeat (apply elem_of_cons in Hy as [-> | Hy]; [reflexivity |]).
  by apply elem_of_nil in Hy.
Qed.

Lemma one_status_2025_roster_ok : BuildPanelT1.one_status_2025 BuildPanelT1.roster_ok.
Proof.
  intros r1 r2 H1 H2 A1 A2 Hs.
  assert (E : BuildPanelT1.muni_of BuildPanelT1.roster_ok = BuildPanelT1.roster_ok)
    by reflexivity.
  rewrite E in H1, H2. unfold BuildPanelT1.roster_ok in H1, H2.
  repeat (apply elem_of_cons in H1 as [-> | H1]);
    try (by inversion H1); try discriminate;
    repeat (apply elem_of_cons in H2 as [-> | H2]);
    try (by inversion H2); try discriminate; reflexivity.
Qed.

Lemma group_label_stable_witness :
  (NoDup (BuildPanelT1.g_sec_ejec
            <$> (BuildPanelT1.build_groups PadronFile.sample_exported).2)
   /\ (fun g => (BuildPanelT1.g_sec_ejec g, BuildPanelT1.group_t1 g))
        <$> (BuildPanelT1.build_groups PadronFile.sample_exported).2
      = [(PyStr.py "300686", PyStr.py "ALWAYS_IN");
         (PyStr.py "300687", PyStr.py "SWITCHER");
         (PyStr.py "300688", PyStr.py "ENTRY_ABSENT")])
  /\ NoDup (BuildPanelT1.g_sec_ejec
              <$> (BuildPanelT1.build_groups BuildPanelT1.roster_ok).2)
  /\ BuildPanelT1.panel_group_t1
       <$> BuildPanelT1.run BuildPanelT1.budget_ok BuildPanelT1.roster_ok
     = [Some (PyStr.py "ALWAYS_IN"); Some (PyStr.py "ALWAYS_IN");
        Some (PyStr.py "SWITCHER"); Some (PyStr.py "SWITCHER")].
Proof.
  destruct (group_label_stable PadronIndex.ascii_upper PadronFile.sample_read_cell
              PadronFile.sample_to_numeric PadronFile.sample_hist PadronFile.sample_2025
              BuildPanelT1.roster_ok BuildPanelT1.budget_ok) as (_ & Hfile & Hany).
  split; [split |]; [| | split].
  - apply (Hfile sample_years_read_back).
  - reflexivity.
  - apply (Hany one_status_2025_roster_ok).
  - reflexivity.
Defined.

(** C5. The group of an entity comes from the roster alone. In two runs on
    the same roster and on any two budget and compliance tables: the table
    of groups and the dictionary [group_map] are the same; in the T1 panel,
    the group columns of a row are those of the row of [groups] with its
    key, so a budget row of the other run with that key gets the same
    group columns; and in the Oaxaca-Blinder panel the group of a row is
    [group_map] at its key, so two rows of one entity, one from each run,
    have the same group. *)
Theorem group_assignment_ignores_outcomes (log1p : Q -> Q)
  (padron : list BuildPanelT1.padron_row)
  (presupuesto1 presupuesto2 : list BuildPanelBudgetMuni.presupuesto_row)
  (cmn1 cmn2 : list BuildPanelCmn.cmn_flags) :
  (forall r1, r1 ∈ BuildPanelT1.run presupuesto1 padron ->
     match BuildPanelT1.grp r1 with
     | Some g => g ∈ (BuildPanelT1.build_groups padron).2
                 /\ BuildPanelT1.panel_sec_ejec r1 = Some (BuildPanelT1.g_sec_ejec g)
     | None => forall g, g ∈ (BuildPanelT1.build_groups padron).2 ->
                 BuildPanelT1.panel_sec_ejec r1 <> Some (BuildPanelT1.g_sec_ejec g)
     end)
  /\ (forall r1 b2, r1 ∈ BuildPanelT1.run presupuesto1 padron -> b2 ∈ presupuesto2 ->
        BuildPanelBudgetMuni.sec_ejec b2 = BuildPanelT1.panel_sec_ejec r1 ->
        exists r2, r2 ∈ BuildPanelT1.run presupuesto2 padron
                   /\ BuildPanelT1.budget r2 = b2
                   /\ BuildPanelT1.grp r2 = BuildPanelT1.grp r1)
  /\ (forall r, r ∈ OaxacaBlinder.build_panel log1p presupuesto1 cmn1 padron ->
        OaxacaBlinder.group r
        = OaxacaBlinder.group_map padron !! OaxacaBlinder.sec_ejec r)
  /\ (forall r1 r2,
        r1 ∈ OaxacaBlinder.build_panel log1p presupuesto1 cmn1 padron ->
        r2 ∈ OaxacaBlinder.build_panel log1p presupuesto2 cmn2 padron ->
        OaxacaBlinder.sec_ejec r1 = OaxacaBlinder.sec_ejec r2 ->
        OaxacaBlinder.group r1 = OaxacaBlinder.group r2).
Proof.
  assert (Horigin : forall presupuesto r, r ∈ BuildPanelT1.run presupuesto padron ->
            match BuildPanelT1.grp r with
            | Some g => g ∈ (BuildPanelT1.build_groups padron).2
                        /\ BuildPanelT1.panel_sec_ejec r = Some (BuildPanelT1.g_sec_ejec g)
            | None => forall g, g ∈ (BuildPanelT1.build_groups padron).2 ->
                        BuildPanelT1.panel_sec_ejec r <> Some (BuildPanelT1.g_sec_ejec g)
            end).
  { intros presupuesto r Hr. unfold BuildPanelT1.run in Hr.
    destruct (BuildPanelT1.build_groups padron) as [muni groups].
    by apply BuildPanelT1Facts.build_panel_origin in Hr as [_ Hr]. }
  split; [apply Horigin |]. split; [| split].
  - intros r1 b2 Hr1 Hb2 Hkey. apply Horigin in Hr1.
    unfold BuildPanelT1.run.
    destruct (BuildPanelT1.build_groups padron) as [muni groups]. simpl in Hr1.
    destruct (BuildPanelT1Facts.build_panel_complete presupuesto2 muni groups b2 Hb2)
      as [Hsome Hnone].
    destruct (BuildPanelT1.grp r1) as [g|].
    + destruct Hr1 as [Hg Hk]. apply Hsome; [done | congruence].
    + apply Hnone. intros g Hg. rewrite Hkey. by apply Hr1.
  - intros r. apply OaxacaGroupFacts.build_panel_group.
  - intros r1 r2 H1 H2 Heq.
    apply OaxacaGroupFacts.build_panel_group in H1, H2. congruence.
Qed.

Lemma group_assignment_ignores_outcomes_witness :
  exists r2, r2 ∈ BuildPanelT1.run [BuildPanelT1.budget_row "300687" 2023 "NO"]
                    BuildPanelT1.roster_ok
    /\ BuildPanelT1.panel_group_t1 r2 = Some (PyStr.py "SWITCHER").
Proof.
  destruct (group_assignment_ignores_outcomes (fun x => x) BuildPanelT1.roster_ok
              BuildPanelT1.budget_ok [BuildPanelT1.budget_row "300687" 2023 "NO"] [] [])
    as (_ & H & _).
  destruct (BuildPanelT1.run BuildPanelT1.budget_ok BuildPanelT1.roster_ok)
    as [|r0 [|r1 [|r2 l]]] eqn:E; [discriminate E .. |].
  destruct (H r2 (BuildPanelT1.budget_row "300687" 2023 "NO")) as (r & Hr & _ & Hg).
  - right. right. by left.
  - by left.
  - vm_compute in E. by injection E as _ _ <- _.
  - exists r. split; [exact Hr |]. unfold BuildPanelT1.panel_group_t1. rewrite Hg.
    vm_compute in E. by injection E as _ _ <- _.
Defined.

(** C6 (as amended). After [drop_duplicates] the compliance table has one
    row per (sec_ejec, anio); merging it keeps the rows of the T1 panel as
    they are, so the panel of the DiD script has the keys of the T1 panel
    rows it selects, each as often as there, and no key twice when the T1
    panel has none twice. The T1 panel of [build_panel] has the rows of the
    budget table, once each, when the roster gives a municipality one
    status per year; its keys are then distinct when those of the budget
    table are, which for the rows with a key is what [dup_keys = 0] of the
    budget QC reports. *)
Theorem panel_keys_after_dedup (log1p : Q -> Q)
  (presupuesto : list BuildPanelBudgetMuni.presupuesto_row)
  (padron : list BuildPanelT1.padron_row)
  (t1 : list BuildPanelT1.panel_row) (cmn : list BuildPanelCmn.cmn_flags) :
  NoDup ((fun c : PyStr.str * Z * Z => (c.1.1, c.1.2)) <$> Analisis.cmn_cols_of cmn)
  /\ DidClasico.t1 <$> DidClasico.build_panel log1p t1 cmn
     = List.filter DidClasico.in_sample t1
  /\ Diagnostics.t1 <$> Diagnostics.build_panel t1 cmn = t1
  /\ (NoDup (BuildPanelT1.panel_key <$> t1) ->
      NoDup (DidClasico.panel_key <$> DidClasico.build_panel log1p t1 cmn))
  /\ (BuildPanelT1.one_status_per_year padron ->
      BuildPanelT1.budget <$> BuildPanelT1.run presupuesto padron = presupuesto)
  /\ (BuildPanelT1.one_status_per_year padron ->
      NoDup (BuildPanelBudgetMuni.key <$> presupuesto) ->
      NoDup (BuildPanelT1.panel_key <$> BuildPanelT1.run presupuesto padron))
  /\ (BuildPanelBudgetMuni.dup_keys presupuesto = 0%nat <->
      NoDup (BuildPanelBudgetMuni.key
               <$> List.filter
                     (fun r => bool_decide (is_Some (BuildPanelBudgetMuni.sec_ejec r)))
                     presupuesto)).
Proof.
  split; [apply AnalisisFacts.NoDup_cmn_cols |].
  split; [apply AnalisisFacts.did_clasico_rows |].
  split; [apply AnalisisFacts.diagnostics_rows |].
  split; [| split; [| split; [| apply BuildPanelBudgetMuniFacts.dup_keys_zero]]].
  - intros Hnd.
    change (DidClasico.panel_key <$> DidClasico.build_panel log1p t1 cmn)
      with ((BuildPanelT1.panel_key ∘ DidClasico.t1) <$> DidClasico.build_panel log1p t1 cmn).
    rewrite list_fmap_compose, AnalisisFacts.did_clasico_rows.
    by apply AnalisisFacts.NoDup_fmap_filter.
  - apply BuildPanelT1Facts.build_panel_rows.
  - intros H Hnd.
    change (BuildPanelT1.panel_key <$> BuildPanelT1.run presupuesto padron)
      with ((BuildPanelBudgetMuni.key ∘ BuildPanelT1.budget)
              <$> BuildPanelT1.run presupuesto padron).
    by rewrite list_fmap_compose, BuildPanelT1Facts.build_panel_rows.
Qed.

Lemma one_status_per_year_roster_ok : BuildPanelT1.one_status_per_year BuildPanelT1.roster_ok.
Proof.
  intros r1 r2 H1 H2 A Hs.
  assert (E : BuildPanelT1.muni_of BuildPanelT1.roster_ok = BuildPanelT1.roster_ok)
    by reflexivity.
  rewrite E in H1, H2. unfold BuildPanelT1.roster_ok in H1, H2.
  repeat (apply elem_of_cons in H1 as [-> | H1]);
    try (by inversion H1);
    repeat (apply elem_of_cons in H2 as [-> | H2]);
    try (by inversion H2); try discriminate; reflexivity.
Qed.

Lemma panel_keys_after_dedup_witness :
  NoDup (BuildPanelT1.panel_key
           <$> BuildPanelT1.run BuildPanelT1.budget_ok BuildPanelT1.roster_ok)
  /\ NoDup (DidClasico.panel_key
              <$> DidClasico.build_panel (fun x => x)
                    (BuildPanelT1.run BuildPanelT1.budget_ok BuildPanelT1.roster_ok) []).
Proof.
  destruct (panel_keys_after_dedup (fun x => x) BuildPanelT1.budget_ok BuildPanelT1.roster_ok
              (BuildPanelT1.run BuildPanelT1.budget_ok BuildPanelT1.roster_ok) [])
    as (_ & _ & _ & Hdid & _ & Ht1 & _).
  assert (H1 : NoDup (BuildPanelT1.panel_key
                        <$> BuildPanelT1.run BuildPanelT1.budget_ok BuildPanelT1.roster_ok)).
  { apply Ht1; [exact one_status_per_year_roster_ok |].
    vm_compute.
    repeat (constructor;
            [by (rewrite ?elem_of_cons, elem_of_nil; intuition discriminate) |]).
    constructor. }
  split; [exact H1 | exact (Hdid H1)].
Defined.

(** The key of a municipality that is in both yearly files of the budget
    table is twice in the T1 panel and twice in the panel of the DiD
    script: nothing deduplicates the budget rows. *)
Lemma panel_keys_duplicated :
  BuildPanelT1.panel_key
    <$> BuildPanelT1.run BuildPanelT1.budget_two_files BuildPanelT1.roster_ok
  = [(Some (PyStr.py "300686"), 2024); (Some (PyStr.py "300686"), 2024)]
  /\ ~ NoDup (BuildPanelT1.panel_key
                <$> BuildPanelT1.run BuildPanelT1.budget_two_files BuildPanelT1.roster_ok)
  /\ ~ NoDup (DidClasico.panel_key
                <$> DidClasico.build_panel (fun x => x)
                      (BuildPanelT1.run BuildPanelT1.budget_two_files BuildPanelT1.roster_ok)
                      []).
Proof.
  split; [reflexivity |]. split.
  - assert (E : BuildPanelT1.panel_key
                  <$> BuildPanelT1.run BuildPanelT1.budget_two_files BuildPanelT1.roster_ok
                = [(Some (PyStr.py "300686"), 2024); (Some (PyStr.py "300686"), 2024)])
      by reflexivity.
    rewrite E. intros H. apply NoDup_cons in H as [H _]. apply H. by left.
  - assert (E : DidClasico.panel_key
                  <$> DidClasico.build_panel (fun x => x)
                        (BuildPanelT1.run BuildPanelT1.budget_two_files BuildPanelT1.roster_ok)
                        []
                = [(Some (PyStr.py "300686"), 2024); (Some (PyStr.py "300686"), 2024)])
      by (by vm_compute).
    rewrite E. intros H. apply NoDup_cons in H as [H _]. apply H. by left.
Qed.

(** ** The decompositions (run_oaxaca_blinder.py) *)

Module OaxacaFacts.
Import PyStr Float OaxacaBlinder.
Local Open Scope Q_scope.

Lemma of_nat_plus a b : of_nat (a + b) == of_nat a + of_nat b.
Proof. unfold of_nat. by rewrite Nat2Z.inj_add, inject_Z_plus. Qed.

Lemma of_nat_nonzero n : n <> 0%nat -> ~ of_nat n == 0.
Proof.
  intros Hn H. unfold of_nat, Qeq in H. simpl in H. lia.
Qed.

Lemma mean_nonempty l : l <> [] -> Pandas.mean l = Some (Pandas.qsum l / of_nat (length l)).
Proof. by destruct l. Qed.

(** The Kitagawa identity on the weights and rates. *)
Lemma kitagawa (nA nE : nat) (rA24 rA25 rE25 : Q) :
  (nA + nE)%nat <> 0%nat ->
  let wA := of_nat nA / of_nat (nA + nE) in
  let wE := of_nat nE / of_nat (nA + nE) in
  wA * (rA25 - rA24) + wE * (rE25 - rA24) == (wA * rA25 + wE * rE25) - rA24.
Proof.
  intros Hn wA wE. subst wA wE.
  assert (H := of_nat_nonzero _ Hn). rewrite of_nat_plus in *. field. exact H.
Qed.

Lemma aggregate_sums panel :
  select 2024 "ALWAYS_IN" panel <> [] ->
  select 2025 "ALWAYS_IN" panel <> [] ->
  select 2025 "ENTRY" panel <> [] ->
  exists r, aggregate_decomposition panel = inl r
    /\ r_A_24 r = Pandas.mean (cumple_v4 <$> select 2024 "ALWAYS_IN" panel)
    /\ r_A_25 r = Pandas.mean (cumple_v4 <$> select 2025 "ALWAYS_IN" panel)
    /\ r_E_25 r = Pandas.mean (cumple_v4 <$> select 2025 "ENTRY" panel)
    /\ n_A_25 r = length (select 2025 "ALWAYS_IN" panel)
    /\ n_E_25 r = length (select 2025 "ENTRY" panel)
    /\ n_25 r = (n_A_25 r + n_E_25 r)%nat
    /\ w_A r = of_nat (n_A_25 r) / of_nat (n_25 r)
    /\ w_E r = of_nat (n_E_25 r) / of_nat (n_25 r)
    /\ w_A r + w_E r == 1
    /\ ind_24 r = r_A_24 r
    /\ ind_25 r = fadd (fmul (Some (w_A r)) (r_A_25 r)) (fmul (Some (w_E r)) (r_E_25 r))
    /\ delta_behavior_pp r
       = fmul (delta_behavior (w_A r) (r_A_25 r) (r_A_24 r)) (Some 100)
    /\ delta_composition_pp r
       = fmul (delta_composition (w_E r) (r_E_25 r) (r_A_24 r)) (Some 100)
    /\ feq (fadd (delta_behavior (w_A r) (r_A_25 r) (r_A_24 r))
                 (delta_composition (w_E r) (r_E_25 r) (r_A_24 r)))
           (fsub (ind_25 r) (ind_24 r))
    /\ feq (fadd (delta_behavior_pp r) (delta_composition_pp r)) (delta_total_pp r)
    /\ feq (delta_total_pp r) (fmul (fsub (ind_25 r) (ind_24 r)) (Some 100)).
Proof.
  intros H24 H25 HE. unfold aggregate_decomposition.
  set (a24 := select 2024 "ALWAYS_IN" panel) in *.
  set (a25 := select 2025 "ALWAYS_IN" panel) in *.
  set (e25 := select 2025 "ENTRY" panel) in *.
  assert (Hn : (length a25 + length e25)%nat <> 0%nat) by (destruct a25; simpl; [done | lia]).
  destruct (Nat.eqb_spec (length a25 + length e25) 0) as [|_]; [done |].
  assert (HlE : (0 <? length e25)%nat = true) by (destruct e25; [done | reflexivity]).
  rewrite HlE.
  eexists. split; [reflexivity |]. cbn -[Pandas.mean of_nat Qdiv Qplus Qeq].
  do 8 (split; [reflexivity |]).
  split.
  { assert (H := of_nat_nonzero _ Hn). rewrite of_nat_plus in *. field. exact H. }
  do 4 (split; [reflexivity |]).
  rewrite !mean_nonempty by (intros E; apply fmap_nil_inv in E; done).
  set (rA24 := Pandas.qsum (cumple_v4 <$> a24) / of_nat (length (cumple_v4 <$> a24))).
  set (rA25 := Pandas.qsum (cumple_v4 <$> a25) / of_nat (length (cumple_v4 <$> a25))).
  set (rE25 := Pandas.qsum (cumple_v4 <$> e25) / of_nat (length (cumple_v4 <$> e25))).
  assert (K := kitagawa (length a25) (length e25) rA24 rA25 rE25 Hn). simpl in K.
  simpl.
  split; [exact K |]. split; [| reflexivity].
  rewrite <- K. ring.
Qed.

(** *** The three-fold decomposition *)

Lemma threefold (xb24 xb25 b24 b25 : vec3) :
  dot (vsub xb25 xb24) b24 + dot xb24 (vsub b25 b24)
  + dot (vsub xb25 xb24) (vsub b25 b24)
  == dot xb25 b25 - dot xb24 b24.
Proof. unfold dot, vsub. simpl. ring. Qed.

Lemma qsum_cons x l : Pandas.qsum (x :: l) = x + Pandas.qsum l.
Proof. reflexivity. Qed.

(** The sum of a column against the residuals, by linearity. *)
Lemma csum_residual (a : vec3 -> Q) (b : vec3) X y :
  csum (fun o => a o.1 * residual b o) X y
  == moment a X y
     - (v_const b * gram a v_const X y + v_pia b * gram a v_pia X y
        + v_pim b * gram a v_pim X y).
Proof.
  unfold moment, gram, csum. induction (zip X y) as [|o l IH].
  - simpl. ring.
  - rewrite !fmap_cons, !qsum_cons, IH. unfold residual, dot. ring.
Qed.

Lemma gram_comm (a b : vec3 -> Q) X y : gram a b X y == gram b a X y.
Proof.
  unfold gram, csum. induction (zip X y) as [|o l IH]; [reflexivity |].
  rewrite !fmap_cons, !qsum_cons, IH. ring.
Qed.

(** Cramer's rule solves the normal equations when [X'X] is invertible. *)
Lemma ols_full_rank_normal X y :
  ~ gram_det X y == 0 -> normal_equations X y (ols_full_rank X y).
Proof.
  intros Hd. unfold normal_equations. rewrite !csum_residual.
  rewrite (gram_comm v_pia v_const), (gram_comm v_pim v_const), (gram_comm v_pim v_pia).
  unfold ols_full_rank, gram_det, det3 in *. simpl.
  set (s11 := gram v_const v_const X y) in *. set (s12 := gram v_const v_pia X y) in *.
  set (s13 := gram v_const v_pim X y) in *. set (s22 := gram v_pia v_pia X y) in *.
  set (s23 := gram v_pia v_pim X y) in *. set (s33 := gram v_pim v_pim X y) in *.
  set (t1 := moment v_const X y). set (t2 := moment v_pia X y).
  set (t3 := moment v_pim X y).
  repeat split; field; exact Hd.
Qed.

(** With a constant in the design, the first normal equation says that
    the fitted plane goes through the means. *)
Lemma design_rows d X :
  add_constant d = Some X ->
  X = (fun o : obs => {| v_const := 1; v_pia := o.2.1; v_pim := o.2.2 |}) <$> d.
Proof. unfold add_constant. destruct (_ || _); [done |]. by intros [= <-]. Qed.

Lemma csum_cons (w : vec3 * Q -> Q) x X y Y :
  csum w (x :: X) (y :: Y) = w (x, y) + csum w X Y.
Proof. reflexivity. Qed.

Lemma const_residual_sum (d : list obs) (b : vec3) :
  let X := (fun o : obs => {| v_const := 1; v_pia := o.2.1; v_pim := o.2.2 |}) <$> d in
  csum (fun o => v_const o.1 * residual b o) X (fst <$> d)
  == Pandas.qsum (fst <$> d)
     - (v_const b * Pandas.qsum (v_const <$> X) + v_pia b * Pandas.qsum (v_pia <$> X)
        + v_pim b * Pandas.qsum (v_pim <$> X)).
Proof.
  cbn zeta. induction d as [|o d IH].
  - unfold csum. simpl. ring.
  - rewrite !fmap_cons, csum_cons, !qsum_cons, IH. unfold residual, dot. simpl. ring.
Qed.

Lemma mean_through_fit d X b :
  d <> [] -> add_constant d = Some X ->
  csum (fun o => v_const o.1 * residual b o) X (fst <$> d) == 0 ->
  ymean d == dot (col_means X) b.
Proof.
  intros Hd HX. apply design_rows in HX. subst X. intros H.
  rewrite const_residual_sum in H.
  unfold ymean, col_means, dot. simpl. rewrite length_fmap.
  assert (Hn := of_nat_nonzero (length d) ltac:(by destruct d)).
  set (n := of_nat (length d)) in *.
  set (sy := Pandas.qsum (fst <$> d)) in *.
  set (s0 := Pandas.qsum (v_const <$> _)) in *.
  set (s1 := Pandas.qsum (v_pia <$> _)) in *.
  set (s2 := Pandas.qsum (v_pim <$> _)) in *.
  assert (Hy : sy == v_const b * s0 + v_pia b * s1 + v_pim b * s2).
  { rewrite <- (Qplus_0_l (_ + _ + _)), <- H. ring. }
  rewrite Hy. field. exact Hn.
Qed.

End OaxacaFacts.

(** C2 (as amended). With the floats read as exact rationals: in
    [aggregate_decomposition], when the three groups the rates are taken
    over are not empty, the result is returned; its rates are the means of
    [cumple_v4] over the three groups of the panel, its weights the shares
    of the two groups of 2025, [ind_24] is the rate of 2024 and [ind_25]
    the weighted rate of 2025; and [delta_behavior + delta_composition =
    ind_25 - ind_24 = delta_total] (also on the values in percentage
    points of the dictionary). In [individual_decomposition], when both
    samples are not empty and [add_constant] adds the constant, the result
    is returned, with the means of the two samples, and [endowments_total
    + coefficients_total + interaction_total] is [X_bar_25 . beta_25 -
    X_bar_24 . beta_24]; when the coefficients of each year solve the
    normal equations of that year's least-squares problem, this is
    [y_bar_25 - y_bar_24] and [check_residual] is zero; and they do when
    the two designs have full rank, the coefficients then being the
    solution of [X'X b = X'y]. The code computes in binary64, where these
    sums agree up to rounding only. *)
Theorem decomposition_sums_to_total
  (ols : list OaxacaBlinder.vec3 -> list Q -> OaxacaBlinder.vec3)
  (panel : list OaxacaBlinder.panel_row) :
  (OaxacaBlinder.select 2024 "ALWAYS_IN" panel <> [] ->
   OaxacaBlinder.select 2025 "ALWAYS_IN" panel <> [] ->
   OaxacaBlinder.select 2025 "ENTRY" panel <> [] ->
   exists r, OaxacaBlinder.aggregate_decomposition panel = inl r
     /\ OaxacaBlinder.r_A_24 r
        = Pandas.mean (OaxacaBlinder.cumple_v4
                         <$> OaxacaBlinder.select 2024 "ALWAYS_IN" panel)
     /\ OaxacaBlinder.r_A_25 r
        = Pandas.mean (OaxacaBlinder.cumple_v4
                         <$> OaxacaBlinder.select 2025 "ALWAYS_IN" panel)
     /\ OaxacaBlinder.r_E_25 r
        = Pandas.mean (OaxacaBlinder.cumple_v4
                         <$> OaxacaBlinder.select 2025 "ENTRY" panel)
     /\ OaxacaBlinder.n_A_25 r = length (OaxacaBlinder.select 2025 "ALWAYS_IN" panel)
     /\ OaxacaBlinder.n_E_25 r = length (OaxacaBlinder.select 2025 "ENTRY" panel)
     /\ OaxacaBlinder.n_25 r = (OaxacaBlinder.n_A_25 r + OaxacaBlinder.n_E_25 r)%nat
     /\ OaxacaBlinder.w_A r
        = (Float.of_nat (OaxacaBlinder.n_A_25 r) / Float.of_nat (OaxacaBlinder.n_25 r))%Q
     /\ OaxacaBlinder.w_E r
        = (Float.of_nat (OaxacaBlinder.n_E_25 r) / Float.of_nat (OaxacaBlinder.n_25 r))%Q
     /\ (OaxacaBlinder.w_A r + OaxacaBlinder.w_E r == 1)%Q
     /\ OaxacaBlinder.ind_24 r = OaxacaBlinder.r_A_24 r
     /\ OaxacaBlinder.ind_25 r
        = Float.fadd (Float.fmul (Some (OaxacaBlinder.w_A r)) (OaxacaBlinder.r_A_25 r))
            (Float.fmul (Some (OaxacaBlinder.w_E r)) (OaxacaBlinder.r_E_25 r))
     /\ OaxacaBlinder.delta_behavior_pp r
        = Float.fmul
            (OaxacaBlinder.delta_behavior (OaxacaBlinder.w_A r) (OaxacaBlinder.r_A_25 r)
               (OaxacaBlinder.r_A_24 r))
            (Some 100%Q)
     /\ OaxacaBlinder.delta_composition_pp r
        = Float.fmul
            (OaxacaBlinder.delta_composition (OaxacaBlinder.w_E r) (OaxacaBlinder.r_E_25 r)
               (OaxacaBlinder.r_A_24 r))
            (Some 100%Q)
     /\ Float.feq
          (Float.fadd
             (OaxacaBlinder.delta_behavior (OaxacaBlinder.w_A r) (OaxacaBlinder.r_A_25 r)
                (OaxacaBlinder.r_A_24 r))
             (OaxacaBlinder.delta_composition (OaxacaBlinder.w_E r) (OaxacaBlinder.r_E_25 r)
                (OaxacaBlinder.r_A_24 r)))
          (Float.fsub (OaxacaBlinder.ind_25 r) (OaxacaBlinder.ind_24 r))
     /\ Float.feq
          (Float.fadd (OaxacaBlinder.delta_behavior_pp r)
             (OaxacaBlinder.delta_composition_pp r))
          (OaxacaBlinder.delta_total_pp r)
     /\ Float.feq (OaxacaBlinder.delta_total_pp r)
          (Float.fmul (Float.fsub (OaxacaBlinder.ind_25 r) (OaxacaBlinder.ind_24 r))
             (Some 100%Q)))
  /\ (forall X24 X25,
        OaxacaBlinder.sample 2024 panel <> [] ->
        OaxacaBlinder.sample 2025 panel <> [] ->
        OaxacaBlinder.add_constant (OaxacaBlinder.sample 2024 panel) = Some X24 ->
        OaxacaBlinder.add_constant (OaxacaBlinder.sample 2025 panel) = Some X25 ->
        exists r, OaxacaBlinder.individual_decomposition ols panel = OaxacaBlinder.Decomposed r
          /\ OaxacaBlinder.beta_24 r = ols X24 (fst <$> OaxacaBlinder.sample 2024 panel)
          /\ OaxacaBlinder.beta_25 r = ols X25 (fst <$> OaxacaBlinder.sample 2025 panel)
          /\ OaxacaBlinder.X_bar_24 r = OaxacaBlinder.col_means X24
          /\ OaxacaBlinder.X_bar_25 r = OaxacaBlinder.col_means X25
          /\ OaxacaBlinder.y_bar_24 r = OaxacaBlinder.ymean (OaxacaBlinder.sample 2024 panel)
          /\ OaxacaBlinder.y_bar_25 r = OaxacaBlinder.ymean (OaxacaBlinder.sample 2025 panel)
          /\ OaxacaBlinder.total_decomposed r
             = (OaxacaBlinder.endowments_total r + OaxacaBlinder.coefficients_total r
                + OaxacaBlinder.interaction_total r)%Q
          /\ OaxacaBlinder.check_residual r
             = ((OaxacaBlinder.y_bar_25 r - OaxacaBlinder.y_bar_24 r)
                - OaxacaBlinder.total_decomposed r)%Q
          /\ (OaxacaBlinder.endowments_total r + OaxacaBlinder.coefficients_total r
              + OaxacaBlinder.interaction_total r
              == OaxacaBlinder.dot (OaxacaBlinder.X_bar_25 r) (OaxacaBlinder.beta_25 r)
                 - OaxacaBlinder.dot (OaxacaBlinder.X_bar_24 r) (OaxacaBlinder.beta_24 r))%Q
          /\ (OaxacaBlinder.normal_equations X24 (fst <$> OaxacaBlinder.sample 2024 panel)
                (OaxacaBlinder.beta_24 r) ->
              OaxacaBlinder.normal_equations X25 (fst <$> OaxacaBlinder.sample 2025 panel)
                (OaxacaBlinder.beta_25 r) ->
              (OaxacaBlinder.endowments_total r + OaxacaBlinder.coefficients_total r
               + OaxacaBlinder.interaction_total r
               == OaxacaBlinder.y_bar_25 r - OaxacaBlinder.y_bar_24 r)%Q
              /\ (OaxacaBlinder.check_residual r == 0)%Q))
  /\ (forall X24 X25,
        OaxacaBlinder.sample 2024 panel <> [] ->
        OaxacaBlinder.sample 2025 panel <> [] ->
        OaxacaBlinder.add_constant (OaxacaBlinder.sample 2024 panel) = Some X24 ->
        OaxacaBlinder.add_constant (OaxacaBlinder.sample 2025 panel) = Some X25 ->
        ~ (OaxacaBlinder.gram_det X24 (fst <$> OaxacaBlinder.sample 2024 panel) == 0)%Q ->
        ~ (OaxacaBlinder.gram_det X25 (fst <$> OaxacaBlinder.sample 2025 panel) == 0)%Q ->
        exists r, OaxacaBlinder.individual_decomposition OaxacaBlinder.ols_full_rank panel
                  = OaxacaBlinder.Decomposed r
          /\ OaxacaBlinder.normal_equations X24 (fst <$> OaxacaBlinder.sample 2024 panel)
               (OaxacaBlinder.beta_24 r)
          /\ OaxacaBlinder.normal_equations X25 (fst <$> OaxacaBlinder.sample 2025 panel)
               (OaxacaBlinder.beta_25 r)
          /\ (OaxacaBlinder.endowments_total r + OaxacaBlinder.coefficients_total r
              + OaxacaBlinder.interaction_total r
              == OaxacaBlinder.y_bar_25 r - OaxacaBlinder.y_bar_24 r)%Q
          /\ (OaxacaBlinder.check_residual r == 0)%Q).
Proof.
  split; [apply OaxacaFacts.aggregate_sums |].
  assert (HI : forall ols0 X24 X25,
    OaxacaBlinder.sample 2024 panel <> [] ->
    OaxacaBlinder.sample 2025 panel <> [] ->
    OaxacaBlinder.add_constant (OaxacaBlinder.sample 2024 panel) = Some X24 ->
    OaxacaBlinder.add_constant (OaxacaBlinder.sample 2025 panel) = Some X25 ->
    exists r, OaxacaBlinder.individual_decomposition ols0 panel = OaxacaBlinder.Decomposed r
      /\ OaxacaBlinder.beta_24 r = ols0 X24 (fst <$> OaxacaBlinder.sample 2024 panel)
      /\ OaxacaBlinder.beta_25 r = ols0 X25 (fst <$> OaxacaBlinder.sample 2025 panel)
      /\ OaxacaBlinder.X_bar_24 r = OaxacaBlinder.col_means X24
      /\ OaxacaBlinder.X_bar_25 r = OaxacaBlinder.col_means X25
      /\ OaxacaBlinder.y_bar_24 r = OaxacaBlinder.ymean (OaxacaBlinder.sample 2024 panel)
      /\ OaxacaBlinder.y_bar_25 r = OaxacaBlinder.ymean (OaxacaBlinder.sample 2025 panel)
      /\ OaxacaBlinder.total_decomposed r
         = (OaxacaBlinder.endowments_total r + OaxacaBlinder.coefficients_total r
            + OaxacaBlinder.interaction_total r)%Q
      /\ OaxacaBlinder.check_residual r
         = ((OaxacaBlinder.y_bar_25 r - OaxacaBlinder.y_bar_24 r)
            - OaxacaBlinder.total_decomposed r)%Q
      /\ (OaxacaBlinder.endowments_total r + OaxacaBlinder.coefficients_total r
          + OaxacaBlinder.interaction_total r
          == OaxacaBlinder.dot (OaxacaBlinder.X_bar_25 r) (OaxacaBlinder.beta_25 r)
             - OaxacaBlinder.dot (OaxacaBlinder.X_bar_24 r) (OaxacaBlinder.beta_24 r))%Q
      /\ (OaxacaBlinder.normal_equations X24 (fst <$> OaxacaBlinder.sample 2024 panel)
            (OaxacaBlinder.beta_24 r) ->
          OaxacaBlinder.normal_equations X25 (fst <$> OaxacaBlinder.sample 2025 panel)
            (OaxacaBlinder.beta_25 r) ->
          (OaxacaBlinder.endowments_total r + OaxacaBlinder.coefficients_total r
           + OaxacaBlinder.interaction_total r
           == OaxacaBlinder.y_bar_25 r - OaxacaBlinder.y_bar_24 r)%Q
          /\ (OaxacaBlinder.check_residual r == 0)%Q)).
  { intros ols0 X24 X25 H24 H25 HX24 HX25. unfold OaxacaBlinder.individual_decomposition.
    destruct (OaxacaBlinder.sample 2024 panel) as [|o24 d24] eqn:E24; [done |].
    destruct (OaxacaBlinder.sample 2025 panel) as [|o25 d25] eqn:E25; [done |].
    rewrite HX24, HX25. eexists. split; [reflexivity |]. simpl.
    do 8 (split; [reflexivity |]).
    split; [apply OaxacaFacts.threefold |].
    intros [N24 _] [N25 _].
    apply (OaxacaFacts.mean_through_fit (o24 :: d24) X24) in N24; [| done | done].
    apply (OaxacaFacts.mean_through_fit (o25 :: d25) X25) in N25; [| done | done].
    assert (T := OaxacaFacts.threefold (OaxacaBlinder.col_means X24)
                   (OaxacaBlinder.col_means X25)
                   (ols0 X24 (fst <$> o24 :: d24)) (ols0 X25 (fst <$> o25 :: d25))).
    simpl in T, N24, N25 |- *.
    split.
    - rewrite T, N24, N25. reflexivity.
    - rewrite T, N24, N25. ring. }
  split; [apply HI |].
  intros X24 X25 H24 H25 HX24 HX25 D24 D25.
  destruct (HI OaxacaBlinder.ols_full_rank X24 X25 H24 H25 HX24 HX25)
    as (r & Hr & B24 & B25 & _ & _ & _ & _ & _ & _ & _ & Hres).
  assert (N24 : OaxacaBlinder.normal_equations X24 (fst <$> OaxacaBlinder.sample 2024 panel)
                  (OaxacaBlinder.beta_24 r)).
  { rewrite B24. by apply OaxacaFacts.ols_full_rank_normal. }
  assert (N25 : OaxacaBlinder.normal_equations X25 (fst <$> OaxacaBlinder.sample 2025 panel)
                  (OaxacaBlinder.beta_25 r)).
  { rewrite B25. by apply OaxacaFacts.ols_full_rank_normal. }
  exists r. split; [exact Hr |]. split; [exact N24 |]. split; [exact N25 |].
  by apply Hres.
Qed.

Lemma decomposition_sums_to_total_witness :
  (exists r, OaxacaBlinder.aggregate_decomposition OaxacaBlinder.sample_panel = inl r
     /\ Float.feq
          (Float.fadd (OaxacaBlinder.delta_behavior_pp r)
             (OaxacaBlinder.delta_composition_pp r))
          (OaxacaBlinder.delta_total_pp r))
  /\ (exists r, OaxacaBlinder.individual_decomposition OaxacaBlinder.ols_full_rank
                  OaxacaBlinder.sample_panel = OaxacaBlinder.Decomposed r
        /\ (OaxacaBlinder.check_residual r == 0)%Q).
Proof.
  destruct (decomposition_sums_to_total OaxacaBlinder.ols_full_rank OaxacaBlinder.sample_panel)
    as (HA & _ & HI).
  split.
  - destruct HA as (r & Hr & Hrest); [by vm_compute .. |].
    exists r. split; [exact Hr |].
    apply Hrest.
  - destruct (HI (default [] (OaxacaBlinder.add_constant
                                (OaxacaBlinder.sample 2024 OaxacaBlinder.sample_panel)))
                 (default [] (OaxacaBlinder.add_constant
                                (OaxacaBlinder.sample 2025 OaxacaBlinder.sample_panel))))
      as (r & Hr & _ & _ & _ & Hres);
      [by vm_compute | by vm_compute | by vm_compute | by vm_compute
      | unfold Qeq; vm_compute; discriminate
      | unfold Qeq; vm_compute; discriminate |].
    by exists r.
Defined.

(** In binary64 the components do not always sum to the total. On a panel
    with one ALWAYS_IN entity, compliant in both years, and two entrants,
    one of them compliant, the weights are 1/3 and 2/3 rounded:
    [delta_total = ind_25 - ind_24] is -0.33333333333333337, while
    [delta_behavior + delta_composition] is -0.3333333333333333, one unit
    in the last place away; the values in percentage points differ as
    well. On the same panel the exact rationals agree. *)
Lemma aggregate_decomposition_rounding :
  exists r q,
    OaxacaBinary64.aggregate_decomposition OaxacaBinary64.rounding_panel = inl r
    /\ OaxacaBinary64.delta_total r
       = Binary64.sub (OaxacaBinary64.ind_25 r) (OaxacaBinary64.ind_24 r)
    /\ OaxacaBinary64.delta_total r = SpecFloat.S754_finite true 6004799503160662 (-54)
    /\ Binary64.add (OaxacaBinary64.delta_behavior r) (OaxacaBinary64.delta_composition r)
       = SpecFloat.S754_finite true 6004799503160661 (-54)
    /\ SpecFloat.SFeqb
         (Binary64.add (OaxacaBinary64.delta_behavior r) (OaxacaBinary64.delta_composition r))
         (OaxacaBinary64.delta_total r) = false
    /\ SpecFloat.SFeqb
         (Binary64.add (OaxacaBinary64.delta_behavior_pp r)
            (OaxacaBinary64.delta_composition_pp r))
         (OaxacaBinary64.delta_total_pp r) = false
    /\ OaxacaBlinder.aggregate_decomposition OaxacaBinary64.rounding_panel = inl q
    /\ Float.feq
         (Float.fadd (OaxacaBlinder.delta_behavior_pp q)
            (OaxacaBlinder.delta_composition_pp q))
         (OaxacaBlinder.delta_total_pp q).
Proof.
  eexists _, _. split; [reflexivity |].
  split; [reflexivity |]. split; [by vm_compute |]. split; [by vm_compute |].
  split; [by vm_compute |]. split; [by vm_compute |].
  split; [reflexivity |]. by vm_compute.
Qed.

(** ** Nearest-neighbour matching (run_did_psm.py) *)

Module Binary64Facts.
Import SpecFloat Binary64.

(** [sort_lt] is the lexicographic order of the ranks. *)
Lemma sort_lt_rank a b : sort_lt a b = true <-> lex_lt (rank a) (rank b).
Proof.
  unfold sort_lt, ltb, SFltb, lex_lt.
  destruct a as [sa|sa| |sa ma ea], b as [sb|sb| |sb mb eb];
    try destruct sa; try destruct sb; cbn;
    try destruct (Z.compare_spec ea eb) as [E|E|E]; cbn;
    try change (Pos.compare_cont Eq ma mb) with (Pos.compare ma mb);
    try destruct (Pos.compare_spec ma mb) as [F|F|F]; cbn;
    (split; [intros H; try discriminate H; lia | intros H; try reflexivity; lia]).
Qed.

Lemma sort_lt_false a b : sort_lt a b = false <-> ~ lex_lt (rank a) (rank b).
Proof. rewrite <- sort_lt_rank. by destruct (sort_lt a b). Qed.

(** [a <= b]: neither is NaN and [b] is not before [a]. *)
Lemma leb_rank a b :
  leb a b = true
  <-> is_nan a = false /\ is_nan b = false /\ ~ lex_lt (rank b) (rank a).
Proof.
  unfold leb, SFleb, lex_lt.
  destruct a as [sa|sa| |sa ma ea], b as [sb|sb| |sb mb eb];
    try destruct sa; try destruct sb; cbn;
    try destruct (Z.compare_spec ea eb) as [E|E|E]; cbn;
    try change (Pos.compare_cont Eq ma mb) with (Pos.compare ma mb);
    try destruct (Pos.compare_spec ma mb) as [F|F|F]; cbn;
    (split; [intros H; try discriminate H; repeat split; lia
            | intros (H1 & H2 & H); try discriminate; try reflexivity; lia]).
Qed.

(** [a < b] implies that [a] is before [b] in the order of the sort. *)
Lemma ltb_sort_lt a b : ltb a b = true -> sort_lt a b = true.
Proof. unfold sort_lt. by intros ->. Qed.

Lemma rank_not_nan a : is_nan a = false -> (rank a).1.1 < 3.
Proof. destruct a as [s|s| |s m e]; try destruct s; cbn; intros; try done; lia. Qed.

Lemma rank_is_nan a : is_nan a = true -> rank a = (3, 0, 0).
Proof. by destruct a. Qed.

Lemma lex_le_trans a b c : ~ lex_lt b a -> ~ lex_lt c b -> ~ lex_lt c a.
Proof.
  unfold lex_lt. destruct a as [[? ?] ?], b as [[? ?] ?], c as [[? ?] ?]. cbn. lia.
Qed.

Lemma lex_le_total a b : ~ lex_lt b a \/ ~ lex_lt a b.
Proof. unfold lex_lt. destruct a as [[? ?] ?], b as [[? ?] ?]. cbn. lia. Qed.

(** A value within the caliper is not after one that is not. *)
Lemma leb_caliper a b caliper :
  leb a caliper = true -> leb b caliper = false -> sort_lt b a = false.
Proof.
  intros Ha Hb. apply sort_lt_false. apply leb_rank in Ha as (Ha & Hc & Hac).
  assert (Hb' : ~ (is_nan b = false /\ is_nan caliper = false
                   /\ ~ lex_lt (rank caliper) (rank b))).
  { rewrite <- leb_rank. by rewrite Hb. }
  pose proof (rank_not_nan a Ha) as Ra.
  destruct (is_nan b) eqn:Eb.
  - rewrite (rank_is_nan b Eb). unfold lex_lt. cbn. lia.
  - assert (Hlt : lex_lt (rank caliper) (rank b)).
    { destruct (decide (lex_lt (rank caliper) (rank b))) as [|Hn]; [done |].
      exfalso. apply Hb'. done. }
    revert Hac Hlt. unfold lex_lt.
    destruct (rank a) as [[? ?] ?], (rank b) as [[? ?] ?], (rank caliper) as [[? ?] ?].
    cbn. lia.
Qed.

End Binary64Facts.

Module DidPsmFacts.
Import PyStr Binary64 DidPsm.

Lemma closer_iff a b : closer a b <-> ~ lex_lt (rank b.2) (rank a.2).
Proof.
  unfold closer. rewrite Is_true_true, negb_true_iff. apply Binary64Facts.sort_lt_false.
Qed.

Lemma closer_trans : Transitive closer.
Proof.
  intros a b c. rewrite !closer_iff. intros H1 H2.
  by apply (Binary64Facts.lex_le_trans _ (rank b.2)).
Qed.

Lemma closer_total : Total closer.
Proof.
  intros a b. rewrite !closer_iff. apply Binary64Facts.lex_le_total.
Qed.

Lemma argsort_perm dists : argsort dists ≡ₚ seq 0 (length dists).
Proof.
  unfold argsort. rewrite merge_sort_Permutation. rewrite fst_zip; [done |].
  by rewrite length_seq.
Qed.

Lemma zip_seq_nth (dists : list SpecFloat.spec_float) p :
  p ∈ zip (seq 0 (length dists)) dists -> p.2 = nth p.1 dists SpecFloat.S754_nan.
Proof.
  intros Hp. apply elem_of_lookup_zip_with in Hp as (i & a & b & -> & Ha & Hb).
  apply lookup_seq in Ha as [-> _]. simpl. symmetry. by apply nth_lookup_Some.
Qed.

Lemma StronglySorted_fmap_on {A B} (P : A -> Prop) (R : relation A) (R' : relation B)
  (f : A -> B) (l : list A) :
  (forall x y, P x -> P y -> R x y -> R' (f x) (f y)) ->
  Forall P l -> StronglySorted R l -> StronglySorted R' (f <$> l).
Proof.
  intros HR HP HS. induction HS as [|x l HS IH Hx]; [constructor |].
  apply Forall_cons in HP as [Px HP]. rewrite fmap_cons. constructor; [by apply IH |].
  apply Forall_fmap, Forall_forall. intros y Hy.
  rewrite Forall_forall in Hx, HP. apply HR; auto.
Qed.

(** [argsort] lists the positions by increasing distance: no position
    comes after one of greater distance. *)
Lemma argsort_sorted dists :
  StronglySorted
    (fun i j => sort_lt (nth j dists SpecFloat.S754_nan) (nth i dists SpecFloat.S754_nan)
                = false)
    (argsort dists).
Proof.
  unfold argsort.
  apply (StronglySorted_fmap_on (fun p => p.2 = nth p.1 dists SpecFloat.S754_nan) closer).
  - intros x y Px Py Hxy. unfold closer in Hxy.
    apply Is_true_true, negb_true_iff in Hxy. cbv beta.
    rewrite Px, Py in Hxy. exact Hxy.
  - apply Forall_forall. intros p Hp. apply zip_seq_nth.
    by rewrite <- (merge_sort_Permutation closer).
  - apply StronglySorted_merge_sort; [apply closer_trans | apply closer_total].
Qed.

Lemma find_first {A} (p : A -> bool) (l : list A) x :
  List.find p l = Some x ->
  p x = true /\ exists l1 l2, l = l1 ++ x :: l2 /\ Forall (fun y => p y = false) l1.
Proof.
  induction l as [|y l IH]; simpl; [done |].
  destruct (p y) eqn:Hy.
  - intros [= <-]. split; [done |]. exists [], l. split; [done | constructor].
  - intros H. destruct (IH H) as (Hx & l1 & l2 & -> & Hl1). split; [done |].
    exists (y :: l1), l2. split; [done |]. by constructor.
Qed.

(** The position the inner loop picks is free, within the caliper, and the
    nearest of the free positions by the computed distances. *)
Lemma first_free_nearest dists (used : gset nat) caliper j :
  first_free (argsort dists) dists used caliper = Some j ->
  (j < length dists)%nat /\ (j ∉ used)
  /\ leb (nth j dists SpecFloat.S754_nan) caliper = true
  /\ forall j', (j' < length dists)%nat -> j' ∉ used ->
       sort_lt (nth j' dists SpecFloat.S754_nan) (nth j dists SpecFloat.S754_nan) = false.
Proof.
  unfold first_free. intros H. apply find_first in H as (Hp & l1 & l2 & Hl & Hl1).
  apply andb_true_iff in Hp as [Hu Hc].
  apply bool_decide_eq_true_1 in Hu.
  assert (Hin : forall k, k ∈ argsort dists <-> (k < length dists)%nat).
  { intros k. rewrite argsort_perm, elem_of_seq. lia. }
  split; [| split; [done | split; [done |]]].
  - apply Hin. rewrite Hl. apply elem_of_app. right. by left.
  - intros j' Hj' Hu'. apply Hin in Hj'. rewrite Hl in Hj'.
    apply elem_of_app in Hj' as [Hj'|Hj'].
    + rewrite Forall_forall in Hl1. specialize (Hl1 _ Hj').
      apply andb_false_iff in Hl1 as [Hf|Hf].
      * by apply bool_decide_eq_false_1 in Hf.
      * by apply (Binary64Facts.leb_caliper _ _ caliper).
    + assert (HS := argsort_sorted dists). rewrite Hl in HS.
      apply StronglySorted_app_1_r in HS. inversion HS as [|? ? _ Hall]; subst.
      apply elem_of_cons in Hj' as [-> | Hj'].
      * apply Binary64Facts.sort_lt_false. unfold lex_lt. lia.
      * rewrite Forall_forall in Hall. by apply Hall.
Qed.

Lemma dists_of_length t control : length (dists_of t control) = length control.
Proof. unfold dists_of. apply length_fmap. Qed.

Lemma dists_of_nth t control j c :
  control !! j = Some c ->
  nth j (dists_of t control) SpecFloat.S754_nan = euclidean (pscore t) (pscore c).
Proof.
  intros Hc. apply nth_lookup_Some. unfold dists_of. by rewrite list_lookup_fmap, Hc.
Qed.

Lemma valid_match_weaken t treated control caliper i (used used' : gset nat) m :
  used ⊆ used' ->
  valid_match treated control caliper (S i) used' m ->
  valid_match (t :: treated) control caliper i used m.
Proof.
  intros Hsub (Hi & Hu & t' & c & Ht & Hc & Hd & Hcal).
  split; [lia |]. split; [set_solver |]. exists t', c. split; [| done].
  replace (m.1.1 - i)%nat with (S (m.1.1 - S i)) by lia. done.
Qed.

Lemma match_from_valid treated control caliper :
  forall i used,
    Forall (valid_match treated control caliper i used)
           (match_from treated control caliper i used).
Proof.
  induction treated as [|t treated IH]; intros i used; simpl; [constructor |].
  destruct (first_free _ _ used caliper) as [j|] eqn:Hj.
  - apply first_free_nearest in Hj as (Hlen & Hu & Hcal & _).
    rewrite dists_of_length in Hlen.
    destruct (lookup_lt_is_Some_2 control j Hlen) as [c Hc].
    constructor.
    + split; [simpl; lia |]. split; [done |]. exists t, c. simpl.
      rewrite Nat.sub_diag. split; [done |]. split; [done |].
      rewrite (dists_of_nth t control j c Hc) in *. done.
    + eapply Forall_impl; [apply (IH (S i) ({[j]} ∪ used)) |].
      intros m. apply valid_match_weaken. set_solver.
  - eapply Forall_impl; [apply (IH (S i) used) |].
    intros m. by apply valid_match_weaken.
Qed.

Lemma match_from_treated_sorted treated control caliper :
  forall i used, StronglySorted lt (match_from treated control caliper i used).*1.*1.
Proof.
  induction treated as [|t treated IH]; intros i used; simpl; [constructor |].
  destruct (first_free _ _ used caliper) as [j|]; [| apply IH].
  rewrite !fmap_cons. constructor; [apply IH |]. simpl.
  apply Forall_fmap, Forall_fmap, Forall_forall. intros m Hm.
  assert (H := match_from_valid treated control caliper (S i) ({[j]} ∪ used)).
  rewrite Forall_forall in H. destruct (H m Hm) as [Hi _]. simpl. lia.
Qed.

Lemma match_from_controls_NoDup treated control caliper :
  forall i used, NoDup (match_from treated control caliper i used).*1.*2.
Proof.
  induction treated as [|t treated IH]; intros i used; simpl; [constructor |].
  destruct (first_free _ _ used caliper) as [j|]; [| apply IH].
  rewrite !fmap_cons. constructor; [| apply IH]. simpl.
  intros Hin. apply list_elem_of_fmap in Hin as (x & -> & Hx).
  apply list_elem_of_fmap in Hx as (m & -> & Hm).
  assert (H := match_from_valid treated control caliper (S i) ({[m.1.2]} ∪ used)).
  rewrite Forall_forall in H. destruct (H m Hm) as (_ & Hu & _). set_solver.
Qed.

Lemma match_from_nearest treated control caliper :
  forall i used l1 m l2,
    match_from treated control caliper i used = l1 ++ m :: l2 ->
    forall j' c', control !! j' = Some c' -> j' ∉ used -> j' ∉ l1.*1.*2 ->
      exists t, treated !! (m.1.1 - i)%nat = Some t
                /\ sort_lt (euclidean (pscore t) (pscore c')) m.2 = false.
Proof.
  induction treated as [|t treated IH]; intros i used l1 m l2; simpl.
  { intros H. by destruct l1. }
  assert (Hshift : forall used' l1' ,
            match_from treated control caliper (S i) used' = l1' ++ m :: l2 ->
            forall j' c', control !! j' = Some c' -> j' ∉ used' -> j' ∉ l1'.*1.*2 ->
              exists t0, (t :: treated) !! (m.1.1 - i)%nat = Some t0
                         /\ sort_lt (euclidean (pscore t0) (pscore c')) m.2 = false).
  { intros used' l1' E j' c' Hc' Hu' Hl'.
    destruct (IH (S i) used' l1' m l2 E j' c' Hc' Hu' Hl') as (t0 & Ht0 & Hle).
    exists t0. split; [| done].
    assert (Hv := match_from_valid treated control caliper (S i) used').
    rewrite E, Forall_app, Forall_cons in Hv. destruct Hv as (_ & (Hi & _) & _).
    replace (m.1.1 - i)%nat with (S (m.1.1 - S i)) by lia. done. }
  destruct (first_free _ _ used caliper) as [j|] eqn:Hj.
  - intros E j' c' Hc' Hu' Hl'. destruct l1 as [|x l1].
    + apply first_free_nearest in Hj as (_ & _ & _ & Hnear).
      specialize (Hnear j'). rewrite dists_of_length in Hnear.
      specialize (Hnear ltac:(by apply lookup_lt_Some in Hc') Hu').
      rewrite (dists_of_nth t control j' c' Hc') in Hnear.
      injection E as <- <-. exists t. cbn [fst snd]. rewrite Nat.sub_diag.
      split; [done | exact Hnear].
    + simpl in E. injection E as <- E. rewrite !fmap_cons in Hl'. simpl in Hl'.
      apply not_elem_of_cons in Hl' as [Hne Hl'].
      apply (Hshift ({[j]} ∪ used) l1 E j' c' Hc'); [| done].
      intros Hin. apply elem_of_union in Hin as [Hin|Hin]; [| done].
      apply elem_of_singleton in Hin. done.
  - intros E. by apply Hshift.
Qed.

Lemma matched_positions_eq pscore_df caliper :
  matched_positions pscore_df caliper
  = match_from (treated_of pscore_df) (control_of pscore_df) caliper 0 ∅.
Proof.
  unfold matched_positions.
  destruct (treated_of pscore_df) as [|t ts] eqn:Et; [done |].
  destruct (control_of pscore_df) as [|c cs] eqn:Ec; [| done].
  clear. generalize 0%nat. induction (t :: ts) as [|t' ts' IH]; intros i; [done |].
  simpl. apply IH.
Qed.

Lemma pair_of_valid treated control caliper used m :
  valid_match treated control caliper 0 used m ->
  exists t c, treated !! m.1.1 = Some t /\ control !! m.1.2 = Some c
    /\ m.2 = euclidean (pscore t) (pscore c) /\ leb m.2 caliper = true
    /\ pair_of treated control m
       = Some {| treated_sec_ejec := sec_ejec t; control_sec_ejec := sec_ejec c;
                 treated_pscore := pscore t; control_pscore := pscore c;
                 distance := m.2 |}.
Proof.
  intros (_ & _ & t & c & Ht & Hc & Hd & Hcal). rewrite Nat.sub_0_r in Ht.
  exists t, c. unfold pair_of. by rewrite Ht, Hc.
Qed.

Lemma omap_Forall2_on {A B} (f : A -> option B) (P : A -> B -> Prop) (l : list A) :
  Forall (fun x => exists y, f x = Some y /\ P x y) l -> Forall2 P l (omap f l).
Proof.
  induction 1 as [|x l (y & Hy & HP) _ IH]; simpl; [constructor |].
  rewrite Hy. by constructor.
Qed.

(** The rows of the table and the matched positions, side by side. *)
Lemma pairs_positions pscore_df caliper :
  Forall2 (matched_as (treated_of pscore_df) (control_of pscore_df) caliper)
    (matched_positions pscore_df caliper) (nearest_neighbor_matching pscore_df caliper).
Proof.
  unfold nearest_neighbor_matching. rewrite matched_positions_eq.
  assert (Hv := match_from_valid (treated_of pscore_df) (control_of pscore_df) caliper 0 ∅).
  apply omap_Forall2_on. eapply Forall_impl; [exact Hv |]. intros m Hm.
  destruct (pair_of_valid _ _ _ _ _ Hm) as (t & c & Ht & Hc & Hd & Hcal & Hp).
  eexists. split; [exact Hp |]. by exists t, c.
Qed.

Lemma pairs_within_caliper pscore_df caliper :
  Forall (fun p => leb (distance p) caliper = true
                   /\ distance p = euclidean (treated_pscore p) (control_pscore p))
         (nearest_neighbor_matching pscore_df caliper).
Proof.
  assert (H := pairs_positions pscore_df caliper).
  induction H as [|m p ms ps (t & c & _ & _ & Hd & Hcal & ->) _ IH]; constructor; [| done].
  split; [exact Hcal | exact Hd].
Qed.

Lemma Forall2_omap_eq {A B C} (P : A -> B -> Prop) (f : A -> option C) (g : B -> C)
  (l : list A) (k : list B) :
  (forall x y, P x y -> f x = Some (g y)) -> Forall2 P l k -> omap f l = g <$> k.
Proof.
  intros Hfg. induction 1 as [|x y l k HP _ IH]; [done |].
  rewrite fmap_cons. simpl. rewrite (Hfg _ _ HP). by f_equal.
Qed.

Lemma omap_compose {A B C} (f : B -> option C) (h : A -> B) (l : list A) :
  omap f (h <$> l) = omap (fun x => f (h x)) l.
Proof.
  induction l as [|x l IH]; [done |]. rewrite fmap_cons. cbn [omap list_omap].
  by rewrite <- IH.
Qed.

Lemma NoDup_lookup_fmap {A K} (key : A -> K) (rows : list A) (idx : list nat) :
  NoDup (key <$> rows) -> NoDup idx ->
  NoDup (omap (fun i => key <$> rows !! i) idx).
Proof.
  intros Hrows. induction 1 as [|i idx Hi Hidx IH]; simpl; [constructor |].
  destruct (rows !! i) as [r|] eqn:Hr; simpl; [| exact IH].
  constructor; [| exact IH].
  intros Hin. apply list_elem_of_omap in Hin as (i' & Hi' & Hk).
  destruct (rows !! i') as [r'|] eqn:Hr'; [| done]. simpl in Hk. injection Hk as Hk.
  assert (i = i'); [| by subst].
  apply (NoDup_lookup (key <$> rows) i i' (key r)); [done | |].
  - by rewrite list_lookup_fmap, Hr.
  - rewrite list_lookup_fmap, Hr'. simpl. by f_equal.
Qed.

Lemma StronglySorted_lt_NoDup (l : list nat) : StronglySorted lt l -> NoDup l.
Proof.
  induction 1 as [|x l _ IH Hx]; constructor; [| done].
  intros Hin. rewrite Forall_forall in Hx. specialize (Hx x Hin). lia.
Qed.

Lemma matched_as_treated treated control caliper m p :
  matched_as treated control caliper m p ->
  sec_ejec <$> treated !! m.1.1 = Some (treated_sec_ejec p).
Proof. intros (t & c & -> & _ & _ & _ & ->). done. Qed.

Lemma matched_as_control treated control caliper m p :
  matched_as treated control caliper m p ->
  sec_ejec <$> control !! m.1.2 = Some (control_sec_ejec p).
Proof. intros (t & c & _ & -> & _ & _ & ->). done. Qed.

(** With one row per entity, no entity is in two pairs. *)
Lemma pairs_entities_distinct pscore_df caliper :
  NoDup (sec_ejec <$> pscore_df) ->
  NoDup (treated_sec_ejec <$> nearest_neighbor_matching pscore_df caliper)
  /\ NoDup (control_sec_ejec <$> nearest_neighbor_matching pscore_df caliper).
Proof.
  intros Hnd.
  assert (H := pairs_positions pscore_df caliper).
  assert (Hi : NoDup (matched_positions pscore_df caliper).*1.*1).
  { rewrite matched_positions_eq.
    apply StronglySorted_lt_NoDup, match_from_treated_sorted. }
  assert (Hj : NoDup (matched_positions pscore_df caliper).*1.*2).
  { rewrite matched_positions_eq. apply match_from_controls_NoDup. }
  split.
  - rewrite <- (Forall2_omap_eq _
                  (fun m : nat * nat * SpecFloat.spec_float => sec_ejec <$> treated_of pscore_df !! m.1.1)
                  treated_sec_ejec _ _ (matched_as_treated _ _ _) H).
    rewrite <- (omap_compose (fun i => sec_ejec <$> treated_of pscore_df !! i)
                  (fun m : nat * nat * SpecFloat.spec_float => m.1.1)).
    replace ((fun m : nat * nat * SpecFloat.spec_float => m.1.1) <$> matched_positions pscore_df caliper)
      with (matched_positions pscore_df caliper).*1.*1
      by (by rewrite <- list_fmap_compose).
    apply NoDup_lookup_fmap; [| done]. by apply AnalisisFacts.NoDup_fmap_filter.
  - rewrite <- (Forall2_omap_eq _
                  (fun m : nat * nat * SpecFloat.spec_float => sec_ejec <$> control_of pscore_df !! m.1.2)
                  control_sec_ejec _ _ (matched_as_control _ _ _) H).
    rewrite <- (omap_compose (fun i => sec_ejec <$> control_of pscore_df !! i)
                  (fun m : nat * nat * SpecFloat.spec_float => m.1.2)).
    replace ((fun m : nat * nat * SpecFloat.spec_float => m.1.2) <$> matched_positions pscore_df caliper)
      with (matched_positions pscore_df caliper).*1.*2
      by (by rewrite <- list_fmap_compose).
    apply NoDup_lookup_fmap; [| done]. by apply AnalisisFacts.NoDup_fmap_filter.
Qed.

(** Each pair is the nearest match still possible: no control entity
    that is in none of the earlier pairs has a smaller computed distance
    to the treated entity. *)
Lemma pairs_nearest pscore_df caliper l1 p l2 c' :
  nearest_neighbor_matching pscore_df caliper = l1 ++ p :: l2 ->
  c' ∈ control_of pscore_df ->
  sec_ejec c' ∉ control_sec_ejec <$> l1 ->
  sort_lt (euclidean (treated_pscore p) (pscore c')) (distance p) = false.
Proof.
  intros E Hc' Hfree.
  assert (H := pairs_positions pscore_df caliper). rewrite E in H.
  apply Forall2_app_inv_r in H as (k1 & k2' & H1 & H2 & Ek).
  apply Forall2_cons_inv_r in H2 as (m & k2 & Hm & H2 & ->).
  rewrite matched_positions_eq in Ek.
  apply list_elem_of_lookup in Hc' as [j' Hj'].
  destruct (match_from_nearest _ _ _ _ _ _ _ _ Ek j' c' Hj') as (t & Ht & Hle).
  - apply not_elem_of_empty.
  - intros Hin. apply Hfree.
    apply list_elem_of_fmap in Hin as (x & -> & Hx).
    apply list_elem_of_fmap in Hx as (m' & -> & Hm').
    apply list_elem_of_lookup in Hm' as [i Hi].
    destruct (Forall2_lookup_l _ _ _ _ _ H1 Hi) as (p' & Hp' & (t0 & c0 & _ & Hc0 & _ & _ & ->)).
    apply list_elem_of_fmap. eexists. split; [| by eapply list_elem_of_lookup_2].
    simpl. rewrite Hj' in Hc0. by injection Hc0 as ->.
  - destruct Hm as (t0 & c0 & Ht0 & _ & _ & _ & ->). rewrite Nat.sub_0_r in Ht.
    rewrite Ht0 in Ht. injection Ht as ->. exact Hle.
Qed.

Lemma NoDup_omap_key {A B K} (key : A -> option K) (key' : B -> K)
  (f : A -> option B) (l : list A) :
  (forall x y, f x = Some y -> key x = Some (key' y)) ->
  NoDup (key <$> l) -> NoDup (key' <$> omap f l).
Proof.
  intros Hf. induction l as [|x l IH]; [constructor |].
  rewrite fmap_cons. intros Hnd. apply NoDup_cons in Hnd as [Hx Hnd].
  cbn [omap list_omap]. destruct (f x) as [y|] eqn:Hy; [| by apply IH].
  rewrite fmap_cons. constructor; [| by apply IH].
  intros Hin. apply Hx. apply list_elem_of_fmap in Hin as (y' & Hk & Hy').
  apply list_elem_of_omap in Hy' as (x' & Hx' & Hfx').
  apply list_elem_of_fmap. exists x'. split; [| done].
  rewrite (Hf _ _ Hy), (Hf _ _ Hfx'). by f_equal.
Qed.

(** The frame the script hands to the matching has one row per entity. *)
Lemma scores_one_row_per_entity predict panel :
  NoDup (sec_ejec
           <$> estimate_propensity_score predict (get_baseline_characteristics panel)).
Proof.
  unfold estimate_propensity_score.
  apply (NoDup_omap_key b_sec_ejec).
  - intros r y Hy. destruct (b_sec_ejec r), (b_log_pia r), (b_log_pim r); try done.
    by injection Hy as <-.
  - apply AnalisisFacts.NoDup_fmap_filter. unfold get_baseline_characteristics.
    apply PandasFacts.NoDup_drop_duplicates.
Qed.

End DidPsmFacts.

(** C9 (as amended). The table [nearest_neighbor_matching] returns lists,
    in order, the matches the loop makes. The distance of a pair is the
    binary64 number that [cdist] computes from the two scores, the square
    root of the squared difference with each operation rounded, and it is
    at most the caliper; no treated row and no control row is in two
    pairs; each pair is the nearest still possible by the computed
    distances: no control entity outside the earlier pairs has a smaller
    computed distance to the treated entity, in numpy's order and so in
    the order [<] of the floats; and when the frame has one row per
    entity, as the frame built by [estimate_propensity_score] from
    [get_baseline_characteristics] has, no treated entity and no control
    entity is in two pairs. *)
Theorem nearest_neighbor_matching_one_to_one (pscore_df : list DidPsm.pscore_row)
  (caliper : SpecFloat.spec_float) :
  let pairs := DidPsm.nearest_neighbor_matching pscore_df caliper in
  let positions := DidPsm.matched_positions pscore_df caliper in
  Forall2 (DidPsm.matched_as (DidPsm.treated_of pscore_df) (DidPsm.control_of pscore_df)
             caliper)
          positions pairs
  /\ Forall (fun p => Binary64.leb (DidPsm.distance p) caliper = true
                      /\ DidPsm.distance p
                         = Binary64.sqrt
                             (Binary64.mul
                                (Binary64.sub (DidPsm.treated_pscore p)
                                   (DidPsm.control_pscore p))
                                (Binary64.sub (DidPsm.treated_pscore p)
                                   (DidPsm.control_pscore p))))
            pairs
  /\ NoDup positions.*1.*1
  /\ NoDup positions.*1.*2
  /\ (forall l1 p l2 c,
        pairs = l1 ++ p :: l2 -> c ∈ DidPsm.control_of pscore_df ->
        DidPsm.sec_ejec c ∉ DidPsm.control_sec_ejec <$> l1 ->
        Binary64.sort_lt (DidPsm.euclidean (DidPsm.treated_pscore p) (DidPsm.pscore c))
          (DidPsm.distance p) = false
        /\ Binary64.ltb (DidPsm.euclidean (DidPsm.treated_pscore p) (DidPsm.pscore c))
             (DidPsm.distance p) = false)
  /\ (NoDup (DidPsm.sec_ejec <$> pscore_df) ->
      NoDup (DidPsm.treated_sec_ejec <$> pairs)
      /\ NoDup (DidPsm.control_sec_ejec <$> pairs))
  /\ (forall predict panel,
        NoDup (DidPsm.sec_ejec
                 <$> DidPsm.estimate_propensity_score predict
                       (DidPsm.get_baseline_characteristics panel))).
Proof.
  intros pairs positions. subst pairs positions.
  split; [apply DidPsmFacts.pairs_positions |].
  split; [apply DidPsmFacts.pairs_within_caliper |].
  split.
  { rewrite DidPsmFacts.matched_positions_eq.
    apply DidPsmFacts.StronglySorted_lt_NoDup, DidPsmFacts.match_from_treated_sorted. }
  split.
  { rewrite DidPsmFacts.matched_positions_eq. apply DidPsmFacts.match_from_controls_NoDup. }
  split.
  { intros l1 p l2 c E Hc Hfree.
    assert (H := DidPsmFacts.pairs_nearest pscore_df caliper l1 p l2 c E Hc Hfree).
    split; [exact H |].
    destruct (Binary64.ltb _ _) eqn:Hlt; [| done].
    apply Binary64Facts.ltb_sort_lt in Hlt. congruence. }
  split; [apply DidPsmFacts.pairs_entities_distinct |].
  apply DidPsmFacts.scores_one_row_per_entity.
Qed.

Lemma nearest_neighbor_matching_witness :
  (fun p => (DidPsm.treated_sec_ejec p, DidPsm.control_sec_ejec p))
    <$> DidPsm.nearest_neighbor_matching DidPsm.sample_scores (Binary64.ratio 1 10)
  = [(PyStr.py "300687", PyStr.py "300688"); (PyStr.py "300690", PyStr.py "300686")]
  /\ NoDup (DidPsm.treated_sec_ejec
              <$> DidPsm.nearest_neighbor_matching DidPsm.sample_scores (Binary64.ratio 1 10))
  /\ NoDup (DidPsm.control_sec_ejec
              <$> DidPsm.nearest_neighbor_matching DidPsm.sample_scores (Binary64.ratio 1 10)).
Proof.
  split; [by vm_compute |].
  apply (nearest_neighbor_matching_one_to_one DidPsm.sample_scores (Binary64.ratio 1 10)).
  vm_compute.
  repeat (constructor; [by (rewrite ?elem_of_cons, elem_of_nil; intuition discriminate) |]).
  constructor.
Defined.

(** The distance of a pair is not always [|treated_pscore -
    control_pscore|], and the control matched not always the nearest one.
    For the treated score 2 ^ -600 and the control scores 2 ^ -598 and
    2 ^ -599, in this order, the two squared differences underflow: both
    computed distances are 0, while the differences are 3 * 2 ^ -600 and
    2 ^ -600. The pair made is the one with the first control entity, its
    distance is 0, and the second control entity, which is free and
    strictly nearer, is left out. *)
Lemma nearest_neighbor_matching_underflow :
  Forall (fun r => Binary64.valid (DidPsm.pscore r) = true) DidPsm.tiny_scores
  /\ DidPsm.nearest_neighbor_matching DidPsm.tiny_scores (Binary64.ratio 1 10)
     = [{| DidPsm.treated_sec_ejec := PyStr.py "300687";
           DidPsm.control_sec_ejec := PyStr.py "300686";
           DidPsm.treated_pscore := Binary64.pow2 (-600);
           DidPsm.control_pscore := Binary64.pow2 (-598);
           DidPsm.distance := SpecFloat.S754_zero false |}]
  /\ Binary64.abs (Binary64.sub (Binary64.pow2 (-600)) (Binary64.pow2 (-598)))
     = Binary64.mul (Binary64.of_Z 3) (Binary64.pow2 (-600))
  /\ Binary64.abs (Binary64.sub (Binary64.pow2 (-600)) (Binary64.pow2 (-599)))
     = Binary64.pow2 (-600)
  /\ Binary64.ltb (SpecFloat.S754_zero false)
       (Binary64.abs (Binary64.sub (Binary64.pow2 (-600)) (Binary64.pow2 (-598)))) = true
  /\ Binary64.ltb
       (Binary64.abs (Binary64.sub (Binary64.pow2 (-600)) (Binary64.pow2 (-599))))
       (Binary64.abs (Binary64.sub (Binary64.pow2 (-600)) (Binary64.pow2 (-598)))) = true
  /\ ~ (forall p, p ∈ DidPsm.nearest_neighbor_matching DidPsm.tiny_scores
                        (Binary64.ratio 1 10) ->
          DidPsm.distance p
          = Binary64.abs (Binary64.sub (DidPsm.treated_pscore p) (DidPsm.control_pscore p))).
Proof.
  split; [repeat constructor |].
  split; [by vm_compute |].
  split; [by vm_compute |].
  split; [by vm_compute |].
  split; [by vm_compute |].
  split; [by vm_compute |].
  intros H.
  specialize (H {| DidPsm.treated_sec_ejec := PyStr.py "300687";
                   DidPsm.control_sec_ejec := PyStr.py "300686";
                   DidPsm.treated_pscore := Binary64.pow2 (-600);
                   DidPsm.control_pscore := Binary64.pow2 (-598);
                   DidPsm.distance := SpecFloat.S754_zero false |}).
  assert (E : DidPsm.nearest_neighbor_matching DidPsm.tiny_scores (Binary64.ratio 1 10)
              = [{| DidPsm.treated_sec_ejec := PyStr.py "300687";
                    DidPsm.control_sec_ejec := PyStr.py "300686";
                    DidPsm.treated_pscore := Binary64.pow2 (-600);
                    DidPsm.control_pscore := Binary64.pow2 (-598);
                    DidPsm.distance := SpecFloat.S754_zero false |}]) by (by vm_compute).
  rewrite E in H. specialize (H ltac:(by left)). vm_compute in H. discriminate H.
Qed.

(** ** The bootstrap intervals (run_diagnostics_extras.py) *)

Module DiagnosticsFacts.
Import PyStr Float Diagnostics.
Local Open Scope Q_scope.

(** *** Rounding *)

Lemma round_half_even_bounds x :
  (Qfloor x <= round_half_even x <= Qfloor x + 1)%Z.
Proof.
  unfold round_half_even. destruct (_ ?= _); [destruct (Z.even _) | |]; lia.
Qed.

Lemma round_half_even_mono x y : x <= y -> (round_half_even x <= round_half_even y)%Z.
Proof.
  intros Hxy. assert (Hf := Qfloor_resp_le x y Hxy).
  destruct (Z.eq_dec (Qfloor x) (Qfloor y)) as [Heq|Hne].
  - unfold round_half_even. rewrite <- Heq.
    destruct (Qcompare_spec (x - inject_Z (Qfloor x)) (1 # 2)) as [Hx|Hx|Hx];
      destruct (Qcompare_spec (y - inject_Z (Qfloor x)) (1 # 2)) as [Hy|Hy|Hy];
      try (destruct (Z.even (Qfloor x))); try lia; exfalso; lra.
  - assert (H1 := round_half_even_bounds x). assert (H2 := round_half_even_bounds y). lia.
Qed.

Lemma round2_mono x y : x <= y -> round2 x <= round2 y.
Proof.
  intros Hxy. unfold round2.
  assert (H : (round_half_even (x * 100) <= round_half_even (y * 100))%Z).
  { apply round_half_even_mono. lra. }
  rewrite Zle_Qle in H. unfold Qdiv. apply Qmult_le_compat_r; [exact H |]. by vm_compute.
Qed.

Lemma pp_mono a b : a <= b -> round2 (a * 100) <= round2 (b * 100).
Proof. intros H. apply round2_mono. lra. Qed.


(** *** Percentiles *)

Lemma leq_trans : Transitive leq.
Proof. intros a b c. unfold leq. rewrite !Is_true_true, !Qle_bool_iff. apply Qle_trans. Qed.

Lemma leq_total : Total leq.
Proof.
  intros a b. unfold leq. rewrite !Is_true_true, !Qle_bool_iff.
  destruct (Qlt_le_dec a b) as [H|H]; [left; by apply Qlt_le_weak | by right].
Qed.

Lemma sort_perm arr : sort arr ≡ₚ arr.
Proof. apply merge_sort_Permutation. Qed.

Lemma sort_length arr : length (sort arr) = length arr.
Proof. apply Permutation_length, sort_perm. Qed.

Lemma sort_sorted arr : StronglySorted leq (sort arr).
Proof. apply StronglySorted_merge_sort; [apply leq_trans | apply leq_total]. Qed.

Lemma sorted_nth (s : list Q) :
  StronglySorted leq s ->
  forall i j, (i <= j < length s)%nat -> nth i s 0 <= nth j s 0.
Proof.
  induction 1 as [|x s _ IH Hx]; intros i j Hij; simpl in Hij; [lia |].
  destruct i as [|i], j as [|j]; simpl; try lia.
  - apply Qle_refl.
  - rewrite Forall_forall in Hx.
    assert (Hin : nth j s 0 ∈ s).
    { apply list_elem_of_In, nth_In. lia. }
    specialize (Hx _ Hin). unfold leq in Hx. by apply Is_true_true, Qle_bool_iff in Hx.
  - apply IH. lia.
Qed.

Lemma of_nat_to_nat z : (0 <= z)%Z -> of_nat (Z.to_nat z) = inject_Z z.
Proof. intros Hz. unfold of_nat. by rewrite Z2Nat.id. Qed.

Lemma floor_nonneg h : 0 <= h -> (0 <= Qfloor h)%Z.
Proof. intros Hh. apply (Qfloor_resp_le 0 h Hh). Qed.

Lemma floor_nat h :
  0 <= h -> of_nat (Z.to_nat (Qfloor h)) <= h /\ h < of_nat (Z.to_nat (Qfloor h)) + 1.
Proof.
  intros Hh. rewrite of_nat_to_nat by (by apply floor_nonneg). split.
  - apply Qfloor_le.
  - assert (H := Qlt_floor h). by rewrite inject_Z_plus in H.
Qed.

Lemma floor_le_nat h m : 0 <= h -> h <= of_nat m -> (Z.to_nat (Qfloor h) <= m)%nat.
Proof.
  intros H0 Hm. apply Qfloor_resp_le in Hm. unfold of_nat in Hm. rewrite Qfloor_Z in Hm.
  assert (Hf := floor_nonneg h H0). lia.
Qed.

Lemma floor_nat_mono h1 h2 :
  0 <= h1 -> h1 <= h2 -> (Z.to_nat (Qfloor h1) <= Z.to_nat (Qfloor h2))%nat.
Proof. intros H0 H12. apply Qfloor_resp_le in H12. lia. Qed.

Lemma of_nat_nonneg n : 0 <= of_nat n.
Proof. unfold of_nat. rewrite <- (Zle_Qle 0). lia. Qed.

Lemma position_range m q :
  0 <= q -> q <= 100 -> 0 <= of_nat m * q / 100 /\ of_nat m * q / 100 <= of_nat m.
Proof.
  intros H0 H100. assert (Hm := of_nat_nonneg m). split.
  - apply Qle_shift_div_l; [by vm_compute | nra].
  - apply Qle_shift_div_r; [by vm_compute | nra].
Qed.

(** The percentile does not decrease with the rank asked for. *)
Lemma percentile_mono arr q1 q2 :
  arr <> [] -> 0 <= q1 -> q1 <= q2 -> q2 <= 100 ->
  exists a b, percentile arr q1 = Some a /\ percentile arr q2 = Some b /\ a <= b.
Proof.
  intros Hne H0 H12 H100. unfold percentile.
  assert (Hlen := sort_length arr). assert (HS := sort_sorted arr).
  set (s := sort arr) in *.
  destruct (length s) as [|m] eqn:Hm; [by destruct arr |].
  eexists _, _. split; [reflexivity |]. split; [reflexivity |].
  destruct (position_range m q1 H0 ltac:(lra)) as [Hh1 Hh1m].
  destruct (position_range m q2 ltac:(lra) H100) as [Hh2 Hh2m].
  assert (Hh12 : of_nat m * q1 / 100 <= of_nat m * q2 / 100).
  { assert (Hm0 := of_nat_nonneg m). unfold Qdiv.
    apply Qmult_le_compat_r; [nra | by vm_compute]. }
  set (h1 := of_nat m * q1 / 100) in *. set (h2 := of_nat m * q2 / 100) in *.
  destruct (floor_nat h1 Hh1) as [Hl1 Hu1]. destruct (floor_nat h2 Hh2) as [Hl2 Hu2].
  assert (Hlo1 := floor_le_nat h1 m Hh1 Hh1m). assert (Hlo2 := floor_le_nat h2 m Hh2 Hh2m).
  assert (Hlo12 := floor_nat_mono h1 h2 Hh1 Hh12).
  set (lo1 := Z.to_nat (Qfloor h1)) in *. set (lo2 := Z.to_nat (Qfloor h2)) in *.
  assert (Hab1 := sorted_nth s HS lo1 (Nat.min (S lo1) m) ltac:(lia)).
  assert (Hab2 := sorted_nth s HS lo2 (Nat.min (S lo2) m) ltac:(lia)).
  destruct (decide (lo1 = lo2)) as [Heq|Hneq].
  - rewrite <- Heq in *. nra.
  - assert (Hmid := sorted_nth s HS (Nat.min (S lo1) m) lo2 ltac:(lia)).
    set (a1 := nth lo1 s 0) in *. set (b1 := nth (Nat.min (S lo1) m) s 0) in *.
    set (a2 := nth lo2 s 0) in *. set (b2 := nth (Nat.min (S lo2) m) s 0) in *.
    apply Qle_trans with b1; [nra |]. apply Qle_trans with a2; [done | nra].
Qed.

(** The percentile of equal values is that value. *)
Lemma percentile_constant arr c q :
  arr <> [] -> Forall (fun x => x == c) arr -> 0 <= q -> q <= 100 ->
  exists a, percentile arr q = Some a /\ a == c.
Proof.
  intros Hne Hc H0 H100. unfold percentile.
  assert (Hlen := sort_length arr).
  assert (Hs : Forall (fun x => x == c) (sort arr)) by (by rewrite sort_perm).
  set (s := sort arr) in *.
  destruct (length s) as [|m] eqn:Hm; [by destruct arr |].
  eexists. split; [reflexivity |].
  destruct (position_range m q H0 H100) as [Hh Hhm].
  assert (Hlo := floor_le_nat _ m Hh Hhm).
  assert (Hnth : forall i, (i < length s)%nat -> nth i s 0 == c).
  { intros i Hi. rewrite Forall_forall in Hs. apply Hs, list_elem_of_In, nth_In. lia. }
  rewrite (Hnth (Z.to_nat _)) by lia. rewrite (Hnth (Nat.min _ _)) by lia. ring.
Qed.


(** *** The replicates *)

Lemma replicates_length df_24 df_25 n :
  forall g, length (replicates df_24 df_25 n g) = n.
Proof.
  induction n as [|n IH]; intros g; [done |].
  simpl. by rewrite IH.
Qed.

Lemma drop_all_seen {A K} `{EqDecision K} (key : A -> K) (seen : list K) (df : list A) :
  Forall (fun r => key r ∈ seen) df -> Pandas.drop_duplicates_from key seen df = [].
Proof.
  induction 1 as [|r df Hr _ IH]; simpl; [done |].
  by destruct (decide (key r ∈ seen)).
Qed.

Lemma unique_one_entity df e :
  df <> [] -> Forall (fun r => sec_ejec r = e) df -> unique df = [e].
Proof.
  intros Hne Hall. destruct df as [|r df]; [done |].
  apply Forall_cons in Hall as [Hr Hall].
  unfold unique, Pandas.drop_duplicates. cbn [Pandas.drop_duplicates_from].
  destruct (decide (sec_ejec r ∈ [])) as [Hin|_]; [by inversion Hin |].
  rewrite drop_all_seen; [by rewrite fmap_cons, Hr |].
  eapply Forall_impl; [exact Hall |]. intros r' ->. rewrite Hr. by left.
Qed.

Lemma isin_one_entity df e :
  Forall (fun r => sec_ejec r = e) df -> isin [e] df = df.
Proof.
  unfold isin. induction 1 as [|r df Hr _ IH]; simpl; [done |].
  rewrite bool_decide_eq_true_2 by (rewrite Hr; by left). by rewrite IH.
Qed.

(** With one entity in the frame, every resample is the frame. *)
Lemma resample_one_entity g df :
  one_entity df -> isin (choice g (unique df) (length (unique df))).1 df = df.
Proof.
  intros [e He]. destruct df as [|r df]; [done |].
  rewrite (unique_one_entity _ e) by done. unfold choice. simpl.
  exact (isin_one_entity (r :: df) e He).
Qed.

Lemma replicates_one_entity df_24 df_25 n :
  one_entity df_24 -> one_entity df_25 ->
  forall g, replicates df_24 df_25 n g = replicate n (oaxaca_aggregate_single df_24 df_25).
Proof.
  intros H24 H25. induction n as [|n IH]; intros g; [done |].
  cbn [replicates replicate].
  destruct (choice g (unique df_24) (length (unique df_24))) as [s24 g1] eqn:E1.
  destruct (choice g1 (unique df_25) (length (unique df_25))) as [s25 g2] eqn:E2.
  assert (R24 := resample_one_entity g df_24 H24). rewrite E1 in R24. simpl in R24.
  assert (R25 := resample_one_entity g1 df_25 H25). rewrite E2 in R25. simpl in R25.
  by rewrite R24, R25, IH.
Qed.

(** *** The intervals *)

Lemma ci_ordered vals : vals <> [] -> ordered (pp (ci vals).1) (pp (ci vals).2).
Proof.
  intros Hne. unfold ci.
  destruct (percentile_mono vals (25 # 10) (975 # 10) Hne) as (a & b & -> & -> & Hab);
    [by vm_compute .. |].
  simpl. by apply pp_mono.
Qed.

Lemma ci_constant vals c :
  vals <> [] -> Forall (fun x => x == c) vals ->
  contains (pp (ci vals).1) (pp (Some c)) (pp (ci vals).2).
Proof.
  intros Hne Hc. unfold ci.
  destruct (percentile_constant vals c (25 # 10) Hne Hc) as (a & -> & Ha); [by vm_compute .. |].
  destruct (percentile_constant vals c (975 # 10) Hne Hc) as (b & -> & Hb); [by vm_compute .. |].
  simpl. split; apply pp_mono; lra.
Qed.


Lemma fmap_replicate_nonempty {A B} (f : A -> B) (l : list A) :
  l <> [] -> f <$> l <> [].
Proof. by destruct l. Qed.

Lemma replicates_nonempty df_24 df_25 n g : n <> 0%nat -> replicates df_24 df_25 n g <> [].
Proof.
  intros Hn E. assert (H := replicates_length df_24 df_25 n g). rewrite E in H.
  simpl in H. lia.
Qed.

End DiagnosticsFacts.


Lemma one_entity_single_2024 :
  Diagnostics.one_entity
    (List.filter (fun r => Diagnostics.anio r =? 2024)%Z Diagnostics.single_panel).
Proof.
  exists (Some (PyStr.py "300686")). vm_compute. repeat constructor.
Qed.

Lemma one_entity_single_2025 :
  Diagnostics.one_entity
    (List.filter (fun r => Diagnostics.anio r =? 2025)%Z Diagnostics.single_panel).
Proof.
  exists (Some (PyStr.py "300686")). vm_compute. repeat constructor.
Qed.



(** * Further properties of the code *)

(** ** Reading integers (utils.py) *)

Module BuiltinsFacts.
Import PyStr Builtins.

Lemma lstrip_head (s : str) :
  match s with c :: _ => is_space c = false | [] => True end -> lstrip s = s.
Proof. destruct s as [|c s]; simpl; [done |]. by intros ->. Qed.

Lemma lskip_head (s : str) :
  match s with c :: _ => int_space c = false | [] => True end -> lskip s = s.
Proof. destruct s as [|c s]; simpl; [done |]. by intros ->. Qed.

Lemma Forall_head {A} (P : A -> Prop) (s : list A) :
  Forall P s -> match s with c :: _ => P c | [] => True end.
Proof. by destruct 1. Qed.

(** A string without white space is its own [strip]. *)
Lemma strip_id (s : str) : Forall (fun c => is_space c = false) s -> strip s = s.
Proof.
  intros H. unfold strip, rstrip.
  rewrite (lstrip_head s) by by apply Forall_head.
  rewrite lstrip_head, reverse_involutive; [done |].
  apply (Forall_head (fun c => is_space c = false)), Forall_reverse, H.
Qed.

Lemma skip_space_id (s : str) : Forall (fun c => is_space c = false) s -> skip_space s = s.
Proof.
  intros H. unfold skip_space.
  assert (H' : Forall (fun c => int_space c = false) s).
  { eapply Forall_impl; [exact H |]. intros c Hc. unfold int_space. by rewrite Hc. }
  rewrite (lskip_head s) by by apply Forall_head.
  rewrite lskip_head, reverse_involutive; [done |].
  apply (Forall_head (fun c => int_space c = false)), Forall_reverse, H'.
Qed.

Lemma uint_str_digits u : Forall (fun c => is_ascii_digit c = true) (uint_str u).
Proof. induction u; simpl; constructor; done. Qed.

Lemma uint_str_length u : length (uint_str u) = nb_digits u.
Proof. induction u; simpl; congruence. Qed.

Lemma of_uint_acc_value l a :
  Z.pos (Pos.of_uint_acc l a) = Z.pos a * 10 ^ Z.of_nat (nb_digits l) + Z.of_uint l.
Proof.
  revert a. induction l; intros a; simpl Pos.of_uint_acc; simpl nb_digits;
    rewrite ?IHl, ?Nat2Z.inj_succ, ?Z.pow_succ_r by lia;
    unfold Z.of_uint; simpl Pos.of_uint; rewrite ?N2Z.inj_pos, ?IHl; unfold Z.of_uint; lia.
Qed.

Lemma of_uint_cons (k : Z) (l u : Decimal.uint) :
  (k = 0 /\ u = D0 l) \/ (k = 1 /\ u = D1 l) \/ (k = 2 /\ u = D2 l) \/ (k = 3 /\ u = D3 l)
  \/ (k = 4 /\ u = D4 l) \/ (k = 5 /\ u = D5 l) \/ (k = 6 /\ u = D6 l)
  \/ (k = 7 /\ u = D7 l) \/ (k = 8 /\ u = D8 l) \/ (k = 9 /\ u = D9 l) ->
  Z.of_uint u = k * 10 ^ Z.of_nat (nb_digits l) + Z.of_uint l.
Proof.
  intros H.
  repeat (destruct H as [[-> ->] | H]); [| | | | | | | | | destruct H as [-> ->]];
    unfold Z.of_uint at 1; simpl Pos.of_uint;
    rewrite ?N2Z.inj_pos, ?of_uint_acc_value; done.
Qed.

Lemma digits_from_step c k acc n s :
  digit_value c = Some k -> (c =? 95)%N = false ->
  digits_from acc n (c :: s) = digits_from (10 * acc + k) (S n) s.
Proof. intros Hc Hu. cbn [digits_from]. by rewrite Hu, Hc. Qed.

Lemma digits_from_uint acc n u :
  digits_from acc n (uint_str u)
  = Some (acc * 10 ^ Z.of_nat (nb_digits u) + Z.of_uint u, (n + nb_digits u)%nat).
Proof.
  revert acc n. induction u; intros acc n;
    [simpl; do 2 f_equal; [unfold Z.of_uint; simpl; lia | lia] | ..];
    cbn [uint_str];
    (erewrite digits_from_step; [| reflexivity | reflexivity]);
    rewrite IHu;
    (match goal with
     | |- context [Z.of_uint (?D u)] =>
         erewrite (of_uint_cons _ u (D u));
         [| repeat (first [left; split; reflexivity | right]); split; reflexivity]
     end);
    simpl nb_digits; rewrite Nat2Z.inj_succ, Z.pow_succ_r by lia;
    do 2 f_equal; lia.
Qed.

Lemma digits_uint u :
  u <> Nil -> digits (uint_str u) = Some (Z.of_uint u, nb_digits u).
Proof.
  intros Hu. destruct u; [done | ..]; cbn [uint_str digits];
    (match goal with
     | |- context [digit_value ?c] =>
         change (digit_value c) with (Some (Z.of_N (c - 48)))
     end);
    cbn iota; rewrite digits_from_uint;
    (match goal with
     | |- context [Z.of_uint (?D u)] =>
         erewrite (of_uint_cons _ u (D u));
         [| repeat (first [left; split; reflexivity | right]); split; reflexivity]
     end);
    simpl nb_digits; do 2 f_equal.
Qed.

Lemma to_uint_nonnil p : Pos.to_uint p <> Nil.
Proof.
  intros H. pose proof (DecimalPos.Unsigned.of_to p) as E. rewrite H in E. discriminate.
Qed.

Lemma too_long_within max n : max = 0%nat \/ (n <= max)%nat -> too_long max n = false.
Proof.
  unfold too_long. intros [-> | H]; [done |].
  apply andb_false_iff. right. apply Nat.ltb_ge. exact H.
Qed.

Lemma py_int_uint max u :
  u <> Nil -> max = 0%nat \/ (nb_digits u <= max)%nat ->
  py_int max (uint_str u) = inl (Z.of_uint u).
Proof.
  intros Hu Hmax. unfold py_int.
  rewrite skip_space_id
    by (eapply Forall_impl; [apply uint_str_digits | apply UtilsFacts.digit_not_space]).
  destruct (uint_str u) as [|c r] eqn:E.
  { destruct u; done. }
  assert (Hc : is_ascii_digit c = true).
  { pose proof (uint_str_digits u) as H. rewrite E in H. by inversion H. }
  unfold is_ascii_digit, in_range in Hc. apply andb_true_iff in Hc as [Hc1 Hc2].
  apply N.leb_le in Hc1. apply N.leb_le in Hc2.
  destruct (N.eqb_spec c 43); [lia |]. destruct (N.eqb_spec c 45); [lia |].
  rewrite <- E, (digits_uint u Hu), too_long_within by done. done.
Qed.

Lemma py_int_str_of_int max y :
  max = 0%nat \/ (length (str_of_int (Z.abs y)) <= max)%nat ->
  py_int max (str_of_int y) = inl y.
Proof.
  intros Hmax. destruct y as [|p|p].
  - destruct Hmax as [-> | H]; [done |].
    unfold py_int. simpl. simpl in H. rewrite too_long_within by (right; exact H). done.
  - unfold str_of_int in *. simpl in *. rewrite uint_str_length in Hmax.
    rewrite py_int_uint by (done || apply to_uint_nonnil).
    unfold Z.of_uint. by rewrite DecimalPos.Unsigned.of_to.
  - unfold str_of_int in *. simpl in *. rewrite uint_str_length in Hmax.
    pose proof (py_int_uint max (Pos.to_uint p) (to_uint_nonnil p) Hmax) as H.
    unfold py_int in *.
    rewrite skip_space_id in H
      by (eapply Forall_impl; [apply uint_str_digits | apply UtilsFacts.digit_not_space]).
    rewrite skip_space_id.
    2:{ constructor; [done |].
        eapply Forall_impl; [apply uint_str_digits | apply UtilsFacts.digit_not_space]. }
    cbn [N.eqb Pos.eqb].
    destruct (uint_str (Pos.to_uint p)) as [|c r] eqn:E.
    { pose proof (to_uint_nonnil p). destruct (Pos.to_uint p); done. }
    assert (Hc : is_ascii_digit c = true).
    { pose proof (uint_str_digits (Pos.to_uint p)) as H'. rewrite E in H'. by inversion H'. }
    unfold is_ascii_digit, in_range in Hc. apply andb_true_iff in Hc as [Hc1 Hc2].
    apply N.leb_le in Hc1. apply N.leb_le in Hc2.
    destruct (N.eqb_spec c 43); [lia |]. destruct (N.eqb_spec c 45); [lia |].
    destruct (digits (c :: r)) as [[v n']|]; [| done].
    destruct (too_long max n'); [done |].
    injection H as ->. unfold Z.of_uint. by rewrite DecimalPos.Unsigned.of_to.
Qed.

Lemma str_of_int_no_space y : Forall (fun c => is_space c = false) (str_of_int y).
Proof.
  unfold str_of_int. destruct (Z.to_int y); [| constructor; [done |]];
    (eapply Forall_impl; [apply uint_str_digits | apply UtilsFacts.digit_not_space]).
Qed.

Lemma str_of_int_nonempty y : str_of_int y <> [].
Proof.
  unfold str_of_int. destruct y as [|p|p]; simpl; try done.
  pose proof (to_uint_nonnil p). destruct (Pos.to_uint p); done.
Qed.

End BuiltinsFacts.

(** X1. [parse_years] reads back the years [run_parallel.py] passes on the
    command line as [str(year)]: for integers whose decimal string is
    within the interpreter's limit on the number of digits (or when there is
    no such limit), parsing the list of their strings returns the integers,
    in order. An item that is blank after [strip] is skipped, wherever it
    stands in the list. *)
Theorem parse_years_of_str (max_str_digits : nat) (ys : list Z) :
  max_str_digits = 0%nat
  \/ Forall (fun y => (length (PyStr.str_of_int (Z.abs y)) <= max_str_digits)%nat) ys ->
  ParseYears.parse_years max_str_digits (PyStr.str_of_int <$> ys) = inl ys
  /\ forall blank before after,
       PyStr.strip blank = [] ->
       ParseYears.parse_years max_str_digits (before ++ blank :: after)
       = ParseYears.parse_years max_str_digits (before ++ after).
Proof.
  intros Hmax. split.
  - assert (H : Forall (fun y => max_str_digits = 0%nat
                          \/ (length (PyStr.str_of_int (Z.abs y)) <= max_str_digits)%nat) ys).
    { destruct Hmax as [-> | H]; [apply Forall_forall; by left |].
      eapply Forall_impl; [exact H |]. intros y Hy. by right. }
    clear Hmax. induction H as [|y ys Hy _ IH]; [done |].
    rewrite fmap_cons. cbn [ParseYears.parse_years].
    rewrite BuiltinsFacts.strip_id by apply BuiltinsFacts.str_of_int_no_space.
    rewrite bool_decide_eq_false_2 by apply BuiltinsFacts.str_of_int_nonempty.
    by rewrite BuiltinsFacts.py_int_str_of_int, IH.
  - intros blank before after Hb. induction before as [|v before IH].
    + simpl. by rewrite Hb, bool_decide_eq_true_2.
    + cbn [app ParseYears.parse_years]. by rewrite IH.
Qed.

Lemma parse_years_of_str_witness :
  ParseYears.parse_years 4300 (PyStr.str_of_int <$> [2022; 2023; 2024; 2025])
  = inl [2022; 2023; 2024; 2025].
Proof.
  apply (parse_years_of_str 4300 [2022; 2023; 2024; 2025]).
  right. repeat (apply Forall_cons_2; [apply Nat.leb_le; reflexivity |]). apply Forall_nil_2.
Defined.

(** ** The roster index (padron.py) *)

Module PadronIndexFacts.
Import PyStr Builtins PadronIndex.

Lemma py_int_exn max s e : py_int max s = inr e -> e = ValueError.
Proof.
  unfold py_int.
  destruct (match skip_space s with
            | [] => _
            | c :: r => _
            end) as [negative body].
  destruct (digits body) as [[v n]|]; [destruct (too_long max n) |]; congruence.
Qed.

Lemma year_ok_add (k sec : str) (ym : year_map) :
  year_ok ym -> is_code sec ->
  k = py "_all" \/ sec ∈ default ∅ (ym !! py "_all") ->
  year_ok (add k sec ym).
Proof.
  intros Hym Hsec Hk k' s. unfold add.
  destruct (decide (k = k')) as [<- | Hne].
  - rewrite lookup_insert_eq. intros [= <-]. split; [set_solver |]. split.
    + intros x Hx. apply elem_of_union in Hx as [Hx | Hx].
      * destruct (ym !! k) as [s0|] eqn:E; simpl in Hx; [| set_solver].
        by apply (Hym k s0 E).
      * apply elem_of_singleton in Hx. by subst.
    + destruct (decide (k = py "_all")) as [-> | Hk'].
      * by rewrite lookup_insert_eq.
      * rewrite lookup_insert_ne by done. destruct Hk as [? | Hk]; [done |].
        destruct (ym !! k) as [s0|] eqn:E; simpl; [| set_solver].
        destruct (Hym k s0 E) as (_ & _ & Hsub). set_solver.
  - rewrite lookup_insert_ne by done. intros E.
    destruct (Hym k' s E) as (Hne' & Hall & Hsub). split; [done |]. split; [done |].
    destruct (decide (k = py "_all")) as [-> | Hk'].
    + rewrite lookup_insert_eq. simpl. set_solver.
    + by rewrite lookup_insert_ne.
Qed.

Lemma add_all (sec : str) (ym : year_map) : sec ∈ default ∅ (add (py "_all") sec ym !! py "_all").
Proof. unfold add. rewrite lookup_insert_eq. simpl. set_solver. Qed.

Lemma add_is_Some (k k' sec : str) (ym : year_map) :
  is_Some (ym !! k') \/ k = k' -> is_Some (add k sec ym !! k').
Proof.
  unfold add. destruct (decide (k = k')) as [<- | Hne].
  - rewrite lookup_insert_eq. by eexists.
  - rewrite lookup_insert_ne by done. by intros [? | ?].
Qed.

Lemma index_ok_record (idx : index) (year : Z) (sec cat : str) :
  index_ok idx -> is_code sec -> index_ok (record idx year sec cat).
Proof.
  intros Hidx Hsec y ym. unfold record.
  destruct (decide (year = y)) as [<- | Hne].
  - rewrite lookup_insert_eq. intros [= <-].
    assert (H0 : year_ok (default ∅ (idx !! year))).
    { destruct (idx !! year) as [ym0|] eqn:E; simpl; [by apply (Hidx year) |].
      intros k s. by rewrite lookup_empty. }
    pose proof (year_ok_add (py "_all") sec _ H0 Hsec (or_introl eq_refl)) as H1.
    case_bool_decide.
    + split; [done |]. apply add_is_Some. by right.
    + split.
      * apply year_ok_add; [done | done |]. right. apply add_all.
      * apply add_is_Some. left. apply add_is_Some. by right.
  - rewrite lookup_insert_ne by done. apply Hidx.
Qed.

Lemma codes_add (ym : year_map) (k sec k' sec' : str) :
  sec' ∈ default ∅ (add k sec ym !! k')
  <-> sec' ∈ default ∅ (ym !! k') \/ (k' = k /\ sec' = sec).
Proof.
  unfold add. destruct (decide (k = k')) as [<- | Hne].
  - rewrite lookup_insert_eq. simpl. set_solver.
  - rewrite lookup_insert_ne by done. split; [by left |]. intros [? | [? _]]; [done | congruence].
Qed.

Lemma codes_record (idx : index) (y : Z) (sec cat : str) (y' : Z) (k sec' : str) :
  sec' ∈ codes (record idx y sec cat) y' k
  <-> sec' ∈ codes idx y' k
      \/ (y' = y /\ sec' = sec /\ (k = py "_all" \/ (k = cat /\ cat <> []))).
Proof.
  unfold codes, record. destruct (decide (y = y')) as [<- | Hne].
  - rewrite lookup_insert_eq. simpl. case_bool_decide as Hc.
    + rewrite codes_add. split; [| intros [? | (_ & ? & [? | [_ ?]])]; tauto]. tauto.
    + rewrite !codes_add. tauto.
  - rewrite lookup_insert_ne by done.
    split; [by left |]. intros [? | [? _]]; [done | congruence].
Qed.

Section BuildIndex.
Variable upper : str -> str.
Variable max_str_digits : nat.
Variable only_siga_si : bool.
Variable siga_filter : option str.

Local Abbreviation visit := (visit upper max_str_digits only_siga_si siga_filter).
Local Abbreviation build_index_from :=
  (build_index_from upper max_str_digits only_siga_si siga_filter).
Local Abbreviation hits := (hits upper max_str_digits only_siga_si siga_filter).

Lemma visit_entry row y sec cat : visit row = Entry y sec cat -> is_code sec.
Proof.
  unfold visit.
  generalize (UtilsFacts.normalize_digits
                (match get row "sec_ejec" with
                 | Some s => Utils.VStr s
                 | None => Utils.VNone
                 end)).
  generalize (Utils.normalized
                (match get row "sec_ejec" with
                 | Some s => Utils.VStr s
                 | None => Utils.VNone
                 end)).
  intros sec0 Hd. case_bool_decide as Hsec; [done |].
  repeat case_match; try done.
  all: intros [= <- <- <-]; by split.
Qed.

Lemma visit_raise row e : visit row = Raise e -> e = TypeError /\ short_row row.
Proof.
  unfold visit, short_row. case_bool_decide as Hsec; [done |].
  destruct (get row "anio") as [a|] eqn:Ha.
  - destruct (py_int max_str_digits a) as [year|[]] eqn:E.
    + cbv zeta. repeat case_match; done.
    + done.
    + by apply py_int_exn in E.
  - by intros [= <-].
Qed.

Lemma visit_short row : short_row row -> visit row = Raise TypeError.
Proof.
  intros [Hsec Ha]. unfold visit. rewrite bool_decide_eq_false_2 by done.
  by rewrite Ha.
Qed.

Lemma build_index_from_ok rows idx :
  index_ok idx -> Forall (fun row => ~ short_row row) rows ->
  exists idx', build_index_from rows idx = inl idx' /\ index_ok idx'.
Proof.
  intros Hidx Hrows. revert idx Hidx.
  induction Hrows as [|row rows Hrow _ IH]; intros idx Hidx; [by exists idx |].
  cbn [PadronIndex.build_index_from].
  destruct (visit row) as [|e|y sec cat] eqn:E.
  - by apply IH.
  - apply visit_raise in E as [_ E]. done.
  - apply IH, index_ok_record; [done |]. by apply visit_entry in E.
Qed.

Lemma build_index_from_short rows idx :
  Exists short_row rows -> build_index_from rows idx = inr TypeError.
Proof.
  intros Hrows. revert idx. induction rows as [|row rows IH]; intros idx.
  { by apply Exists_nil in Hrows. }
  cbn [PadronIndex.build_index_from].
  destruct (visit row) as [|e|y sec cat] eqn:E.
  - apply IH. apply Exists_cons in Hrows as [Hrow | Hrows]; [| done].
    apply visit_short in Hrow. congruence.
  - apply visit_raise in E as [-> _]. done.
  - apply IH. apply Exists_cons in Hrows as [Hrow | Hrows]; [| done].
    apply visit_short in Hrow. congruence.
Qed.

Lemma build_index_from_codes rows idx idx' :
  build_index_from rows idx = inl idx' ->
  forall y k sec,
    sec ∈ codes idx' y k
    <-> sec ∈ codes idx y k \/ exists row, row ∈ rows /\ hits row y k sec.
Proof.
  revert idx. induction rows as [|row rows IH]; intros idx.
  { intros [= <-] y k sec. split; [by left |]. intros [? | (row & Hrow & _)]; [done |].
    by apply elem_of_nil in Hrow. }
  cbn [PadronIndex.build_index_from].
  destruct (visit row) as [|e|y0 sec0 cat0] eqn:E; [| done |].
  - intros H y k sec. rewrite (IH idx H). split.
    + intros [? | (r & Hr & Hh)]; [by left |]. right. exists r. split; [by right | done].
    + intros [? | (r & Hr & Hh)]; [by left |]. right.
      apply elem_of_cons in Hr as [-> | Hr]; [| by exists r].
      destruct Hh as (cat & Hv & _). congruence.
  - intros H y k sec. rewrite (IH _ H), codes_record. split.
    + intros [[? | (-> & -> & Hk)] | (r & Hr & Hh)].
      * by left.
      * right. exists row. split; [by left |]. by exists cat0.
      * right. exists r. split; [by right | done].
    + intros [? | (r & Hr & Hh)]; [by left; left |].
      apply elem_of_cons in Hr as [-> | Hr]; [| right; by exists r].
      left. right. destruct Hh as (cat & Hv & Hk). rewrite E in Hv.
      injection Hv as <- <- <-. done.
Qed.

End BuildIndex.

Lemma visit_unfiltered upper max only filt row y sec cat :
  PadronIndex.visit upper max only filt row = Entry y sec cat ->
  PadronIndex.visit upper max false None row = Entry y sec cat.
Proof.
  unfold PadronIndex.visit. case_bool_decide; [done |].
  destruct (get row "anio") as [a|]; [| done].
  destruct (py_int max a) as [year|[]]; try done.
  cbv zeta. simpl. by repeat case_match.
Qed.


End PadronIndexFacts.

(** X2. When no row with a code has [None] for its year, [build_index]
    returns an index in which every year has the set "_all", and every set
    of a year is not empty, holds only non-empty strings of ASCII digits and
    is included in the set "_all" of that year. *)
Theorem build_index_sets (upper : PyStr.str -> PyStr.str) (max_str_digits : nat)
  (only_siga_si : bool) (siga_filter : option PyStr.str)
  (rows : list PadronIndex.dict_row) :
  Forall (fun row => ~ PadronIndex.short_row row) rows ->
  exists idx,
    PadronIndex.build_index upper max_str_digits only_siga_si siga_filter rows = inl idx
    /\ forall year ym, idx !! year = Some ym ->
         exists all, ym !! PyStr.py "_all" = Some all
           /\ forall k s, ym !! k = Some s ->
                s <> ∅ /\ s ⊆ all
                /\ forall sec, sec ∈ s ->
                     sec <> [] /\ Forall (fun c => PyStr.is_ascii_digit c = true) sec.
Proof.
  intros Hrows.
  destruct (PadronIndexFacts.build_index_from_ok upper max_str_digits only_siga_si
              siga_filter rows ∅) as (idx & E & Hidx); [| done |].
  { intros year ym. by rewrite lookup_empty. }
  exists idx. split; [exact E |]. intros year ym Hym.
  destruct (Hidx year ym Hym) as [Hok [all Hall]]. exists all. split; [done |].
  intros k s Hs. destruct (Hok k s Hs) as (Hne & Hcodes & Hsub).
  rewrite Hall in Hsub. split; [done |]. split; [done |].
  intros sec Hsec. exact (Hcodes sec Hsec).
Qed.

Lemma build_index_sets_witness :
  exists idx,
    PadronIndex.build_index PadronIndex.ascii_upper 4300 true None PadronIndex.sample_rows
    = inl idx
    /\ forall year ym, idx !! year = Some ym ->
         exists all, ym !! PyStr.py "_all" = Some all
           /\ forall k s, ym !! k = Some s ->
                s <> ∅ /\ s ⊆ all
                /\ forall sec, sec ∈ s ->
                     sec <> [] /\ Forall (fun c => PyStr.is_ascii_digit c = true) sec.
Proof.
  apply (build_index_sets PadronIndex.ascii_upper 4300 true None PadronIndex.sample_rows).
  repeat constructor; intros [_ H]; vm_compute in H; discriminate.
Defined.

(** X3. What the index holds: when no row with a code has [None] for its
    year, a code is in the set [k] of the year [y] exactly when some row
    passes the checks of the loop with that year and that code, and [k] is
    "_all" or the (non-empty) category of the row. A row with a code and
    [None] for its year makes [build_index] raise TypeError. *)
Theorem build_index_members (upper : PyStr.str -> PyStr.str) (max_str_digits : nat)
  (only_siga_si : bool) (siga_filter : option PyStr.str)
  (rows : list PadronIndex.dict_row) :
  (Forall (fun row => ~ PadronIndex.short_row row) rows ->
   exists idx,
     PadronIndex.build_index upper max_str_digits only_siga_si siga_filter rows = inl idx
     /\ forall y k sec,
          sec ∈ PadronIndex.codes idx y k
          <-> exists row, row ∈ rows
                /\ PadronIndex.hits upper max_str_digits only_siga_si siga_filter row y k sec)
  /\ (Exists PadronIndex.short_row rows ->
      PadronIndex.build_index upper max_str_digits only_siga_si siga_filter rows
      = inr Builtins.TypeError).
Proof.
  split.
  - intros Hrows.
    destruct (PadronIndexFacts.build_index_from_ok upper max_str_digits only_siga_si
                siga_filter rows ∅) as (idx & E & _); [| done |].
    { intros year ym. by rewrite lookup_empty. }
    exists idx. split; [exact E |]. intros y k sec.
    rewrite (PadronIndexFacts.build_index_from_codes _ _ _ _ rows ∅ idx E).
    split; [| by right]. intros [H | H]; [| done].
    unfold PadronIndex.codes in H. rewrite lookup_empty in H. simpl in H.
    rewrite lookup_empty in H. by apply elem_of_empty in H.
  - apply PadronIndexFacts.build_index_from_short.
Qed.

Lemma build_index_members_witness :
  exists idx,
    PadronIndex.build_index PadronIndex.ascii_upper 4300 true None PadronIndex.sample_rows
    = inl idx
    /\ forall y k sec,
         sec ∈ PadronIndex.codes idx y k
         <-> exists row, row ∈ PadronIndex.sample_rows
               /\ PadronIndex.hits PadronIndex.ascii_upper 4300 true None row y k sec.
Proof.
  apply (build_index_members PadronIndex.ascii_upper 4300 true None PadronIndex.sample_rows).
  repeat constructor; intros [_ H]; vm_compute in H; discriminate.
Defined.

(** X4. The status filter only removes codes, and an explicit
    [siga_filter] makes [only_siga_si] irrelevant: when no row with a code
    has [None] for its year, the index built with any filter and the index
    built without one ([only_siga_si=False], no [siga_filter]) both exist,
    and every set of the first is included in the same set of the
    second. *)
Theorem build_index_filter (upper : PyStr.str -> PyStr.str) (max_str_digits : nat)
  (rows : list PadronIndex.dict_row) :
  (forall only_siga_si f,
     PadronIndex.build_index upper max_str_digits only_siga_si (Some f) rows
     = PadronIndex.build_index upper max_str_digits (negb only_siga_si) (Some f) rows)
  /\ (Forall (fun row => ~ PadronIndex.short_row row) rows ->
      forall only_siga_si siga_filter,
      exists idx idx0,
        PadronIndex.build_index upper max_str_digits only_siga_si siga_filter rows = inl idx
        /\ PadronIndex.build_index upper max_str_digits false None rows = inl idx0
        /\ forall y k, PadronIndex.codes idx y k ⊆ PadronIndex.codes idx0 y k).
Proof.
  split.
  - intros only_siga_si f. unfold PadronIndex.build_index. generalize (∅ : PadronIndex.index).
    induction rows as [|row rows IH]; intros idx; [done |].
    cbn [PadronIndex.build_index_from].
    replace (PadronIndex.visit upper max_str_digits (negb only_siga_si) (Some f) row)
      with (PadronIndex.visit upper max_str_digits only_siga_si (Some f) row) by done.
    destruct (PadronIndex.visit upper max_str_digits only_siga_si (Some f) row); by rewrite ?IH.
  - intros Hrows only_siga_si siga_filter.
    destruct (PadronIndexFacts.build_index_from_ok upper max_str_digits only_siga_si
                siga_filter rows ∅) as (idx & E & _); [| done |].
    { intros year ym. by rewrite lookup_empty. }
    destruct (PadronIndexFacts.build_index_from_ok upper max_str_digits false None rows ∅)
      as (idx0 & E0 & _); [| done |].
    { intros year ym. by rewrite lookup_empty. }
    exists idx, idx0. split; [exact E |]. split; [exact E0 |].
    intros y k sec.
    rewrite (PadronIndexFacts.build_index_from_codes _ _ _ _ rows ∅ idx E).
    rewrite (PadronIndexFacts.build_index_from_codes _ _ _ _ rows ∅ idx0 E0).
    intros [H | (row & Hrow & cat & Hv & Hk)]; [by left |].
    right. exists row. split; [done |]. exists cat. split; [| done].
    by apply PadronIndexFacts.visit_unfiltered in Hv.
Qed.

Lemma build_index_filter_witness :
  exists idx idx0,
    PadronIndex.build_index PadronIndex.ascii_upper 4300 true (Some (PyStr.py "NO"))
      PadronIndex.sample_rows = inl idx
    /\ PadronIndex.build_index PadronIndex.ascii_upper 4300 false None
         PadronIndex.sample_rows = inl idx0
    /\ forall y k, PadronIndex.codes idx y k ⊆ PadronIndex.codes idx0 y k.
Proof.
  apply (build_index_filter PadronIndex.ascii_upper 4300 PadronIndex.sample_rows).
  repeat constructor; intros [_ H]; vm_compute in H; discriminate.
Defined.

(** ** The roster export (padron_export.py) *)

(** X5. Every row [main] of padron_export.py writes has a code that is a
    non-empty string of ASCII digits, a non-empty status and a year from
    2022 to 2025. The rows of 2025 are those of the source padron_nov2025
    and all carry the status SI, so two rows of 2025 with the same code
    have the same status; the rows of the historical roster have a year up
    to 2024. At most three rows are written per historical row and one per
    row of 2025. *)
Theorem padron_export_rows (upper : PyStr.str -> PyStr.str)
  (hist_rows : list PadronExport.hist_row) (rows_2025 : list PadronExport.nov2025_row) :
  let out := PadronExport.main upper hist_rows rows_2025 in
  Forall
    (fun o =>
       PadronExport.sec_ejec o <> []
       /\ Forall (fun c => PyStr.is_ascii_digit c = true) (PadronExport.sec_ejec o)
       /\ PadronExport.siga_implementado o <> []
       /\ PadronExport.anio o ∈ [2022; 2023; 2024; 2025]
       /\ (PadronExport.anio o = 2025
           <-> PadronExport.fuente_padron o = PyStr.py "padron_nov2025")
       /\ (PadronExport.anio o <> 2025
           <-> PadronExport.fuente_padron o = PyStr.py "padron_historico")
       /\ (PadronExport.anio o = 2025 ->
           PadronExport.siga_implementado o = PyStr.py "SI"))
    out
  /\ (forall o1 o2, o1 ∈ out -> o2 ∈ out ->
        PadronExport.anio o1 = 2025 -> PadronExport.anio o2 = 2025 ->
        PadronExport.sec_ejec o1 = PadronExport.sec_ejec o2 ->
        PadronExport.siga_implementado o1 = PadronExport.siga_implementado o2)
  /\ (length out <= 3 * length hist_rows + length rows_2025)%nat.
Proof.
  intros out.
  assert (Hrows : forall o, o ∈ out ->
            (exists row, PadronExport.sec_ejec o
                         = Utils.normalized (PadronExport.h_sec_ejec row)
               /\ PadronExport.sec_ejec o <> []
               /\ PadronExport.anio o ∈ [2022; 2023; 2024]
               /\ PadronExport.siga_implementado o <> []
               /\ PadronExport.fuente_padron o = PyStr.py "padron_historico")
            \/ (exists row, PadronExport.sec_ejec o
                            = Utils.normalized (PadronExport.n_sec_ejec row)
                  /\ PadronExport.sec_ejec o <> []
                  /\ PadronExport.anio o = 2025
                  /\ PadronExport.siga_implementado o = PyStr.py "SI"
                  /\ PadronExport.fuente_padron o = PyStr.py "padron_nov2025")).
  { intros o Ho. unfold out, PadronExport.main in Ho.
    apply elem_of_app in Ho as [Ho | Ho]; apply list_elem_of_bind in Ho as (row & Ho & _).
    - left. exists row. by apply PadronExportFacts.write_hist_rows in Ho.
    - right. exists row. by apply PadronExportFacts.write_2025_rows in Ho. }
  split; [| split].
  - apply Forall_forall. intros o Ho.
    destruct (Hrows o Ho) as [(row & Hs & Hne & Hy & Hst & Hf) | (row & Hs & Hne & Hy & Hst & Hf)].
    + split; [done |]. split; [rewrite Hs; apply UtilsFacts.normalize_digits |].
      split; [done |]. split; [set_solver |].
      assert (PadronExport.anio o <> 2025).
      { intros E. rewrite E in Hy. set_solver. }
      rewrite Hf. repeat split; try done; intros; try done.
    + split; [done |]. split; [rewrite Hs; apply UtilsFacts.normalize_digits |].
      split; [by rewrite Hst |]. split; [rewrite Hy; set_solver |].
      rewrite Hf, Hy. repeat split; try done; intros; try done.
  - intros o1 o2 H1 H2 Hy1 Hy2 _.
    destruct (Hrows o1 H1) as [(_ & _ & _ & Hy & _) | (_ & _ & _ & _ & -> & _)].
    { rewrite Hy1 in Hy. set_solver. }
    destruct (Hrows o2 H2) as [(_ & _ & _ & Hy & _) | (_ & _ & _ & _ & -> & _)]; [| done].
    rewrite Hy2 in Hy. set_solver.
  - unfold out, PadronExport.main. rewrite length_app.
    pose proof (PadronExportFacts.bind_length_le (PadronExport.write_hist upper) 3 hist_rows
                  (PadronExportFacts.write_hist_length upper)).
    pose proof (PadronExportFacts.bind_length_le PadronExport.write_2025 1 rows_2025
                  PadronExportFacts.write_2025_length).
    lia.
Qed.

(** ** The compliance table (build_panel_cmn.py) *)

Module CmnFacts.
Import BuildPanelCmn.

Lemma max_case_and c1 c2 g :
  max_case (fun f => c1 f && c2 f) g = 1 -> max_case c1 g = 1 /\ max_case c2 g = 1.
Proof.
  rewrite !BuildPanelCmnFacts.max_case_1. intros (f & Hf & Hc).
  apply andb_true_iff in Hc as [H1 H2]. split; by exists f.
Qed.

Lemma NoDup_fetch_cmn_base facts :
  NoDup ((fun b => (anio b, sec_ejec b)) <$> fetch_cmn_base facts).
Proof.
  unfold fetch_cmn_base. rewrite <- list_fmap_compose.
  rewrite (list_fmap_ext _ id (fact_key <$> Pandas.drop_duplicates fact_key facts))
    by (by intros ? [a s]).
  rewrite list_fmap_id. apply PandasFacts.NoDup_drop_duplicates.
Qed.

Lemma fetch_cmn_base_covers facts f :
  f ∈ facts -> fact_key f ∈ (fun b => (anio b, sec_ejec b)) <$> fetch_cmn_base facts.
Proof.
  intros Hf. unfold fetch_cmn_base. rewrite <- list_fmap_compose.
  rewrite (list_fmap_ext _ id (fact_key <$> Pandas.drop_duplicates fact_key facts))
    by (by intros ? [a s]).
  rewrite list_fmap_id. apply PandasFacts.drop_duplicates_keys.
  apply list_elem_of_fmap. by exists f.
Qed.

(** The per-source indicators of a fetched row imply the overall ones. *)
Lemma fetched_sources facts b :
  b ∈ fetch_cmn_base facts ->
  (has_f1_mef b = 1 -> has_f1 b = 1) /\ (has_f2_mef b = 1 -> has_f2 b = 1)
  /\ (has_f3_mef b = 1 -> has_f3 b = 1)
  /\ (has_f1_minedu b = 1 -> has_f1 b = 1) /\ (has_f2_minedu b = 1 -> has_f2 b = 1)
  /\ (has_f3_minedu b = 1 -> has_f3 b = 1).
Proof.
  intros Hb. apply BuildPanelCmnFacts.fetch_cmn_base_rows in Hb. rewrite Hb. simpl.
  repeat split; intros H; by apply max_case_and in H as [_ H].
Qed.

Lemma astype_int_1 b : astype_int b = 1 <-> b = true.
Proof. by destruct b. Qed.

Lemma astype_int_01 b : astype_int b = 0 \/ astype_int b = 1.
Proof. destruct b; auto. Qed.

Lemma all_three a b c : (a =? 1) && (b =? 1) && (c =? 1) = true <-> a = 1 /\ b = 1 /\ c = 1.
Proof. rewrite !andb_true_iff, !Z.eqb_eq. tauto. Qed.

(** The flags of a row of the fetched frame: each is 0 or 1, a flag of one
    source implies [cumple_v4], and [cumple_cross] is what is left of
    [cumple_v4]. *)
Lemma flags_fetched facts r :
  r ∈ build_flags (fetch_cmn_base facts) ->
  (cumple_v4 r = 0 \/ cumple_v4 r = 1) /\ (cumple_mef r = 0 \/ cumple_mef r = 1)
  /\ (cumple_minedu r = 0 \/ cumple_minedu r = 1)
  /\ (cumple_mef r = 1 -> cumple_v4 r = 1) /\ (cumple_minedu r = 1 -> cumple_v4 r = 1)
  /\ cumple_cross r
     = astype_int ((cumple_v4 r =? 1) && (cumple_mef r =? 0) && (cumple_minedu r =? 0)).
Proof.
  unfold build_flags. intros Hr. apply list_elem_of_fmap in Hr as (b & -> & Hb).
  destruct (fetched_sources facts b Hb) as (M1 & M2 & M3 & N1 & N2 & N3).
  cbn [flag_row cumple_v4 cumple_mef cumple_minedu cumple_cross].
  split; [apply astype_int_01 |]. split; [apply astype_int_01 |].
  split; [apply astype_int_01 |].
  rewrite !astype_int_1, !all_three. tauto.
Qed.

Lemma flags_nested (v4 mef minedu : Z) :
  (v4 = 0 \/ v4 = 1) -> (mef = 0 \/ mef = 1) -> (minedu = 0 \/ minedu = 1) ->
  (mef = 1 -> v4 = 1) -> (minedu = 1 -> v4 = 1) ->
  let cross := astype_int ((v4 =? 1) && (mef =? 0) && (minedu =? 0)) in
  (cross = 0 \/ cross = 1)
  /\ (v4 = 1 <-> mef = 1 \/ minedu = 1 \/ cross = 1)
  /\ (cross = 1 -> mef = 0 /\ minedu = 0)
  /\ 0 <= cross /\ cross <= v4 /\ v4 <= 1 /\ 0 <= mef /\ mef <= v4
  /\ 0 <= minedu /\ minedu <= v4 /\ v4 <= mef + minedu + cross.
Proof.
  intros [-> | ->] [-> | ->] [-> | ->] H1 H2; simpl;
    try (exfalso; (by specialize (H1 eq_refl)) || (by specialize (H2 eq_refl)));
    repeat split; intros; try lia; auto; intuition discriminate.
Qed.

End CmnFacts.

(** X6. The frame [fetch_cmn_base] returns has one row for every
    (anio, sec_ejec) of the fact table and no key twice. Each of its eleven
    indicators is 0 or 1, and each is 1 exactly when the fact table has a
    row of the entity-year that meets its condition: the phase for [has_f1],
    [has_f2], [has_f3], the source for [has_mef], [has_minedu], and both in
    one row for the six indicators per source. So an indicator of a phase
    for one source implies the indicator of that phase and the indicator of
    that source. *)
Theorem fetch_cmn_base_indicators (facts : list BuildPanelCmn.fact_cmn_fase) :
  let key := fun b => (BuildPanelCmn.anio b, BuildPanelCmn.sec_ejec b) in
  let fact_of := fun b (P : BuildPanelCmn.fact_cmn_fase -> Prop) =>
    exists f, f ∈ facts /\ BuildPanelCmn.fact_key f = key b /\ P f in
  let fase := fun (k : Z) f => BuildPanelCmn.fase_codigo f = Some k in
  let fuente := fun (s : string) f => BuildPanelCmn.fuente f = Some (PyStr.py s) in
  NoDup (key <$> BuildPanelCmn.fetch_cmn_base facts)
  /\ (forall f, f ∈ facts ->
        BuildPanelCmn.fact_key f ∈ key <$> BuildPanelCmn.fetch_cmn_base facts)
  /\ Forall
       (fun b =>
          Forall (fun v => v = 0 \/ v = 1)
            [BuildPanelCmn.has_f1 b; BuildPanelCmn.has_f2 b; BuildPanelCmn.has_f3 b;
             BuildPanelCmn.has_mef b; BuildPanelCmn.has_minedu b;
             BuildPanelCmn.has_f1_mef b; BuildPanelCmn.has_f2_mef b;
             BuildPanelCmn.has_f3_mef b; BuildPanelCmn.has_f1_minedu b;
             BuildPanelCmn.has_f2_minedu b; BuildPanelCmn.has_f3_minedu b]
          /\ (BuildPanelCmn.has_f1 b = 1 <-> fact_of b (fase 1))
          /\ (BuildPanelCmn.has_f2 b = 1 <-> fact_of b (fase 2))
          /\ (BuildPanelCmn.has_f3 b = 1 <-> fact_of b (fase 3))
          /\ (BuildPanelCmn.has_mef b = 1 <-> fact_of b (fuente "MEF"))
          /\ (BuildPanelCmn.has_minedu b = 1 <-> fact_of b (fuente "MINEDU"))
          /\ (BuildPanelCmn.has_f1_mef b = 1
              <-> fact_of b (fun f => fuente "MEF" f /\ fase 1 f))
          /\ (BuildPanelCmn.has_f2_mef b = 1
              <-> fact_of b (fun f => fuente "MEF" f /\ fase 2 f))
          /\ (BuildPanelCmn.has_f3_mef b = 1
              <-> fact_of b (fun f => fuente "MEF" f /\ fase 3 f))
          /\ (BuildPanelCmn.has_f1_minedu b = 1
              <-> fact_of b (fun f => fuente "MINEDU" f /\ fase 1 f))
          /\ (BuildPanelCmn.has_f2_minedu b = 1
              <-> fact_of b (fun f => fuente "MINEDU" f /\ fase 2 f))
          /\ (BuildPanelCmn.has_f3_minedu b = 1
              <-> fact_of b (fun f => fuente "MINEDU" f /\ fase 3 f))
          /\ (BuildPanelCmn.has_f1_mef b = 1 ->
              BuildPanelCmn.has_f1 b = 1 /\ BuildPanelCmn.has_mef b = 1)
          /\ (BuildPanelCmn.has_f2_mef b = 1 ->
              BuildPanelCmn.has_f2 b = 1 /\ BuildPanelCmn.has_mef b = 1)
          /\ (BuildPanelCmn.has_f3_mef b = 1 ->
              BuildPanelCmn.has_f3 b = 1 /\ BuildPanelCmn.has_mef b = 1)
          /\ (BuildPanelCmn.has_f1_minedu b = 1 ->
              BuildPanelCmn.has_f1 b = 1 /\ BuildPanelCmn.has_minedu b = 1)
          /\ (BuildPanelCmn.has_f2_minedu b = 1 ->
              BuildPanelCmn.has_f2 b = 1 /\ BuildPanelCmn.has_minedu b = 1)
          /\ (BuildPanelCmn.has_f3_minedu b = 1 ->
              BuildPanelCmn.has_f3 b = 1 /\ BuildPanelCmn.has_minedu b = 1))
       (BuildPanelCmn.fetch_cmn_base facts).
Proof.
  intros key fact_of fase fuente. split; [apply CmnFacts.NoDup_fetch_cmn_base |].
  split; [apply CmnFacts.fetch_cmn_base_covers |].
  apply Forall_forall. intros b Hb.
  apply BuildPanelCmnFacts.fetch_cmn_base_rows in Hb.
  assert (Hcond : forall cond (P : BuildPanelCmn.fact_cmn_fase -> Prop),
            (forall f, cond f = true <-> P f) ->
            BuildPanelCmn.max_case cond
              (List.filter (fun f => bool_decide (BuildPanelCmn.fact_key f = key b)) facts)
            = 1
            <-> fact_of b P).
  { intros cond P HP. rewrite BuildPanelCmnFacts.max_case_1. unfold fact_of. split.
    - intros (f & Hf & Hc). exists f.
      apply BuildPanelT1Facts.elem_of_filter_bool in Hf as [Hf Hk].
      apply bool_decide_eq_true_1 in Hk. split; [done |]. split; [done |]. by apply HP.
    - intros (f & Hf & Hk & Hp). exists f. split; [| by apply HP].
      apply BuildPanelT1Facts.elem_of_filter_bool. split; [done |].
      by apply bool_decide_eq_true_2. }
  assert (Hfase : forall k f, BuildPanelCmn.is_fase k f = true <-> fase k f).
  { intros k f. unfold BuildPanelCmn.is_fase, fase. apply bool_decide_eq_true. }
  assert (Hfuente : forall s f, BuildPanelCmn.is_fuente s f = true <-> fuente s f).
  { intros s f. unfold BuildPanelCmn.is_fuente, fuente. apply bool_decide_eq_true. }
  assert (Hboth : forall s k f,
            BuildPanelCmn.is_fuente s f && BuildPanelCmn.is_fase k f = true
            <-> fuente s f /\ fase k f).
  { intros s k f. by rewrite andb_true_iff, Hfase, Hfuente. }
  unfold key in Hcond. rewrite Hb. cbn [BuildPanelCmn.fetch_group BuildPanelCmn.has_f1
    BuildPanelCmn.has_f2 BuildPanelCmn.has_f3 BuildPanelCmn.has_mef BuildPanelCmn.has_minedu
    BuildPanelCmn.has_f1_mef BuildPanelCmn.has_f2_mef BuildPanelCmn.has_f3_mef
    BuildPanelCmn.has_f1_minedu BuildPanelCmn.has_f2_minedu BuildPanelCmn.has_f3_minedu
    BuildPanelCmn.anio BuildPanelCmn.sec_ejec fst snd].
  set (g := List.filter _ facts) in *.
  split.
  { repeat (apply Forall_cons_2; [apply BuildPanelCmnFacts.max_case_01 |]).
    apply Forall_nil_2. }
  assert (Hkey : fact_of (BuildPanelCmn.fetch_group
                            (BuildPanelCmn.anio b, BuildPanelCmn.sec_ejec b) g)
                 = fact_of b).
  { unfold fact_of, key. done. }
  rewrite Hkey.
  do 3 (split; [apply Hcond, Hfase |]).
  do 2 (split; [apply Hcond, Hfuente |]).
  do 6 (split; [apply Hcond, Hboth |]).
  repeat split; apply CmnFacts.max_case_and in H; tauto.
Qed.

(** X7. On the frame of [fetch_cmn_base], the flags [build_flags] adds are
    0 or 1 and nested: compliance through one source ([cumple_mef] or
    [cumple_minedu]) implies [cumple_v4], and [cumple_v4] is 1 exactly when
    [cumple_mef], [cumple_minedu] or [cumple_cross] is, [cumple_cross]
    excluding the other two. *)
Theorem build_flags_nested (facts : list BuildPanelCmn.fact_cmn_fase) :
  Forall
    (fun r =>
       Forall (fun v => v = 0 \/ v = 1)
         [BuildPanelCmn.cumple_v4 r; BuildPanelCmn.cumple_mef r;
          BuildPanelCmn.cumple_minedu r; BuildPanelCmn.cumple_cross r]
       /\ (BuildPanelCmn.cumple_mef r = 1 -> BuildPanelCmn.cumple_v4 r = 1)
       /\ (BuildPanelCmn.cumple_minedu r = 1 -> BuildPanelCmn.cumple_v4 r = 1)
       /\ (BuildPanelCmn.cumple_v4 r = 1 <->
           BuildPanelCmn.cumple_mef r = 1 \/ BuildPanelCmn.cumple_minedu r = 1
           \/ BuildPanelCmn.cumple_cross r = 1)
       /\ (BuildPanelCmn.cumple_cross r = 1 ->
           BuildPanelCmn.cumple_mef r = 0 /\ BuildPanelCmn.cumple_minedu r = 0))
    (BuildPanelCmn.build_flags (BuildPanelCmn.fetch_cmn_base facts)).
Proof.
  apply Forall_forall. intros r Hr.
  destruct (CmnFacts.flags_fetched facts r Hr) as (Hv & Hm & Hn & Hmv & Hnv & ->).
  destruct (CmnFacts.flags_nested _ _ _ Hv Hm Hn Hmv Hnv) as (Hc & Hiff & Hex & _).
  split; [| done].
  repeat (apply Forall_cons_2; [done |]). apply Forall_nil_2.
Qed.

Module CmnQcFacts.
Import BuildPanelCmn CmnQc.

Lemma NoDup_drop_duplicates_same {A} `{EqDecision A} (l : list A) :
  NoDup l -> Pandas.drop_duplicates id l = l.
Proof.
  unfold Pandas.drop_duplicates.
  assert (H : forall seen, NoDup l -> (forall x, x ∈ l -> x ∉ seen) ->
                Pandas.drop_duplicates_from id seen l = l).
  { induction l as [|x l IH]; intros seen Hnd Hseen; [done |].
    apply NoDup_cons in Hnd as [Hx Hnd]. cbn [Pandas.drop_duplicates_from].
    destruct (decide (id x ∈ seen)) as [Hin | _].
    { exfalso. apply (Hseen x); [by left | done]. }
    f_equal. apply IH; [done |]. intros y Hy Hin.
    apply elem_of_cons in Hin as [-> | Hin]; [done |].
    apply (Hseen y); [by right | done]. }
  intros Hnd. apply H; [done |]. intros x _ Hin. by apply elem_of_nil in Hin.
Qed.

Lemma years_perm df : years df ≡ₚ Pandas.drop_duplicates id (row_anio <$> df).
Proof. apply merge_sort_Permutation. Qed.

Lemma StronglySorted_le_lt (l : list Z) :
  StronglySorted Z.le l -> NoDup l -> StronglySorted Z.lt l.
Proof.
  induction 1 as [|x l _ IH Hx]; intros Hnd; constructor.
  - apply IH. by apply NoDup_cons in Hnd as [_ ?].
  - apply NoDup_cons in Hnd as [Hnx _]. rewrite Forall_forall in *.
    intros y Hy. specialize (Hx y Hy). assert (x <> y) by (intros ->; done). lia.
Qed.

Lemma years_sorted df : StronglySorted Z.lt (years df).
Proof.
  apply StronglySorted_le_lt.
  - apply StronglySorted_merge_sort; [intros ???; apply Z.le_trans |].
    intros a b. destruct (Z.le_ge_cases a b); [by left | by right].
  - rewrite years_perm. apply BuildPanelT1Facts.NoDup_drop_duplicates_id.
Qed.

Lemma elem_of_years df y : y ∈ years df <-> exists r, r ∈ df /\ row_anio r = y.
Proof.
  rewrite years_perm, BuildPanelT1Facts.elem_of_drop_duplicates_id, list_elem_of_fmap.
  split; intros (r & ? & ?); by exists r.
Qed.

Lemma zsum_cons x l : zsum (x :: l) = x + zsum l.
Proof. reflexivity. Qed.

Lemma zsum_le {A} (f h : A -> Z) (g : list A) :
  (forall r, r ∈ g -> f r <= h r) -> zsum (f <$> g) <= zsum (h <$> g).
Proof.
  induction g as [|r g IH]; intros H; [done |].
  rewrite !fmap_cons, !zsum_cons.
  assert (f r <= h r) by (apply H; by left).
  assert (zsum (f <$> g) <= zsum (h <$> g)) by (apply IH; intros; apply H; by right).
  lia.
Qed.

Lemma zsum_const {A} (c : Z) (g : list A) : zsum ((fun _ => c) <$> g) = c * Z.of_nat (length g).
Proof.
  induction g as [|r g IH]; [simpl; lia |].
  rewrite fmap_cons, zsum_cons, IH. cbn [length]. lia.
Qed.

Lemma zsum_plus {A} (f h : A -> Z) (g : list A) :
  zsum ((fun r => f r + h r) <$> g) = zsum (f <$> g) + zsum (h <$> g).
Proof.
  induction g as [|r g IH]; [done |].
  rewrite !fmap_cons, !zsum_cons, IH. lia.
Qed.

(** The percentage of a count that is at most the total. *)
Lemma pct_range count total :
  (0 < total)%nat -> 0 <= count <= Z.of_nat total ->
  (0 <= pct count total /\ pct count total <= 100)%Q.
Proof.
  intros Ht [H0 H1]. unfold pct.
  assert (Hq : (0 <= inject_Z count / Float.of_nat total * 100
                /\ inject_Z count / Float.of_nat total * 100 <= 100)%Q).
  { assert (Hc0 : (0 <= inject_Z count)%Q) by (rewrite <- (Zle_Qle 0); lia).
    assert (Hc1 : (inject_Z count <= Float.of_nat total)%Q).
    { unfold Float.of_nat. rewrite <- Zle_Qle. lia. }
    assert (Htq : (0 < Float.of_nat total)%Q).
    { unfold Float.of_nat. rewrite <- (Zlt_Qlt 0). lia. }
    split.
    - apply Qmult_le_0_compat; [| by vm_compute].
      apply Qle_shift_div_l; [done |]. lra.
    - assert (inject_Z count / Float.of_nat total <= 1)%Q; [| lra].
      apply Qle_shift_div_r; [done |]. lra. }
  destruct Hq as [Hq0 Hq1]. split.
  - apply (DiagnosticsFacts.round2_mono 0) in Hq0.
    eapply Qle_trans; [| exact Hq0]. by vm_compute.
  - apply (DiagnosticsFacts.round2_mono _ 100) in Hq1.
    eapply Qle_trans; [exact Hq1 |]. by vm_compute.
Qed.

Lemma NoDup_flags_keys facts :
  NoDup ((fun r => (row_anio r, row_sec_ejec r)) <$> build_flags (fetch_cmn_base facts)).
Proof.
  unfold build_flags. rewrite <- list_fmap_compose. apply CmnFacts.NoDup_fetch_cmn_base.
Qed.

(** In a frame without a key twice, the rows of a year have distinct
    codes. *)
Lemma NoDup_year_codes (df : list cmn_flags) y :
  NoDup ((fun r => (row_anio r, row_sec_ejec r)) <$> df) ->
  NoDup (row_sec_ejec <$> List.filter (fun r => row_anio r =? y) df).
Proof.
  induction df as [|r df IH]; [constructor |].
  rewrite fmap_cons. intros Hnd. apply NoDup_cons in Hnd as [Hr Hnd].
  cbn [List.filter]. destruct (Z.eqb_spec (row_anio r) y) as [Hy | Hy]; [| by apply IH].
  rewrite fmap_cons. constructor; [| by apply IH].
  intros Hin. apply list_elem_of_fmap in Hin as (r' & Hs & Hr').
  apply BuildPanelT1Facts.elem_of_filter_bool in Hr' as [Hr' Hy'].
  apply Z.eqb_eq in Hy'. apply Hr. apply list_elem_of_fmap. exists r'.
  split; [| done]. by rewrite Hs, Hy, Hy'.
Qed.

End CmnQcFacts.

(** X8. The quality table [build_qc] computes from the frame of
    [fetch_cmn_base] with its flags has one row per year, the years
    increasing. In every row the number of entities is at least 1, the
    counts are nested, 0 <= cumple_cross <= cumple_v4 <= ues_total with
    cumple_mef and cumple_minedu at most cumple_v4 and cumple_v4 at most
    their sum with cumple_cross, and each percentage lies between 0 and
    100. *)
Theorem build_qc_counts (facts : list BuildPanelCmn.fact_cmn_fase) :
  let qc := CmnQc.build_qc (BuildPanelCmn.build_flags (BuildPanelCmn.fetch_cmn_base facts)) in
  StronglySorted Z.lt (CmnQc.q_anio <$> qc)
  /\ (forall f, f ∈ facts -> BuildPanelCmn.f_anio f ∈ CmnQc.q_anio <$> qc)
  /\ Forall
       (fun q =>
          (1 <= CmnQc.ues_total q)%nat
          /\ 0 <= CmnQc.q_cumple_cross q <= CmnQc.q_cumple_v4 q
          /\ CmnQc.q_cumple_v4 q <= Z.of_nat (CmnQc.ues_total q)
          /\ CmnQc.q_cumple_mef q <= CmnQc.q_cumple_v4 q
          /\ CmnQc.q_cumple_minedu q <= CmnQc.q_cumple_v4 q
          /\ CmnQc.q_cumple_v4 q
             <= CmnQc.q_cumple_mef q + CmnQc.q_cumple_minedu q + CmnQc.q_cumple_cross q
          /\ Forall (fun p => 0 <= p /\ p <= 100)%Q
               [CmnQc.cumple_v4_pct q; CmnQc.cumple_mef_pct q;
                CmnQc.cumple_minedu_pct q; CmnQc.cumple_cross_pct q])
       qc.
Proof.
  intros qc. unfold qc, CmnQc.build_qc.
  set (df := BuildPanelCmn.build_flags (BuildPanelCmn.fetch_cmn_base facts)).
  split; [| split].
  - rewrite <- list_fmap_compose.
    rewrite (list_fmap_ext _ id (CmnQc.years df)) by done.
    rewrite list_fmap_id. apply CmnQcFacts.years_sorted.
  - intros f Hf. rewrite <- list_fmap_compose.
    rewrite (list_fmap_ext _ id (CmnQc.years df)) by done.
    rewrite list_fmap_id. apply CmnQcFacts.elem_of_years.
    apply CmnFacts.fetch_cmn_base_covers in Hf.
    apply list_elem_of_fmap in Hf as (b & Hk & Hb).
    exists (BuildPanelCmn.flag_row b). split.
    + unfold df, BuildPanelCmn.build_flags. apply list_elem_of_fmap. by exists b.
    + unfold CmnQc.row_anio. simpl. unfold BuildPanelCmn.fact_key in Hk. congruence.
  - apply Forall_fmap, Forall_forall. intros y Hy. unfold compose.
    set (g := List.filter _ df).
    assert (Hg : forall r, r ∈ g -> r ∈ df).
    { intros r Hr. by apply BuildPanelT1Facts.elem_of_filter_bool in Hr as [? _]. }
    assert (Hlen : CmnQc.nunique (CmnQc.row_sec_ejec <$> g) = length g).
    { unfold CmnQc.nunique. rewrite CmnQcFacts.NoDup_drop_duplicates_same.
      - apply length_fmap.
      - apply CmnQcFacts.NoDup_year_codes, CmnQcFacts.NoDup_flags_keys. }
    assert (Hpos : (1 <= length g)%nat).
    { apply CmnQcFacts.elem_of_years in Hy as (r & Hr & Hry).
      assert (Hin : r ∈ g).
      { apply BuildPanelT1Facts.elem_of_filter_bool. split; [done |]. by apply Z.eqb_eq. }
      destruct g; [by apply elem_of_nil in Hin | simpl; lia]. }
    assert (Hflags : forall r, r ∈ g ->
              0 <= BuildPanelCmn.cumple_cross r
              /\ BuildPanelCmn.cumple_cross r <= BuildPanelCmn.cumple_v4 r
              /\ BuildPanelCmn.cumple_v4 r <= 1
              /\ 0 <= BuildPanelCmn.cumple_mef r
              /\ BuildPanelCmn.cumple_mef r <= BuildPanelCmn.cumple_v4 r
              /\ 0 <= BuildPanelCmn.cumple_minedu r
              /\ BuildPanelCmn.cumple_minedu r <= BuildPanelCmn.cumple_v4 r
              /\ BuildPanelCmn.cumple_v4 r
                 <= BuildPanelCmn.cumple_mef r + BuildPanelCmn.cumple_minedu r
                    + BuildPanelCmn.cumple_cross r).
    { intros r Hr.
      destruct (CmnFacts.flags_fetched facts r (Hg r Hr)) as (Hv & Hm & Hn & Hmv & Hnv & ->).
      destruct (CmnFacts.flags_nested _ _ _ Hv Hm Hn Hmv Hnv) as (_ & _ & _ & H).
      tauto. }
    assert (H0 : 0 <= CmnQc.zsum (BuildPanelCmn.cumple_cross <$> g)).
    { rewrite <- (Z.mul_0_l (Z.of_nat (length g))), <- (CmnQcFacts.zsum_const 0 g).
      apply CmnQcFacts.zsum_le. intros r Hr. apply (Hflags r Hr). }
    assert (H1 : CmnQc.zsum (BuildPanelCmn.cumple_cross <$> g)
                 <= CmnQc.zsum (BuildPanelCmn.cumple_v4 <$> g)).
    { apply CmnQcFacts.zsum_le. intros r Hr. apply (Hflags r Hr). }
    assert (H2 : CmnQc.zsum (BuildPanelCmn.cumple_v4 <$> g) <= Z.of_nat (length g)).
    { rewrite <- (Z.mul_1_l (Z.of_nat (length g))), <- (CmnQcFacts.zsum_const 1 g).
      apply CmnQcFacts.zsum_le. intros r Hr. apply (Hflags r Hr). }
    assert (H3 : CmnQc.zsum (BuildPanelCmn.cumple_mef <$> g)
                 <= CmnQc.zsum (BuildPanelCmn.cumple_v4 <$> g)).
    { apply CmnQcFacts.zsum_le. intros r Hr. apply (Hflags r Hr). }
    assert (H4 : CmnQc.zsum (BuildPanelCmn.cumple_minedu <$> g)
                 <= CmnQc.zsum (BuildPanelCmn.cumple_v4 <$> g)).
    { apply CmnQcFacts.zsum_le. intros r Hr. apply (Hflags r Hr). }
    assert (H5 : CmnQc.zsum (BuildPanelCmn.cumple_v4 <$> g)
                 <= CmnQc.zsum (BuildPanelCmn.cumple_mef <$> g)
                    + CmnQc.zsum (BuildPanelCmn.cumple_minedu <$> g)
                    + CmnQc.zsum (BuildPanelCmn.cumple_cross <$> g)).
    { rewrite <- !CmnQcFacts.zsum_plus. apply CmnQcFacts.zsum_le.
      intros r Hr. apply (Hflags r Hr). }
    assert (Hmef0 : 0 <= CmnQc.zsum (BuildPanelCmn.cumple_mef <$> g)).
    { rewrite <- (Z.mul_0_l (Z.of_nat (length g))), <- (CmnQcFacts.zsum_const 0 g).
      apply CmnQcFacts.zsum_le. intros r Hr. apply (Hflags r Hr). }
    assert (Hmin0 : 0 <= CmnQc.zsum (BuildPanelCmn.cumple_minedu <$> g)).
    { rewrite <- (Z.mul_0_l (Z.of_nat (length g))), <- (CmnQcFacts.zsum_const 0 g).
      apply CmnQcFacts.zsum_le. intros r Hr. apply (Hflags r Hr). }
    cbn [CmnQc.aggregate CmnQc.ues_total CmnQc.q_cumple_v4 CmnQc.q_cumple_mef
         CmnQc.q_cumple_minedu CmnQc.q_cumple_cross CmnQc.cumple_v4_pct
         CmnQc.cumple_mef_pct CmnQc.cumple_minedu_pct CmnQc.cumple_cross_pct].
    rewrite Hlen.
    repeat (split; [lia |]).
    repeat (apply Forall_cons_2; [apply CmnQcFacts.pct_range; lia |]).
    apply Forall_nil_2.
Qed.

(** ** Reading the budget files (build_panel_budget_muni.py) *)

Module BudgetFileFacts.
Import PyStr BudgetFile.

Section Columns.
Variable upper : str -> str.
Local Abbreviation norm := (normalize_col upper).
Local Abbreviation norm_map := (norm_map upper).

Lemma norm_map_snoc cols c : norm_map (cols ++ [c]) = <[norm c := c]> (norm_map cols).
Proof. unfold BudgetFile.norm_map. by rewrite foldl_app. Qed.

Lemma norm_map_None cols t : norm_map cols !! t = None <-> Forall (fun c => norm c <> t) cols.
Proof.
  induction cols as [|c cols IH] using rev_ind.
  - split; [constructor | intros _; apply lookup_empty].
  - rewrite norm_map_snoc, Forall_app, Forall_singleton, lookup_insert_None, IH. tauto.
Qed.

(** The map sends a name to the last column that normalises to it. *)
Lemma norm_map_Some cols t c :
  norm_map cols !! t = Some c
  <-> exists c1 c2, cols = c1 ++ c :: c2 /\ norm c = t /\ Forall (fun c' => norm c' <> t) c2.
Proof.
  induction cols as [|c0 cols IH] using rev_ind.
  - unfold BudgetFile.norm_map. simpl. rewrite lookup_empty.
    split; [done |]. intros (c1 & c2 & E & _). by destruct c1.
  - rewrite norm_map_snoc, lookup_insert_Some, IH. split.
    + intros [[<- <-] | (Hne & c1 & c2 & -> & Hc & Hc2)].
      * exists cols, []. done.
      * exists c1, (c2 ++ [c0]). split; [by rewrite <- app_assoc |]. split; [done |].
        apply Forall_app. split; [done |]. by apply Forall_singleton.
    + intros (c1 & c2 & E & Hc & Hc2).
      destruct c2 as [|x c2 _] using rev_ind.
      * apply app_inj_tail in E as [-> ->]. by left.
      * rewrite app_comm_cons, app_assoc in E. apply app_inj_tail in E as [-> ->].
        apply Forall_app in Hc2 as [Hc2 Hx]. rewrite Forall_singleton in Hx.
        right. split; [done |]. by exists c1, c2.
Qed.

Lemma omap_nil {A B} (f : A -> option B) (l : list A) :
  omap f l = [] <-> Forall (fun x => f x = None) l.
Proof.
  induction l as [|x l IH]; [split; [constructor | done] |].
  cbn [omap list_omap]. rewrite Forall_cons. destruct (f x); [| rewrite <- IH; tauto].
  split; [done | by intros [? _]].
Qed.

Lemma omap_head {A B} (f : A -> option B) (l : list A) y ys :
  omap f l = y :: ys ->
  exists l1 x l2, l = l1 ++ x :: l2 /\ Forall (fun x' => f x' = None) l1 /\ f x = Some y.
Proof.
  induction l as [|x l IH]; [done |]. cbn [omap list_omap].
  destruct (f x) as [y'|] eqn:E.
  - intros [= -> _]. by exists [], x, l.
  - intros H. destruct (IH H) as (l1 & x' & l2 & -> & Hl1 & Hx').
    exists (x :: l1), x', l2. split; [done |]. split; [by constructor | done].
Qed.

Lemma omap_first {A B} (f : A -> option B) (l1 : list A) x l2 y :
  Forall (fun x' => f x' = None) l1 -> f x = Some y ->
  exists ys, omap f (l1 ++ x :: l2) = y :: ys.
Proof.
  intros Hl1 Hx. induction Hl1 as [|x' l1 Hx' _ IH].
  - cbn [app omap list_omap]. rewrite Hx. by eexists.
  - cbn [app omap list_omap]. by rewrite Hx'.
Qed.

Lemma find_col_exact columns targets contains t1 t t2 c1 c c2 :
  targets = t1 ++ t :: t2 -> columns = c1 ++ c :: c2 ->
  Forall (fun t' => Forall (fun c' => norm c' <> t') columns) t1 ->
  norm c = t -> Forall (fun c' => norm c' <> t) c2 ->
  find_col upper columns targets contains = Some c.
Proof.
  intros -> Hcols Ht1 Hc Hc2. unfold find_col.
  destruct (omap_first (fun t => norm_map columns !! t) t1 t t2 c) as [ys ->]; [| | done].
  - eapply Forall_impl; [exact Ht1 |]. intros t' Ht'. by apply norm_map_None.
  - apply norm_map_Some. by exists c1, c2.
Qed.

Lemma find_col_Some columns targets contains c :
  find_col upper columns targets contains = Some c ->
  c ∈ columns
  /\ (norm c ∈ targets
      \/ (contains = true
          /\ exists t, t ∈ targets /\ PyStr.contains t (norm c) = true)).
Proof.
  unfold find_col. destruct (omap _ targets) as [|c' ys] eqn:E.
  - destruct contains; [| done]. intros H. apply find_some in H as [Hc Hex].
    apply existsb_exists in Hex as (t & Ht & Hsub).
    split; [by apply list_elem_of_In |]. right. split; [done |].
    exists t. split; [by apply list_elem_of_In | done].
  - intros [= ->]. apply omap_head in E as (l1 & t & l2 & -> & _ & Ht).
    apply norm_map_Some in Ht as (c1 & c2 & -> & Hn & _). split.
    + apply elem_of_app. right. by left.
    + left. rewrite Hn. apply elem_of_app. right. by left.
Qed.

Lemma find_col_None columns targets contains :
  find_col upper columns targets contains = None
  <-> (forall c t, c ∈ columns -> t ∈ targets -> norm c <> t)
      /\ (contains = true ->
          forall c t, c ∈ columns -> t ∈ targets -> PyStr.contains t (norm c) = false).
Proof.
  unfold find_col. destruct (omap _ targets) as [|c' ys] eqn:E.
  - apply omap_nil in E.
    assert (Hex : forall c t, c ∈ columns -> t ∈ targets -> norm c <> t).
    { intros c t Hc Ht. rewrite Forall_forall in E. specialize (E t Ht).
      apply norm_map_None in E. rewrite Forall_forall in E. by apply E. }
    destruct contains.
    + split.
      * intros H. split; [done |]. intros _ c t Hc Ht.
        apply list_elem_of_In in Hc. apply (find_none _ _ H) in Hc.
        destruct (PyStr.contains t (norm c)) eqn:Hs; [| done].
        rewrite <- Hc. symmetry. apply existsb_exists. exists t.
        split; [by apply list_elem_of_In | done].
      * intros [_ H]. specialize (H eq_refl).
        destruct (List.find _ columns) as [c|] eqn:F; [| done].
        apply find_some in F as [Hc Hex']. apply existsb_exists in Hex' as (t & Ht & Hs).
        rewrite H in Hs; [done | by apply list_elem_of_In | by apply list_elem_of_In].
    + split; [intros _; split; [done | done] | done].
  - split; [done |]. intros [H _]. exfalso.
    apply omap_head in E as (l1 & t & l2 & -> & _ & Ht).
    apply norm_map_Some in Ht as (c1 & c2 & -> & Hn & _).
    apply (H c' t); [| | done]; apply elem_of_app; right; by left.
Qed.

End Columns.

End BudgetFileFacts.

(** X9. [find_col] looks for an exact match first: it returns the column
    of the first target that some column normalises to, and among the
    columns that normalise to it the last one. Whatever it returns is one of
    the columns, and its normalised name is a target or, with [contains],
    has a target as a substring. It returns [None] exactly when no column
    normalises to a target and, with [contains], no normalised name contains
    one. *)
Theorem find_col_spec (upper : PyStr.str -> PyStr.str) (columns targets : list PyStr.str)
  (contains : bool) :
  let norm := BudgetFile.normalize_col upper in
  let found := BudgetFile.find_col upper columns targets contains in
  (forall t1 t t2 c1 c c2,
     targets = t1 ++ t :: t2 -> columns = c1 ++ c :: c2 ->
     Forall (fun t' => Forall (fun c' => norm c' <> t') columns) t1 ->
     norm c = t -> Forall (fun c' => norm c' <> t) c2 ->
     found = Some c)
  /\ (forall c, found = Some c ->
        c ∈ columns
        /\ (norm c ∈ targets
            \/ (contains = true
                /\ exists t, t ∈ targets /\ PyStr.contains t (norm c) = true)))
  /\ (found = None
      <-> (forall c t, c ∈ columns -> t ∈ targets -> norm c <> t)
          /\ (contains = true ->
              forall c t, c ∈ columns -> t ∈ targets -> PyStr.contains t (norm c) = false)).
Proof.
  intros norm found. split; [| split].
  - intros t1 t t2 c1 c c2. apply BudgetFileFacts.find_col_exact.
  - apply BudgetFileFacts.find_col_Some.
  - apply BudgetFileFacts.find_col_None.
Qed.

Lemma find_col_spec_witness :
  BudgetFile.find_col PadronIndex.ascii_upper
    [PyStr.py "Departamento"; PyStr.py "Sec_Ejec"; PyStr.py "PIA";
     PyStr.py "SEC_EJEC_EXTRACTED"; PyStr.py "sec ejec extracted"]
    [PyStr.py "SECEJECEXTRACTED"; PyStr.py "SECEJEC"] true
  = Some (PyStr.py "sec ejec extracted").
Proof.
  destruct (find_col_spec PadronIndex.ascii_upper
              [PyStr.py "Departamento"; PyStr.py "Sec_Ejec"; PyStr.py "PIA";
               PyStr.py "SEC_EJEC_EXTRACTED"; PyStr.py "sec ejec extracted"]
              [PyStr.py "SECEJECEXTRACTED"; PyStr.py "SECEJEC"] true) as [H _].
  apply (H [] (PyStr.py "SECEJECEXTRACTED") [PyStr.py "SECEJEC"]
           [PyStr.py "Departamento"; PyStr.py "Sec_Ejec"; PyStr.py "PIA";
            PyStr.py "SEC_EJEC_EXTRACTED"]
           (PyStr.py "sec ejec extracted") []).
  - reflexivity.
  - reflexivity.
  - constructor.
  - vm_compute. reflexivity.
  - constructor.
Defined.

Module BudgetCellFacts.
Import PyStr BudgetFile.

Lemma split_colon_app code name :
  Forall (fun c => c <> 58%N) code -> split_colon (code ++ 58%N :: name) = Some (code, name).
Proof.
  induction 1 as [|c code Hc _ IH]; [done |].
  cbn [app split_colon]. apply N.eqb_neq in Hc. by rewrite Hc, IH.
Qed.

Lemma split_colon_None value :
  Forall (fun c => c <> 58%N) value -> split_colon value = None.
Proof.
  induction 1 as [|c value Hc _ IH]; [done |].
  cbn [split_colon]. apply N.eqb_neq in Hc. by rewrite Hc, IH.
Qed.

Lemma split_colon_Some value code name :
  split_colon value = Some (code, name) ->
  value = code ++ 58%N :: name /\ Forall (fun c => c <> 58%N) code.
Proof.
  revert code. induction value as [|c value IH]; intros code; [done |].
  cbn [split_colon]. destruct (N.eqb_spec c 58) as [-> | Hc].
  - intros [= <- <-]. done.
  - destruct (split_colon value) as [[code' name']|]; [| done].
    intros [= <- <-]. destruct (IH code' eq_refl) as [-> Hcode].
    split; [done | by constructor].
Qed.

(** [lstrip] returns a suffix. *)
Lemma lstrip_suffix s : exists spaces, s = spaces ++ lstrip s.
Proof.
  induction s as [|c s [sp IH]]; [by exists [] |].
  cbn [lstrip]. destruct (is_space c); [| by exists []].
  exists (c :: sp). by rewrite IH at 1.
Qed.

Lemma elem_of_lstrip c s : c ∈ lstrip s -> c ∈ s.
Proof.
  destruct (lstrip_suffix s) as [sp E]. intros H. rewrite E. apply elem_of_app. by right.
Qed.

Lemma elem_of_strip c s : c ∈ strip s -> c ∈ s.
Proof.
  unfold strip, rstrip. intros H.
  rewrite elem_of_reverse in H. apply elem_of_lstrip in H.
  rewrite elem_of_reverse in H. by apply elem_of_lstrip.
Qed.

Lemma filter_idem (p : N -> bool) (s : str) : List.filter p (List.filter p s) = List.filter p s.
Proof. apply UtilsFacts.filter_filter_imp. done. Qed.

Lemma filter_elem (p : N -> bool) (s : str) : Forall (fun c => p c = true) (List.filter p s).
Proof.
  apply Forall_forall. intros c Hc. apply list_elem_of_In, filter_In in Hc. tauto.
Qed.

Lemma gt_lt a b : gt a b = true <-> (b < a)%Q.
Proof.
  unfold gt. rewrite negb_true_iff. split.
  - intros H. apply Qnot_le_lt. intros Hle. apply Qle_bool_iff in Hle. congruence.
  - intros H. destruct (Qle_bool a b) eqn:E; [| done].
    apply Qle_bool_iff in E. apply Qlt_not_le in H. done.
Qed.

Lemma gt_le a b : gt a b = false <-> (a <= b)%Q.
Proof.
  unfold gt. rewrite negb_false_iff. apply Qle_bool_iff.
Qed.

Lemma div_lt_iff a b c : (0 < b -> (a / b < c <-> a < c * b))%Q.
Proof.
  intros Hb. rewrite <- (Qmult_lt_r (a / b) c b Hb).
  assert (E : (a / b * b == a)%Q) by (field; lra). by rewrite E.
Qed.

Lemma lt_div_iff a b c : (0 < b -> (c < a / b <-> c * b < a))%Q.
Proof.
  intros Hb. rewrite <- (Qmult_lt_r c (a / b) b Hb).
  assert (E : (a / b * b == a)%Q) by (field; lra). by rewrite E.
Qed.

End BudgetCellFacts.

(** X10. [split_code_name] splits a cell at its first colon: for a text
    [code] without colon, "code:name" gives the stripped code and the
    stripped name, whatever colons the name holds. A non-empty cell without
    colon has no code and its stripped text as name, and the empty cell has
    neither. The code returned never holds a colon. *)
Theorem split_code_name_first_colon :
  (forall code name,
     Forall (fun c => c <> 58%N) code ->
     BudgetFile.split_code_name (code ++ 58%N :: name)
     = (Some (PyStr.strip code), Some (PyStr.strip name)))
  /\ (forall value,
        value <> [] -> Forall (fun c => c <> 58%N) value ->
        BudgetFile.split_code_name value = (None, Some (PyStr.strip value)))
  /\ BudgetFile.split_code_name [] = (None, None)
  /\ (forall value code,
        (BudgetFile.split_code_name value).1 = Some code ->
        (58%N ∉ code)
        /\ exists raw name, value = raw ++ 58%N :: name /\ code = PyStr.strip raw
             /\ (BudgetFile.split_code_name value).2 = Some (PyStr.strip name)).
Proof.
  split; [| split; [| split]].
  - intros code name Hcode. unfold BudgetFile.split_code_name.
    rewrite bool_decide_eq_false_2 by (by destruct code).
    by rewrite BudgetCellFacts.split_colon_app.
  - intros value Hne Hvalue. unfold BudgetFile.split_code_name.
    rewrite bool_decide_eq_false_2 by done.
    by rewrite BudgetCellFacts.split_colon_None.
  - done.
  - intros value code. unfold BudgetFile.split_code_name.
    case_bool_decide; [done |].
    destruct (BudgetFile.split_colon value) as [[raw name]|] eqn:E; [| done].
    simpl. intros [= <-].
    apply BudgetCellFacts.split_colon_Some in E as [-> Hraw]. split.
    + intros Hin. apply BudgetCellFacts.elem_of_strip in Hin.
      rewrite Forall_forall in Hraw. by apply (Hraw _ Hin).
    + by exists raw, name.
Qed.

Lemma split_code_name_first_colon_witness :
  BudgetFile.split_code_name (PyStr.py "15: LIMA: norte ")
  = (Some (PyStr.py "15"), Some (PyStr.py "LIMA: norte")).
Proof.
  destruct split_code_name_first_colon as [H _].
  apply (H (PyStr.py "15") (PyStr.py " LIMA: norte ")).
  repeat (apply Forall_cons_2; [done |]). apply Forall_nil_2.
Defined.

(** X11. What [load_file] reads from a cell. A missing cell, or one
    without a digit, dot or minus sign, gives NaN for an amount whatever
    [pd.to_numeric] does, and every other character of a cell is ignored:
    two cells with the same digits, dots and minus signs give the same
    amount. The code [sec_ejec] of a row is NaN (for a missing cell or one
    without a digit) or a non-empty string of decimal digits, and reading
    a code again leaves it as it is. *)
Theorem load_file_cells (to_numeric : PyStr.str -> option Q) :
  let clean := PyStr.re_delete (fun c => negb (BudgetFile.is_num_char c)) in
  BudgetFile.parse_num to_numeric None = None
  /\ (forall s, Forall (fun c => BudgetFile.is_num_char c = false) s ->
        BudgetFile.parse_num to_numeric (Some s) = None)
  /\ (forall s1 s2, clean s1 = clean s2 ->
        BudgetFile.parse_num to_numeric (Some s1) = BudgetFile.parse_num to_numeric (Some s2))
  /\ BudgetFile.sec_ejec_of None = None
  /\ (forall cell,
        match BudgetFile.sec_ejec_of cell with
        | Some code =>
            code <> [] /\ Forall (fun c => PyStr.is_unicode_digit c = true) code
            /\ BudgetFile.sec_ejec_of (Some code) = Some code
        | None =>
            Forall (fun c => PyStr.is_unicode_digit c = false) (BudgetFile.astype_str cell)
        end).
Proof.
  intros clean. split; [done |]. split; [| split; [| split; [done |]]].
  - intros s Hs. unfold BudgetFile.parse_num, BudgetFile.astype_str, PyStr.re_delete. simpl.
    rewrite UtilsFacts.filter_none; [done |].
    eapply Forall_impl; [exact Hs |]. intros c Hc. simpl in Hc. by rewrite Hc.
  - intros s1 s2 E. unfold BudgetFile.parse_num, BudgetFile.astype_str. simpl.
    fold clean. by rewrite E.
  - intros cell. unfold BudgetFile.sec_ejec_of, Utils.str_replace_nondigit, PyStr.re_delete.
    set (p := fun c => negb (negb (PyStr.is_unicode_digit c))).
    assert (Hp : forall c, p c = PyStr.is_unicode_digit c) by (intros c; apply negb_involutive).
    case_bool_decide as Hd.
    + apply Forall_forall. intros c Hc.
      destruct (PyStr.is_unicode_digit c) eqn:E; [| done].
      assert (Hin : c ∈ List.filter p (BudgetFile.astype_str cell)).
      { apply BuildPanelT1Facts.elem_of_filter_bool. split; [done |]. by rewrite Hp. }
      rewrite Hd in Hin. by apply elem_of_nil in Hin.
    + split; [done |]. split.
      * eapply Forall_impl; [apply BudgetCellFacts.filter_elem |].
        intros c Hc. simpl in Hc. by rewrite <- Hp.
      * unfold BudgetFile.astype_str. simpl. fold p.
        rewrite BudgetCellFacts.filter_idem. by rewrite bool_decide_eq_false_2.
Qed.

Lemma load_file_cells_witness :
  BudgetFile.parse_num (fun _ => Some 1%Q) (Some (PyStr.py "S/ 1,234.50"))
  = BudgetFile.parse_num (fun _ => Some 1%Q) (Some (PyStr.py "1234.50")).
Proof.
  destruct (load_file_cells (fun _ => Some 1%Q)) as (_ & _ & H & _).
  apply (H (PyStr.py "S/ 1,234.50") (PyStr.py "1234.50")). vm_compute. reflexivity.
Defined.

(** X12. With the floats read as exact rationals: the two ratios of a
    budget row are kept only where the denominator is positive,
    [y_exec_pct] is devengado / pim when pim is a positive number and NaN
    otherwise, [y_reprog] is (pim - pia) / pia when pia is a positive
    number and NaN otherwise; a row counts for [y_exec_outside_0_1]
    exactly when pim is positive and devengado is negative or above pim,
    and for [y_reprog_extreme] exactly when pia is positive and pim is
    negative or above eleven times pia. The code compares the ratio
    rounded in binary64, which can sit on a threshold that the exact ratio
    is beyond: for pia = 0.1 and pim = 1.1, pim is above eleven times pia
    and the computed (pim - pia) / pia is 10, not above it. *)
Theorem budget_ratios (r : BuildPanelBudgetMuni.presupuesto_row) :
  let pia := BuildPanelBudgetMuni.pia r in
  let pim := BuildPanelBudgetMuni.pim r in
  let devengado := BuildPanelBudgetMuni.devengado r in
  (forall v, BudgetFile.y_exec_pct r = Some v <->
     exists d p, devengado = Some d /\ pim = Some p /\ (0 < p)%Q /\ v = (d / p)%Q)
  /\ (forall v, BudgetFile.y_reprog r = Some v <->
        exists p a, pim = Some p /\ pia = Some a /\ (0 < a)%Q /\ v = ((p - a) / a)%Q)
  /\ (BudgetFile.outside 0 1 (BudgetFile.y_exec_pct r) = true <->
      exists d p, devengado = Some d /\ pim = Some p /\ (0 < p)%Q /\ (d < 0 \/ p < d)%Q)
  /\ (BudgetFile.outside (-1) 10 (BudgetFile.y_reprog r) = true <->
      exists p a, pim = Some p /\ pia = Some a /\ (0 < a)%Q /\ (p < 0 \/ 11 * a < p)%Q)
  /\ (exists p a,
        Binary64.to_Q (Binary64.ratio 11 10) = Some p
        /\ Binary64.to_Q (Binary64.ratio 1 10) = Some a
        /\ (0 < a)%Q /\ (11 * a < p)%Q
        /\ Binary64.div (Binary64.sub (Binary64.ratio 11 10) (Binary64.ratio 1 10))
             (Binary64.ratio 1 10)
           = Binary64.of_Z 10
        /\ Binary64.ltb (Binary64.of_Z 10)
             (Binary64.div (Binary64.sub (Binary64.ratio 11 10) (Binary64.ratio 1 10))
                (Binary64.ratio 1 10))
           = false).
Proof.
  intros pia pim devengado.
  assert (Hratio : forall num den v,
            BudgetFile.ratio_where num den = Some v
            <-> exists n d, num = Some n /\ den = Some d /\ (0 < d)%Q /\ v = (n / d)%Q).
  { intros num den v. unfold BudgetFile.ratio_where. split.
    - destruct den as [d|]; [| done]. destruct (BudgetFile.gt d 0) eqn:E; [| done].
      apply BudgetCellFacts.gt_lt in E. destruct num as [n|]; [| done].
      intros [= <-]. by exists n, d.
    - intros (n & d & -> & -> & Hd & ->).
      apply BudgetCellFacts.gt_lt in Hd. by rewrite Hd. }
  split; [| split; [| split; [| split]]].
  - intros v. apply Hratio.
  - intros v. unfold BudgetFile.y_reprog. rewrite Hratio. fold pia pim. split.
    + intros (n & a & Hn & Ha & Hpos & ->).
      destruct pim as [p|]; [| done]. rewrite Ha in Hn. injection Hn as <-.
      by exists p, a.
    + intros (p & a & -> & -> & Hpos & ->). by exists (p - a)%Q, a.
  - unfold BudgetFile.outside. split.
    + destruct (BudgetFile.y_exec_pct r) as [v|] eqn:E; [| done].
      apply Hratio in E as (d & p & Hd & Hp & Hpos & ->). intros H.
      exists d, p. split; [done |]. split; [done |]. split; [done |].
      apply orb_true_iff in H as [H | H]; apply BudgetCellFacts.gt_lt in H.
      * left. apply BudgetCellFacts.div_lt_iff in H; [| done]. lra.
      * right. apply BudgetCellFacts.lt_div_iff in H; [| done]. lra.
    + intros (d & p & Hd & Hp & Hpos & H).
      assert (E : BudgetFile.y_exec_pct r = Some (d / p)%Q) by (apply Hratio; by exists d, p).
      rewrite E. apply orb_true_iff. destruct H as [H | H]; [left | right];
        apply BudgetCellFacts.gt_lt.
      * apply BudgetCellFacts.div_lt_iff; [done |]. lra.
      * apply BudgetCellFacts.lt_div_iff; [done |]. lra.
  - unfold BudgetFile.outside. split.
    + destruct (BudgetFile.y_reprog r) as [v|] eqn:E; [| done].
      unfold BudgetFile.y_reprog in E. apply Hratio in E as (n & a & Hn & Ha & Hpos & ->).
      fold pia pim in Hn, Ha. destruct pim as [p|]; [| done].
      rewrite Ha in Hn. injection Hn as <-. intros H.
      exists p, a. split; [done |]. split; [done |]. split; [done |].
      apply orb_true_iff in H as [H | H]; apply BudgetCellFacts.gt_lt in H.
      * left. apply BudgetCellFacts.div_lt_iff in H; [| done]. lra.
      * right. apply BudgetCellFacts.lt_div_iff in H; [| done]. lra.
    + intros (p & a & Hp & Ha & Hpos & H).
      assert (E : BudgetFile.y_reprog r = Some ((p - a) / a)%Q).
      { unfold BudgetFile.y_reprog. apply Hratio. exists (p - a)%Q, a.
        fold pia pim. by rewrite Hp, Ha. }
      rewrite E. apply orb_true_iff. destruct H as [H | H]; [left | right];
        apply BudgetCellFacts.gt_lt.
      * apply BudgetCellFacts.div_lt_iff; [done |]. lra.
      * apply BudgetCellFacts.lt_div_iff; [done |]. lra.
  - eexists _, _. split; [reflexivity |]. split; [reflexivity |].
    split; [by vm_compute |]. split; [by vm_compute |].
    split; by vm_compute.
Qed.

(** ** The counts of the budget QC (build_panel_budget_muni.py) *)

Module BudgetQcFacts.
Import PyStr BuildPanelBudgetMuni BudgetQc.

Lemma sum_list_fmap_plus {A} (f g : A -> nat) (l : list A) :
  sum_list ((fun x => f x + g x)%nat <$> l) = (sum_list (f <$> l) + sum_list (g <$> l))%nat.
Proof.
  induction l as [|x l IH]; [done |]. rewrite !fmap_cons. cbn [sum_list_with id]. rewrite IH. lia.
Qed.

Lemma sum_list_fmap_ext {A} (f g : A -> nat) (l : list A) :
  (forall x, x ∈ l -> f x = g x) -> sum_list (f <$> l) = sum_list (g <$> l).
Proof.
  induction l as [|x l IH]; intros H; [done |]. rewrite !fmap_cons. cbn [sum_list_with id].
  rewrite IH by (intros; apply H; by right). rewrite (H x) by (by left). done.
Qed.

Lemma sum_list_zero {A} (l : list A) : sum_list ((fun _ => 0%nat) <$> l) = 0%nat.
Proof. induction l as [|x l IH]; [done |]. rewrite fmap_cons. cbn [sum_list_with id]. by rewrite IH. Qed.

Lemma sum_indicator {K} `{EqDecision K} (ks : list K) (k0 : K) :
  NoDup ks -> k0 ∈ ks ->
  sum_list ((fun k => if bool_decide (k0 = k) then 1 else 0)%nat <$> ks) = 1%nat.
Proof.
  induction 1 as [|k ks Hk Hnd IH]; intros Hin; [by apply elem_of_nil in Hin |].
  rewrite fmap_cons. cbn [sum_list_with id]. case_bool_decide as E.
  - subst k. rewrite (sum_list_fmap_ext _ (fun _ => 0%nat)), sum_list_zero; [done |].
    intros k' Hk'. rewrite bool_decide_eq_false_2; [done |]. by intros <-.
  - apply elem_of_cons in Hin as [? | Hin]; [done |]. by rewrite IH.
Qed.

(** The sizes of the groups add up to the number of rows. *)
Lemma sum_group_size (df : list presupuesto_row) (ks : list (option str * Z)) :
  NoDup ks -> (forall r, r ∈ df -> key r ∈ ks) ->
  sum_list (group_size df <$> ks) = length df.
Proof.
  intros Hnd. induction df as [|r df IH]; intros Hks.
  - rewrite (sum_list_fmap_ext _ (fun _ => 0%nat)); [apply sum_list_zero | done].
  - rewrite (sum_list_fmap_ext _
               (fun k => ((if bool_decide (key r = k) then 1 else 0) + group_size df k)%nat))
      by (intros; apply BuildPanelBudgetMuniFacts.group_size_cons).
    rewrite sum_list_fmap_plus, sum_indicator, IH; [done | | done |].
    + intros r' Hr'. apply Hks. by right.
    + apply Hks. by left.
Qed.

Lemma sum_list_minus_one {A} (f : A -> nat) (l : list A) :
  (forall x, x ∈ l -> (1 <= f x)%nat) ->
  sum_list (f <$> l)
  = (length l
     + sum_list ((fun x => (f x - 1)%nat)
                   <$> List.filter (fun x => bool_decide (1 < f x)%nat) l))%nat.
Proof.
  induction l as [|x l IH]; intros H; [done |].
  rewrite fmap_cons. cbn [sum_list_with id length List.filter].
  rewrite IH by (intros; apply H; by right).
  specialize (H x ltac:(by left)). case_bool_decide.
  - rewrite fmap_cons. cbn [sum_list_with id]. lia.
  - lia.
Qed.

Lemma length_le_sum {A} (f : A -> nat) (l : list A) :
  (forall x, x ∈ l -> (1 <= f x)%nat) -> (length l <= sum_list (f <$> l))%nat.
Proof.
  induction l as [|x l IH]; intros H; [done |].
  rewrite fmap_cons. cbn [sum_list_with id length].
  specialize (H x ltac:(by left)) as Hx.
  assert (length l <= sum_list (f <$> l))%nat by (apply IH; intros; apply H; by right). lia.
Qed.

Lemma length_filter_split {A} (p q : A -> bool) (l : list A) :
  (forall x, q x = negb (p x)) ->
  (length (List.filter p l) + length (List.filter q l))%nat = length l.
Proof.
  intros Hpq. induction l as [|x l IH]; [done |].
  cbn [List.filter length]. rewrite Hpq. destruct (p x); simpl; lia.
Qed.

Lemma NoDup_key_groups df : NoDup (groups df).
Proof. apply PandasFacts.NoDup_drop_duplicates. Qed.

Lemma elem_of_groups df k : k ∈ groups df <-> exists r, r ∈ non_null df /\ key r = k.
Proof.
  unfold groups. rewrite PandasFacts.drop_duplicates_keys, list_elem_of_fmap.
  split; intros (r & ? & ?); by exists r.
Qed.

Lemma group_size_pos df k : k ∈ groups df -> (1 <= group_size (non_null df) k)%nat.
Proof.
  intros Hk. apply elem_of_groups in Hk as (r & Hr & <-).
  destruct (group_size (non_null df) (key r)) eqn:E; [| lia].
  apply BuildPanelBudgetMuniFacts.group_size_zero in E. exfalso. apply E.
  apply list_elem_of_fmap. by exists r.
Qed.

Lemma dup_keys_groups df :
  dup_keys df
  = length (List.filter (fun k => bool_decide (1 < group_size (non_null df) k)%nat) (groups df)).
Proof. reflexivity. Qed.

End BudgetQcFacts.

(** X13. The counts of [qc_group] account for every row: the number of
    rows is the number of rows without code, plus the number of distinct
    (anio, sec_ejec) keys, plus [dup_rows]. [dup_keys] is at most
    [dup_rows], and one is 0 exactly when the other is. [sec_ejec_unique]
    is at most the number of distinct keys and equals it when all rows are
    of one year, as in the groups by (anio, siga) of [build_qc]: there
    rows = missing_sec_ejec + sec_ejec_unique + dup_rows. *)
Theorem qc_group_accounting (df : list BuildPanelBudgetMuni.presupuesto_row) :
  (BudgetQc.rows df
   = BudgetQc.missing_sec_ejec df + length (BudgetQc.groups df) + BudgetQc.dup_rows df)%nat
  /\ (BuildPanelBudgetMuni.dup_keys df <= BudgetQc.dup_rows df)%nat
  /\ (BudgetQc.dup_rows df = 0%nat <-> BuildPanelBudgetMuni.dup_keys df = 0%nat)
  /\ (BudgetQc.sec_ejec_unique df <= length (BudgetQc.groups df))%nat
  /\ ((forall r1 r2, r1 ∈ df -> r2 ∈ df ->
         BuildPanelBudgetMuni.anio r1 = BuildPanelBudgetMuni.anio r2) ->
      (BudgetQc.rows df
       = BudgetQc.missing_sec_ejec df + BudgetQc.sec_ejec_unique df + BudgetQc.dup_rows df)%nat).
Proof.
  assert (Hsplit : (length (BudgetQc.non_null df) + BudgetQc.missing_sec_ejec df)%nat
                   = length df).
  { apply BudgetQcFacts.length_filter_split. intros r.
    by destruct (BuildPanelBudgetMuni.sec_ejec r). }
  assert (Hsum : sum_list (BuildPanelBudgetMuni.group_size (BudgetQc.non_null df)
                             <$> BudgetQc.groups df)
                 = length (BudgetQc.non_null df)).
  { apply BudgetQcFacts.sum_group_size; [apply BudgetQcFacts.NoDup_key_groups |].
    intros r Hr. apply BudgetQcFacts.elem_of_groups. by exists r. }
  rewrite BudgetQcFacts.sum_list_minus_one in Hsum
    by (intros; by apply BudgetQcFacts.group_size_pos).
  fold (BudgetQc.dup_rows df) in Hsum.
  assert (Hdup : (BuildPanelBudgetMuni.dup_keys df <= BudgetQc.dup_rows df)%nat).
  { rewrite BudgetQcFacts.dup_keys_groups. unfold BudgetQc.dup_rows.
    apply BudgetQcFacts.length_le_sum. intros k Hk.
    apply BuildPanelT1Facts.elem_of_filter_bool in Hk as [_ Hk].
    apply bool_decide_eq_true_1 in Hk. lia. }
  assert (Hzero : BuildPanelBudgetMuni.dup_keys df = 0%nat -> BudgetQc.dup_rows df = 0%nat).
  { rewrite BudgetQcFacts.dup_keys_groups. unfold BudgetQc.dup_rows.
    intros H. apply length_zero_iff_nil in H. by rewrite H. }
  assert (Huniq : (BudgetQc.sec_ejec_unique df <= length (BudgetQc.groups df))%nat).
  { unfold BudgetQc.sec_ejec_unique.
    rewrite <- (length_fmap fst (BudgetQc.groups df)).
    apply submseteq_length, NoDup_submseteq;
      [apply BuildPanelT1Facts.NoDup_drop_duplicates_id |].
    intros s Hs. rewrite BuildPanelT1Facts.elem_of_drop_duplicates_id in Hs.
    apply list_elem_of_fmap in Hs as (r & -> & Hr).
    apply list_elem_of_fmap. exists (BuildPanelBudgetMuni.key r). split; [done |].
    apply BudgetQcFacts.elem_of_groups. by exists r. }
  split; [unfold BudgetQc.rows; lia |]. split; [done |].
  split; [split; [lia | done] |]. split; [done |].
  intros Hyear.
  assert (E : BudgetQc.sec_ejec_unique df = length (BudgetQc.groups df));
    [| unfold BudgetQc.rows; lia].
  unfold BudgetQc.sec_ejec_unique.
  rewrite <- (length_fmap fst (BudgetQc.groups df)).
  apply Permutation_length, NoDup_Permutation.
  - apply BuildPanelT1Facts.NoDup_drop_duplicates_id.
  - apply NoDup_fmap_2_strong; [| apply BudgetQcFacts.NoDup_key_groups].
    intros k1 k2 H1 H2 Hfst.
    apply BudgetQcFacts.elem_of_groups in H1 as (r1 & Hr1 & <-).
    apply BudgetQcFacts.elem_of_groups in H2 as (r2 & Hr2 & <-).
    unfold BuildPanelBudgetMuni.key in *. simpl in Hfst. f_equal; [done |].
    apply Hyear.
    + by apply BuildPanelT1Facts.elem_of_filter_bool in Hr1 as [? _].
    + by apply BuildPanelT1Facts.elem_of_filter_bool in Hr2 as [? _].
  - intros s. rewrite BuildPanelT1Facts.elem_of_drop_duplicates_id, !list_elem_of_fmap. split.
    + intros (r & -> & Hr). exists (BuildPanelBudgetMuni.key r). split; [done |].
      apply BudgetQcFacts.elem_of_groups. by exists r.
    + intros (k & -> & Hk). apply BudgetQcFacts.elem_of_groups in Hk as (r & Hr & <-).
      by exists r.
Qed.

Lemma qc_group_accounting_witness :
  (BudgetQc.rows BuildPanelT1.budget_two_files
   = BudgetQc.missing_sec_ejec BuildPanelT1.budget_two_files
     + BudgetQc.sec_ejec_unique BuildPanelT1.budget_two_files
     + BudgetQc.dup_rows BuildPanelT1.budget_two_files)%nat.
Proof.
  destruct (qc_group_accounting BuildPanelT1.budget_two_files) as (_ & _ & _ & _ & H).
  apply H. intros r1 r2 H1 H2.
  repeat (apply elem_of_cons in H1 as [-> | H1]);
    repeat (apply elem_of_cons in H2 as [-> | H2]);
    try (by apply elem_of_nil in H1); try (by apply elem_of_nil in H2); reflexivity.
Defined.

(** ** The classic DiD (build_panel_t1.py, run_did_clasico.py) *)

Module DidFacts.
Import PyStr.

(** A row of the T1 panel is its budget row, its roster status and its
    group with the two dummies computed from them. *)
Lemma build_panel_finish presupuesto muni groups r :
  r ∈ BuildPanelT1.build_panel presupuesto muni groups ->
  r = BuildPanelT1.finish_row (BuildPanelT1.budget r, BuildPanelT1.siga_padron r)
        (BuildPanelT1.grp r).
Proof.
  unfold BuildPanelT1.build_panel, BuildPanelT1.merge_groups. intros Hr.
  apply PandasFacts.elem_of_merge_left in Hr as ([b y] & _ & [[_ ->] | (g & _ & _ & ->)]);
    done.
Qed.

Lemma groups_switcher padron g :
  g ∈ (BuildPanelT1.build_groups padron).2 ->
  BuildPanelT1.t1_switcher g
  = if bool_decide (BuildPanelT1.group_t1 g = py "SWITCHER") then 1 else 0.
Proof.
  unfold BuildPanelT1.build_groups. simpl. intros Hg.
  apply list_elem_of_fmap in Hg as (m & -> & _). done.
Qed.

(** The merged compliance flag is a flag of the compliance table, or 0. *)
Lemma merge_cmn_flag t1 cmn m :
  m ∈ Analisis.merge_cmn t1 cmn ->
  m.2 = 0%Q \/ exists c, c ∈ cmn /\ m.2 = inject_Z (BuildPanelCmn.cumple_v4 c).
Proof.
  unfold Analisis.merge_cmn. intros Hm.
  apply PandasFacts.elem_of_merge_left in Hm as (t & _ & [[_ ->] | (c & Hc & _ & ->)]).
  - by left.
  - right. unfold Analisis.cmn_cols_of in Hc.
    apply PandasFacts.elem_of_drop_duplicates, list_elem_of_fmap in Hc as (c' & -> & Hc').
    by exists c'.
Qed.

Lemma qsum_bounds (l : list Q) :
  Forall (fun x => 0 <= x /\ x <= 1)%Q l ->
  (0 <= Pandas.qsum l /\ Pandas.qsum l <= Float.of_nat (length l))%Q.
Proof.
  induction 1 as [|x l [Hx0 Hx1] _ [IH0 IH1]].
  - split; by vm_compute.
  - change (Pandas.qsum (x :: l)) with (x + Pandas.qsum l)%Q.
    change (length (x :: l)) with (1 + length l)%nat.
    rewrite OaxacaFacts.of_nat_plus.
    assert (E : (Float.of_nat 1 == 1)%Q) by reflexivity. rewrite E. split; lra.
Qed.

(** The mean of values between 0 and 1 is between 0 and 1. *)
Lemma mean_bounds (l : list Q) m :
  Forall (fun x => 0 <= x /\ x <= 1)%Q l -> Pandas.mean l = Some m -> (0 <= m /\ m <= 1)%Q.
Proof.
  intros Hl Hm. destruct (qsum_bounds _ Hl) as [H0 H1].
  assert (Hn : (0 < Float.of_nat (length l))%Q).
  { unfold Float.of_nat. rewrite <- (Zlt_Qlt 0). destruct l; [done | simpl; lia]. }
  assert (E : m = (Pandas.qsum l / Float.of_nat (length l))%Q).
  { destruct l; [done |]. by injection Hm as <-. }
  rewrite E. clear E Hm. revert H0 H1 Hn.
  generalize (Pandas.qsum l), (Float.of_nat (length l)). intros s n H0 H1 Hn. split.
  - apply Qle_shift_div_l; [done |]. lra.
  - apply Qle_shift_div_r; [done |]. lra.
Qed.

Lemma mean_is_Some (l : list Q) : is_Some (Pandas.mean l) <-> l <> [].
Proof.
  destruct l; simpl; split; done.
Qed.

End DidFacts.

(** X14. In the panel the classic DiD script builds from the T1 panel of
    build_panel_t1.py, the dummies of the two scripts agree: [post] is
    [post_2025], [switcher] is the [t1_switcher] of the row's group and
    [switcher_x_post] is [t1_post]. The interaction is 1 exactly for the
    rows of a SWITCHER in 2025, and since only ALWAYS_IN and SWITCHER rows
    are kept, [switcher] is 0 exactly for the ALWAYS_IN rows. With the
    compliance table of [build_flags], the outcome of every row is 0 or
    1. *)
Theorem did_dummies (log1p : Q -> Q) (presupuesto : list BuildPanelBudgetMuni.presupuesto_row)
  (padron : list BuildPanelT1.padron_row) (df : list BuildPanelCmn.cmn_base) :
  Forall
    (fun r =>
       let t := DidClasico.t1 r in
       DidClasico.post r = BuildPanelT1.post_2025 t
       /\ BuildPanelT1.t1_switcher <$> BuildPanelT1.grp t = Some (DidClasico.switcher r)
       /\ DidClasico.switcher_x_post r = BuildPanelT1.t1_post t
       /\ (DidClasico.switcher_x_post r = 1
           <-> BuildPanelT1.panel_group_t1 t = Some (PyStr.py "SWITCHER")
               /\ BuildPanelT1.panel_anio t = 2025)
       /\ (DidClasico.switcher_x_post r = 0 \/ DidClasico.switcher_x_post r = 1)
       /\ (DidClasico.switcher r = 0
           <-> BuildPanelT1.panel_group_t1 t = Some (PyStr.py "ALWAYS_IN"))
       /\ (DidClasico.switcher r = 1
           <-> BuildPanelT1.panel_group_t1 t = Some (PyStr.py "SWITCHER"))
       /\ (DidClasico.cumple_v4 r = 0%Q \/ DidClasico.cumple_v4 r = 1%Q))
    (DidClasico.build_panel log1p (BuildPanelT1.run presupuesto padron)
       (BuildPanelCmn.build_flags df)).
Proof.
  apply Forall_forall. intros r Hr.
  unfold DidClasico.build_panel in Hr. apply list_elem_of_fmap in Hr as ([t c] & -> & Hm).
  apply BuildPanelT1Facts.elem_of_filter_bool in Hm as [Hm Hs]. simpl in Hs.
  assert (Ht : t ∈ BuildPanelT1.run presupuesto padron).
  { rewrite <- (AnalisisFacts.merge_cmn_rows (BuildPanelT1.run presupuesto padron)
                  (BuildPanelCmn.build_flags df)).
    apply list_elem_of_fmap. by exists (t, c). }
  unfold BuildPanelT1.run in Ht.
  destruct (BuildPanelT1.build_groups padron) as [muni groups] eqn:Eg.
  pose proof (DidFacts.build_panel_finish _ _ _ _ Ht) as Hfin.
  pose proof (BuildPanelT1Facts.build_panel_origin _ _ _ _ Ht) as [_ Horig].
  unfold DidClasico.in_sample in Hs. apply bool_decide_eq_true_1 in Hs.
  unfold BuildPanelT1.panel_group_t1 in *.
  destruct (BuildPanelT1.grp t) as [g|] eqn:Egrp; [| by destruct Hs].
  destruct Horig as [Hg _].
  assert (Hsw := DidFacts.groups_switcher padron g). rewrite Eg in Hsw.
  specialize (Hsw Hg). simpl in Hs.
  assert (Hd : PyStr.py "ALWAYS_IN" <> PyStr.py "SWITCHER") by discriminate.
  cbn [DidClasico.add_columns DidClasico.t1 DidClasico.post DidClasico.switcher
       DidClasico.switcher_x_post DidClasico.cumple_v4 fst snd].
  unfold BuildPanelT1.panel_group_t1, BuildPanelT1.panel_anio.
  rewrite Egrp. simpl.
  assert (Hpost : BuildPanelT1.post_2025 t
                  = if BuildPanelBudgetMuni.anio (BuildPanelT1.budget t) =? 2025 then 1 else 0).
  { by rewrite Hfin at 1. }
  assert (Ht1 : BuildPanelT1.t1_post t
                = if bool_decide (Some (BuildPanelT1.t1_switcher g) = Some 1)
                     && ((if BuildPanelBudgetMuni.anio (BuildPanelT1.budget t) =? 2025
                          then 1 else 0) =? 1)
                  then 1 else 0).
  { by rewrite Hfin at 1. }
  rewrite Hpost, Ht1, Hsw. clear Hpost Ht1 Hfin.
  assert (Hc : c = 0%Q \/ c = 1%Q).
  { pose proof (DidFacts.merge_cmn_flag _ _ _ Hm) as Hc. simpl in Hc.
    destruct Hc as [-> | (f & Hf & ->)]; [by left |].
    unfold BuildPanelCmn.build_flags in Hf.
    apply list_elem_of_fmap in Hf as (b & -> & _). simpl.
    destruct (CmnFacts.astype_int_01
                ((BuildPanelCmn.has_f1 b =? 1) && (BuildPanelCmn.has_f2 b =? 1)
                 && (BuildPanelCmn.has_f3 b =? 1))) as [-> | ->]; auto. }
  destruct (Z.eqb_spec (BuildPanelBudgetMuni.anio (BuildPanelT1.budget t)) 2025) as [Ey | Ey];
    destruct Hs as [Hs | Hs]; injection Hs as Hs; rewrite Hs;
    repeat (rewrite ?bool_decide_eq_true_2, ?bool_decide_eq_false_2 by congruence); simpl;
    repeat split; try done; try (intros; congruence); try tauto; auto;
    try (intros [? ?]; congruence); try (intros [= ?]; congruence).
Qed.

(** ** Who is a SWITCHER (build_panel_t1.py) *)

Module GroupsFacts.
Import PyStr BuildPanelT1 RosterFacts.

Lemma existsb_eq_lit s (l : list (option str)) :
  existsb (eq_lit s) l = true <-> Some (py s) ∈ l.
Proof.
  rewrite existsb_exists. split.
  - intros (x & Hx & Hs). unfold eq_lit in Hs. apply bool_decide_eq_true_1 in Hs.
    subst x. by apply list_elem_of_In.
  - intros H. exists (Some (py s)). split; [by apply list_elem_of_In |].
    unfold eq_lit. by apply bool_decide_eq_true_2.
Qed.

Lemma pre_status_of_spec (l : list (option str)) :
  (pre_status_of l = py "SI" <-> Some (py "SI") ∈ l)
  /\ (pre_status_of l = py "NO" <-> (Some (py "SI") ∉ l) /\ (Some (py "NO") ∈ l))
  /\ (pre_status_of l = py "ABSENT" <-> (Some (py "SI") ∉ l) /\ (Some (py "NO") ∉ l)).
Proof.
  unfold pre_status_of.
  destruct (existsb (eq_lit "SI") l) eqn:E1.
  - apply existsb_eq_lit in E1. repeat split; try done; intros; try tauto.
    all: exfalso; tauto.
  - assert (H1 : Some (py "SI") ∉ l).
    { intros H. apply existsb_eq_lit in H. congruence. }
    destruct (existsb (eq_lit "NO") l) eqn:E2.
    + apply existsb_eq_lit in E2. repeat split; try done; intros; try tauto.
      all: exfalso; tauto.
    + assert (H2 : Some (py "NO") ∉ l).
      { intros H. apply existsb_eq_lit in H. congruence. }
      repeat split; try done; intros; try tauto.
Qed.

Lemma elem_of_pre_status_frame pre k s :
  (k, s) ∈ pre_status_frame pre
  <-> k ∈ p_sec_ejec <$> pre
      /\ s = pre_status_of
               (siga_implementado <$> List.filter (fun r => bool_decide (p_sec_ejec r = k)) pre).
Proof.
  unfold pre_status_frame. rewrite list_elem_of_fmap. split.
  - intros (k' & E & Hk). injection E as -> ->. split; [| done].
    rewrite BuildPanelT1Facts.sort_keys_perm in Hk.
    by apply (proj1 (PandasFacts.drop_duplicates_keys _ _ _)) in Hk.
  - intros [Hk ->]. exists k. split; [done |].
    rewrite BuildPanelT1Facts.sort_keys_perm. by apply PandasFacts.drop_duplicates_keys.
Qed.

Lemma elem_of_filter_fst {V} (l : list (str * V)) k x :
  x ∈ List.filter (fun y => bool_decide (y.1 = k)) l <-> x ∈ l /\ x.1 = k.
Proof.
  rewrite BuildPanelT1Facts.elem_of_filter_bool. split; intros [? H]; (split; [done |]).
  - by apply bool_decide_eq_true_1 in H.
  - by apply bool_decide_eq_true_2.
Qed.

Lemma filter_fst_nil {V} (l : list (str * V)) k :
  List.filter (fun y => bool_decide (y.1 = k)) l = [] <-> k ∉ l.*1.
Proof.
  split.
  - intros Hf Hk. by apply BuildPanelT1Facts.filter_fst_nonempty in Hk.
  - intros Hk. destruct (List.filter _ l) as [|x xs] eqn:E; [done |]. exfalso.
    assert (Hx : x ∈ List.filter (fun y => bool_decide (y.1 = k)) l) by (rewrite E; by left).
    apply elem_of_filter_fst in Hx as [Hx <-]. apply Hk. apply list_elem_of_fmap. by exists x.
Qed.

(** A row of the outer merge: the key, with a status of each side that has
    the key and a missing value for a side that has not. *)
Lemma elem_of_merge_block pre_status post k m :
  m ∈ merge_block pre_status post k
  <-> m.1 = k /\ (k ∈ pre_status.*1 \/ k ∈ post.*1)
      /\ ((exists l, (k, l) ∈ pre_status /\ m.2.1 = Some l)
          \/ ((k ∉ pre_status.*1) /\ m.2.1 = None))
      /\ ((k, m.2.2) ∈ post \/ ((k ∉ post.*1) /\ m.2.2 = None)).
Proof.
  unfold merge_block.
  destruct (List.filter _ pre_status) as [|l ls] eqn:El;
    destruct (List.filter _ post) as [|r rs] eqn:Er.
  - apply filter_fst_nil in El. apply filter_fst_nil in Er.
    split; [by intros ?%elem_of_nil |]. intros (_ & [? | ?] & _); done.
  - apply filter_fst_nil in El. rewrite list_elem_of_fmap. split.
    + intros (x & -> & Hx). rewrite <- Er in Hx. apply elem_of_filter_fst in Hx as [Hx Hk].
      simpl. split; [done |]. split; [right; apply list_elem_of_fmap; by exists x |].
      split; [by right |]. left. destruct x as [k' v]. simpl in *. by subst.
    + intros (Hk & _ & [(l & Hl & _) | [_ Hm1]] & Hm2).
      { exfalso. apply El. apply list_elem_of_fmap. by exists (k, l). }
      destruct Hm2 as [Hm2 | [Hn _]].
      * exists (k, m.2.2). split.
        -- destruct m as [k' [a b]]. simpl in *. by subst.
        -- rewrite <- Er. by apply elem_of_filter_fst.
      * apply filter_fst_nil in Hn. rewrite Hn in Er. done.
  - apply filter_fst_nil in Er. rewrite list_elem_of_fmap. split.
    + intros (x & -> & Hx). rewrite <- El in Hx. apply elem_of_filter_fst in Hx as [Hx Hk].
      simpl. split; [done |]. split; [left; apply list_elem_of_fmap; by exists x |].
      split; [| by right]. left. exists x.2. split; [| done].
      destruct x as [k' v]. simpl in *. by subst.
    + intros (Hk & _ & Hm1 & [Hm2 | [_ Hm2]]).
      { exfalso. apply Er. apply list_elem_of_fmap. by exists (k, m.2.2). }
      destruct Hm1 as [(l0 & Hl & Hm1) | [Hn _]].
      * exists (k, l0). split.
        -- destruct m as [k' [a b]]. simpl in *. by subst.
        -- rewrite <- El. by apply elem_of_filter_fst.
      * apply filter_fst_nil in Hn. rewrite Hn in El. done.
  - rewrite <- El, <- Er. rewrite list_elem_of_bind. split.
    + intros (x & Hm & Hx). apply list_elem_of_fmap in Hm as (y & -> & Hy).
      apply elem_of_filter_fst in Hx as [Hx Hkx]. apply elem_of_filter_fst in Hy as [Hy Hky].
      simpl. split; [done |]. split; [left; apply list_elem_of_fmap; by exists x |].
      split.
      * left. exists x.2. split; [| done]. destruct x as [k' v]. simpl in *. by subst.
      * left. destruct y as [k' v]. simpl in *. by subst.
    + intros (Hk & _ & Hm1 & Hm2).
      destruct Hm1 as [(l0 & Hl & Hm1) | [Hn _]].
      2:{ apply filter_fst_nil in Hn. rewrite Hn in El. done. }
      destruct Hm2 as [Hm2 | [Hn _]].
      2:{ apply filter_fst_nil in Hn. rewrite Hn in Er. done. }
      exists (k, l0). split; [| by apply elem_of_filter_fst].
      apply list_elem_of_fmap. exists (k, m.2.2). split; [| by apply elem_of_filter_fst].
      destruct m as [k' [a b]]. simpl in *. by subst.
Qed.

Lemma elem_of_merge_outer pre_status post m :
  m ∈ merge_outer pre_status post
  <-> (m.1 ∈ pre_status.*1 \/ m.1 ∈ post.*1)
      /\ ((exists l, (m.1, l) ∈ pre_status /\ m.2.1 = Some l)
          \/ ((m.1 ∉ pre_status.*1) /\ m.2.1 = None))
      /\ ((m.1, m.2.2) ∈ post \/ ((m.1 ∉ post.*1) /\ m.2.2 = None)).
Proof.
  unfold merge_outer. rewrite list_elem_of_bind. split.
  - intros (k & Hm & _). apply elem_of_merge_block in Hm as (<- & H). exact H.
  - intros H. exists m.1. split.
    + apply elem_of_merge_block. by split.
    + apply BuildPanelT1Facts.elem_of_merge_keys. tauto.
Qed.

Section Roster.
Variable padron : list padron_row.
Local Abbreviation muni := (muni_of padron).
Local Abbreviation pre := (List.filter (anio_isin [2022; 2023; 2024]) (muni_of padron)).
Local Abbreviation pre_status := (pre_status_frame pre).
Local Abbreviation post := (post_of (muni_of padron)).

Lemma elem_of_post k v :
  (k, v) ∈ post
  <-> exists r, r ∈ muni /\ p_sec_ejec r = k /\ p_anio r = Some 2025
        /\ siga_implementado r = v.
Proof.
  unfold post_of. rewrite BuildPanelT1Facts.elem_of_drop_duplicates_id, list_elem_of_fmap.
  split.
  - intros (r & [= -> ->] & Hr). apply BuildPanelT1Facts.elem_of_filter_bool in Hr as [Hr Ha].
    apply bool_decide_eq_true_1 in Ha. by exists r.
  - intros (r & Hr & <- & Ha & <-). exists r. split; [done |].
    apply BuildPanelT1Facts.elem_of_filter_bool. split; [done |]. by apply bool_decide_eq_true_2.
Qed.

Lemma anio_isin_2025 r : anio_isin [2025] r = true <-> p_anio r = Some 2025.
Proof.
  unfold anio_isin. destruct (p_anio r) as [a|]; [| done].
  rewrite bool_decide_eq_true, list_elem_of_singleton. split; congruence.
Qed.

Lemma post_has_status k s :
  (k, Some (py s)) ∈ post <-> has_status padron k [2025] s.
Proof.
  rewrite elem_of_post. unfold has_status.
  split; intros (r & Hr & Hk & Ha & Hs); exists r; rewrite anio_isin_2025 in *; done.
Qed.

(** The statuses the roster gives an entity before 2025. *)
Lemma pre_statuses k v :
  v ∈ siga_implementado <$> List.filter (fun r => bool_decide (p_sec_ejec r = k)) pre
  <-> exists r, r ∈ muni /\ p_sec_ejec r = k /\ anio_isin [2022; 2023; 2024] r = true
        /\ siga_implementado r = v.
Proof.
  rewrite list_elem_of_fmap. split.
  - intros (r & -> & Hr). apply BuildPanelT1Facts.elem_of_filter_bool in Hr as [Hr Hk].
    apply BuildPanelT1Facts.elem_of_filter_bool in Hr as [Hr Ha].
    apply bool_decide_eq_true_1 in Hk. by exists r.
  - intros (r & Hr & Hk & Ha & <-). exists r. split; [done |].
    apply BuildPanelT1Facts.elem_of_filter_bool. split; [| by apply bool_decide_eq_true_2].
    by apply BuildPanelT1Facts.elem_of_filter_bool.
Qed.

Lemma pre_has_status k s :
  Some (py s) ∈ siga_implementado <$> List.filter (fun r => bool_decide (p_sec_ejec r = k)) pre
  <-> has_status padron k [2022; 2023; 2024] s.
Proof. rewrite pre_statuses. done. Qed.

(** The value of [pre_siga] for an entity, whether or not it has a row
    before 2025. *)
Lemma group_pre_siga m :
  m ∈ merge_outer pre_status post ->
  default (py "ABSENT") m.2.1
  = pre_status_of
      (siga_implementado <$> List.filter (fun r => bool_decide (p_sec_ejec r = m.1)) pre).
Proof.
  intros Hm. apply elem_of_merge_outer in Hm as (_ & [(l & Hl & ->) | [Hn ->]] & _).
  - apply elem_of_pre_status_frame in Hl as [_ ->]. done.
  - simpl. symmetry. apply pre_status_of_spec.
    assert (Hnil : List.filter (fun r => bool_decide (p_sec_ejec r = m.1)) pre = []).
    { destruct (List.filter _ pre) as [|r rs] eqn:E; [done |]. exfalso. apply Hn.
      assert (Hr : r ∈ List.filter (fun r => bool_decide (p_sec_ejec r = m.1)) pre)
        by (rewrite E; by left).
      apply BuildPanelT1Facts.elem_of_filter_bool in Hr as [Hr Hk].
      apply bool_decide_eq_true_1 in Hk.
      rewrite BuildPanelT1Facts.pre_status_frame_keys, BuildPanelT1Facts.sort_keys_perm.
      apply PandasFacts.drop_duplicates_keys, list_elem_of_fmap. by exists r. }
    rewrite Hnil. split; by intros ?%elem_of_nil.
Qed.

Lemma labelled_iff k lbl :
  labelled padron k lbl
  <-> exists m, m ∈ merge_outer pre_status post /\ m.1 = k
        /\ label (default (py "ABSENT") m.2.1) (default (py "ABSENT") m.2.2) = py lbl.
Proof.
  unfold labelled, build_groups. cbn [snd]. split.
  - intros (g & Hg & Hk & Hl). apply list_elem_of_fmap in Hg as (m & -> & Hm). by exists m.
  - intros (m & Hm & Hk & Hl). exists (group_of m). split; [| done].
    apply list_elem_of_fmap. by exists m.
Qed.

(** The entity has a row in the table of groups whose status of 2025 is SI
    exactly when the roster has such a row. *)
Lemma post_SI k (P : str -> Prop) :
  (exists m, m ∈ merge_outer pre_status post /\ m.1 = k
     /\ default (py "ABSENT") m.2.2 = py "SI" /\ P (default (py "ABSENT") m.2.1))
  <-> has_status padron k [2025] "SI"
      /\ P (pre_status_of
              (siga_implementado
                 <$> List.filter (fun r => bool_decide (p_sec_ejec r = k)) pre)).
Proof.
  split.
  - intros (m & Hm & <- & Hpost & HP). rewrite (group_pre_siga m Hm) in HP.
    split; [| done]. apply post_has_status.
    apply elem_of_merge_outer in Hm as (_ & _ & [Hp | [_ Hp]]).
    + destruct m.2.2 as [v|] eqn:E; simpl in Hpost; [by subst v | done].
    + rewrite Hp in Hpost. done.
  - intros [Hpost HP]. apply post_has_status in Hpost.
    set (ls := List.filter (fun l => bool_decide (l.1 = k)) pre_status).
    assert (Hin : (k, (match ls with l :: _ => Some l.2 | [] => None end, Some (py "SI")))
                  ∈ merge_outer pre_status post).
    { apply elem_of_merge_outer. simpl. split; [| split].
      - right. apply list_elem_of_fmap. by exists (k, Some (py "SI")).
      - destruct ls as [|l ls'] eqn:E.
        + right. split; [| done]. by apply filter_fst_nil.
        + left. exists l.2. split; [| done].
          assert (Hl : l ∈ List.filter (fun l => bool_decide (l.1 = k)) pre_status).
          { fold ls. rewrite E. by left. }
          apply elem_of_filter_fst in Hl as [Hl <-]. by destruct l.
      - by left. }
    eexists. split; [exact Hin |]. split; [done |]. split; [done |].
    by rewrite (group_pre_siga _ Hin).
Qed.

End Roster.

End GroupsFacts.

(** X15. Who gets which label in [build_groups]. The table of groups has
    a SWITCHER row for an entity exactly when the municipality roster has a
    row of it in 2025 with status SI, a row of 2022-2024 with status NO and
    no row of 2022-2024 with status SI. It has an ALWAYS_IN row exactly when
    the roster has a row in 2025 with SI and a row of 2022-2024 with SI, and
    an ENTRY_ABSENT row exactly when it has a row in 2025 with SI and no row
    of 2022-2024 with SI or NO. *)
Theorem build_groups_labels (padron : list BuildPanelT1.padron_row) (k : PyStr.str) :
  let has := RosterFacts.has_status padron k in
  let before := [2022; 2023; 2024] in
  (RosterFacts.labelled padron k "SWITCHER"
   <-> has [2025] "SI" /\ has before "NO" /\ ~ has before "SI")
  /\ (RosterFacts.labelled padron k "ALWAYS_IN" <-> has [2025] "SI" /\ has before "SI")
  /\ (RosterFacts.labelled padron k "ENTRY_ABSENT"
      <-> has [2025] "SI" /\ ~ has before "SI" /\ ~ has before "NO").
Proof.
  intros has before. unfold has, before. clear has before.
  set (l := BuildPanelT1.siga_implementado
              <$> List.filter (fun r => bool_decide (BuildPanelT1.p_sec_ejec r = k))
                    (List.filter (BuildPanelT1.anio_isin [2022; 2023; 2024])
                       (BuildPanelT1.muni_of padron))).
  destruct (GroupsFacts.pre_status_of_spec l) as (HSI & HNO & HAB).
  assert (Hin : forall s, Some (PyStr.py s) ∈ l
                          <-> RosterFacts.has_status padron k [2022; 2023; 2024] s).
  { intros s. apply GroupsFacts.pre_has_status. }
  assert (Hlab : forall lbl (pre_is : PyStr.str),
            (forall pre post,
               BuildPanelT1.label pre post = PyStr.py lbl
               <-> post = PyStr.py "SI" /\ pre = pre_is) ->
            RosterFacts.labelled padron k lbl
            <-> RosterFacts.has_status padron k [2025] "SI"
                /\ BuildPanelT1.pre_status_of l = pre_is).
  { intros lbl pre_is Hspec. rewrite GroupsFacts.labelled_iff.
    etransitivity; [| exact (GroupsFacts.post_SI padron k (fun s => s = pre_is))].
    split; intros (m & Hm & Hk & H); exists m; (split; [done |]); (split; [done |]).
    - by apply Hspec in H.
    - by apply Hspec. }
  split; [| split].
  - rewrite (Hlab "SWITCHER" (PyStr.py "NO")), HNO, !Hin; [tauto |].
    intros pre post. apply BuildPanelT1Facts.label_spec.
  - rewrite (Hlab "ALWAYS_IN" (PyStr.py "SI")), HSI, !Hin; [tauto |].
    intros pre post. apply BuildPanelT1Facts.label_spec.
  - rewrite (Hlab "ENTRY_ABSENT" (PyStr.py "ABSENT")), HAB, !Hin; [tauto |].
    intros pre post. apply BuildPanelT1Facts.label_spec.
Qed.

(** X16. [compute_did_manual] returns a number for [did_manual] exactly
    when each of the four cells (ALWAYS_IN or SWITCHER, before 2025 or in
    2025) has a row, and NaN otherwise. When the outcomes lie between 0 and
    1, as the compliance flag does, the four rates lie between 0 and 1 and
    the estimate between -2 and 2. *)
Theorem did_manual_defined (panel : list DidClasico.panel_row) :
  let res := DidManual.compute_did_manual panel in
  (is_Some (DidManual.did_manual res)
   <-> DidManual.cell "ALWAYS_IN" DidManual.pre panel <> []
       /\ DidManual.cell "ALWAYS_IN" DidManual.post panel <> []
       /\ DidManual.cell "SWITCHER" DidManual.pre panel <> []
       /\ DidManual.cell "SWITCHER" DidManual.post panel <> [])
  /\ (Forall (fun r => 0 <= DidClasico.cumple_v4 r /\ DidClasico.cumple_v4 r <= 1)%Q panel ->
      forall d, DidManual.did_manual res = Some d ->
        (-2 <= d /\ d <= 2)%Q
        /\ exists a0 a1 s0 s1,
             DidManual.always_in_pre res = Some a0 /\ DidManual.always_in_post res = Some a1
             /\ DidManual.switcher_pre res = Some s0 /\ DidManual.switcher_post res = Some s1
             /\ Forall (fun x => 0 <= x /\ x <= 1)%Q [a0; a1; s0; s1]
             /\ d = ((s1 - s0) - (a1 - a0))%Q).
Proof.
  intros res. unfold res, DidManual.compute_did_manual.
  cbn [DidManual.did_manual DidManual.always_in_pre DidManual.always_in_post
       DidManual.switcher_pre DidManual.switcher_post].
  split.
  - rewrite <- !DidFacts.mean_is_Some.
    destruct (Pandas.mean (DidManual.cell "ALWAYS_IN" DidManual.pre panel)),
             (Pandas.mean (DidManual.cell "ALWAYS_IN" DidManual.post panel)),
             (Pandas.mean (DidManual.cell "SWITCHER" DidManual.pre panel)),
             (Pandas.mean (DidManual.cell "SWITCHER" DidManual.post panel));
      simpl; split; try (intros [? ?]; done); try (intros (? & ? & ? & ?); done);
      try (intros _; repeat split; by eexists); intros (H1 & H2 & H3 & H4);
      try (by destruct H1); try (by destruct H2); try (by destruct H3); by destruct H4.
  - intros Hpanel d.
    assert (Hcell : forall g period m,
              Pandas.mean (DidManual.cell g period panel) = Some m -> (0 <= m /\ m <= 1)%Q).
    { intros g period m. apply DidFacts.mean_bounds. unfold DidManual.cell.
      apply Forall_fmap, Forall_forall. intros r Hr.
      apply BuildPanelT1Facts.elem_of_filter_bool in Hr as [Hr _].
      rewrite Forall_forall in Hpanel. by apply Hpanel. }
    destruct (Pandas.mean (DidManual.cell "ALWAYS_IN" DidManual.pre panel)) as [a0|] eqn:E1;
      destruct (Pandas.mean (DidManual.cell "ALWAYS_IN" DidManual.post panel)) as [a1|] eqn:E2;
      destruct (Pandas.mean (DidManual.cell "SWITCHER" DidManual.pre panel)) as [s0|] eqn:E3;
      destruct (Pandas.mean (DidManual.cell "SWITCHER" DidManual.post panel)) as [s1|] eqn:E4;
      simpl; try done.
    intros [= <-].
    apply Hcell in E1, E2, E3, E4. split; [split; lra |].
    exists a0, a1, s0, s1. repeat split; try done.
    repeat (apply Forall_cons_2; [done |]). apply Forall_nil_2.
Qed.

Lemma did_manual_defined_witness :
  exists d,
    DidManual.did_manual (DidManual.compute_did_manual DidManual.sample_panel) = Some d
    /\ (-2 <= d /\ d <= 2)%Q.
Proof.
  destruct (did_manual_defined DidManual.sample_panel) as [_ H].
  exists 0%Q. split; [by vm_compute |].
  apply (H ltac:(repeat (apply Forall_cons_2; [split; by vm_compute |]); apply Forall_nil_2)
           0%Q).
  by vm_compute.
Defined.

(** ** The T2 panel (build_panel_t2.py) *)

Module BuildPanelT2Facts.
Import PyStr BuildPanelT1 BuildPanelT2.

Lemma zmax_01 (col : list Z) :
  Forall (fun v => v = 0 \/ v = 1) col -> zmax col = 0 \/ zmax col = 1.
Proof.
  induction 1 as [|v col Hv _ IH]; [by left |].
  change (zmax (v :: col)) with (Z.max v (zmax col)). lia.
Qed.

Lemma zmax_1 (col : list Z) :
  Forall (fun v => v = 0 \/ v = 1) col -> (zmax col = 1 <-> 1 ∈ col).
Proof.
  induction 1 as [|v col Hv Hcol IH].
  - split; [done | by intros ?%elem_of_nil].
  - change (zmax (v :: col)) with (Z.max v (zmax col)). rewrite elem_of_cons.
    pose proof (zmax_01 col Hcol). split.
    + intros H1. destruct Hv as [-> | ->]; [right; apply IH; lia | by left].
    + intros [<- | H1]; [lia |]. apply IH in H1. lia.
Qed.

Lemma s_it_of_01 r : s_it_of r = 0 \/ s_it_of r = 1.
Proof. unfold s_it_of. destruct (eq_lit "SI" (siga_implementado r)); auto. Qed.

Lemma s_it_of_1 r : s_it_of r = 1 <-> siga_implementado r = Some (py "SI").
Proof.
  unfold s_it_of, eq_lit. case_bool_decide; split; done.
Qed.

Lemma sort_year_keys_perm ks : sort_year_keys ks ≡ₚ ks.
Proof. apply merge_sort_Permutation. Qed.

Lemma padron_year_keys padron :
  (fun y => (y_sec_ejec y, y_anio y)) <$> build_padron_year padron
  = sort_year_keys (Pandas.drop_duplicates id (omap year_key (muni_of padron))).
Proof.
  unfold build_padron_year. rewrite <- list_fmap_compose.
  rewrite <- (list_fmap_id (sort_year_keys _)) at 2. apply list_fmap_ext.
  by intros ? [sec a].
Qed.

Lemma NoDup_padron_year padron :
  NoDup ((fun y => (y_sec_ejec y, y_anio y)) <$> build_padron_year padron).
Proof.
  rewrite padron_year_keys, sort_year_keys_perm.
  apply BuildPanelT1Facts.NoDup_drop_duplicates_id.
Qed.

Lemma muni_anio padron r :
  r ∈ muni_of padron -> exists a, p_anio r = Some a /\ a ∈ [2022; 2023; 2024; 2025].
Proof.
  unfold muni_of. intros Hr. apply BuildPanelT1Facts.elem_of_filter_bool in Hr as [_ Hr].
  unfold anio_isin in Hr. destruct (p_anio r) as [a|]; [| done].
  apply bool_decide_eq_true_1 in Hr. by exists a.
Qed.

Lemma elem_of_padron_year padron y :
  y ∈ build_padron_year padron ->
  (exists r, r ∈ muni_of padron /\ year_key r = Some (y_sec_ejec y, y_anio y))
  /\ s_it y
     = zmax (s_it_of
               <$> List.filter
                     (fun r => bool_decide (year_key r = Some (y_sec_ejec y, y_anio y)))
                     (muni_of padron)).
Proof.
  unfold build_padron_year. intros Hy. apply list_elem_of_fmap in Hy as ([sec a] & -> & Hk).
  simpl. split; [| done].
  rewrite sort_year_keys_perm, BuildPanelT1Facts.elem_of_drop_duplicates_id in Hk.
  apply list_elem_of_omap in Hk as (r & Hr & Hkey). by exists r.
Qed.

Lemma padron_year_covers padron r a :
  r ∈ muni_of padron -> p_anio r = Some a ->
  exists y, y ∈ build_padron_year padron /\ y_sec_ejec y = p_sec_ejec r /\ y_anio y = a.
Proof.
  intros Hr Ha.
  assert (Hk : (p_sec_ejec r, a)
               ∈ (fun y => (y_sec_ejec y, y_anio y)) <$> build_padron_year padron).
  { rewrite padron_year_keys, sort_year_keys_perm,
      BuildPanelT1Facts.elem_of_drop_duplicates_id.
    apply list_elem_of_omap. exists r. split; [done |]. unfold year_key. by rewrite Ha. }
  apply list_elem_of_fmap in Hk as (y & [= -> ->] & Hy). by exists y.
Qed.

(** The indicator of an entity-year is 1 exactly when the roster has a
    municipality row of that entity and year with status SI. *)
Lemma padron_year_s_it padron y :
  y ∈ build_padron_year padron ->
  (s_it y = 0 \/ s_it y = 1)
  /\ (s_it y = 1 <-> RosterFacts.has_status padron (y_sec_ejec y) [y_anio y] "SI").
Proof.
  intros Hy. apply elem_of_padron_year in Hy as [_ ->].
  assert (H01 : Forall (fun v => v = 0 \/ v = 1)
                  (s_it_of
                     <$> List.filter
                           (fun r => bool_decide (year_key r = Some (y_sec_ejec y, y_anio y)))
                           (muni_of padron))).
  { apply Forall_fmap, Forall_forall. intros r _. apply s_it_of_01. }
  split; [by apply zmax_01 |]. rewrite (zmax_1 _ H01), list_elem_of_fmap.
  unfold RosterFacts.has_status. split.
  - intros (r & H1 & Hr). apply BuildPanelT1Facts.elem_of_filter_bool in Hr as [Hr Hk].
    apply bool_decide_eq_true_1 in Hk. symmetry in H1. apply s_it_of_1 in H1.
    unfold year_key in Hk. destruct (p_anio r) as [a|] eqn:Ha; [| done].
    injection Hk as Hs Hyr. exists r. split; [done |]. split; [done |]. split; [| done].
    unfold anio_isin. rewrite Ha. apply bool_decide_eq_true_2. subst a. by left.
  - intros (r & Hr & Hs & Ha & Hst). exists r. split; [symmetry; by apply s_it_of_1 |].
    apply BuildPanelT1Facts.elem_of_filter_bool. split; [done |].
    apply bool_decide_eq_true_2. unfold year_key, anio_isin in *.
    destruct (p_anio r) as [a|]; [| done]. apply bool_decide_eq_true_1 in Ha.
    rewrite list_elem_of_singleton in Ha. simpl. congruence.
Qed.

(** A cell of the pivot table of the frame of [build_padron_year]. *)
Lemma pivot_1 padron sec year :
  pivot (build_padron_year padron) sec year = 1
  <-> RosterFacts.has_status padron sec [year] "SI".
Proof.
  unfold pivot.
  set (rows := List.filter _ (build_padron_year padron)).
  assert (Hrows : forall y, y ∈ rows
            <-> y ∈ build_padron_year padron /\ y_sec_ejec y = sec /\ y_anio y = year).
  { intros y. unfold rows. rewrite BuildPanelT1Facts.elem_of_filter_bool.
    by rewrite bool_decide_eq_true. }
  assert (H01 : Forall (fun v => v = 0 \/ v = 1) (s_it <$> rows)).
  { apply Forall_fmap, Forall_forall. intros y Hy. apply Hrows in Hy as [Hy _].
    by apply padron_year_s_it in Hy as [? _]. }
  assert (Hiff : zmax (s_it <$> rows) = 1 <-> RosterFacts.has_status padron sec [year] "SI").
  { rewrite (zmax_1 _ H01), list_elem_of_fmap. split.
    - intros (y & H1 & Hy). apply Hrows in Hy as (Hy & <- & <-).
      apply padron_year_s_it in Hy as [_ Hy]. by apply Hy.
    - intros Hs. destruct Hs as (r & Hr & Hk & Ha & Hst).
      assert (Har : p_anio r = Some year).
      { unfold anio_isin in Ha. destruct (p_anio r) as [a|]; [| done].
        apply bool_decide_eq_true_1 in Ha. rewrite list_elem_of_singleton in Ha.
        congruence. }
      destruct (padron_year_covers padron r year Hr Har) as (y & Hy & Hys & Hya).
      exists y. split.
      + symmetry. apply (padron_year_s_it padron y Hy). rewrite Hys, Hya.
        by exists r.
      + apply Hrows. split; [done |]. by rewrite Hys, Hk. }
  destruct rows as [|y0 rows'] eqn:E; [| exact Hiff].
  split; [done |]. intros Hs. apply Hiff in Hs. done.
Qed.

End BuildPanelT2Facts.

(** X17. The yearly roster table of build_panel_t2.py has one row per
    municipality and year of the roster, no key twice; its indicator [s_it]
    is 0 or 1, and 1 exactly when the roster has a row of that municipality
    and year with status SI. The table of [build_always_in] has one row per
    municipality, and [siga_always_in] is 1 exactly when the roster has a
    row with status SI of that municipality in each of 2022, 2023, 2024 and
    2025. *)
Theorem always_in_all_years (padron : list BuildPanelT1.padron_row) :
  let padron_year := BuildPanelT2.build_padron_year padron in
  let always_in := BuildPanelT2.build_always_in padron_year in
  NoDup ((fun y => (BuildPanelT2.y_sec_ejec y, BuildPanelT2.y_anio y)) <$> padron_year)
  /\ (forall r a, r ∈ BuildPanelT1.muni_of padron -> BuildPanelT1.p_anio r = Some a ->
        (BuildPanelT1.p_sec_ejec r, a)
        ∈ (fun y => (BuildPanelT2.y_sec_ejec y, BuildPanelT2.y_anio y)) <$> padron_year)
  /\ Forall
       (fun y =>
          (BuildPanelT2.s_it y = 0 \/ BuildPanelT2.s_it y = 1)
          /\ (BuildPanelT2.s_it y = 1
              <-> RosterFacts.has_status padron (BuildPanelT2.y_sec_ejec y)
                    [BuildPanelT2.y_anio y] "SI"))
       padron_year
  /\ NoDup (BuildPanelT2.a_sec_ejec <$> always_in)
  /\ (forall r, r ∈ BuildPanelT1.muni_of padron ->
        BuildPanelT1.p_sec_ejec r ∈ BuildPanelT2.a_sec_ejec <$> always_in)
  /\ Forall
       (fun a =>
          (BuildPanelT2.siga_always_in a = 0 \/ BuildPanelT2.siga_always_in a = 1)
          /\ (BuildPanelT2.siga_always_in a = 1
              <-> forall year, year ∈ [2022; 2023; 2024; 2025] ->
                    RosterFacts.has_status padron (BuildPanelT2.a_sec_ejec a) [year] "SI"))
       always_in.
Proof.
  intros padron_year always_in.
  assert (Hkeys : BuildPanelT2.a_sec_ejec <$> always_in
                  = BuildPanelT1.sort_keys
                      (Pandas.drop_duplicates id (BuildPanelT2.y_sec_ejec <$> padron_year))).
  { unfold always_in, BuildPanelT2.build_always_in. rewrite <- list_fmap_compose.
    apply list_fmap_id. }
  split; [apply BuildPanelT2Facts.NoDup_padron_year |]. split.
  { intros r a Hr Ha.
    destruct (BuildPanelT2Facts.padron_year_covers padron r a Hr Ha) as (y & Hy & Hs & Hya).
    apply list_elem_of_fmap. exists y. by rewrite Hs, Hya. }
  split.
  { apply Forall_forall. intros y Hy. by apply BuildPanelT2Facts.padron_year_s_it. }
  split.
  { rewrite Hkeys, BuildPanelT1Facts.sort_keys_perm.
    apply BuildPanelT1Facts.NoDup_drop_duplicates_id. }
  split.
  { intros r Hr. rewrite Hkeys, BuildPanelT1Facts.sort_keys_perm,
      BuildPanelT1Facts.elem_of_drop_duplicates_id.
    destruct (BuildPanelT2Facts.muni_anio padron r Hr) as (a & Ha & _).
    destruct (BuildPanelT2Facts.padron_year_covers padron r a Hr Ha) as (y & Hy & Hs & _).
    apply list_elem_of_fmap. by exists y. }
  apply Forall_forall. intros a Ha.
  unfold always_in, BuildPanelT2.build_always_in in Ha.
  apply list_elem_of_fmap in Ha as (sec & -> & _). simpl.
  split; [apply CmnFacts.astype_int_01 |].
  rewrite CmnFacts.astype_int_1, !andb_true_iff, !Z.eqb_eq.
  fold padron_year. unfold padron_year. rewrite !BuildPanelT2Facts.pivot_1. split.
  - intros (((H22 & H23) & H24) & H25) year Hy.
    repeat (apply elem_of_cons in Hy as [-> | Hy]; [done |]). by apply elem_of_nil in Hy.
  - intros H. repeat split; apply H; repeat ((by left) || right).
Qed.

Module PanelT2Facts.
Import PyStr BuildPanelT1 BuildPanelT2.

Section Merge.
Context {A B C : Type}.

(** A left merge on a key the right table has once at most keeps the rows
    of the left table, each joined with its match when there is one. *)
Lemma merge_left_unique (matches : A -> B -> bool) (join : A -> option B -> C)
  (left : list A) (right : list B) :
  (forall a, (length (List.filter (matches a) right) <= 1)%nat) ->
  Pandas.merge_left matches join left right
  = (fun a => join a (head (List.filter (matches a) right))) <$> left.
Proof.
  intros Hone. unfold Pandas.merge_left. induction left as [|a left IH]; [done |].
  rewrite bind_cons, fmap_cons, IH. clear IH.
  specialize (Hone a). destruct (List.filter (matches a) right) as [|b [|b' bs]]; simpl in *.
  - done.
  - done.
  - lia.
Qed.

Lemma head_filter_Some (p : B -> bool) (l : list B) b :
  head (List.filter p l) = Some b -> b ∈ l /\ p b = true.
Proof.
  intros H. apply BuildPanelT1Facts.elem_of_filter_bool.
  destruct (List.filter p l) as [|b0 bs]; [done |]. injection H as ->. by left.
Qed.

Lemma head_filter_None (p : B -> bool) (l : list B) :
  head (List.filter p l) = None -> forall b, b ∈ l -> p b = false.
Proof.
  intros H b Hb. destruct (p b) eqn:Hp; [| done].
  assert (Hin : b ∈ List.filter p l) by by apply BuildPanelT1Facts.elem_of_filter_bool.
  destruct (List.filter p l); [by apply elem_of_nil in Hin | done].
Qed.

End Merge.

Lemma NoDup_always_in padron_year :
  NoDup (a_sec_ejec <$> build_always_in padron_year).
Proof.
  unfold build_always_in. rewrite <- list_fmap_compose.
  rewrite (list_fmap_ext _ id (sort_keys (Pandas.drop_duplicates id (y_sec_ejec <$> padron_year))))
    by done.
  rewrite list_fmap_id, BuildPanelT1Facts.sort_keys_perm.
  apply BuildPanelT1Facts.NoDup_drop_duplicates_id.
Qed.

Lemma NoDup_flags facts :
  NoDup ((fun c => (BuildPanelCmn.anio (BuildPanelCmn.base c),
                    BuildPanelCmn.sec_ejec (BuildPanelCmn.base c)))
           <$> BuildPanelCmn.build_flags (BuildPanelCmn.fetch_cmn_base facts)).
Proof.
  unfold BuildPanelCmn.build_flags. rewrite <- list_fmap_compose.
  rewrite (list_fmap_ext _ (fun b => (BuildPanelCmn.anio b, BuildPanelCmn.sec_ejec b))
             (BuildPanelCmn.fetch_cmn_base facts)) by done.
  apply CmnFacts.NoDup_fetch_cmn_base.
Qed.

(** The three right tables of the merges have their keys once, so each
    merge finds one row at most. *)
Lemma one_padron_year padron (b : presupuesto_row) :
  (length (List.filter
             (fun y => bool_decide (BuildPanelBudgetMuni.sec_ejec b = Some (y_sec_ejec y)
                                    /\ BuildPanelBudgetMuni.anio b = y_anio y))
             (build_padron_year padron)) <= 1)%nat.
Proof.
  apply (PandasFacts.filter_key_NoDup (fun y => (y_sec_ejec y, y_anio y))).
  - apply BuildPanelT2Facts.NoDup_padron_year.
  - intros x y Hx Hy. apply bool_decide_eq_true_1 in Hx as [Hx1 Hx2].
    apply bool_decide_eq_true_1 in Hy as [Hy1 Hy2]. congruence.
Qed.

Lemma one_always_in padron_year (m : presupuesto_row * option Z) :
  (length (List.filter
             (fun a => bool_decide (BuildPanelBudgetMuni.sec_ejec m.1 = Some (a_sec_ejec a)))
             (build_always_in padron_year)) <= 1)%nat.
Proof.
  apply (PandasFacts.filter_key_NoDup a_sec_ejec).
  - apply NoDup_always_in.
  - intros x y Hx Hy. apply bool_decide_eq_true_1 in Hx.
    apply bool_decide_eq_true_1 in Hy. congruence.
Qed.

Lemma one_cmn facts (m : presupuesto_row * option Z * option Z) :
  (length (List.filter
             (fun c => bool_decide
                (BuildPanelBudgetMuni.sec_ejec m.1.1
                 = Some (BuildPanelCmn.sec_ejec (BuildPanelCmn.base c))
                 /\ BuildPanelBudgetMuni.anio m.1.1
                    = BuildPanelCmn.anio (BuildPanelCmn.base c)))
             (BuildPanelCmn.build_flags (BuildPanelCmn.fetch_cmn_base facts))) <= 1)%nat.
Proof.
  apply (PandasFacts.filter_key_NoDup
           (fun c => (BuildPanelCmn.anio (BuildPanelCmn.base c),
                      BuildPanelCmn.sec_ejec (BuildPanelCmn.base c)))).
  - apply NoDup_flags.
  - intros x y Hx Hy. apply bool_decide_eq_true_1 in Hx as [Hx1 Hx2].
    apply bool_decide_eq_true_1 in Hy as [Hy1 Hy2]. congruence.
Qed.

Lemma run_rows presupuesto padron facts :
  run presupuesto padron facts
  = (fun b : presupuesto_row =>
       finish_t2
         (b,
          s_it <$> head (List.filter
                           (fun y => bool_decide
                              (BuildPanelBudgetMuni.sec_ejec b = Some (y_sec_ejec y)
                               /\ BuildPanelBudgetMuni.anio b = y_anio y))
                           (build_padron_year padron)),
          siga_always_in
            <$> head (List.filter
                        (fun a => bool_decide
                           (BuildPanelBudgetMuni.sec_ejec b = Some (a_sec_ejec a)))
                        (build_always_in (build_padron_year padron))),
          head (List.filter
                  (fun c => bool_decide
                     (BuildPanelBudgetMuni.sec_ejec b
                      = Some (BuildPanelCmn.sec_ejec (BuildPanelCmn.base c))
                      /\ BuildPanelBudgetMuni.anio b
                         = BuildPanelCmn.anio (BuildPanelCmn.base c)))
                  (BuildPanelCmn.build_flags (BuildPanelCmn.fetch_cmn_base facts)))))
      <$> presupuesto.
Proof.
  unfold run, build_panel, merge_cmn, merge_always_in, merge_padron_year.
  rewrite (merge_left_unique _ _ presupuesto) by (intros b; apply one_padron_year).
  rewrite (merge_left_unique _ _ (_ <$> presupuesto))
    by (intros m; apply one_always_in).
  rewrite (merge_left_unique _ _ (_ <$> (_ <$> presupuesto)))
    by (intros m; apply one_cmn).
  rewrite <- !list_fmap_compose. by apply list_fmap_ext.
Qed.

Lemma s_it_lookup padron (b : presupuesto_row) :
  s_it <$> head (List.filter
                   (fun y => bool_decide (BuildPanelBudgetMuni.sec_ejec b = Some (y_sec_ejec y)
                                          /\ BuildPanelBudgetMuni.anio b = y_anio y))
                   (build_padron_year padron)) = Some 1
  <-> exists k, BuildPanelBudgetMuni.sec_ejec b = Some k
        /\ RosterFacts.has_status padron k [BuildPanelBudgetMuni.anio b] "SI".
Proof.
  split.
  - intros H. destruct (head _) as [y|] eqn:Hy; [| done]. injection H as H1.
    apply head_filter_Some in Hy as [Hy Hm]. apply bool_decide_eq_true_1 in Hm as [Hs Ha].
    exists (y_sec_ejec y). split; [done |]. rewrite Ha.
    by apply (BuildPanelT2Facts.padron_year_s_it padron y Hy).
  - intros (k & Hk & Hs). pose proof Hs as (r & Hr & Hrk & Hra & _).
    assert (Har : p_anio r = Some (BuildPanelBudgetMuni.anio b)).
    { unfold anio_isin in Hra. destruct (p_anio r) as [a|]; [| done].
      apply bool_decide_eq_true_1 in Hra. rewrite list_elem_of_singleton in Hra. congruence. }
    destruct (BuildPanelT2Facts.padron_year_covers padron r _ Hr Har) as (y & Hy & Hys & Hya).
    destruct (head _) as [y'|] eqn:Hh.
    + apply head_filter_Some in Hh as [Hy' Hm]. apply bool_decide_eq_true_1 in Hm as [Hs' Ha'].
      simpl. f_equal. apply (BuildPanelT2Facts.padron_year_s_it padron y' Hy').
      rewrite <- Ha'. replace (y_sec_ejec y') with k by congruence. done.
    + apply (head_filter_None _ _ Hh) in Hy. apply bool_decide_eq_false_1 in Hy.
      destruct Hy. split; congruence.
Qed.

Lemma always_in_1 padron a :
  a ∈ build_always_in (build_padron_year padron) ->
  siga_always_in a = 1
  <-> forall year, year ∈ [2022; 2023; 2024; 2025] ->
        RosterFacts.has_status padron (a_sec_ejec a) [year] "SI".
Proof.
  unfold build_always_in. intros Ha. apply list_elem_of_fmap in Ha as (sec & -> & _). simpl.
  rewrite CmnFacts.astype_int_1, !andb_true_iff, !Z.eqb_eq, !BuildPanelT2Facts.pivot_1. split.
  - intros (((H22 & H23) & H24) & H25) year Hy.
    repeat (apply elem_of_cons in Hy as [-> | Hy]; [done |]). by apply elem_of_nil in Hy.
  - intros H. repeat split; apply H; repeat ((by left) || right).
Qed.

Lemma always_in_lookup padron (b : presupuesto_row) :
  siga_always_in
    <$> head (List.filter
                (fun a => bool_decide (BuildPanelBudgetMuni.sec_ejec b = Some (a_sec_ejec a)))
                (build_always_in (build_padron_year padron))) = Some 1
  -> exists k, BuildPanelBudgetMuni.sec_ejec b = Some k
       /\ forall year, year ∈ [2022; 2023; 2024; 2025] ->
            RosterFacts.has_status padron k [year] "SI".
Proof.
  intros H. destruct (head _) as [a|] eqn:Ha; [| done]. injection H as H1.
  apply head_filter_Some in Ha as [Ha Hm]. apply bool_decide_eq_true_1 in Hm.
  exists (a_sec_ejec a). split; [done |]. by apply always_in_1.
Qed.

Lemma elem_of_flags facts c :
  c ∈ BuildPanelCmn.build_flags (BuildPanelCmn.fetch_cmn_base facts) ->
  (exists f, f ∈ facts
     /\ BuildPanelCmn.fact_key f
        = (BuildPanelCmn.anio (BuildPanelCmn.base c),
           BuildPanelCmn.sec_ejec (BuildPanelCmn.base c)))
  /\ (BuildPanelCmn.cumple_v4 c = 0 \/ BuildPanelCmn.cumple_v4 c = 1)
  /\ (BuildPanelCmn.cumple_v4 c = 1
      <-> forall phase, phase ∈ [1; 2; 3] ->
            exists f, f ∈ facts
              /\ BuildPanelCmn.fact_key f
                 = (BuildPanelCmn.anio (BuildPanelCmn.base c),
                    BuildPanelCmn.sec_ejec (BuildPanelCmn.base c))
              /\ BuildPanelCmn.fase_codigo f = Some phase).
Proof.
  unfold BuildPanelCmn.build_flags. intros Hc.
  apply list_elem_of_fmap in Hc as (b0 & -> & Hb0).
  cbn [BuildPanelCmn.flag_row BuildPanelCmn.base BuildPanelCmn.cumple_v4].
  split; [| split; [apply CmnFacts.astype_int_01 |]].
  - unfold BuildPanelCmn.fetch_cmn_base in Hb0.
    apply list_elem_of_fmap in Hb0 as (k & -> & Hk).
    apply list_elem_of_fmap in Hk as (f & -> & Hf).
    apply PandasFacts.elem_of_drop_duplicates in Hf. by exists f.
  - rewrite CmnFacts.astype_int_1, CmnFacts.all_three.
    pose proof (BuildPanelCmnFacts.fetch_cmn_base_rows facts b0 Hb0) as Hrow.
    set (k := (BuildPanelCmn.anio b0, BuildPanelCmn.sec_ejec b0)) in *.
    assert (H1 : BuildPanelCmn.has_f1 b0 = 1
                 <-> exists f, f ∈ facts /\ BuildPanelCmn.fact_key f = k
                       /\ BuildPanelCmn.fase_codigo f = Some 1).
    { rewrite <- BuildPanelCmnFacts.fetch_group_phase. by rewrite Hrow at 1. }
    assert (H2 : BuildPanelCmn.has_f2 b0 = 1
                 <-> exists f, f ∈ facts /\ BuildPanelCmn.fact_key f = k
                       /\ BuildPanelCmn.fase_codigo f = Some 2).
    { rewrite <- BuildPanelCmnFacts.fetch_group_phase. by rewrite Hrow at 1. }
    assert (H3 : BuildPanelCmn.has_f3 b0 = 1
                 <-> exists f, f ∈ facts /\ BuildPanelCmn.fact_key f = k
                       /\ BuildPanelCmn.fase_codigo f = Some 3).
    { rewrite <- BuildPanelCmnFacts.fetch_group_phase. by rewrite Hrow at 1. }
    rewrite H1, H2, H3. split.
    + intros (F1 & F2 & F3) phase Hp.
      repeat (apply elem_of_cons in Hp as [-> | Hp]; [done |]). by apply elem_of_nil in Hp.
    + intros H. repeat split; apply H; repeat ((by left) || right).
Qed.

Lemma cmn_lookup facts (b : presupuesto_row) :
  let found :=
    head (List.filter
            (fun c => bool_decide
               (BuildPanelBudgetMuni.sec_ejec b
                = Some (BuildPanelCmn.sec_ejec (BuildPanelCmn.base c))
                /\ BuildPanelBudgetMuni.anio b = BuildPanelCmn.anio (BuildPanelCmn.base c)))
            (BuildPanelCmn.build_flags (BuildPanelCmn.fetch_cmn_base facts))) in
  (is_Some found
   <-> exists k f, BuildPanelBudgetMuni.sec_ejec b = Some k /\ f ∈ facts
         /\ BuildPanelCmn.fact_key f = (BuildPanelBudgetMuni.anio b, k))
  /\ (default 0 (BuildPanelCmn.cumple_v4 <$> found) = 0
      \/ default 0 (BuildPanelCmn.cumple_v4 <$> found) = 1)
  /\ (default 0 (BuildPanelCmn.cumple_v4 <$> found) = 1
      <-> exists k, BuildPanelBudgetMuni.sec_ejec b = Some k
            /\ forall phase, phase ∈ [1; 2; 3] ->
                 exists f, f ∈ facts
                   /\ BuildPanelCmn.fact_key f = (BuildPanelBudgetMuni.anio b, k)
                   /\ BuildPanelCmn.fase_codigo f = Some phase).
Proof.
  intros found.
  assert (Hcover : forall k f, BuildPanelBudgetMuni.sec_ejec b = Some k -> f ∈ facts ->
            BuildPanelCmn.fact_key f = (BuildPanelBudgetMuni.anio b, k) -> is_Some found).
  { intros k f Hk Hf Hkey. pose proof (CmnFacts.fetch_cmn_base_covers facts f Hf) as Hin.
    apply list_elem_of_fmap in Hin as (b0 & Hb0 & Hin).
    destruct found as [c|] eqn:Hfound; [done |]. exfalso.
    assert (Hc : BuildPanelCmn.flag_row b0
                 ∈ BuildPanelCmn.build_flags (BuildPanelCmn.fetch_cmn_base facts)).
    { apply list_elem_of_fmap. by exists b0. }
    apply (head_filter_None _ _ Hfound) in Hc. apply bool_decide_eq_false_1 in Hc.
    destruct Hc. cbn [BuildPanelCmn.flag_row BuildPanelCmn.base].
    rewrite Hkey in Hb0. injection Hb0 as <- <-. done. }
  destruct found as [c|] eqn:Hfound.
  - apply head_filter_Some in Hfound as [Hc Hm]. apply bool_decide_eq_true_1 in Hm as [Hs Ha].
    destruct (elem_of_flags facts c Hc) as ((f & Hf & Hkey) & H01 & H1).
    simpl. split; [| split; [done |]].
    + split; [| done]. intros _. exists (BuildPanelCmn.sec_ejec (BuildPanelCmn.base c)), f.
      by rewrite Ha.
    + rewrite H1. split.
      * intros H. exists (BuildPanelCmn.sec_ejec (BuildPanelCmn.base c)).
        split; [done |]. by rewrite Ha.
      * intros (k & Hk & H) phase Hp. destruct (H phase Hp) as (f' & Hf' & Hkey' & Hph).
        exists f'. split; [done |]. split; [| done]. rewrite Hkey', Ha. congruence.
  - simpl. split; [| split; [by left |]].
    + split; [by intros [? ?] |]. intros (k & f & Hk & Hf & Hkey).
      by apply (Hcover k f).
    + split; [done |]. intros (k & Hk & H).
      destruct (H 1) as (f & Hf & Hkey & _); [by left |].
      by destruct (Hcover k f Hk Hf Hkey) as [? ?].
Qed.

End PanelT2Facts.

(** X18. The T2 panel [main] of build_panel_t2.py builds has the rows of
    the budget table, one each and in order. In a row, [t_it_applicable] is
    1 exactly when the roster has a municipality row of the entity and year
    with status SI; [t_it] and the CMN columns are blank exactly on the
    other rows. [t_it] is otherwise 0 or 1, and 1 exactly when the fact
    table has the three phases for the entity and year; [cmn_present] is 1
    exactly when the fact table has a row of the entity and year. *)
Theorem panel_t2_treatment (presupuesto : list BuildPanelBudgetMuni.presupuesto_row)
  (padron : list BuildPanelT1.padron_row) (facts : list BuildPanelCmn.fact_cmn_fase) :
  let panel := BuildPanelT2.run presupuesto padron facts in
  BuildPanelT2.t2_budget <$> panel = presupuesto
  /\ Forall
       (fun r =>
          let sec := BuildPanelBudgetMuni.sec_ejec (BuildPanelT2.t2_budget r) in
          let year := BuildPanelBudgetMuni.anio (BuildPanelT2.t2_budget r) in
          (BuildPanelT2.t_it_applicable r = 0 \/ BuildPanelT2.t_it_applicable r = 1)
          /\ (BuildPanelT2.t_it_applicable r = 1
              <-> exists k, sec = Some k /\ RosterFacts.has_status padron k [year] "SI")
          /\ (BuildPanelT2.t_it_applicable r = 0 ->
              BuildPanelT2.t_it r = None
              /\ Forall (fun v => v = None) (BuildPanelT2.cmn_values r))
          /\ (BuildPanelT2.t_it_applicable r = 1 ->
              (BuildPanelT2.t_it r = Some 0 \/ BuildPanelT2.t_it r = Some 1)
              /\ Forall is_Some (BuildPanelT2.cmn_values r))
          /\ length (BuildPanelT2.cmn_values r) = 15%nat
          /\ (BuildPanelT2.t_it r = Some 1
              <-> exists k, sec = Some k
                    /\ RosterFacts.has_status padron k [year] "SI"
                    /\ forall phase, phase ∈ [1; 2; 3] ->
                         exists f, f ∈ facts /\ BuildPanelCmn.fact_key f = (year, k)
                           /\ BuildPanelCmn.fase_codigo f = Some phase)
          /\ (BuildPanelT2.cmn_present r = 0 \/ BuildPanelT2.cmn_present r = 1)
          /\ (BuildPanelT2.cmn_present r = 1
              <-> exists k f, sec = Some k /\ f ∈ facts
                    /\ BuildPanelCmn.fact_key f = (year, k))
          /\ (BuildPanelT2.t2_siga_always_in r = Some 1 ->
              exists k, sec = Some k
                /\ forall y, y ∈ [2022; 2023; 2024; 2025] ->
                     RosterFacts.has_status padron k [y] "SI"))
       panel.
Proof.
  intros panel. unfold panel. rewrite PanelT2Facts.run_rows. split.
  { rewrite <- list_fmap_compose. apply list_fmap_id. }
  apply Forall_fmap, Forall_forall. intros b _.
  pose proof (PanelT2Facts.s_it_lookup padron b) as Hs.
  pose proof (PanelT2Facts.always_in_lookup padron b) as Ha.
  destruct (PanelT2Facts.cmn_lookup facts b) as (Hp & H01 & H1).
  match type of Hs with (?x = _ <-> _) => set (sy := x) in * end.
  match type of Ha with (?x = _ -> _) => set (sa := x) in * end.
  match type of Hp with (is_Some ?x <-> _) => set (found := x) in * end.
  cbn [BuildPanelT2.finish_t2 BuildPanelT2.t2_budget BuildPanelT2.t_it_applicable
       BuildPanelT2.t_it BuildPanelT2.cmn_values BuildPanelT2.cmn_present
       BuildPanelT2.t2_siga_always_in fst snd compose].
  set (v4 := default 0 (BuildPanelCmn.cumple_v4 <$> found)) in *.
  split; [apply CmnFacts.astype_int_01 |].
  split; [by rewrite CmnFacts.astype_int_1, bool_decide_eq_true |].
  split.
  { intros H0. case_bool_decide; [done |]. split; [done |].
    apply Forall_forall. intros v Hv. by apply list_elem_of_fmap in Hv as (w & -> & _). }
  split.
  { intros H0. case_bool_decide; [| done].
    split; [destruct H01 as [E | E]; [left | right]; f_equal; exact E |].
    apply Forall_forall. intros v Hv. by apply list_elem_of_fmap in Hv as (w & -> & _). }
  split; [by rewrite !length_fmap |].
  split.
  { case_bool_decide as Happ.
    - split.
      + intros [= Hv]. apply H1 in Hv as (k & Hk & Hph). apply Hs in Happ as (k' & Hk' & Hst).
        exists k. split; [done |]. split; [| done]. congruence.
      + intros (k & Hk & Hst & Hph). f_equal. apply H1. by exists k.
    - split; [done |]. intros (k & Hk & Hst & _). destruct Happ. apply Hs. by exists k. }
  split; [apply CmnFacts.astype_int_01 |].
  split.
  { rewrite CmnFacts.astype_int_1, bool_decide_eq_true, fmap_is_Some. exact Hp. }
  exact Ha.
Qed.

(** ** The year-pair table of the Oaxaca-Blinder script *)

Module MultiYearFacts.
Import PyStr Float Analisis OaxacaBlinder MultiYear.

Lemma mean_of_rows (l : list Q) : l <> [] -> exists q, Pandas.mean l = Some q.
Proof. destruct l; [done |]. intros _. by eexists. Qed.

Lemma length_eqb_nil {A} (l : list A) : (length l =? 0)%nat = false <-> l <> [].
Proof. destruct l; simpl; split; done. Qed.

Lemma length_omap_le {A B} (f : A -> option B) (l : list A) :
  (length (omap f l) <= length l)%nat.
Proof.
  induction l as [|x l IH]; [done |]. cbn [omap list_omap].
  destruct (f x); simpl; lia.
Qed.

Lemma elem_of_multi_year panel r :
  r ∈ multi_year_aggregate panel
  <-> exists base, base ∈ [2022; 2023; 2024] /\ year_pair panel base = Some r.
Proof. unfold multi_year_aggregate. apply list_elem_of_omap. Qed.

(** When the loop appends a row for a base year. *)
Lemma year_pair_Some panel base :
  base ∈ [2022; 2023; 2024] ->
  is_Some (year_pair panel base)
  <-> select base "ALWAYS_IN" panel <> [] /\ select (base + 1) "ALWAYS_IN" panel <> [].
Proof.
  intros Hb. unfold year_pair.
  assert (H25 : 2025 <? base + 1 = false).
  { apply Z.ltb_ge. repeat (apply elem_of_cons in Hb as [-> | Hb]; [lia |]).
    by apply elem_of_nil in Hb. }
  rewrite H25, <- !length_eqb_nil.
  destruct (length (select base "ALWAYS_IN" panel) =? 0)%nat,
    (length (select (base + 1) "ALWAYS_IN" panel) =? 0)%nat; simpl;
    split; (by intros [? ?]) || (by intros [? ?]) || by eauto.
Qed.

Lemma period_name_inj b1 b2 :
  b1 ∈ [2022; 2023; 2024] -> b2 ∈ [2022; 2023; 2024] ->
  period_name b1 (b1 + 1) = period_name b2 (b2 + 1) -> b1 = b2.
Proof.
  intros H1 H2.
  repeat (apply elem_of_cons in H1 as [-> | H1]);
    repeat (apply elem_of_cons in H2 as [-> | H2]);
    try (by apply elem_of_nil in H1); try (by apply elem_of_nil in H2);
    intros H; (done || by vm_compute in H).
Qed.

Lemma year_pair_period panel base r :
  year_pair panel base = Some r -> period r = period_name base (base + 1).
Proof.
  unfold year_pair. destruct (2025 <? base + 1); [done |].
  destruct (_ || _); [done |]. by intros [= <-].
Qed.

(** The numbers of a row the loop appends. *)
Lemma year_pair_row panel base r :
  year_pair panel base = Some r ->
  exists rb rt : Q,
    r_base r = Some rb /\ r_target_AI r = Some rt
    /\ (0 < n_AI r)%nat
    /\ n_AI r = length (select (base + 1) "ALWAYS_IN" panel)
    /\ n_ENTRY r = length (select (base + 1) "ENTRY" panel)
    /\ r_base r = Pandas.mean (cumple_v4 <$> select base "ALWAYS_IN" panel)
    /\ r_target_AI r = Pandas.mean (cumple_v4 <$> select (base + 1) "ALWAYS_IN" panel)
    /\ r_target_ENTRY r = Pandas.mean (cumple_v4 <$> select (base + 1) "ENTRY" panel)
    /\ exists b c t : Q,
         delta_behavior_pp r = Some b /\ delta_composition_pp r = Some c
         /\ delta_total_pp r = Some t
         /\ (t == b + c)%Q
         /\ (b == of_nat (n_AI r) / of_nat (n_AI r + n_ENTRY r) * (rt - rb) * 100)%Q
         /\ (c == match r_target_ENTRY r with
                  | Some re =>
                      of_nat (n_ENTRY r) / of_nat (n_AI r + n_ENTRY r) * (re - rb) * 100
                  | None => 0
                  end)%Q.
Proof.
  unfold year_pair. destruct (2025 <? base + 1); [done |].
  destruct (length (select base "ALWAYS_IN" panel) =? 0)%nat eqn:Hb; [done |].
  destruct (length (select (base + 1) "ALWAYS_IN" panel) =? 0)%nat eqn:Ht; [done |].
  apply length_eqb_nil in Hb, Ht. cbn [orb].
  destruct (mean_of_rows (cumple_v4 <$> select base "ALWAYS_IN" panel)) as [rb Hrb].
  { intros E. by apply fmap_nil_inv in E. }
  destruct (mean_of_rows (cumple_v4 <$> select (base + 1) "ALWAYS_IN" panel)) as [rt Hrt].
  { intros E. by apply fmap_nil_inv in E. }
  intros [= <-]. exists rb, rt. simpl. rewrite Hrb, Hrt.
  destruct (select (base + 1) "ALWAYS_IN" panel) as [|a0 at'] eqn:Hat; [done |].
  destruct (select (base + 1) "ENTRY" panel) as [|e0 et'] eqn:Het.
  - simpl. rewrite Nat.add_0_r.
    do 8 (split; [done || lia |]).
    eexists _, _, _. do 3 (split; [done |]). split; [ring |]. split; ring.
  - cbn [length Nat.ltb Nat.leb Nat.add]. simpl.
    do 8 (split; [done || lia |]).
    eexists _, _, _. do 3 (split; [done |]). split; [ring |]. split; ring.
Qed.

End MultiYearFacts.

(** X19. [multi_year_aggregate] has a row for a pair of years exactly when
    the ALWAYS_IN group has rows in both years, three rows at most. A row
    never holds NaN in its three changes, and the rate of the entrants is
    NaN exactly when there is none: without entrants in the target year the
    composition change is 0 and the total is the behaviour change. (Floats
    are exact rationals here; that the total and the sum of the two changes
    agree is not stated, since the three are rounded apart.) *)
Theorem multi_year_rows (panel : list OaxacaBlinder.panel_row) :
  let rows := MultiYear.multi_year_aggregate panel in
  (length rows <= 3)%nat
  /\ (forall base, base ∈ [2022; 2023; 2024] ->
        (exists r, r ∈ rows /\ MultiYear.period r = MultiYear.period_name base (base + 1))
        <-> OaxacaBlinder.select base "ALWAYS_IN" panel <> []
            /\ OaxacaBlinder.select (base + 1) "ALWAYS_IN" panel <> [])
  /\ Forall
       (fun r =>
          (0 < MultiYear.n_AI r)%nat
          /\ is_Some (MultiYear.r_base r) /\ is_Some (MultiYear.r_target_AI r)
          /\ (MultiYear.r_target_ENTRY r = Float.nan <-> MultiYear.n_ENTRY r = 0%nat)
          /\ (exists b c t,
                MultiYear.delta_behavior_pp r = Some b
                /\ MultiYear.delta_composition_pp r = Some c
                /\ MultiYear.delta_total_pp r = Some t
                /\ (MultiYear.n_ENTRY r = 0%nat -> (c == 0)%Q /\ (t == b)%Q)))
       rows.
Proof.
  intros rows. split; [| split].
  - unfold rows, MultiYear.multi_year_aggregate.
    etransitivity; [apply MultiYearFacts.length_omap_le |]. done.
  - intros base Hb. rewrite <- (MultiYearFacts.year_pair_Some panel base Hb). split.
    + intros (r & Hr & Hp). apply MultiYearFacts.elem_of_multi_year in Hr as (b' & Hb' & Hy).
      pose proof (MultiYearFacts.year_pair_period _ _ _ Hy) as Hp'. rewrite Hp in Hp'.
      apply (MultiYearFacts.period_name_inj _ _ Hb Hb') in Hp'. subst b'. by eexists.
    + intros [r Hr]. exists r. split.
      * apply MultiYearFacts.elem_of_multi_year. by exists base.
      * by apply MultiYearFacts.year_pair_period in Hr.
  - apply Forall_forall. intros r Hr.
    apply MultiYearFacts.elem_of_multi_year in Hr as (base & _ & Hy).
    destruct (MultiYearFacts.year_pair_row _ _ _ Hy)
      as (rb & rt & Hrb & Hrt & Hn & HnA & HnE & _ & _ & Hre
          & b & c & t & Hbeh & Hcomp & Htot & Hsum & _ & Hc).
    split; [done |]. split; [by rewrite Hrb |]. split; [by rewrite Hrt |].
    assert (Hnan : MultiYear.r_target_ENTRY r = Float.nan <-> MultiYear.n_ENTRY r = 0%nat).
    { rewrite Hre, HnE. destruct (OaxacaBlinder.select (base + 1) "ENTRY" panel); simpl; done. }
    split; [done |].
    exists b, c, t. do 3 (split; [done |]).
    intros H0. apply Hnan in H0. rewrite H0 in Hc. cbn in Hc. split; [done |].
    rewrite Hsum, Hc. ring.
Qed.

(** X20. When the ALWAYS_IN group has rows in 2024 and in 2025, the
    2024->2025 row of [multi_year_aggregate] and the result of
    [aggregate_decomposition] hold the same rates, counts and behaviour
    change. With entrants in 2025 they hold the same composition change and
    the same total; without entrants [aggregate_decomposition] gives NaN for
    both, where the year-pair row has 0 and the behaviour change. *)
Theorem multi_year_vs_aggregate (panel : list OaxacaBlinder.panel_row) :
  OaxacaBlinder.select 2024 "ALWAYS_IN" panel <> [] ->
  OaxacaBlinder.select 2025 "ALWAYS_IN" panel <> [] ->
  exists a r,
    OaxacaBlinder.aggregate_decomposition panel = inl a
    /\ r ∈ MultiYear.multi_year_aggregate panel
    /\ MultiYear.period r = MultiYear.period_name 2024 2025
    /\ MultiYear.r_base r = OaxacaBlinder.r_A_24 a
    /\ MultiYear.r_target_AI r = OaxacaBlinder.r_A_25 a
    /\ MultiYear.r_target_ENTRY r = OaxacaBlinder.r_E_25 a
    /\ MultiYear.n_AI r = OaxacaBlinder.n_A_25 a
    /\ MultiYear.n_ENTRY r = OaxacaBlinder.n_E_25 a
    /\ MultiYear.delta_behavior_pp r = OaxacaBlinder.delta_behavior_pp a
    /\ (OaxacaBlinder.select 2025 "ENTRY" panel <> [] ->
        MultiYear.delta_composition_pp r = OaxacaBlinder.delta_composition_pp a
        /\ Float.feq (MultiYear.delta_total_pp r) (OaxacaBlinder.delta_total_pp a))
    /\ (OaxacaBlinder.select 2025 "ENTRY" panel = [] ->
        OaxacaBlinder.delta_composition_pp a = Float.nan
        /\ OaxacaBlinder.delta_total_pp a = Float.nan
        /\ Float.feq (MultiYear.delta_composition_pp r) (Some 0%Q)
        /\ Float.feq (MultiYear.delta_total_pp r) (MultiYear.delta_behavior_pp r)).
Proof.
  intros H24 H25.
  assert (Hy : exists r, MultiYear.year_pair panel 2024 = Some r).
  { apply (MultiYearFacts.year_pair_Some panel 2024); [repeat ((by left) || right) | done]. }
  destruct Hy as [r Hy].
  assert (Hr : r ∈ MultiYear.multi_year_aggregate panel).
  { apply MultiYearFacts.elem_of_multi_year. exists 2024.
    split; [repeat ((by left) || right) | done]. }
  pose proof (MultiYearFacts.year_pair_period _ _ _ Hy) as Hp.
  revert Hy. unfold MultiYear.year_pair, OaxacaBlinder.aggregate_decomposition.
  change (2024 + 1) with 2025. change (2025 <? 2025) with false. cbv iota.
  set (a24 := OaxacaBlinder.select 2024 "ALWAYS_IN" panel) in *.
  set (a25 := OaxacaBlinder.select 2025 "ALWAYS_IN" panel) in *.
  set (e25 := OaxacaBlinder.select 2025 "ENTRY" panel) in *.
  destruct a24 as [|x24 a24']; [done |]. destruct a25 as [|x25 a25']; [done |].
  cbn [length Nat.eqb orb Nat.add].
  destruct e25 as [|xe e25'].
  - cbn [length Nat.ltb Nat.leb Nat.add Nat.eqb]. rewrite !Nat.add_0_r.
    intros [= <-]. eexists _, _. split; [reflexivity |].
    split; [exact Hr |]. split; [exact Hp |]. cbn.
    do 6 (split; [reflexivity |]). split; [done |]. intros _.
    split; [done |]. split; [done |]. split; [ring | ring].
  - cbn [length Nat.ltb Nat.leb Nat.add Nat.eqb].
    intros [= <-]. eexists _, _. split; [reflexivity |].
    split; [exact Hr |]. split; [exact Hp |]. cbn.
    do 6 (split; [reflexivity |]). split; [| done]. intros _.
    split; [reflexivity |].
    rewrite <- (OaxacaFacts.kitagawa (S (length a25')) (S (length e25'))) by done.
    reflexivity.
Qed.

Lemma multi_year_vs_aggregate_witness :
  exists a r,
    OaxacaBlinder.aggregate_decomposition OaxacaBlinder.sample_panel = inl a
    /\ r ∈ MultiYear.multi_year_aggregate OaxacaBlinder.sample_panel
    /\ Float.feq (MultiYear.delta_total_pp r) (OaxacaBlinder.delta_total_pp a).
Proof.
  destruct (multi_year_vs_aggregate OaxacaBlinder.sample_panel)
    as (a & r & Ha & Hr & _ & _ & _ & _ & _ & _ & _ & HE & _); [by vm_compute .. |].
  exists a, r. split; [exact Ha |]. split; [exact Hr |].
  apply HE. by vm_compute.
Defined.

(** ** The entity code of a scraped row (scraper.py) *)

Module ScraperRowsFacts.
Import PyStr ScraperRows.

Section Regex.
Variable is_word : N -> bool.

Lemma match_len_spec text k :
  match_len is_word text k = true ->
  length (take k text) = k
  /\ Forall (fun c => is_unicode_digit c = true) (take k text)
  /\ boundary is_word (last (take k text)) (head (drop k text)) = true.
Proof.
  unfold match_len. rewrite !andb_true_iff, Nat.eqb_eq, forallb_forall.
  intros [[Hl Hd] Hb]. split; [done |]. split; [| done].
  apply Forall_forall. intros c Hc. by apply Hd, list_elem_of_In.
Qed.

Lemma match_at_spec before text tok :
  match_at is_word before text = Some tok ->
  exists q, text = tok ++ q
    /\ (3 <= length tok <= 6)%nat
    /\ Forall (fun c => is_unicode_digit c = true) tok
    /\ boundary is_word before (head tok) = true
    /\ boundary is_word (last tok) (head q) = true.
Proof.
  unfold match_at. destruct (boundary is_word before (head text)) eqn:Hb; [| done].
  destruct (List.find _ _) as [k|] eqn:Hk; [| done]. intros [= <-].
  apply find_some in Hk as [Hin Hm]. apply match_len_spec in Hm as (Hl & Hd & He).
  exists (drop k text). split; [by rewrite take_drop |]. split.
  { rewrite Hl. simpl in Hin. lia. }
  split; [done |]. split; [| done].
  assert (Hk3 : (0 < k)%nat) by (simpl in Hin; lia).
  destruct text as [|c text]; [simpl in Hl; rewrite take_nil in Hl; simpl in Hl; lia |].
  destruct k; [lia |]. done.
Qed.

Lemma findall_from_spec text pre skip tok :
  tok ∈ findall_from is_word (last pre) skip text ->
  exists p q, pre ++ text = p ++ tok ++ q
    /\ (3 <= length tok <= 6)%nat
    /\ Forall (fun c => is_unicode_digit c = true) tok
    /\ boundary is_word (last p) (head tok) = true
    /\ boundary is_word (last tok) (head q) = true.
Proof.
  revert pre skip. induction text as [|c rest IH]; intros pre skip; [by intros ?%elem_of_nil |].
  assert (Hstep : forall n, tok ∈ findall_from is_word (Some c) n rest ->
            exists p q, pre ++ c :: rest = p ++ tok ++ q
              /\ (3 <= length tok <= 6)%nat
              /\ Forall (fun c => is_unicode_digit c = true) tok
              /\ boundary is_word (last p) (head tok) = true
              /\ boundary is_word (last tok) (head q) = true).
  { intros n Hn. rewrite <- (last_snoc c pre) in Hn. apply IH in Hn.
    by rewrite <- app_assoc in Hn. }
  cbn [findall_from]. destruct skip as [|n]; [| apply Hstep].
  destruct (match_at is_word (last pre) (c :: rest)) as [tok'|] eqn:Hm; [| apply Hstep].
  intros [-> | Hin]%elem_of_cons; [| by apply (Hstep _ Hin)].
  apply match_at_spec in Hm as (q & Ht & Hl & Hd & Hb & He).
  exists pre, q. by rewrite Ht.
Qed.

Lemma findall_spec text tok :
  tok ∈ findall is_word text ->
  exists p q, text = p ++ tok ++ q
    /\ (3 <= length tok <= 6)%nat
    /\ Forall (fun c => is_unicode_digit c = true) tok
    /\ boundary is_word (last p) (head tok) = true
    /\ boundary is_word (last tok) (head q) = true.
Proof. intros H. by apply (findall_from_spec text [] 0). Qed.

Lemma findall_nonempty text tok : tok ∈ findall is_word text -> tok <> [].
Proof.
  intros H. apply findall_spec in H as (_ & _ & _ & Hl & _). intros ->. simpl in Hl. lia.
Qed.

Lemma max_by_len_from (best : str) (ts : list str) :
  let m := foldl (fun best tok : str => if (length best <? length tok)%nat then tok else best)
             best ts in
  m ∈ best :: ts /\ forall t, t ∈ best :: ts -> (length t <= length m)%nat.
Proof.
  revert best. induction ts as [|t ts IH]; intros best; cbn [foldl].
  - split; [by left |]. intros t Ht. apply list_elem_of_singleton in Ht. by subst.
  - destruct (IH (if (length best <? length t)%nat then t else best)) as [Hin Hmax].
    split.
    + apply elem_of_cons in Hin as [-> | Hin]; [| by do 2 right].
      destruct (length best <? length t)%nat; [right; by left | by left].
    + intros u Hu. destruct (Nat.ltb_spec (length best) (length t)) as [Hlt | Hge].
      * apply elem_of_cons in Hu as [-> | Hu]; [| by apply Hmax].
        etransitivity; [| apply Hmax; by left]. lia.
      * apply elem_of_cons in Hu as [-> | Hu]; [apply Hmax; by left |].
        apply elem_of_cons in Hu as [-> | Hu]; [| apply Hmax; by right].
        etransitivity; [exact Hge |]. apply Hmax. by left.
Qed.

Lemma max_by_len_spec tokens :
  tokens <> [] ->
  max_by_len tokens ∈ tokens
  /\ forall t, t ∈ tokens -> (length t <= length (max_by_len tokens))%nat.
Proof. destruct tokens as [|t ts]; [done |]. intros _. apply max_by_len_from. Qed.

(** The value returned is the first token of the set, or, when no token is
    in the set, the first of the longest tokens. *)
Lemma extract_from_text_spec text padron_set :
  extract_sec_ejec_from_text is_word text padron_set
  = match List.find (in_set padron_set) (findall is_word text) with
    | Some tok => tok
    | None => max_by_len (findall is_word text)
    end.
Proof.
  unfold extract_sec_ejec_from_text. case_bool_decide as Ht; [by subst |].
  set (tokens := findall is_word text).
  assert (Hfalsy : truthy_set padron_set = false ->
            List.find (in_set padron_set) tokens = None).
  { intros Hf. induction tokens as [|t ts IH]; [done |]. cbn [List.find].
    destruct padron_set as [s|]; [| exact IH]. cbn [in_set] in *.
    cbn [truthy_set] in Hf. apply negb_false_iff, bool_decide_eq_true_1 in Hf. subst s.
    by rewrite bool_decide_eq_false_2 by set_solver. }
  destruct (truthy_set padron_set).
  - destruct (List.find _ _); [done |]. by destruct tokens.
  - rewrite Hfalsy by done. by destruct tokens.
Qed.

Lemma find_in_set_Some (s : gset str) tokens tok :
  List.find (fun t => bool_decide (t ∈ s)) tokens = Some tok -> tok ∈ tokens /\ tok ∈ s.
Proof.
  intros H. apply find_some in H as [Hin Hs]. apply bool_decide_eq_true_1 in Hs.
  split; [by apply list_elem_of_In | done].
Qed.

Lemma find_in_set_None (s : gset str) tokens :
  List.find (fun t => bool_decide (t ∈ s)) tokens = None -> forall t, t ∈ tokens -> t ∉ s.
Proof.
  intros H t Ht. apply list_elem_of_In in Ht.
  pose proof (find_none _ _ H t Ht) as Hn. by apply bool_decide_eq_false_1 in Hn.
Qed.

End Regex.

End ScraperRowsFacts.

(** X21. The tokens [extract_sec_ejec_from_text] finds in a text are runs
    of three to six decimal digits that stand between characters that are
    not word characters (or an end of the text), so no part of a longer run
    of digits is taken. The function returns the empty string when there is
    no token and a token otherwise: a token of the roster set when one is in
    it, and else a token no other is longer than. *)
Theorem extract_sec_ejec_tokens (is_word : N -> bool) (text : PyStr.str)
  (padron_set : option (gset PyStr.str)) :
  (forall c, PyStr.is_unicode_digit c = true -> is_word c = true) ->
  let tokens := ScraperRows.findall is_word text in
  let sec := ScraperRows.extract_sec_ejec_from_text is_word text padron_set in
  Forall
    (fun tok =>
       (3 <= length tok <= 6)%nat
       /\ Forall (fun c => PyStr.is_unicode_digit c = true) tok
       /\ exists p q, text = p ++ tok ++ q
            /\ ScraperRows.word_at is_word (last p) = false
            /\ ScraperRows.word_at is_word (head q) = false)
    tokens
  /\ (tokens = [] -> sec = [])
  /\ (tokens <> [] -> sec ∈ tokens)
  /\ (forall s tok, padron_set = Some s -> tok ∈ tokens -> tok ∈ s -> sec ∈ s)
  /\ ((forall s tok, padron_set = Some s -> tok ∈ tokens -> tok ∉ s) ->
      forall tok, tok ∈ tokens -> (length tok <= length sec)%nat).
Proof.
  intros Hw tokens sec. split.
  { apply Forall_forall. intros tok Htok.
    apply ScraperRowsFacts.findall_spec in Htok as (p & q & Ht & Hl & Hd & Hb & He).
    split; [done |]. split; [done |]. exists p, q. split; [done |].
    destruct tok as [|c0 tok'] eqn:E; [simpl in Hl; lia |]. rewrite <- E in *.
    assert (Hh : ScraperRows.word_at is_word (head tok) = true).
    { rewrite E. simpl. apply Hw. rewrite E in Hd. by apply Forall_cons_1 in Hd as [? _]. }
    assert (Hlast : ScraperRows.word_at is_word (last tok) = true).
    { destruct (last tok) as [c|] eqn:El.
      - simpl. apply Hw. apply last_Some_elem_of in El.
        by apply (proj1 (Forall_forall _ _) Hd).
      - apply last_None in El. congruence. }
    unfold ScraperRows.boundary in Hb, He. rewrite Hh in Hb. rewrite Hlast in He.
    split.
    - by destruct (ScraperRows.word_at is_word (last p)).
    - by destruct (ScraperRows.word_at is_word (head q)). }
  unfold sec. rewrite ScraperRowsFacts.extract_from_text_spec. fold tokens.
  split; [by intros -> |]. split.
  { intros Hne. destruct (List.find _ _) as [tok|] eqn:Hf.
    - apply find_some in Hf as [Hin _]. by apply list_elem_of_In.
    - by apply ScraperRowsFacts.max_by_len_spec. }
  split.
  { intros s tok -> Htok Hs. cbn [ScraperRows.in_set].
    destruct (List.find _ _) as [tok'|] eqn:Hf.
    - by apply ScraperRowsFacts.find_in_set_Some in Hf as [_ ?].
    - by destruct (ScraperRowsFacts.find_in_set_None _ _ Hf tok Htok). }
  intros Hnone tok Htok.
  destruct (List.find _ _) as [tok'|] eqn:Hf.
  - destruct padron_set as [s|]; cbn [ScraperRows.in_set] in Hf.
    + apply ScraperRowsFacts.find_in_set_Some in Hf as [Hin Hs].
      by destruct (Hnone s tok' eq_refl Hin).
    + by apply find_some in Hf as [_ ?].
  - apply ScraperRowsFacts.max_by_len_spec; [| done]. intros E. rewrite E in Htok.
    by apply elem_of_nil in Htok.
Qed.

Lemma extract_sec_ejec_tokens_witness :
  ScraperRows.extract_sec_ejec_from_text ScraperRows.ascii_word
    (PyStr.py "300686-MUNICIPALIDAD 1234") (Some {[ PyStr.py "1234" ]})
  ∈ ({[ PyStr.py "1234" ]} : gset PyStr.str).
Proof.
  destruct (extract_sec_ejec_tokens ScraperRows.ascii_word
              (PyStr.py "300686-MUNICIPALIDAD 1234") (Some {[ PyStr.py "1234" ]}))
    as (_ & _ & _ & H & _).
  { intros c Hc. unfold ScraperRows.ascii_word. by rewrite Hc. }
  apply (H _ (PyStr.py "1234") eq_refl).
  - apply list_elem_of_In. vm_compute. right. by left.
  - by apply elem_of_singleton.
Defined.

Module RunScrapeFacts.
Import PyStr ScraperRows.

Section Rows.
Variable is_word : N -> bool.
Variable upper : str -> str.

Lemma find_header_from_bound (patterns : list str) (idx : nat) (headers : list str)
  (i : nat) :
  find_header_from upper patterns idx headers = Some i ->
  (idx <= i < idx + length headers)%nat
  /\ exists header, headers !! (i - idx)%nat = Some header
       /\ existsb (fun pat => contains pat (upper (strip header))) patterns = true.
Proof.
  revert idx. induction headers as [|h rest IH]; intros idx; [done |].
  cbn [find_header_from]. destruct (existsb _ patterns) eqn:He.
  - intros [= <-]. split; [simpl; lia |]. exists h. by rewrite Nat.sub_diag.
  - intros Hi. apply IH in Hi as [Hb (header & Hh & Hp)]. split; [simpl; lia |].
    exists header. split; [| done].
    replace (i - idx)%nat with (S (i - S idx)) by lia. done.
Qed.

(** What the loop of [run_scrape] does with one row whose cells are texts. *)
Lemma filtered_row (route_name : str) (table_headers : list str) (s : gset str)
  (row : list cell) :
  Forall is_text row ->
  let idx :=
    if bool_decide (route_name = py "MUNICIPALIDADES")
    then _find_header_index upper table_headers [py "MUNICIPALIDAD"]
    else _find_header_index upper table_headers [py "UNIDAD EJECUTORA"] in
  exists sec,
    extract_sec_ejec is_word upper route_name table_headers row (Some s) = inl sec
    /\ (if negb (bool_decide (sec = [])) && bool_decide (sec ∈ s) then Some sec else None)
       = List.find (fun tok => bool_decide (tok ∈ s))
           (match idx ≫= (fun i => row !! i) with
            | Some (CStr text) => findall is_word text
            | _ => []
            end).
Proof.
  intros Hrow idx. unfold extract_sec_ejec. fold idx.
  destruct idx as [i|]; [| by exists []]. cbn [mbind option_bind].
  destruct (row !! i) as [c|] eqn:Hc; [| by exists []].
  assert (Ht : is_text c).
  { apply (proj1 (Forall_forall _ _) Hrow). by apply list_elem_of_lookup_2 in Hc. }
  destruct Ht as [text ->]. eexists. split; [reflexivity |].
  rewrite ScraperRowsFacts.extract_from_text_spec. cbn [in_set].
  destruct (List.find _ _) as [tok|] eqn:Hf.
  - apply ScraperRowsFacts.find_in_set_Some in Hf as [Hin Hs].
    apply ScraperRowsFacts.findall_nonempty in Hin.
    by rewrite bool_decide_eq_false_2, bool_decide_eq_true_2.
  - destruct (findall is_word text) as [|t ts] eqn:Ht.
    + by rewrite bool_decide_eq_true_2.
    + rewrite <- Ht in *.
      destruct (ScraperRowsFacts.max_by_len_spec (findall is_word text)) as [Hin _];
        [by rewrite Ht |].
      apply (ScraperRowsFacts.find_in_set_None _ _ Hf) in Hin.
      rewrite (bool_decide_eq_false_2 _ Hin). by rewrite andb_false_r.
Qed.

Lemma filtered_rows (route_name : str) (table_headers : list str) (n_base : nat)
  (s : gset str) (rows : list (list cell)) :
  Forall (fun row => Forall is_text (drop n_base row)) rows ->
  let idx :=
    if bool_decide (route_name = py "MUNICIPALIDADES")
    then _find_header_index upper table_headers [py "MUNICIPALIDAD"]
    else _find_header_index upper table_headers [py "UNIDAD EJECUTORA"] in
  filtered is_word upper route_name table_headers n_base s rows
  = inl (omap
           (fun row =>
              (fun tok => row ++ [CStr tok])
                <$> List.find (fun tok => bool_decide (tok ∈ s))
                      (match idx ≫= (fun i => drop n_base row !! i) with
                       | Some (CStr text) => findall is_word text
                       | _ => []
                       end))
           rows).
Proof.
  intros Hrows idx. induction Hrows as [|row rest Hrow _ IH]; [done |].
  cbn [filtered omap list_omap].
  destruct (filtered_row route_name table_headers s (drop n_base row) Hrow)
    as (sec & -> & Hsec).
  rewrite IH. fold idx in Hsec. rewrite <- Hsec. by destruct (_ && _).
Qed.

Lemma scraped_row_texts (n_base : nat) (r : Z * list str) :
  (0 < n_base)%nat -> Forall is_text (drop n_base (scraped_row r)).
Proof.
  intros Hn. destruct n_base as [|n]; [lia |]. unfold scraped_row. cbn [drop].
  apply Forall_drop, Forall_fmap, Forall_forall. intros text _. by exists text.
Qed.

Lemma ENCABEZADOS_BASE_length (route_name : str) (base_headers : list str) :
  ENCABEZADOS_BASE route_name = Some base_headers -> (0 < length base_headers)%nat.
Proof.
  unfold ENCABEZADOS_BASE. repeat case_bool_decide; intros [= <-]; simpl; lia.
Qed.

End Rows.

Lemma omap_ext_all {A B} (f g : A -> option B) (l : list A) :
  (forall x, f x = g x) -> omap f l = omap g l.
Proof.
  intros H. induction l as [|x l IH]; [done |]. cbn [omap list_omap]. by rewrite H, IH.
Qed.

Lemma sec_set_codes (padron_index : option PadronIndex.index) (category : option str)
  (year : Z) :
  let s := match padron_index, category with
           | Some idx, Some cat =>
               if bool_decide (cat = []) then ∅ else PadronIndex.codes idx year cat
           | _, _ => ∅
           end in
  truthy_set (sec_set_of padron_index category year) = negb (bool_decide (s = ∅))
  /\ (s <> ∅ -> sec_set_of padron_index category year = Some s).
Proof.
  assert (Hempty : truthy_set None = negb (bool_decide ((∅ : gset str) = ∅))
                   /\ ((∅ : gset str) <> ∅ -> None = Some (∅ : gset str))).
  { split; [by rewrite bool_decide_eq_true_2 | done]. }
  unfold sec_set_of, PadronIndex.codes.
  destruct padron_index as [idx|]; [| exact Hempty].
  destruct category as [cat|]; [| exact Hempty].
  destruct (decide (cat = [])) as [Hcat | Hcat].
  { rewrite !(bool_decide_eq_true_2 _ Hcat), andb_false_r. exact Hempty. }
  rewrite !(bool_decide_eq_false_2 _ Hcat). cbn [negb]. rewrite andb_true_r.
  destruct (decide (idx = ∅)) as [-> | Hidx].
  { rewrite (bool_decide_eq_true_2 _ eq_refl), lookup_empty. cbn [negb default].
    rewrite lookup_empty. exact Hempty. }
  rewrite (bool_decide_eq_false_2 _ Hidx). cbn [negb].
  destruct (idx !! year) as [ym|]; cbn [mbind option_bind default];
    [| rewrite lookup_empty; exact Hempty].
  unfold id. destruct (ym !! cat) as [s|]; cbn [default]; [| exact Hempty].
  split; [done |]. done.
Qed.

End RunScrapeFacts.

(** X22. What [run_scrape] saves for a year, from the rows
    [extract_data_by_year] returned (the year and the texts of the cells).
    For a route without base headers it raises KeyError. Without a roster
    set for the year and category (no index, no category, or an empty or
    missing set) the rows are saved as scraped. With one, a column
    SEC_EJEC_EXTRACTED is added and a row is kept exactly when the cell
    under the entity header holds a token of the roster set; the value added
    is the first such token. A row too short to have that cell is dropped,
    and no TypeError arises from the year in front. *)
Theorem run_scrape_roster_filter (is_word : N -> bool) (upper : PyStr.str -> PyStr.str)
  (route_name : PyStr.str) (year : Z) (padron_index : option PadronIndex.index)
  (category : option PyStr.str) (table_headers : list PyStr.str)
  (data : list (Z * list PyStr.str)) :
  let rows := ScraperRows.scraped_row <$> data in
  let idx :=
    if bool_decide (route_name = PyStr.py "MUNICIPALIDADES")
    then ScraperRows._find_header_index upper table_headers [PyStr.py "MUNICIPALIDAD"]
    else ScraperRows._find_header_index upper table_headers [PyStr.py "UNIDAD EJECUTORA"] in
  let s : gset PyStr.str :=
    match padron_index, category with
    | Some index, Some cat =>
        if bool_decide (cat = []) then ∅ else PadronIndex.codes index year cat
    | _, _ => ∅
    end in
  (forall i, idx = Some i -> (i < length table_headers)%nat)
  /\ match ScraperRows.ENCABEZADOS_BASE route_name with
     | None =>
         ScraperRows.rows_to_save is_word upper route_name year padron_index category
           table_headers rows = inr ScraperRows.KeyError
     | Some base_headers =>
         let tokens := fun row : list ScraperRows.cell =>
           match idx ≫= (fun i => drop (length base_headers) row !! i) with
           | Some (ScraperRows.CStr text) => ScraperRows.findall is_word text
           | _ => []
           end in
         let kept :=
           omap (fun row =>
                   (fun tok => row ++ [ScraperRows.CStr tok])
                     <$> List.find (fun tok => bool_decide (tok ∈ s)) (tokens row))
             rows in
         ScraperRows.rows_to_save is_word upper route_name year padron_index category
           table_headers rows
         = inl (if bool_decide (s = ∅)
                then (base_headers ++ table_headers, rows)
                else ((base_headers ++ table_headers) ++ [PyStr.py "SEC_EJEC_EXTRACTED"],
                      kept))
         /\ Forall
              (fun out => exists row tok,
                 row ∈ rows /\ out = row ++ [ScraperRows.CStr tok] /\ tok ∈ s
                 /\ (3 <= length tok <= 6)%nat
                 /\ Forall (fun c => PyStr.is_unicode_digit c = true) tok)
              kept
     end.
Proof.
  intros rows idx s. split.
  { intros i Hi. unfold idx, ScraperRows._find_header_index in Hi.
    case_bool_decide; apply RunScrapeFacts.find_header_from_bound in Hi as [Hi _]; lia. }
  destruct (ScraperRows.ENCABEZADOS_BASE route_name) as [base_headers|] eqn:Hbase;
    [| unfold ScraperRows.rows_to_save; by rewrite Hbase].
  intros tokens kept. unfold ScraperRows.rows_to_save. rewrite Hbase.
  destruct (RunScrapeFacts.sec_set_codes padron_index category year) as [Htruthy Hset].
  fold s in Htruthy, Hset. split.
  - case_bool_decide as Hs.
    + destruct (ScraperRows.sec_set_of padron_index category year) as [s'|]; [| done].
      cbn [ScraperRows.truthy_set negb] in Htruthy.
      apply negb_false_iff in Htruthy. by rewrite Htruthy.
    + rewrite (Hset Hs). rewrite (bool_decide_eq_false_2 _ Hs).
      rewrite (RunScrapeFacts.filtered_rows is_word upper); [done |].
      apply Forall_fmap, Forall_forall. intros r _.
      apply RunScrapeFacts.scraped_row_texts.
      by apply RunScrapeFacts.ENCABEZADOS_BASE_length in Hbase.
  - apply Forall_forall. intros out Hout. unfold kept in Hout.
    apply list_elem_of_omap in Hout as (row & Hrow & Hf).
    destruct (List.find _ _) as [tok|] eqn:Hfind; [| done]. injection Hf as <-.
    apply ScraperRowsFacts.find_in_set_Some in Hfind as [Hin Hs].
    exists row, tok. split; [done |]. split; [done |]. split; [done |].
    unfold tokens in Hin.
    destruct (idx ≫= _) as [[n|text]|]; try by apply elem_of_nil in Hin.
    apply ScraperRowsFacts.findall_spec in Hin as (_ & _ & _ & Hl & Hd & _). done.
Qed.

(** ** Checkpoints and resuming (scraper.py) *)

Module ResumeFacts.
Import PyStr ScraperRows RunScrape.

Lemma save_keeps route_name year headers rows y fs :
  is_completed route_name y fs ->
  is_completed route_name y
    (save_checkpoint route_name year headers rows true
       (save_csv route_name year headers rows fs)).
Proof.
  intros (ck & Hck & Hc). unfold is_completed, load_checkpoint in *. simpl.
  destruct (decide (checkpoint_name route_name year = checkpoint_name route_name y)) as [E | E].
  - rewrite E, lookup_insert_eq. by eexists.
  - rewrite lookup_insert_ne by done. by exists ck.
Qed.

Lemma save_marks route_name year headers rows fs :
  is_completed route_name year
    (save_checkpoint route_name year headers rows true
       (save_csv route_name year headers rows fs)).
Proof.
  unfold is_completed, load_checkpoint. simpl. rewrite lookup_insert_eq. by eexists.
Qed.

Lemma completed_true route_name year fs :
  from_option completed false (load_checkpoint route_name year fs) = true
  <-> is_completed route_name year fs.
Proof.
  unfold is_completed. destruct (load_checkpoint route_name year fs) as [ck|]; simpl.
  - split; [intros H; by exists ck | by intros (? & [= <-] & ?)].
  - split; [done | by intros (? & ? & ?)].
Qed.

Section Loop.
Context {W : Type}.
Variable is_word : N -> bool.
Variable upper : str -> str.
Variable extract_data_by_year :
  Z -> str -> W -> (list str * list (Z * list str) + Scraper.exn) * W.


Lemma run_years_inv route_name padron_index category resume years w fs :
  let r := run_years is_word upper extract_data_by_year route_name padron_index category resume years w fs in
  sublist (scraped r) years
  /\ (forall y, is_completed route_name y fs -> is_completed route_name y (disk r))
  /\ (forall name, is_Some (csvs fs !! name) -> is_Some (csvs (disk r) !! name))
  /\ (resume = true ->
      NoDup (scraped r) /\ forall y, y ∈ scraped r -> ~ is_completed route_name y fs)
  /\ (raised r = None ->
      (forall y, y ∈ years -> is_completed route_name y (disk r))
      /\ (forall y, y ∈ scraped r -> is_Some (csvs (disk r) !! csv_name route_name y))
      /\ (resume = false -> scraped r = years)).
Proof.
  revert w fs. induction years as [|year rest IH]; intros w fs.
  { simpl. split; [done |]. split; [done |]. split; [done |].
    split; [intros _; split; [constructor |] |].
    - by intros y ?%elem_of_nil.
    - intros _. split; [by intros y ?%elem_of_nil |].
      split; [by intros y ?%elem_of_nil | done]. }
  cbn [run_years].
  destruct (from_option completed false
              (if resume then load_checkpoint route_name year fs else None)) eqn:Hck.
  { destruct resume; [| done]. apply completed_true in Hck.
    destruct (IH w fs) as (Hsub & Hmono & Hcsvs & Hres & Hnone). cbv zeta.
    split; [by apply sublist_cons |]. split; [done |]. split; [done |]. split; [done |].
    intros Hr. destruct (Hnone Hr) as (Hall & Hcsv & Hfalse).
    split; [| split; [done | done]].
    intros y [-> | Hy]%elem_of_cons; [by apply Hmono | by apply Hall]. }
  destruct (extract_data_by_year year route_name w) as [[[table_headers data] | e] w'].
  2: { simpl. split; [apply sublist_skip, sublist_nil_l |].
       split; [done |]. split; [done |]. split; [| done]. intros ->. split; [apply NoDup_singleton |].
       intros y ->%list_elem_of_singleton Hy. apply completed_true in Hy. simpl in Hck. congruence. }
  destruct (rows_to_save _ _ _ _ _ _ _ _) as [[full_headers rows] | e].
  2: { simpl. split; [apply sublist_skip, sublist_nil_l |].
       split; [done |]. split; [done |]. split; [| done].
       intros ->. split; [apply NoDup_singleton |].
       intros y ->%list_elem_of_singleton Hy. apply completed_true in Hy. simpl in Hck.
       congruence. }
  set (fs' := save_checkpoint route_name year full_headers rows true
                (save_csv route_name year full_headers rows fs)).
  destruct (IH w' fs') as (Hsub & Hmono & Hcsvs & Hres & Hnone). cbv zeta.
  cbn [scraped disk raised].
  split; [by apply sublist_skip |].
  split; [intros y Hy; by apply Hmono, save_keeps |].
  split.
  { intros name Hname. apply Hcsvs. unfold fs'. simpl.
    destruct (decide (csv_name route_name year = name)) as [<- | E].
    - by rewrite lookup_insert_eq.
    - by rewrite lookup_insert_ne. }
  split.
  { intros ->. destruct (Hres eq_refl) as [Hnd Hnot]. split.
    - apply NoDup_cons. split; [| done]. intros Hin. apply (Hnot year Hin), save_marks.
    - intros y [-> | Hy]%elem_of_cons.
      + intros Hc. apply completed_true in Hc. simpl in Hck. congruence.
      + intros Hc. apply (Hnot y Hy). by apply save_keeps. }
  intros Hr. destruct (Hnone Hr) as (Hall & Hcsv & Hfalse). split; [| split].
  - intros y [-> | Hy]%elem_of_cons; [apply Hmono, save_marks | by apply Hall].
  - intros y [-> | Hy]%elem_of_cons; [| by apply Hcsv].
    apply Hcsvs. unfold fs'. simpl. by rewrite lookup_insert_eq.
  - intros Hf. by rewrite (Hfalse Hf).
Qed.

(** With every year completed, a resumed loop does nothing. *)
Lemma run_years_completed route_name padron_index category years w fs :
  (forall y, y ∈ years -> is_completed route_name y fs) ->
  run_years is_word upper extract_data_by_year route_name padron_index category true years
    w fs
  = {| raised := None; browser := w; disk := fs; scraped := [] |}.
Proof.
  induction years as [|year rest IH]; intros Hall; [done |].
  cbn [run_years].
  rewrite (proj2 (completed_true route_name year fs)) by (apply Hall; by left).
  apply IH. intros y Hy. apply Hall. by right.
Qed.

End Loop.

End ResumeFacts.

(** X23. The loop of [run_scrape] over the years and its checkpoints. The
    years scraped are years asked for, in order; a checkpoint marked
    completed and a CSV saved are never lost. When resuming, a year whose
    checkpoint is completed is not scraped, and no year is scraped twice.
    When the loop ends without an exception every year asked for has a
    completed checkpoint and every year scraped has its CSV; without
    resuming all the years are scraped. A resumed second pass then scrapes
    nothing and leaves the browser and the files as they are. *)
Theorem run_scrape_resume {W : Type} (is_word : N -> bool) (upper : PyStr.str -> PyStr.str)
  (extract_data_by_year :
     Z -> PyStr.str -> W ->
     (list PyStr.str * list (Z * list PyStr.str) + Scraper.exn) * W)
  (route_name : PyStr.str) (padron_index : option PadronIndex.index)
  (category : option PyStr.str) (resume : bool) (years : list Z) (w : W)
  (fs : RunScrape.files) :
  let r := RunScrape.run_years is_word upper extract_data_by_year route_name padron_index
             category resume years w fs in
  sublist (RunScrape.scraped r) years
  /\ (forall y, RunScrape.is_completed route_name y fs ->
        RunScrape.is_completed route_name y (RunScrape.disk r))
  /\ (forall name, is_Some (RunScrape.csvs fs !! name) ->
        is_Some (RunScrape.csvs (RunScrape.disk r) !! name))
  /\ (resume = true ->
      NoDup (RunScrape.scraped r)
      /\ forall y, y ∈ RunScrape.scraped r -> ~ RunScrape.is_completed route_name y fs)
  /\ (RunScrape.raised r = None ->
      (forall y, y ∈ years -> RunScrape.is_completed route_name y (RunScrape.disk r))
      /\ (forall y, y ∈ RunScrape.scraped r ->
            is_Some (RunScrape.csvs (RunScrape.disk r) !! RunScrape.csv_name route_name y))
      /\ (resume = false -> RunScrape.scraped r = years)
      /\ forall w',
           RunScrape.run_years is_word upper extract_data_by_year route_name padron_index
             category true years w' (RunScrape.disk r)
           = {| RunScrape.raised := None; RunScrape.browser := w';
                RunScrape.disk := RunScrape.disk r; RunScrape.scraped := [] |}).
Proof.
  intros r.
  destruct (ResumeFacts.run_years_inv is_word upper extract_data_by_year route_name
              padron_index category resume years w fs)
    as (Hsub & Hmono & Hcsvs & Hres & Hnone).
  fold r in Hsub, Hmono, Hcsvs, Hres, Hnone.
  split; [done |]. split; [done |]. split; [done |]. split; [done |].
  intros Hr. destruct (Hnone Hr) as (Hall & Hcsv & Hfalse).
  split; [done |]. split; [done |]. split; [done |].
  intros w'. by apply ResumeFacts.run_years_completed.
Qed.

(** ** The exit code of run_parallel.py *)

Module RunParallelFacts.
Import PyStr RunParallel.

(** The entry a completed future leaves in [results]. *)
Lemma collect_insert results f :
  exists code msg,
    collect results f = <[f.1 := (code, msg)]> results
    /\ (code = 0 <-> exists stderr, f.2 = Exited 0 stderr).
Proof.
  destruct f as [year j]. unfold collect, run_single_year. simpl.
  destruct j as [returncode stderr | message | message].
  - destruct (Z.eqb_spec returncode 0) as [-> | Hne].
    + eexists _, _. split; [done |]. split; [by eexists | done].
    + eexists _, _. split; [done |]. split; [done |]. intros [s [= ? ?]]. done.
  - eexists _, _. split; [done |]. split; [done | by intros [? ?]].
  - eexists _, _. split; [done |]. split; [done | by intros [? ?]].
Qed.

Lemma collect_all completed results :
  NoDup completed.*1 ->
  (forall f, f ∈ completed -> results !! f.1 = None) ->
  (forall v, v ∈ (map_to_list results).*2 -> v.1 = 0) ->
  (forall v, v ∈ (map_to_list (foldl collect results completed)).*2 -> v.1 = 0)
  <-> Forall (fun f => exists stderr, f.2 = Exited 0 stderr) completed.
Proof.
  revert results. induction completed as [|f completed IH]; intros results Hnd Hfresh Hok.
  { simpl. split; [by intros _ |]. by intros _. }
  rewrite fmap_cons in Hnd. apply NoDup_cons in Hnd as [Hnotin Hnd].
  cbn [foldl]. destruct (collect_insert results f) as (code & msg & -> & Hcode).
  assert (Hfresh' : forall g, g ∈ completed -> <[f.1 := (code, msg)]> results !! g.1 = None).
  { intros g Hg. rewrite lookup_insert_ne.
    - apply Hfresh. by right.
    - intros E. apply Hnotin. rewrite E. apply list_elem_of_fmap. by exists g. }
  assert (Hkeep : (foldl collect (<[f.1 := (code, msg)]> results) completed) !! f.1
                  = Some (code, msg)).
  { clear IH Hfresh' Hnd Hfresh Hok Hcode. revert Hnotin. generalize (f.1). intros y Hy.
    assert (Hy0 : (<[y := (code, msg)]> results) !! y = Some (code, msg))
      by apply lookup_insert_eq.
    revert Hy0. generalize (<[y := (code, msg)]> results).
    induction completed as [|g completed IH]; intros m Hm; [done |].
    cbn [foldl]. destruct (collect_insert m g) as (c' & m' & -> & _).
    rewrite fmap_cons in Hy. apply not_elem_of_cons in Hy as [Hne Hy].
    apply IH; [done |]. by rewrite lookup_insert_ne. }
  destruct (decide (code = 0)) as [Hc | Hc].
  - rewrite IH; [| done | done |].
    + rewrite Forall_cons. split; [intros H; split; [by apply Hcode | done] | by intros [_ ?]].
    + intros v Hv. apply list_elem_of_fmap in Hv as ([k v'] & -> & Hkv).
      apply elem_of_map_to_list in Hkv. simpl.
      destruct (decide (k = f.1)) as [-> | Hk].
      * rewrite lookup_insert_eq in Hkv. by injection Hkv as <-.
      * rewrite lookup_insert_ne in Hkv by done. apply (Hok v').
        apply list_elem_of_fmap. exists (k, v'). split; [done |].
        by apply elem_of_map_to_list.
  - split.
    + intros H. exfalso. apply Hc. apply (H (code, msg)).
      apply list_elem_of_fmap. exists (f.1, (code, msg)). split; [done |].
      by apply elem_of_map_to_list.
    + intros [Hf _]%Forall_cons. by apply Hcode in Hf.
Qed.

Lemma failed_zero (results : gmap Z (Z * str)) :
  length (List.filter (fun v : Z * str => negb (v.1 =? 0)) (map_to_list results).*2) = 0%nat
  <-> forall v, v ∈ (map_to_list results).*2 -> v.1 = 0.
Proof.
  generalize ((map_to_list results).*2). intros l. induction l as [|v l IH].
  - split; [by intros _ v ?%elem_of_nil | done].
  - cbn [List.filter]. destruct (Z.eqb_spec v.1 0) as [E | E]; cbn [negb].
    + rewrite IH. split.
      * intros H u [-> | Hu]%elem_of_cons; [done | by apply H].
      * intros H u Hu. apply H. by right.
    + split; [done |]. intros H. destruct E. apply H. by left.
Qed.

End RunParallelFacts.

(** X24. The exit code of run_parallel.py is 0 or 1. When the years are
    distinct it is 0 exactly when the subprocess of every year returned
    code 0, whatever the order in which the futures complete: a return code
    other than 0, an exception of [subprocess.run] and a broken worker each
    make it 1. *)
Theorem run_parallel_exit_code (completed : list (Z * RunParallel.job)) :
  NoDup completed.*1 ->
  (RunParallel.main completed = 0 \/ RunParallel.main completed = 1)
  /\ (RunParallel.main completed = 0
      <-> Forall (fun f => exists stderr, f.2 = RunParallel.Exited 0 stderr) completed)
  /\ forall completed', completed' ≡ₚ completed ->
       RunParallel.main completed' = RunParallel.main completed.
Proof.
  intros Hnd.
  assert (Hmain : forall l, NoDup l.*1 ->
            RunParallel.main l = 0
            <-> Forall (fun f => exists stderr, f.2 = RunParallel.Exited 0 stderr) l).
  { intros l Hl. unfold RunParallel.main.
    rewrite <- (RunParallelFacts.collect_all l ∅ Hl).
    - rewrite <- RunParallelFacts.failed_zero.
      destruct (length _ =? 0)%nat eqn:E.
      + apply Nat.eqb_eq in E. by split.
      + apply Nat.eqb_neq in E. by split.
    - intros f _. apply lookup_empty.
    - rewrite map_to_list_empty. by intros v ?%elem_of_nil. }
  assert (H01 : forall l, RunParallel.main l = 0 \/ RunParallel.main l = 1).
  { intros l. unfold RunParallel.main. destruct (_ =? _)%nat; auto. }
  split; [apply H01 |]. split; [by apply Hmain |].
  intros completed' Hperm.
  assert (Hnd' : NoDup completed'.*1) by by rewrite Hperm.
  destruct (H01 completed') as [E' | E'], (H01 completed) as [E | E]; try congruence.
  - apply (proj1 (Hmain _ Hnd')) in E'. rewrite Hperm in E'.
    apply (proj2 (Hmain _ Hnd)) in E'. congruence.
  - apply (proj1 (Hmain _ Hnd)) in E. rewrite <- Hperm in E.
    apply (proj2 (Hmain _ Hnd')) in E. congruence.
Qed.

Lemma run_parallel_exit_code_witness :
  RunParallel.main
    [(2022, RunParallel.Exited 0 []); (2023, RunParallel.Exited 0 (PyStr.py "warning"))] = 0.
Proof.
  apply run_parallel_exit_code.
  - apply NoDup_cons. split; [| apply NoDup_singleton].
    intros H. apply list_elem_of_singleton in H. discriminate H.
  - repeat (apply Forall_cons_2; [by eexists |]). apply Forall_nil_2.
Defined.

(** ** The retry loops of the click methods (scraper.py) *)

Module ScraperClicksFacts.
Import Scraper ScraperClicks.

Section Loop.
Context {W : Type}.
Variable body : W -> (unit + exn) * W.
Variable handler : exn_class -> option (Q * bool).

Lemma attempts_spec retries remaining :
  forall attempt w,
    attempt = retries - Z.of_nat remaining ->
    let res := attempts body handler retries remaining attempt w in
    (tries res.2 <= remaining)%nat
    /\ (remaining = 0%nat -> res = (Done, w, []))
    /\ (0 < remaining -> 0 < tries res.2 /\ length (sleeps res.2) = tries res.2 - 1)%nat
    /\ res.1.2 = after_calls body (tries res.2) w
    /\ (forall i, (S i < tries res.2)%nat ->
          exists e, call_result body i w = inr e /\ is_Some (handler (class e)))
    /\ (res.1.1 = Done -> (0 < remaining)%nat ->
          call_result body (tries res.2 - 1) w = inl tt)
    /\ (forall e, res.1.1 = Failed e ->
          call_result body (tries res.2 - 1) w = inr e
          /\ (is_Some (handler (class e)) -> tries res.2 = remaining)).
Proof.
  induction remaining as [|m IH]; intros attempt w Hatt; cbn [attempts].
  - cbn. split; [done |]. split; [done |]. split; [lia |]. split; [done |].
    split; [intros; lia |]. split; [intros; lia | done].
  - destruct (body w) as [[[]|e] w0] eqn:Hb.
    + cbn. split; [lia |]. split; [done |]. split; [lia |].
      split; [by rewrite Hb |]. split; [intros; lia |].
      split; [| done]. intros _ _. unfold call_result. cbn. by rewrite Hb.
    + destruct (handler (class e)) as [[base log]|] eqn:Hh.
      * destruct (Z.eqb_spec attempt (retries - 1)) as [Hlast | Hmore].
        -- assert (m = 0%nat) by lia. subst m.
           assert (Ht : tries (Try :: (if log then [LogError] else [])) = 1%nat)
             by by destruct log.
           assert (Hs : sleeps (Try :: (if log then [LogError] else [])) = [])
             by by destruct log.
           cbn [fst snd]. rewrite Ht, Hs. cbn.
           split; [lia |]. split; [done |]. split; [lia |].
           split; [by rewrite Hb |]. split; [intros; lia |].
           split; [done |]. intros e' [= <-]. unfold call_result. cbn. rewrite Hb.
           done.
        -- specialize (IH (attempt + 1) w0 ltac:(lia)).
           destruct (attempts body handler retries m (attempt + 1) w0) as [[r w'] evs].
           cbn [fst snd] in *.
           destruct IH as (IHt & IH0 & IHpos & IHw & IHfail & IHdone & IHraise).
           assert (Hm : (0 < m)%nat) by lia.
           destruct (IHpos Hm) as [Hpos Hsl].
           change (tries (Try :: SleepRandom base :: evs)) with (S (tries evs)).
           change (sleeps (Try :: SleepRandom base :: evs)) with (base :: sleeps evs).
           split; [lia |]. split; [done |]. split; [cbn [length]; lia |].
           split; [cbn [after_calls]; by rewrite Hb |].
           split.
           { intros i Hi. destruct i as [|i].
             - exists e. unfold call_result. cbn. rewrite Hb. by rewrite Hh.
             - rewrite ScraperFacts.call_result_S, Hb. apply IHfail. lia. }
           split.
           { intros Hr _. replace (S (tries evs) - 1)%nat with (S (tries evs - 1)) by lia.
             rewrite ScraperFacts.call_result_S, Hb. by apply IHdone. }
           intros e' He'. destruct (IHraise e' He') as [Hc Hall].
           replace (S (tries evs) - 1)%nat with (S (tries evs - 1)) by lia.
           rewrite ScraperFacts.call_result_S, Hb. split; [done |].
           intros Hsome. by rewrite (Hall Hsome).
      * cbn. split; [lia |]. split; [done |]. split; [lia |].
        split; [by rewrite Hb |]. split; [intros; lia |].
        split; [done |]. intros e' [= <-]. unfold call_result. cbn. rewrite Hb.
        split; [done |]. rewrite Hh. by intros [? ?].
Qed.

End Loop.

End ScraperClicksFacts.

(** X25. The retry loops of [click_on_element] (and
    [select_dropdown_option]) and of [click_by_text]. With [retries] of 0 or
    less the method returns at once, nothing tried and nothing raised.
    Otherwise the body is tried [retries] times at most, with one sleep
    between two tries; every try before the last one failed with an
    exception the method catches (a stale element; for [click_by_text] also
    a timeout). When the method returns, its last try succeeded; when it
    raises, it raises the exception of its last try, and an exception it
    catches is raised only after all the tries. *)
Theorem click_retry_loops {W : Type} (body : W -> (unit + Scraper.exn) * W)
  (retries : Z) (w : W) :
  let caught_by_click := fun e =>
    Scraper.class e = Scraper.StaleElementReferenceException in
  let caught_by_text := fun e =>
    Scraper.class e = Scraper.StaleElementReferenceException
    \/ Scraper.class e = Scraper.TimeoutException in
  let spec := fun (res : ScraperClicks.result * W * list ScraperClicks.step)
                  (caught : Scraper.exn -> Prop) =>
    (retries <= 0 -> res = (ScraperClicks.Done, w, []))
    /\ (ScraperClicks.tries res.2 <= Z.to_nat retries)%nat
    /\ (0 < retries ->
        (0 < ScraperClicks.tries res.2)%nat
        /\ length (ScraperClicks.sleeps res.2) = (ScraperClicks.tries res.2 - 1)%nat)
    /\ res.1.2 = Scraper.after_calls body (ScraperClicks.tries res.2) w
    /\ (forall i, (S i < ScraperClicks.tries res.2)%nat ->
          exists e, Scraper.call_result body i w = inr e /\ caught e)
    /\ (0 < retries -> res.1.1 = ScraperClicks.Done ->
        Scraper.call_result body (ScraperClicks.tries res.2 - 1) w = inl tt)
    /\ (forall e, res.1.1 = ScraperClicks.Failed e ->
          Scraper.call_result body (ScraperClicks.tries res.2 - 1) w = inr e
          /\ (caught e -> ScraperClicks.tries res.2 = Z.to_nat retries)) in
  spec (ScraperClicks.click_on_element body retries w) caught_by_click
  /\ spec (ScraperClicks.click_by_text body retries w) caught_by_text.
Proof.
  intros caught_by_click caught_by_text spec.
  assert (Hgen : forall handler (caught : Scraper.exn -> Prop),
            (forall e, is_Some (handler (Scraper.class e)) <-> caught e) ->
            spec (ScraperClicks.attempts body handler retries (Z.to_nat retries) 0 w) caught).
  { intros handler caught Hc. unfold spec.
    destruct (Z_le_gt_dec retries 0) as [Hle | Hgt].
    - replace (Z.to_nat retries) with 0%nat by lia. cbn.
      split; [done |]. split; [done |]. split; [lia |]. split; [done |].
      split; [intros; lia |]. split; [lia | done].
    - destruct (ScraperClicksFacts.attempts_spec body handler retries (Z.to_nat retries) 0 w)
        as (Ht & _ & Hpos & Hw & Hfail & Hdone & Hraise); [lia |].
      split; [lia |]. split; [done |]. split; [intros _; apply Hpos; lia |].
      split; [done |]. split.
      { intros i Hi. destruct (Hfail i Hi) as (e & He & Hs). exists e. by rewrite <- Hc. }
      split; [intros _ Hr; apply Hdone; [done | lia] |].
      intros e He. destruct (Hraise e He) as [Hcall Hall]. split; [done |].
      intros Hcaught. apply Hall. by apply Hc. }
  split.
  - apply (Hgen ScraperClicks.stale_only). intros e. unfold caught_by_click.
    destruct (Scraper.class e); simpl; split; (done || by intros [? ?] || by eexists).
  - apply (Hgen ScraperClicks.stale_or_timeout). intros e. unfold caught_by_text.
    destruct (Scraper.class e); simpl; split;
      (by intros [? ?]) || (by intros [? | ?]) || (by eexists) || tauto.
Qed.
